(** * The message pipeline of the WhatsApp support bot

    A shallow embedding of the stateful core of the bot:
    - [services/response_service.py]: the store of pending ticket drafts;
    - [services/conversation_memory.py]: sessions, history, expiry;
    - [services/sentiment_service.py]: keyword sentiment and urgency;
    - [services/intent_service.py]: [process_message], the query-type
      detectors, the confirmation handler and the intent handlers;
    and of what stands around it:
    - [services/multilingual.py]: the translation cache and the detection of
      the language;
    - [controllers/chatbot_controller.py]: the tracker of duplicate
      deliveries and [receive_webhook];
    - [services/gallabox_service.py]: the circuit breaker and the rate
      limits;
    - [services/jira_service.py]: the issue type and the priority of a new
      ticket;
    - [services/vip_detection.py]: [detect_vip] and its registry.

    Conventions.
    - A Python [str] is a Rocq [string] holding its UTF-8 bytes (a [str] with
      a lone surrogate has none and is left out).  Substring tests agree on
      both views because UTF-8 is self-synchronising.  What Python does
      character by character is done on the characters that the bytes encode,
      with the tables of Unicode 14.0 that CPython 3.11 carries: [str.lower]
      (U+0130 and the final sigma included), [str.isupper], [str.split],
      [len], and the classes [\s], [\d], [\w] and [\b] of [re].  A byte string
      that is no UTF-8 is no [str]; [lower] leaves it as it is and the others
      find nothing in it.  Where characters are counted, cut or stripped
      ([s[:n]], [str.strip], the white space of the language detection), the
      module [Text] reads the string character by character.
    - A [datetime] is a number of microseconds ([Z]); a [timedelta] is a
      difference of such numbers.  One entry point reads the clock once: every
      [datetime.now()] inside one call sees the same instant [now].  The
      seconds of [timestamp()] are such an instant too in the tracker of
      deliveries; the rate limits of the gateway compute with the floats of
      the source.
    - The scores of the sentiment analysis and of the language detection
      are exact fractions; the scores of the VIP detection are the floats of
      the source.
    - Dictionaries are [gmap]s.  The one place where the iteration order of a
      dictionary is visible is the order in which a sweep archives several
      expired sessions; nothing below depends on that order.
    - The language model, the issue tracker, the messaging gateway and the
      keyword tables of team and VIP detection are collaborators: they are the
      fields of the record [Collaborators], and every statement holds for all
      of them.  Their exceptions are not modelled (the clients catch their own
      errors and return a failure value).
    - Left out, because nothing in the pipeline reads them back: the
      per-user statistics counters, the list [_conversation_context] kept by
      [_update_context], and the answer of the tracker when it is asked for
      its projects while a draft is built (the call itself is logged). *)

From Stdlib Require Import ZArith QArith Ascii String DecimalString Bool Lia.
From Stdlib Require DecimalPos DecimalZ Floats.
From stdpp Require Import gmap strings list fin_maps.

#[local] Open Scope string_scope.
#[local] Open Scope list_scope.
#[local] Open Scope Z_scope.
#[local] Set Warnings "-inexact-float".

(** ** Characters

    A [str] is a sequence of characters (code points), and a [string] here
    holds their UTF-8 bytes.  What Python does character by character
    ([lower], [isupper], [split], [len], the classes of [re]) is defined on
    the list of characters that the bytes encode, with the tables of the
    Unicode database that CPython 3.11 carries (Unicode 14.0). *)

Module Unicode.

(** The characters of [str.isupper]: the property Uppercase. *)
Definition Uppercase : list (Z * Z) :=
  [(65, 90); (192, 214); (216, 222); (256, 256); (258, 258); (260, 260);
   (262, 262); (264, 264); (266, 266); (268, 268); (270, 270); (272, 272);
   (274, 274); (276, 276); (278, 278); (280, 280); (282, 282); (284, 284);
   (286, 286); (288, 288); (290, 290); (292, 292); (294, 294); (296, 296);
   (298, 298); (300, 300); (302, 302); (304, 304); (306, 306); (308, 308);
   (310, 310); (313, 313); (315, 315); (317, 317); (319, 319); (321, 321);
   (323, 323); (325, 325); (327, 327); (330, 330); (332, 332); (334, 334);
   (336, 336); (338, 338); (340, 340); (342, 342); (344, 344); (346, 346);
   (348, 348); (350, 350); (352, 352); (354, 354); (356, 356); (358, 358);
   (360, 360); (362, 362); (364, 364); (366, 366); (368, 368); (370, 370);
   (372, 372); (374, 374); (376, 377); (379, 379); (381, 381); (385, 386);
   (388, 388); (390, 391); (393, 395); (398, 401); (403, 404); (406, 408);
   (412, 413); (415, 416); (418, 418); (420, 420); (422, 423); (425, 425);
   (428, 428); (430, 431); (433, 435); (437, 437); (439, 440); (444, 444);
   (452, 452); (455, 455); (458, 458); (461, 461); (463, 463); (465, 465);
   (467, 467); (469, 469); (471, 471); (473, 473); (475, 475); (478, 478);
   (480, 480); (482, 482); (484, 484); (486, 486); (488, 488); (490, 490);
   (492, 492); (494, 494); (497, 497); (500, 500); (502, 504); (506, 506);
   (508, 508); (510, 510); (512, 512); (514, 514); (516, 516); (518, 518);
   (520, 520); (522, 522); (524, 524); (526, 526); (528, 528); (530, 530);
   (532, 532); (534, 534); (536, 536); (538, 538); (540, 540); (542, 542);
   (544, 544); (546, 546); (548, 548); (550, 550); (552, 552); (554, 554);
   (556, 556); (558, 558); (560, 560); (562, 562); (570, 571); (573, 574);
   (577, 577); (579, 582); (584, 584); (586, 586); (588, 588); (590, 590);
   (880, 880); (882, 882); (886, 886); (895, 895); (902, 902); (904, 906);
   (908, 908); (910, 911); (913, 929); (931, 939); (975, 975); (978, 980);
   (984, 984); (986, 986); (988, 988); (990, 990); (992, 992); (994, 994);
   (996, 996); (998, 998); (1000, 1000); (1002, 1002); (1004, 1004); (1006,
   1006); (1012, 1012); (1015, 1015); (1017, 1018); (1021, 1071); (1120,
   1120); (1122, 1122); (1124, 1124); (1126, 1126); (1128, 1128); (1130,
   1130); (1132, 1132); (1134, 1134); (1136, 1136); (1138, 1138); (1140,
   1140); (1142, 1142); (1144, 1144); (1146, 1146); (1148, 1148); (1150,
   1150); (1152, 1152); (1162, 1162); (1164, 1164); (1166, 1166); (1168,
   1168); (1170, 1170); (1172, 1172); (1174, 1174); (1176, 1176); (1178,
   1178); (1180, 1180); (1182, 1182); (1184, 1184); (1186, 1186); (1188,
   1188); (1190, 1190); (1192, 1192); (1194, 1194); (1196, 1196); (1198,
   1198); (1200, 1200); (1202, 1202); (1204, 1204); (1206, 1206); (1208,
   1208); (1210, 1210); (1212, 1212); (1214, 1214); (1216, 1217); (1219,
   1219); (1221, 1221); (1223, 1223); (1225, 1225); (1227, 1227); (1229,
   1229); (1232, 1232); (1234, 1234); (1236, 1236); (1238, 1238); (1240,
   1240); (1242, 1242); (1244, 1244); (1246, 1246); (1248, 1248); (1250,
   1250); (1252, 1252); (1254, 1254); (1256, 1256); (1258, 1258); (1260,
   1260); (1262, 1262); (1264, 1264); (1266, 1266); (1268, 1268); (1270,
   1270); (1272, 1272); (1274, 1274); (1276, 1276); (1278, 1278); (1280,
   1280); (1282, 1282); (1284, 1284); (1286, 1286); (1288, 1288); (1290,
   1290); (1292, 1292); (1294, 1294); (1296, 1296); (1298, 1298); (1300,
   1300); (1302, 1302); (1304, 1304); (1306, 1306); (1308, 1308); (1310,
   1310); (1312, 1312); (1314, 1314); (1316, 1316); (1318, 1318); (1320,
   1320); (1322, 1322); (1324, 1324); (1326, 1326); (1329, 1366); (4256,
   4293); (4295, 4295); (4301, 4301); (5024, 5109); (7312, 7354); (7357,
   7359); (7680, 7680); (7682, 7682); (7684, 7684); (7686, 7686); (7688,
   7688); (7690, 7690); (7692, 7692); (7694, 7694); (7696, 7696); (7698,
   7698); (7700, 7700); (7702, 7702); (7704, 7704); (7706, 7706); (7708,
   7708); (7710, 7710); (7712, 7712); (7714, 7714); (7716, 7716); (7718,
   7718); (7720, 7720); (7722, 7722); (7724, 7724); (7726, 7726); (7728,
   7728); (7730, 7730); (7732, 7732); (7734, 7734); (7736, 7736); (7738,
   7738); (7740, 7740); (7742, 7742); (7744, 7744); (7746, 7746); (7748,
   7748); (7750, 7750); (7752, 7752); (7754, 7754); (7756, 7756); (7758,
   7758); (7760, 7760); (7762, 7762); (7764, 7764); (7766, 7766); (7768,
   7768); (7770, 7770); (7772, 7772); (7774, 7774); (7776, 7776); (7778,
   7778); (7780, 7780); (7782, 7782); (7784, 7784); (7786, 7786); (7788,
   7788); (7790, 7790); (7792, 7792); (7794, 7794); (7796, 7796); (7798,
   7798); (7800, 7800); (7802, 7802); (7804, 7804); (7806, 7806); (7808,
   7808); (7810, 7810); (7812, 7812); (7814, 7814); (7816, 7816); (7818,
   7818); (7820, 7820); (7822, 7822); (7824, 7824); (7826, 7826); (7828,
   7828); (7838, 7838); (7840, 7840); (7842, 7842); (7844, 7844); (7846,
   7846); (7848, 7848); (7850, 7850); (7852, 7852); (7854, 7854); (7856,
   7856); (7858, 7858); (7860, 7860); (7862, 7862); (7864, 7864); (7866,
   7866); (7868, 7868); (7870, 7870); (7872, 7872); (7874, 7874); (7876,
   7876); (7878, 7878); (7880, 7880); (7882, 7882); (7884, 7884); (7886,
   7886); (7888, 7888); (7890, 7890); (7892, 7892); (7894, 7894); (7896,
   7896); (7898, 7898); (7900, 7900); (7902, 7902); (7904, 7904); (7906,
   7906); (7908, 7908); (7910, 7910); (7912, 7912); (7914, 7914); (7916,
   7916); (7918, 7918); (7920, 7920); (7922, 7922); (7924, 7924); (7926,
   7926); (7928, 7928); (7930, 7930); (7932, 7932); (7934, 7934); (7944,
   7951); (7960, 7965); (7976, 7983); (7992, 7999); (8008, 8013); (8025,
   8025); (8027, 8027); (8029, 8029); (8031, 8031); (8040, 8047); (8120,
   8123); (8136, 8139); (8152, 8155); (8168, 8172); (8184, 8187); (8450,
   8450); (8455, 8455); (8459, 8461); (8464, 8466); (8469, 8469); (8473,
   8477); (8484, 8484); (8486, 8486); (8488, 8488); (8490, 8493); (8496,
   8499); (8510, 8511); (8517, 8517); (8544, 8559); (8579, 8579); (9398,
   9423); (11264, 11311); (11360, 11360); (11362, 11364); (11367, 11367);
   (11369, 11369); (11371, 11371); (11373, 11376); (11378, 11378); (11381,
   11381); (11390, 11392); (11394, 11394); (11396, 11396); (11398, 11398);
   (11400, 11400); (11402, 11402); (11404, 11404); (11406, 11406); (11408,
   11408); (11410, 11410); (11412, 11412); (11414, 11414); (11416, 11416);
   (11418, 11418); (11420, 11420); (11422, 11422); (11424, 11424); (11426,
   11426); (11428, 11428); (11430, 11430); (11432, 11432); (11434, 11434);
   (11436, 11436); (11438, 11438); (11440, 11440); (11442, 11442); (11444,
   11444); (11446, 11446); (11448, 11448); (11450, 11450); (11452, 11452);
   (11454, 11454); (11456, 11456); (11458, 11458); (11460, 11460); (11462,
   11462); (11464, 11464); (11466, 11466); (11468, 11468); (11470, 11470);
   (11472, 11472); (11474, 11474); (11476, 11476); (11478, 11478); (11480,
   11480); (11482, 11482); (11484, 11484); (11486, 11486); (11488, 11488);
   (11490, 11490); (11499, 11499); (11501, 11501); (11506, 11506); (42560,
   42560); (42562, 42562); (42564, 42564); (42566, 42566); (42568, 42568);
   (42570, 42570); (42572, 42572); (42574, 42574); (42576, 42576); (42578,
   42578); (42580, 42580); (42582, 42582); (42584, 42584); (42586, 42586);
   (42588, 42588); (42590, 42590); (42592, 42592); (42594, 42594); (42596,
   42596); (42598, 42598); (42600, 42600); (42602, 42602); (42604, 42604);
   (42624, 42624); (42626, 42626); (42628, 42628); (42630, 42630); (42632,
   42632); (42634, 42634); (42636, 42636); (42638, 42638); (42640, 42640);
   (42642, 42642); (42644, 42644); (42646, 42646); (42648, 42648); (42650,
   42650); (42786, 42786); (42788, 42788); (42790, 42790); (42792, 42792);
   (42794, 42794); (42796, 42796); (42798, 42798); (42802, 42802); (42804,
   42804); (42806, 42806); (42808, 42808); (42810, 42810); (42812, 42812);
   (42814, 42814); (42816, 42816); (42818, 42818); (42820, 42820); (42822,
   42822); (42824, 42824); (42826, 42826); (42828, 42828); (42830, 42830);
   (42832, 42832); (42834, 42834); (42836, 42836); (42838, 42838); (42840,
   42840); (42842, 42842); (42844, 42844); (42846, 42846); (42848, 42848);
   (42850, 42850); (42852, 42852); (42854, 42854); (42856, 42856); (42858,
   42858); (42860, 42860); (42862, 42862); (42873, 42873); (42875, 42875);
   (42877, 42878); (42880, 42880); (42882, 42882); (42884, 42884); (42886,
   42886); (42891, 42891); (42893, 42893); (42896, 42896); (42898, 42898);
   (42902, 42902); (42904, 42904); (42906, 42906); (42908, 42908); (42910,
   42910); (42912, 42912); (42914, 42914); (42916, 42916); (42918, 42918);
   (42920, 42920); (42922, 42926); (42928, 42932); (42934, 42934); (42936,
   42936); (42938, 42938); (42940, 42940); (42942, 42942); (42944, 42944);
   (42946, 42946); (42948, 42951); (42953, 42953); (42960, 42960); (42966,
   42966); (42968, 42968); (42997, 42997); (65313, 65338); (66560, 66599);
   (66736, 66771); (66928, 66938); (66940, 66954); (66956, 66962); (66964,
   66965); (68736, 68786); (71840, 71871); (93760, 93791); (119808, 119833);
   (119860, 119885); (119912, 119937); (119964, 119964); (119966, 119967);
   (119970, 119970); (119973, 119974); (119977, 119980); (119982, 119989);
   (120016, 120041); (120068, 120069); (120071, 120074); (120077, 120084);
   (120086, 120092); (120120, 120121); (120123, 120126); (120128, 120132);
   (120134, 120134); (120138, 120144); (120172, 120197); (120224, 120249);
   (120276, 120301); (120328, 120353); (120380, 120405); (120432, 120457);
   (120488, 120512); (120546, 120570); (120604, 120628); (120662, 120686);
   (120720, 120744); (120778, 120778); (125184, 125217); (127280, 127305);
   (127312, 127337); (127344, 127369)].

(** The characters of [str.islower]: the property Lowercase. *)
Definition Lowercase : list (Z * Z) :=
  [(97, 122); (170, 170); (181, 181); (186, 186); (223, 246); (248, 255);
   (257, 257); (259, 259); (261, 261); (263, 263); (265, 265); (267, 267);
   (269, 269); (271, 271); (273, 273); (275, 275); (277, 277); (279, 279);
   (281, 281); (283, 283); (285, 285); (287, 287); (289, 289); (291, 291);
   (293, 293); (295, 295); (297, 297); (299, 299); (301, 301); (303, 303);
   (305, 305); (307, 307); (309, 309); (311, 312); (314, 314); (316, 316);
   (318, 318); (320, 320); (322, 322); (324, 324); (326, 326); (328, 329);
   (331, 331); (333, 333); (335, 335); (337, 337); (339, 339); (341, 341);
   (343, 343); (345, 345); (347, 347); (349, 349); (351, 351); (353, 353);
   (355, 355); (357, 357); (359, 359); (361, 361); (363, 363); (365, 365);
   (367, 367); (369, 369); (371, 371); (373, 373); (375, 375); (378, 378);
   (380, 380); (382, 384); (387, 387); (389, 389); (392, 392); (396, 397);
   (402, 402); (405, 405); (409, 411); (414, 414); (417, 417); (419, 419);
   (421, 421); (424, 424); (426, 427); (429, 429); (432, 432); (436, 436);
   (438, 438); (441, 442); (445, 447); (454, 454); (457, 457); (460, 460);
   (462, 462); (464, 464); (466, 466); (468, 468); (470, 470); (472, 472);
   (474, 474); (476, 477); (479, 479); (481, 481); (483, 483); (485, 485);
   (487, 487); (489, 489); (491, 491); (493, 493); (495, 496); (499, 499);
   (501, 501); (505, 505); (507, 507); (509, 509); (511, 511); (513, 513);
   (515, 515); (517, 517); (519, 519); (521, 521); (523, 523); (525, 525);
   (527, 527); (529, 529); (531, 531); (533, 533); (535, 535); (537, 537);
   (539, 539); (541, 541); (543, 543); (545, 545); (547, 547); (549, 549);
   (551, 551); (553, 553); (555, 555); (557, 557); (559, 559); (561, 561);
   (563, 569); (572, 572); (575, 576); (578, 578); (583, 583); (585, 585);
   (587, 587); (589, 589); (591, 659); (661, 696); (704, 705); (736, 740);
   (837, 837); (881, 881); (883, 883); (887, 887); (890, 893); (912, 912);
   (940, 974); (976, 977); (981, 983); (985, 985); (987, 987); (989, 989);
   (991, 991); (993, 993); (995, 995); (997, 997); (999, 999); (1001, 1001);
   (1003, 1003); (1005, 1005); (1007, 1011); (1013, 1013); (1016, 1016);
   (1019, 1020); (1072, 1119); (1121, 1121); (1123, 1123); (1125, 1125);
   (1127, 1127); (1129, 1129); (1131, 1131); (1133, 1133); (1135, 1135);
   (1137, 1137); (1139, 1139); (1141, 1141); (1143, 1143); (1145, 1145);
   (1147, 1147); (1149, 1149); (1151, 1151); (1153, 1153); (1163, 1163);
   (1165, 1165); (1167, 1167); (1169, 1169); (1171, 1171); (1173, 1173);
   (1175, 1175); (1177, 1177); (1179, 1179); (1181, 1181); (1183, 1183);
   (1185, 1185); (1187, 1187); (1189, 1189); (1191, 1191); (1193, 1193);
   (1195, 1195); (1197, 1197); (1199, 1199); (1201, 1201); (1203, 1203);
   (1205, 1205); (1207, 1207); (1209, 1209); (1211, 1211); (1213, 1213);
   (1215, 1215); (1218, 1218); (1220, 1220); (1222, 1222); (1224, 1224);
   (1226, 1226); (1228, 1228); (1230, 1231); (1233, 1233); (1235, 1235);
   (1237, 1237); (1239, 1239); (1241, 1241); (1243, 1243); (1245, 1245);
   (1247, 1247); (1249, 1249); (1251, 1251); (1253, 1253); (1255, 1255);
   (1257, 1257); (1259, 1259); (1261, 1261); (1263, 1263); (1265, 1265);
   (1267, 1267); (1269, 1269); (1271, 1271); (1273, 1273); (1275, 1275);
   (1277, 1277); (1279, 1279); (1281, 1281); (1283, 1283); (1285, 1285);
   (1287, 1287); (1289, 1289); (1291, 1291); (1293, 1293); (1295, 1295);
   (1297, 1297); (1299, 1299); (1301, 1301); (1303, 1303); (1305, 1305);
   (1307, 1307); (1309, 1309); (1311, 1311); (1313, 1313); (1315, 1315);
   (1317, 1317); (1319, 1319); (1321, 1321); (1323, 1323); (1325, 1325);
   (1327, 1327); (1376, 1416); (4304, 4346); (4349, 4351); (5112, 5117);
   (7296, 7304); (7424, 7615); (7681, 7681); (7683, 7683); (7685, 7685);
   (7687, 7687); (7689, 7689); (7691, 7691); (7693, 7693); (7695, 7695);
   (7697, 7697); (7699, 7699); (7701, 7701); (7703, 7703); (7705, 7705);
   (7707, 7707); (7709, 7709); (7711, 7711); (7713, 7713); (7715, 7715);
   (7717, 7717); (7719, 7719); (7721, 7721); (7723, 7723); (7725, 7725);
   (7727, 7727); (7729, 7729); (7731, 7731); (7733, 7733); (7735, 7735);
   (7737, 7737); (7739, 7739); (7741, 7741); (7743, 7743); (7745, 7745);
   (7747, 7747); (7749, 7749); (7751, 7751); (7753, 7753); (7755, 7755);
   (7757, 7757); (7759, 7759); (7761, 7761); (7763, 7763); (7765, 7765);
   (7767, 7767); (7769, 7769); (7771, 7771); (7773, 7773); (7775, 7775);
   (7777, 7777); (7779, 7779); (7781, 7781); (7783, 7783); (7785, 7785);
   (7787, 7787); (7789, 7789); (7791, 7791); (7793, 7793); (7795, 7795);
   (7797, 7797); (7799, 7799); (7801, 7801); (7803, 7803); (7805, 7805);
   (7807, 7807); (7809, 7809); (7811, 7811); (7813, 7813); (7815, 7815);
   (7817, 7817); (7819, 7819); (7821, 7821); (7823, 7823); (7825, 7825);
   (7827, 7827); (7829, 7837); (7839, 7839); (7841, 7841); (7843, 7843);
   (7845, 7845); (7847, 7847); (7849, 7849); (7851, 7851); (7853, 7853);
   (7855, 7855); (7857, 7857); (7859, 7859); (7861, 7861); (7863, 7863);
   (7865, 7865); (7867, 7867); (7869, 7869); (7871, 7871); (7873, 7873);
   (7875, 7875); (7877, 7877); (7879, 7879); (7881, 7881); (7883, 7883);
   (7885, 7885); (7887, 7887); (7889, 7889); (7891, 7891); (7893, 7893);
   (7895, 7895); (7897, 7897); (7899, 7899); (7901, 7901); (7903, 7903);
   (7905, 7905); (7907, 7907); (7909, 7909); (7911, 7911); (7913, 7913);
   (7915, 7915); (7917, 7917); (7919, 7919); (7921, 7921); (7923, 7923);
   (7925, 7925); (7927, 7927); (7929, 7929); (7931, 7931); (7933, 7933);
   (7935, 7943); (7952, 7957); (7968, 7975); (7984, 7991); (8000, 8005);
   (8016, 8023); (8032, 8039); (8048, 8061); (8064, 8071); (8080, 8087);
   (8096, 8103); (8112, 8116); (8118, 8119); (8126, 8126); (8130, 8132);
   (8134, 8135); (8144, 8147); (8150, 8151); (8160, 8167); (8178, 8180);
   (8182, 8183); (8305, 8305); (8319, 8319); (8336, 8348); (8458, 8458);
   (8462, 8463); (8467, 8467); (8495, 8495); (8500, 8500); (8505, 8505);
   (8508, 8509); (8518, 8521); (8526, 8526); (8560, 8575); (8580, 8580);
   (9424, 9449); (11312, 11359); (11361, 11361); (11365, 11366); (11368,
   11368); (11370, 11370); (11372, 11372); (11377, 11377); (11379, 11380);
   (11382, 11389); (11393, 11393); (11395, 11395); (11397, 11397); (11399,
   11399); (11401, 11401); (11403, 11403); (11405, 11405); (11407, 11407);
   (11409, 11409); (11411, 11411); (11413, 11413); (11415, 11415); (11417,
   11417); (11419, 11419); (11421, 11421); (11423, 11423); (11425, 11425);
   (11427, 11427); (11429, 11429); (11431, 11431); (11433, 11433); (11435,
   11435); (11437, 11437); (11439, 11439); (11441, 11441); (11443, 11443);
   (11445, 11445); (11447, 11447); (11449, 11449); (11451, 11451); (11453,
   11453); (11455, 11455); (11457, 11457); (11459, 11459); (11461, 11461);
   (11463, 11463); (11465, 11465); (11467, 11467); (11469, 11469); (11471,
   11471); (11473, 11473); (11475, 11475); (11477, 11477); (11479, 11479);
   (11481, 11481); (11483, 11483); (11485, 11485); (11487, 11487); (11489,
   11489); (11491, 11492); (11500, 11500); (11502, 11502); (11507, 11507);
   (11520, 11557); (11559, 11559); (11565, 11565); (42561, 42561); (42563,
   42563); (42565, 42565); (42567, 42567); (42569, 42569); (42571, 42571);
   (42573, 42573); (42575, 42575); (42577, 42577); (42579, 42579); (42581,
   42581); (42583, 42583); (42585, 42585); (42587, 42587); (42589, 42589);
   (42591, 42591); (42593, 42593); (42595, 42595); (42597, 42597); (42599,
   42599); (42601, 42601); (42603, 42603); (42605, 42605); (42625, 42625);
   (42627, 42627); (42629, 42629); (42631, 42631); (42633, 42633); (42635,
   42635); (42637, 42637); (42639, 42639); (42641, 42641); (42643, 42643);
   (42645, 42645); (42647, 42647); (42649, 42649); (42651, 42653); (42787,
   42787); (42789, 42789); (42791, 42791); (42793, 42793); (42795, 42795);
   (42797, 42797); (42799, 42801); (42803, 42803); (42805, 42805); (42807,
   42807); (42809, 42809); (42811, 42811); (42813, 42813); (42815, 42815);
   (42817, 42817); (42819, 42819); (42821, 42821); (42823, 42823); (42825,
   42825); (42827, 42827); (42829, 42829); (42831, 42831); (42833, 42833);
   (42835, 42835); (42837, 42837); (42839, 42839); (42841, 42841); (42843,
   42843); (42845, 42845); (42847, 42847); (42849, 42849); (42851, 42851);
   (42853, 42853); (42855, 42855); (42857, 42857); (42859, 42859); (42861,
   42861); (42863, 42872); (42874, 42874); (42876, 42876); (42879, 42879);
   (42881, 42881); (42883, 42883); (42885, 42885); (42887, 42887); (42892,
   42892); (42894, 42894); (42897, 42897); (42899, 42901); (42903, 42903);
   (42905, 42905); (42907, 42907); (42909, 42909); (42911, 42911); (42913,
   42913); (42915, 42915); (42917, 42917); (42919, 42919); (42921, 42921);
   (42927, 42927); (42933, 42933); (42935, 42935); (42937, 42937); (42939,
   42939); (42941, 42941); (42943, 42943); (42945, 42945); (42947, 42947);
   (42952, 42952); (42954, 42954); (42961, 42961); (42963, 42963); (42965,
   42965); (42967, 42967); (42969, 42969); (42998, 42998); (43000, 43002);
   (43824, 43866); (43868, 43880); (43888, 43967); (64256, 64262); (64275,
   64279); (65345, 65370); (66600, 66639); (66776, 66811); (66967, 66977);
   (66979, 66993); (66995, 67001); (67003, 67004); (67456, 67456); (67459,
   67461); (67463, 67504); (67506, 67514); (68800, 68850); (71872, 71903);
   (93792, 93823); (119834, 119859); (119886, 119892); (119894, 119911);
   (119938, 119963); (119990, 119993); (119995, 119995); (119997, 120003);
   (120005, 120015); (120042, 120067); (120094, 120119); (120146, 120171);
   (120198, 120223); (120250, 120275); (120302, 120327); (120354, 120379);
   (120406, 120431); (120458, 120485); (120514, 120538); (120540, 120545);
   (120572, 120596); (120598, 120603); (120630, 120654); (120656, 120661);
   (120688, 120712); (120714, 120719); (120746, 120770); (120772, 120777);
   (120779, 120779); (122624, 122633); (122635, 122654); (125218, 125251)].

(** The title-case letters (category Lt). *)
Definition Titlecase : list (Z * Z) :=
  [(453, 453); (456, 456); (459, 459); (498, 498); (8072, 8079); (8088,
   8095); (8104, 8111); (8124, 8124); (8140, 8140); (8188, 8188)].

(** The characters that the rule of the final sigma steps over. *)
Definition Case_Ignorable : list (Z * Z) :=
  [(39, 39); (46, 46); (58, 58); (94, 94); (96, 96); (168, 168); (173, 173);
   (175, 175); (180, 180); (183, 184); (688, 879); (884, 885); (890, 890);
   (900, 901); (903, 903); (1155, 1161); (1369, 1369); (1375, 1375); (1425,
   1469); (1471, 1471); (1473, 1474); (1476, 1477); (1479, 1479); (1524,
   1524); (1536, 1541); (1552, 1562); (1564, 1564); (1600, 1600); (1611,
   1631); (1648, 1648); (1750, 1757); (1759, 1768); (1770, 1773); (1807,
   1807); (1809, 1809); (1840, 1866); (1958, 1968); (2027, 2037); (2042,
   2042); (2045, 2045); (2070, 2093); (2137, 2139); (2184, 2184); (2192,
   2193); (2200, 2207); (2249, 2306); (2362, 2362); (2364, 2364); (2369,
   2376); (2381, 2381); (2385, 2391); (2402, 2403); (2417, 2417); (2433,
   2433); (2492, 2492); (2497, 2500); (2509, 2509); (2530, 2531); (2558,
   2558); (2561, 2562); (2620, 2620); (2625, 2626); (2631, 2632); (2635,
   2637); (2641, 2641); (2672, 2673); (2677, 2677); (2689, 2690); (2748,
   2748); (2753, 2757); (2759, 2760); (2765, 2765); (2786, 2787); (2810,
   2815); (2817, 2817); (2876, 2876); (2879, 2879); (2881, 2884); (2893,
   2893); (2901, 2902); (2914, 2915); (2946, 2946); (3008, 3008); (3021,
   3021); (3072, 3072); (3076, 3076); (3132, 3132); (3134, 3136); (3142,
   3144); (3146, 3149); (3157, 3158); (3170, 3171); (3201, 3201); (3260,
   3260); (3263, 3263); (3270, 3270); (3276, 3277); (3298, 3299); (3328,
   3329); (3387, 3388); (3393, 3396); (3405, 3405); (3426, 3427); (3457,
   3457); (3530, 3530); (3538, 3540); (3542, 3542); (3633, 3633); (3636,
   3642); (3654, 3662); (3761, 3761); (3764, 3772); (3782, 3782); (3784,
   3789); (3864, 3865); (3893, 3893); (3895, 3895); (3897, 3897); (3953,
   3966); (3968, 3972); (3974, 3975); (3981, 3991); (3993, 4028); (4038,
   4038); (4141, 4144); (4146, 4151); (4153, 4154); (4157, 4158); (4184,
   4185); (4190, 4192); (4209, 4212); (4226, 4226); (4229, 4230); (4237,
   4237); (4253, 4253); (4348, 4348); (4957, 4959); (5906, 5908); (5938,
   5939); (5970, 5971); (6002, 6003); (6068, 6069); (6071, 6077); (6086,
   6086); (6089, 6099); (6103, 6103); (6109, 6109); (6155, 6159); (6211,
   6211); (6277, 6278); (6313, 6313); (6432, 6434); (6439, 6440); (6450,
   6450); (6457, 6459); (6679, 6680); (6683, 6683); (6742, 6742); (6744,
   6750); (6752, 6752); (6754, 6754); (6757, 6764); (6771, 6780); (6783,
   6783); (6823, 6823); (6832, 6862); (6912, 6915); (6964, 6964); (6966,
   6970); (6972, 6972); (6978, 6978); (7019, 7027); (7040, 7041); (7074,
   7077); (7080, 7081); (7083, 7085); (7142, 7142); (7144, 7145); (7149,
   7149); (7151, 7153); (7212, 7219); (7222, 7223); (7288, 7293); (7376,
   7378); (7380, 7392); (7394, 7400); (7405, 7405); (7412, 7412); (7416,
   7417); (7468, 7530); (7544, 7544); (7579, 7679); (8125, 8125); (8127,
   8129); (8141, 8143); (8157, 8159); (8173, 8175); (8189, 8190); (8203,
   8207); (8216, 8217); (8228, 8228); (8231, 8231); (8234, 8238); (8288,
   8292); (8294, 8303); (8305, 8305); (8319, 8319); (8336, 8348); (8400,
   8432); (11388, 11389); (11503, 11505); (11631, 11631); (11647, 11647);
   (11744, 11775); (11823, 11823); (12293, 12293); (12330, 12333); (12337,
   12341); (12347, 12347); (12441, 12446); (12540, 12542); (40981, 40981);
   (42232, 42237); (42508, 42508); (42607, 42610); (42612, 42621); (42623,
   42623); (42652, 42655); (42736, 42737); (42752, 42785); (42864, 42864);
   (42888, 42890); (42994, 42996); (43000, 43001); (43010, 43010); (43014,
   43014); (43019, 43019); (43045, 43046); (43052, 43052); (43204, 43205);
   (43232, 43249); (43263, 43263); (43302, 43309); (43335, 43345); (43392,
   43394); (43443, 43443); (43446, 43449); (43452, 43453); (43471, 43471);
   (43493, 43494); (43561, 43566); (43569, 43570); (43573, 43574); (43587,
   43587); (43596, 43596); (43632, 43632); (43644, 43644); (43696, 43696);
   (43698, 43700); (43703, 43704); (43710, 43711); (43713, 43713); (43741,
   43741); (43756, 43757); (43763, 43764); (43766, 43766); (43867, 43871);
   (43881, 43883); (44005, 44005); (44008, 44008); (44013, 44013); (64286,
   64286); (64434, 64450); (65024, 65039); (65043, 65043); (65056, 65071);
   (65106, 65106); (65109, 65109); (65279, 65279); (65287, 65287); (65294,
   65294); (65306, 65306); (65342, 65342); (65344, 65344); (65392, 65392);
   (65438, 65439); (65507, 65507); (65529, 65531); (66045, 66045); (66272,
   66272); (66422, 66426); (67456, 67461); (67463, 67504); (67506, 67514);
   (68097, 68099); (68101, 68102); (68108, 68111); (68152, 68154); (68159,
   68159); (68325, 68326); (68900, 68903); (69291, 69292); (69446, 69456);
   (69506, 69509); (69633, 69633); (69688, 69702); (69744, 69744); (69747,
   69748); (69759, 69761); (69811, 69814); (69817, 69818); (69821, 69821);
   (69826, 69826); (69837, 69837); (69888, 69890); (69927, 69931); (69933,
   69940); (70003, 70003); (70016, 70017); (70070, 70078); (70089, 70092);
   (70095, 70095); (70191, 70193); (70196, 70196); (70198, 70199); (70206,
   70206); (70367, 70367); (70371, 70378); (70400, 70401); (70459, 70460);
   (70464, 70464); (70502, 70508); (70512, 70516); (70712, 70719); (70722,
   70724); (70726, 70726); (70750, 70750); (70835, 70840); (70842, 70842);
   (70847, 70848); (70850, 70851); (71090, 71093); (71100, 71101); (71103,
   71104); (71132, 71133); (71219, 71226); (71229, 71229); (71231, 71232);
   (71339, 71339); (71341, 71341); (71344, 71349); (71351, 71351); (71453,
   71455); (71458, 71461); (71463, 71467); (71727, 71735); (71737, 71738);
   (71995, 71996); (71998, 71998); (72003, 72003); (72148, 72151); (72154,
   72155); (72160, 72160); (72193, 72202); (72243, 72248); (72251, 72254);
   (72263, 72263); (72273, 72278); (72281, 72283); (72330, 72342); (72344,
   72345); (72752, 72758); (72760, 72765); (72767, 72767); (72850, 72871);
   (72874, 72880); (72882, 72883); (72885, 72886); (73009, 73014); (73018,
   73018); (73020, 73021); (73023, 73029); (73031, 73031); (73104, 73105);
   (73109, 73109); (73111, 73111); (73459, 73460); (78896, 78904); (92912,
   92916); (92976, 92982); (92992, 92995); (94031, 94031); (94095, 94111);
   (94176, 94177); (94179, 94180); (110576, 110579); (110581, 110587);
   (110589, 110590); (113821, 113822); (113824, 113827); (118528, 118573);
   (118576, 118598); (119143, 119145); (119155, 119170); (119173, 119179);
   (119210, 119213); (119362, 119364); (121344, 121398); (121403, 121452);
   (121461, 121461); (121476, 121476); (121499, 121503); (121505, 121519);
   (122880, 122886); (122888, 122904); (122907, 122913); (122915, 122916);
   (122918, 122922); (123184, 123197); (123566, 123566); (123628, 123631);
   (125136, 125142); (125252, 125259); (127995, 127999); (917505, 917505);
   (917536, 917631); (917760, 917999)].

(** The characters of [str.isspace] and of [\s]. *)
Definition White_Space : list (Z * Z) :=
  [(9, 13); (28, 32); (133, 133); (160, 160); (5760, 5760); (8192, 8202);
   (8232, 8233); (8239, 8239); (8287, 8287); (12288, 12288)].

(** The decimal digits (category Nd): [\d]. *)
Definition Decimal : list (Z * Z) :=
  [(48, 57); (1632, 1641); (1776, 1785); (1984, 1993); (2406, 2415); (2534,
   2543); (2662, 2671); (2790, 2799); (2918, 2927); (3046, 3055); (3174,
   3183); (3302, 3311); (3430, 3439); (3558, 3567); (3664, 3673); (3792,
   3801); (3872, 3881); (4160, 4169); (4240, 4249); (6112, 6121); (6160,
   6169); (6470, 6479); (6608, 6617); (6784, 6793); (6800, 6809); (6992,
   7001); (7088, 7097); (7232, 7241); (7248, 7257); (42528, 42537); (43216,
   43225); (43264, 43273); (43472, 43481); (43504, 43513); (43600, 43609);
   (44016, 44025); (65296, 65305); (66720, 66729); (68912, 68921); (69734,
   69743); (69872, 69881); (69942, 69951); (70096, 70105); (70384, 70393);
   (70736, 70745); (70864, 70873); (71248, 71257); (71360, 71369); (71472,
   71481); (71904, 71913); (72016, 72025); (72784, 72793); (73040, 73049);
   (73120, 73129); (92768, 92777); (92864, 92873); (93008, 93017); (120782,
   120831); (123200, 123209); (123632, 123641); (125264, 125273); (130032,
   130041)].

(** The characters of [\w]: letters, digits of every kind and the underscore. *)
Definition Word : list (Z * Z) :=
  [(48, 57); (65, 90); (95, 95); (97, 122); (170, 170); (178, 179); (181,
   181); (185, 186); (188, 190); (192, 214); (216, 246); (248, 705); (710,
   721); (736, 740); (748, 748); (750, 750); (880, 884); (886, 887); (890,
   893); (895, 895); (902, 902); (904, 906); (908, 908); (910, 929); (931,
   1013); (1015, 1153); (1162, 1327); (1329, 1366); (1369, 1369); (1376,
   1416); (1488, 1514); (1519, 1522); (1568, 1610); (1632, 1641); (1646,
   1647); (1649, 1747); (1749, 1749); (1765, 1766); (1774, 1788); (1791,
   1791); (1808, 1808); (1810, 1839); (1869, 1957); (1969, 1969); (1984,
   2026); (2036, 2037); (2042, 2042); (2048, 2069); (2074, 2074); (2084,
   2084); (2088, 2088); (2112, 2136); (2144, 2154); (2160, 2183); (2185,
   2190); (2208, 2249); (2308, 2361); (2365, 2365); (2384, 2384); (2392,
   2401); (2406, 2415); (2417, 2432); (2437, 2444); (2447, 2448); (2451,
   2472); (2474, 2480); (2482, 2482); (2486, 2489); (2493, 2493); (2510,
   2510); (2524, 2525); (2527, 2529); (2534, 2545); (2548, 2553); (2556,
   2556); (2565, 2570); (2575, 2576); (2579, 2600); (2602, 2608); (2610,
   2611); (2613, 2614); (2616, 2617); (2649, 2652); (2654, 2654); (2662,
   2671); (2674, 2676); (2693, 2701); (2703, 2705); (2707, 2728); (2730,
   2736); (2738, 2739); (2741, 2745); (2749, 2749); (2768, 2768); (2784,
   2785); (2790, 2799); (2809, 2809); (2821, 2828); (2831, 2832); (2835,
   2856); (2858, 2864); (2866, 2867); (2869, 2873); (2877, 2877); (2908,
   2909); (2911, 2913); (2918, 2927); (2929, 2935); (2947, 2947); (2949,
   2954); (2958, 2960); (2962, 2965); (2969, 2970); (2972, 2972); (2974,
   2975); (2979, 2980); (2984, 2986); (2990, 3001); (3024, 3024); (3046,
   3058); (3077, 3084); (3086, 3088); (3090, 3112); (3114, 3129); (3133,
   3133); (3160, 3162); (3165, 3165); (3168, 3169); (3174, 3183); (3192,
   3198); (3200, 3200); (3205, 3212); (3214, 3216); (3218, 3240); (3242,
   3251); (3253, 3257); (3261, 3261); (3293, 3294); (3296, 3297); (3302,
   3311); (3313, 3314); (3332, 3340); (3342, 3344); (3346, 3386); (3389,
   3389); (3406, 3406); (3412, 3414); (3416, 3425); (3430, 3448); (3450,
   3455); (3461, 3478); (3482, 3505); (3507, 3515); (3517, 3517); (3520,
   3526); (3558, 3567); (3585, 3632); (3634, 3635); (3648, 3654); (3664,
   3673); (3713, 3714); (3716, 3716); (3718, 3722); (3724, 3747); (3749,
   3749); (3751, 3760); (3762, 3763); (3773, 3773); (3776, 3780); (3782,
   3782); (3792, 3801); (3804, 3807); (3840, 3840); (3872, 3891); (3904,
   3911); (3913, 3948); (3976, 3980); (4096, 4138); (4159, 4169); (4176,
   4181); (4186, 4189); (4193, 4193); (4197, 4198); (4206, 4208); (4213,
   4225); (4238, 4238); (4240, 4249); (4256, 4293); (4295, 4295); (4301,
   4301); (4304, 4346); (4348, 4680); (4682, 4685); (4688, 4694); (4696,
   4696); (4698, 4701); (4704, 4744); (4746, 4749); (4752, 4784); (4786,
   4789); (4792, 4798); (4800, 4800); (4802, 4805); (4808, 4822); (4824,
   4880); (4882, 4885); (4888, 4954); (4969, 4988); (4992, 5007); (5024,
   5109); (5112, 5117); (5121, 5740); (5743, 5759); (5761, 5786); (5792,
   5866); (5870, 5880); (5888, 5905); (5919, 5937); (5952, 5969); (5984,
   5996); (5998, 6000); (6016, 6067); (6103, 6103); (6108, 6108); (6112,
   6121); (6128, 6137); (6160, 6169); (6176, 6264); (6272, 6276); (6279,
   6312); (6314, 6314); (6320, 6389); (6400, 6430); (6470, 6509); (6512,
   6516); (6528, 6571); (6576, 6601); (6608, 6618); (6656, 6678); (6688,
   6740); (6784, 6793); (6800, 6809); (6823, 6823); (6917, 6963); (6981,
   6988); (6992, 7001); (7043, 7072); (7086, 7141); (7168, 7203); (7232,
   7241); (7245, 7293); (7296, 7304); (7312, 7354); (7357, 7359); (7401,
   7404); (7406, 7411); (7413, 7414); (7418, 7418); (7424, 7615); (7680,
   7957); (7960, 7965); (7968, 8005); (8008, 8013); (8016, 8023); (8025,
   8025); (8027, 8027); (8029, 8029); (8031, 8061); (8064, 8116); (8118,
   8124); (8126, 8126); (8130, 8132); (8134, 8140); (8144, 8147); (8150,
   8155); (8160, 8172); (8178, 8180); (8182, 8188); (8304, 8305); (8308,
   8313); (8319, 8329); (8336, 8348); (8450, 8450); (8455, 8455); (8458,
   8467); (8469, 8469); (8473, 8477); (8484, 8484); (8486, 8486); (8488,
   8488); (8490, 8493); (8495, 8505); (8508, 8511); (8517, 8521); (8526,
   8526); (8528, 8585); (9312, 9371); (9450, 9471); (10102, 10131); (11264,
   11492); (11499, 11502); (11506, 11507); (11517, 11517); (11520, 11557);
   (11559, 11559); (11565, 11565); (11568, 11623); (11631, 11631); (11648,
   11670); (11680, 11686); (11688, 11694); (11696, 11702); (11704, 11710);
   (11712, 11718); (11720, 11726); (11728, 11734); (11736, 11742); (11823,
   11823); (12293, 12295); (12321, 12329); (12337, 12341); (12344, 12348);
   (12353, 12438); (12445, 12447); (12449, 12538); (12540, 12543); (12549,
   12591); (12593, 12686); (12690, 12693); (12704, 12735); (12784, 12799);
   (12832, 12841); (12872, 12879); (12881, 12895); (12928, 12937); (12977,
   12991); (13312, 19903); (19968, 42124); (42192, 42237); (42240, 42508);
   (42512, 42539); (42560, 42606); (42623, 42653); (42656, 42735); (42775,
   42783); (42786, 42888); (42891, 42954); (42960, 42961); (42963, 42963);
   (42965, 42969); (42994, 43009); (43011, 43013); (43015, 43018); (43020,
   43042); (43056, 43061); (43072, 43123); (43138, 43187); (43216, 43225);
   (43250, 43255); (43259, 43259); (43261, 43262); (43264, 43301); (43312,
   43334); (43360, 43388); (43396, 43442); (43471, 43481); (43488, 43492);
   (43494, 43518); (43520, 43560); (43584, 43586); (43588, 43595); (43600,
   43609); (43616, 43638); (43642, 43642); (43646, 43695); (43697, 43697);
   (43701, 43702); (43705, 43709); (43712, 43712); (43714, 43714); (43739,
   43741); (43744, 43754); (43762, 43764); (43777, 43782); (43785, 43790);
   (43793, 43798); (43808, 43814); (43816, 43822); (43824, 43866); (43868,
   43881); (43888, 44002); (44016, 44025); (44032, 55203); (55216, 55238);
   (55243, 55291); (63744, 64109); (64112, 64217); (64256, 64262); (64275,
   64279); (64285, 64285); (64287, 64296); (64298, 64310); (64312, 64316);
   (64318, 64318); (64320, 64321); (64323, 64324); (64326, 64433); (64467,
   64829); (64848, 64911); (64914, 64967); (65008, 65019); (65136, 65140);
   (65142, 65276); (65296, 65305); (65313, 65338); (65345, 65370); (65382,
   65470); (65474, 65479); (65482, 65487); (65490, 65495); (65498, 65500);
   (65536, 65547); (65549, 65574); (65576, 65594); (65596, 65597); (65599,
   65613); (65616, 65629); (65664, 65786); (65799, 65843); (65856, 65912);
   (65930, 65931); (66176, 66204); (66208, 66256); (66273, 66299); (66304,
   66339); (66349, 66378); (66384, 66421); (66432, 66461); (66464, 66499);
   (66504, 66511); (66513, 66517); (66560, 66717); (66720, 66729); (66736,
   66771); (66776, 66811); (66816, 66855); (66864, 66915); (66928, 66938);
   (66940, 66954); (66956, 66962); (66964, 66965); (66967, 66977); (66979,
   66993); (66995, 67001); (67003, 67004); (67072, 67382); (67392, 67413);
   (67424, 67431); (67456, 67461); (67463, 67504); (67506, 67514); (67584,
   67589); (67592, 67592); (67594, 67637); (67639, 67640); (67644, 67644);
   (67647, 67669); (67672, 67702); (67705, 67742); (67751, 67759); (67808,
   67826); (67828, 67829); (67835, 67867); (67872, 67897); (67968, 68023);
   (68028, 68047); (68050, 68096); (68112, 68115); (68117, 68119); (68121,
   68149); (68160, 68168); (68192, 68222); (68224, 68255); (68288, 68295);
   (68297, 68324); (68331, 68335); (68352, 68405); (68416, 68437); (68440,
   68466); (68472, 68497); (68521, 68527); (68608, 68680); (68736, 68786);
   (68800, 68850); (68858, 68899); (68912, 68921); (69216, 69246); (69248,
   69289); (69296, 69297); (69376, 69415); (69424, 69445); (69457, 69460);
   (69488, 69505); (69552, 69579); (69600, 69622); (69635, 69687); (69714,
   69743); (69745, 69746); (69749, 69749); (69763, 69807); (69840, 69864);
   (69872, 69881); (69891, 69926); (69942, 69951); (69956, 69956); (69959,
   69959); (69968, 70002); (70006, 70006); (70019, 70066); (70081, 70084);
   (70096, 70106); (70108, 70108); (70113, 70132); (70144, 70161); (70163,
   70187); (70272, 70278); (70280, 70280); (70282, 70285); (70287, 70301);
   (70303, 70312); (70320, 70366); (70384, 70393); (70405, 70412); (70415,
   70416); (70419, 70440); (70442, 70448); (70450, 70451); (70453, 70457);
   (70461, 70461); (70480, 70480); (70493, 70497); (70656, 70708); (70727,
   70730); (70736, 70745); (70751, 70753); (70784, 70831); (70852, 70853);
   (70855, 70855); (70864, 70873); (71040, 71086); (71128, 71131); (71168,
   71215); (71236, 71236); (71248, 71257); (71296, 71338); (71352, 71352);
   (71360, 71369); (71424, 71450); (71472, 71483); (71488, 71494); (71680,
   71723); (71840, 71922); (71935, 71942); (71945, 71945); (71948, 71955);
   (71957, 71958); (71960, 71983); (71999, 71999); (72001, 72001); (72016,
   72025); (72096, 72103); (72106, 72144); (72161, 72161); (72163, 72163);
   (72192, 72192); (72203, 72242); (72250, 72250); (72272, 72272); (72284,
   72329); (72349, 72349); (72368, 72440); (72704, 72712); (72714, 72750);
   (72768, 72768); (72784, 72812); (72818, 72847); (72960, 72966); (72968,
   72969); (72971, 73008); (73030, 73030); (73040, 73049); (73056, 73061);
   (73063, 73064); (73066, 73097); (73112, 73112); (73120, 73129); (73440,
   73458); (73648, 73648); (73664, 73684); (73728, 74649); (74752, 74862);
   (74880, 75075); (77712, 77808); (77824, 78894); (82944, 83526); (92160,
   92728); (92736, 92766); (92768, 92777); (92784, 92862); (92864, 92873);
   (92880, 92909); (92928, 92975); (92992, 92995); (93008, 93017); (93019,
   93025); (93027, 93047); (93053, 93071); (93760, 93846); (93952, 94026);
   (94032, 94032); (94099, 94111); (94176, 94177); (94179, 94179); (94208,
   100343); (100352, 101589); (101632, 101640); (110576, 110579); (110581,
   110587); (110589, 110590); (110592, 110882); (110928, 110930); (110948,
   110951); (110960, 111355); (113664, 113770); (113776, 113788); (113792,
   113800); (113808, 113817); (119520, 119539); (119648, 119672); (119808,
   119892); (119894, 119964); (119966, 119967); (119970, 119970); (119973,
   119974); (119977, 119980); (119982, 119993); (119995, 119995); (119997,
   120003); (120005, 120069); (120071, 120074); (120077, 120084); (120086,
   120092); (120094, 120121); (120123, 120126); (120128, 120132); (120134,
   120134); (120138, 120144); (120146, 120485); (120488, 120512); (120514,
   120538); (120540, 120570); (120572, 120596); (120598, 120628); (120630,
   120654); (120656, 120686); (120688, 120712); (120714, 120744); (120746,
   120770); (120772, 120779); (120782, 120831); (122624, 122654); (123136,
   123180); (123191, 123197); (123200, 123209); (123214, 123214); (123536,
   123565); (123584, 123627); (123632, 123641); (124896, 124902); (124904,
   124907); (124909, 124910); (124912, 124926); (124928, 125124); (125127,
   125135); (125184, 125251); (125259, 125259); (125264, 125273); (126065,
   126123); (126125, 126127); (126129, 126132); (126209, 126253); (126255,
   126269); (126464, 126467); (126469, 126495); (126497, 126498); (126500,
   126500); (126503, 126503); (126505, 126514); (126516, 126519); (126521,
   126521); (126523, 126523); (126530, 126530); (126535, 126535); (126537,
   126537); (126539, 126539); (126541, 126543); (126545, 126546); (126548,
   126548); (126551, 126551); (126553, 126553); (126555, 126555); (126557,
   126557); (126559, 126559); (126561, 126562); (126564, 126564); (126567,
   126570); (126572, 126578); (126580, 126583); (126585, 126588); (126590,
   126590); (126592, 126601); (126603, 126619); (126625, 126627); (126629,
   126633); (126635, 126651); (127232, 127244); (130032, 130041); (131072,
   173791); (173824, 177976); (177984, 178205); (178208, 183969); (183984,
   191456); (194560, 195101); (196608, 201546)].

(** The simple lower-case mappings: [(first, last, step, delta)] stands for
    the characters [first], [first + step], ..., [last], each of which maps
    to itself plus [delta]. *)
Definition Lower_Runs : list (Z * Z * Z * Z) :=
  [(65, 90, 1, 32); (192, 214, 1, 32); (216, 222, 1, 32); (256, 302, 2, 1);
   (306, 310, 2, 1); (313, 327, 2, 1); (330, 374, 2, 1); (376, 376, 1,
   -121); (377, 381, 2, 1); (385, 385, 1, 210); (386, 388, 2, 1); (390, 390,
   1, 206); (391, 391, 1, 1); (393, 394, 1, 205); (395, 395, 1, 1); (398,
   398, 1, 79); (399, 399, 1, 202); (400, 400, 1, 203); (401, 401, 1, 1);
   (403, 403, 1, 205); (404, 404, 1, 207); (406, 406, 1, 211); (407, 407, 1,
   209); (408, 408, 1, 1); (412, 412, 1, 211); (413, 413, 1, 213); (415,
   415, 1, 214); (416, 420, 2, 1); (422, 422, 1, 218); (423, 423, 1, 1);
   (425, 425, 1, 218); (428, 428, 1, 1); (430, 430, 1, 218); (431, 431, 1,
   1); (433, 434, 1, 217); (435, 437, 2, 1); (439, 439, 1, 219); (440, 440,
   1, 1); (444, 444, 1, 1); (452, 452, 1, 2); (453, 453, 1, 1); (455, 455,
   1, 2); (456, 456, 1, 1); (458, 458, 1, 2); (459, 475, 2, 1); (478, 494,
   2, 1); (497, 497, 1, 2); (498, 500, 2, 1); (502, 502, 1, -97); (503, 503,
   1, -56); (504, 542, 2, 1); (544, 544, 1, -130); (546, 562, 2, 1); (570,
   570, 1, 10795); (571, 571, 1, 1); (573, 573, 1, -163); (574, 574, 1,
   10792); (577, 577, 1, 1); (579, 579, 1, -195); (580, 580, 1, 69); (581,
   581, 1, 71); (582, 590, 2, 1); (880, 882, 2, 1); (886, 886, 1, 1); (895,
   895, 1, 116); (902, 902, 1, 38); (904, 906, 1, 37); (908, 908, 1, 64);
   (910, 911, 1, 63); (913, 929, 1, 32); (931, 939, 1, 32); (975, 975, 1,
   8); (984, 1006, 2, 1); (1012, 1012, 1, -60); (1015, 1015, 1, 1); (1017,
   1017, 1, -7); (1018, 1018, 1, 1); (1021, 1023, 1, -130); (1024, 1039, 1,
   80); (1040, 1071, 1, 32); (1120, 1152, 2, 1); (1162, 1214, 2, 1); (1216,
   1216, 1, 15); (1217, 1229, 2, 1); (1232, 1326, 2, 1); (1329, 1366, 1,
   48); (4256, 4293, 1, 7264); (4295, 4295, 1, 7264); (4301, 4301, 1, 7264);
   (5024, 5103, 1, 38864); (5104, 5109, 1, 8); (7312, 7354, 1, -3008);
   (7357, 7359, 1, -3008); (7680, 7828, 2, 1); (7838, 7838, 1, -7615);
   (7840, 7934, 2, 1); (7944, 7951, 1, -8); (7960, 7965, 1, -8); (7976,
   7983, 1, -8); (7992, 7999, 1, -8); (8008, 8013, 1, -8); (8025, 8031, 2,
   -8); (8040, 8047, 1, -8); (8072, 8079, 1, -8); (8088, 8095, 1, -8);
   (8104, 8111, 1, -8); (8120, 8121, 1, -8); (8122, 8123, 1, -74); (8124,
   8124, 1, -9); (8136, 8139, 1, -86); (8140, 8140, 1, -9); (8152, 8153, 1,
   -8); (8154, 8155, 1, -100); (8168, 8169, 1, -8); (8170, 8171, 1, -112);
   (8172, 8172, 1, -7); (8184, 8185, 1, -128); (8186, 8187, 1, -126); (8188,
   8188, 1, -9); (8486, 8486, 1, -7517); (8490, 8490, 1, -8383); (8491,
   8491, 1, -8262); (8498, 8498, 1, 28); (8544, 8559, 1, 16); (8579, 8579,
   1, 1); (9398, 9423, 1, 26); (11264, 11311, 1, 48); (11360, 11360, 1, 1);
   (11362, 11362, 1, -10743); (11363, 11363, 1, -3814); (11364, 11364, 1,
   -10727); (11367, 11371, 2, 1); (11373, 11373, 1, -10780); (11374, 11374,
   1, -10749); (11375, 11375, 1, -10783); (11376, 11376, 1, -10782); (11378,
   11378, 1, 1); (11381, 11381, 1, 1); (11390, 11391, 1, -10815); (11392,
   11490, 2, 1); (11499, 11501, 2, 1); (11506, 11506, 1, 1); (42560, 42604,
   2, 1); (42624, 42650, 2, 1); (42786, 42798, 2, 1); (42802, 42862, 2, 1);
   (42873, 42875, 2, 1); (42877, 42877, 1, -35332); (42878, 42886, 2, 1);
   (42891, 42891, 1, 1); (42893, 42893, 1, -42280); (42896, 42898, 2, 1);
   (42902, 42920, 2, 1); (42922, 42922, 1, -42308); (42923, 42923, 1,
   -42319); (42924, 42924, 1, -42315); (42925, 42925, 1, -42305); (42926,
   42926, 1, -42308); (42928, 42928, 1, -42258); (42929, 42929, 1, -42282);
   (42930, 42930, 1, -42261); (42931, 42931, 1, 928); (42932, 42946, 2, 1);
   (42948, 42948, 1, -48); (42949, 42949, 1, -42307); (42950, 42950, 1,
   -35384); (42951, 42953, 2, 1); (42960, 42960, 1, 1); (42966, 42968, 2,
   1); (42997, 42997, 1, 1); (65313, 65338, 1, 32); (66560, 66599, 1, 40);
   (66736, 66771, 1, 40); (66928, 66964, 2, 39); (66929, 66937, 2, 39);
   (66941, 66953, 2, 39); (66957, 66961, 2, 39); (66965, 66965, 1, 39);
   (68736, 68786, 1, 64); (71840, 71871, 1, 32); (93760, 93791, 1, 32);
   (125184, 125217, 1, 34)].

(** The tables are sorted: the search stops at the first range that starts
    after [c]. *)
Fixpoint in_ranges (c : Z) (l : list (Z * Z)) : bool :=
  match l with
  | [] => false
  | (lo, hi) :: l' =>
      if c <? lo then false
      else if c <=? hi then true
      else in_ranges c l'
  end.

Fixpoint delta_in (c : Z) (l : list (Z * Z * Z * Z)) : Z :=
  match l with
  | [] => 0
  | (lo, hi, step, d) :: l' =>
      if c <? lo then 0
      else if (c <=? hi) && ((c - lo) mod step =? 0) then d
      else delta_in c l'
  end.

(** The characters of the ranges of a table, in order. *)
Definition members (l : list (Z * Z)) : list Z :=
  r ← l; (fun k => r.1 + Z.of_nat k) <$> seq 0 (Z.to_nat (r.2 - r.1 + 1)).

Definition is_upper (c : Z) : bool := in_ranges c Uppercase.
Definition is_lower (c : Z) : bool := in_ranges c Lowercase.
Definition is_title (c : Z) : bool := in_ranges c Titlecase.
Definition is_cased (c : Z) : bool := is_upper c || is_lower c || is_title c.
Definition is_case_ignorable (c : Z) : bool := in_ranges c Case_Ignorable.
Definition is_space (c : Z) : bool := in_ranges c White_Space.
Definition is_decimal (c : Z) : bool := in_ranges c Decimal.
Definition is_word (c : Z) : bool := in_ranges c Word.

(** *** UTF-8 *)

Definition code (b : ascii) : Z := Z.of_nat (nat_of_ascii b).
Definition byte (n : Z) : ascii := ascii_of_nat (Z.to_nat n).

(** The characters that have an encoding: all but the surrogates. *)
Definition scalar (c : Z) : bool :=
  (0 <=? c) && (c <=? 1114111) && negb ((55296 <=? c) && (c <=? 57343)).

Definition encode_char (c : Z) : string :=
  if c <? 128 then String (byte c) EmptyString
  else if c <? 2048 then
    String (byte (192 + c / 64)) (String (byte (128 + c mod 64)) EmptyString)
  else if c <? 65536 then
    String (byte (224 + c / 4096))
      (String (byte (128 + (c / 64) mod 64))
         (String (byte (128 + c mod 64)) EmptyString))
  else
    String (byte (240 + c / 262144))
      (String (byte (128 + (c / 4096) mod 64))
         (String (byte (128 + (c / 64) mod 64))
            (String (byte (128 + c mod 64)) EmptyString))).

Fixpoint encode (l : list Z) : string :=
  match l with
  | [] => EmptyString
  | c :: l' => encode_char c +:+ encode l'
  end.

(** The six bits of a continuation byte. *)
Definition tail (b : ascii) : option Z :=
  if (128 <=? code b) && (code b <=? 191) then Some (code b - 128) else None.

Definition push (c : Z) (l : option (list Z)) : option (list Z) :=
  match l with
  | Some l => Some (c :: l)
  | None => None
  end.

(** The characters of a string; [None] for bytes that are no UTF-8 (no
    [str] has such an encoding). *)
Fixpoint decode (s : string) : option (list Z) :=
  match s with
  | EmptyString => Some []
  | String a s1 =>
      if code a <? 128 then push (code a) (decode s1)
      else if code a <? 224 then
        match s1 with
        | String b s2 =>
            match tail b with
            | Some x =>
                let c := (code a - 192) * 64 + x in
                if 128 <=? c then push c (decode s2) else None
            | None => None
            end
        | _ => None
        end
      else if code a <? 240 then
        match s1 with
        | String b (String b' s3) =>
            match tail b, tail b' with
            | Some x, Some y =>
                let c := (code a - 224) * 4096 + x * 64 + y in
                if (2048 <=? c) && scalar c then push c (decode s3) else None
            | _, _ => None
            end
        | _ => None
        end
      else
        match s1 with
        | String b (String b' (String b'' s4)) =>
            match tail b, tail b', tail b'' with
            | Some x, Some y, Some z =>
                let c := (code a - 240) * 262144 + x * 4096 + y * 64 + z in
                if (65536 <=? c) && (c <=? 1114111)
                then push c (decode s4) else None
            | _, _, _ => None
            end
        | _ => None
        end
  end.

(** *** [str.lower]

    Every character has one lower-case character, but for U+0130, which
    becomes an i and a combining dot, and for the capital sigma, which
    becomes a final sigma after a cased letter that no cased letter
    follows (the characters that can be ignored are stepped over). *)

Definition lower_char (c : Z) : list Z :=
  if c =? 304 then [105; 775] else [c + delta_in c Lower_Runs].

(** The first character of [l] that cannot be ignored is cased. *)
Fixpoint cased_next (l : list Z) : bool :=
  match l with
  | [] => false
  | c :: l' => if is_case_ignorable c then cased_next l' else is_cased c
  end.

(** [before]: the last character before [l] that cannot be ignored is
    cased. *)
Fixpoint lower_from (before : bool) (l : list Z) : list Z :=
  match l with
  | [] => []
  | c :: l' =>
      (if c =? 931
       then [if before && negb (cased_next l') then 962 else 963]
       else lower_char c)
      ++ lower_from (if is_case_ignorable c then before else is_cased c) l'
  end.

Definition lower (l : list Z) : list Z := lower_from false l.

(** A capital letter that [lower] leaves a capital: the capitals without a
    lower-case form, such as the letters of the mathematical alphabets. *)
Definition lasting_capital (c : Z) : bool := existsb is_upper (lower_char c).

(** *** [str.isupper]: no lower-case or title-case character, and a
    capital. *)
Definition isupper (l : list Z) : bool :=
  forallb (fun c => negb (is_lower c || is_title c)) l && existsb is_upper l.

(** *** [str.split()]: the maximal runs of characters that are no white
    space.  [cur] is the word being read, reversed. *)
Fixpoint split_from (cur : list Z) (l : list Z) : list (list Z) :=
  let flush := match cur with
               | [] => []
               | _ => [rev cur]
               end in
  match l with
  | [] => flush
  | c :: l' =>
      if is_space c then flush ++ split_from [] l'
      else split_from (c :: cur) l'
  end.

Definition split (l : list Z) : list (list Z) := split_from [] l.

End Unicode.

(** ** Python string operations *)

Module Str.

Definition code (c : ascii) : nat := nat_of_ascii c.

Definition between (lo hi : nat) (c : ascii) : bool :=
  (Nat.leb lo (code c) && Nat.leb (code c) hi)%bool.

Definition is_upper_letter : ascii -> bool := between 65 90.
Definition is_lower_letter : ascii -> bool := between 97 122.
Definition is_letter (c : ascii) : bool := is_upper_letter c || is_lower_letter c.

(** The white space of one byte: tab to carriage return, the four
    separators and the blank. *)
Definition is_space (c : ascii) : bool :=
  between 9 13 c || between 28 31 c || Nat.eqb (code c) 32.

(** [s.lower()] *)
Definition lower (s : string) : string :=
  match Unicode.decode s with
  | Some l => Unicode.encode (Unicode.lower l)
  | None => s
  end.

(** [len(s)] *)
Definition len (s : string) : Z :=
  match Unicode.decode s with
  | Some l => Z.of_nat (length l)
  | None => 0
  end.

(** [s.startswith(p)] *)
Fixpoint starts_with (p s : string) : bool :=
  match p, s with
  | EmptyString, _ => true
  | String _ _, EmptyString => false
  | String a p', String b s' => if Ascii.eqb a b then starts_with p' s' else false
  end.

(** [needle in hay] on strings: substring containment. *)
Fixpoint contains (needle hay : string) : bool :=
  starts_with needle hay ||
  match hay with
  | EmptyString => false
  | String _ hay' => contains needle hay'
  end.

(** [any(k in s for k in ks)] *)
Definition any_in (ks : list string) (s : string) : bool :=
  existsb (fun k => contains k s) ks.

(** [sum(1 for k in ks if k in s)] *)
Definition count_in (ks : list string) (s : string) : nat :=
  length (List.filter (fun k => contains k s) ks).

(** [s.count(c)] for a one-character argument. *)
Fixpoint count_char (c : ascii) (s : string) : nat :=
  match s with
  | EmptyString => 0%nat
  | String d s' => ((if Ascii.eqb c d then 1 else 0) + count_char c s')%nat
  end.

(** [s.split()] *)
Definition split (s : string) : list string :=
  match Unicode.decode s with
  | Some l => Unicode.encode <$> Unicode.split l
  | None => []
  end.

Fixpoint some_char (p : ascii -> bool) (s : string) : bool :=
  match s with
  | EmptyString => false
  | String c s' => p c || some_char p s'
  end.

(** [s.isupper()] *)
Definition isupper (s : string) : bool :=
  match Unicode.decode s with
  | Some l => Unicode.isupper l
  | None => false
  end.

(** [str(n)] for an integer. *)
Definition of_Z (n : Z) : string := NilZero.string_of_int (Z.to_int n).

End Str.

(** ** Regular expressions, as far as the patterns of the source need them *)

Module Re.

Inductive re : Type :=
| Void : re                        (* matches nothing *)
| Eps : re                         (* the empty word *)
| Sym : (ascii -> bool) -> re      (* one character of a class *)
| Alt : re -> re -> re
| Cat : re -> re -> re
| Star : re -> re.

Fixpoint nullable (r : re) : bool :=
  match r with
  | Void => false
  | Eps => true
  | Sym _ => false
  | Alt a b => nullable a || nullable b
  | Cat a b => nullable a && nullable b
  | Star _ => true
  end.

Definition alt (a b : re) : re :=
  match a, b with
  | Void, _ => b
  | _, Void => a
  | _, _ => Alt a b
  end.

Definition cat (a b : re) : re :=
  match a, b with
  | Void, _ => Void
  | _, Void => Void
  | Eps, _ => b
  | _, _ => Cat a b
  end.

(** Brzozowski derivative: the words [w] such that [c w] is in [r]. *)
Fixpoint deriv (c : ascii) (r : re) : re :=
  match r with
  | Void => Void
  | Eps => Void
  | Sym p => if p c then Eps else Void
  | Alt a b => alt (deriv c a) (deriv c b)
  | Cat a b =>
      if nullable a then alt (cat (deriv c a) b) (deriv c b)
      else cat (deriv c a) b
  | Star a => cat (deriv c a) (Star a)
  end.

(** [re.match(r, s)]: some prefix of [s] is in [r]. *)
Fixpoint match_prefix (r : re) (s : string) : bool :=
  nullable r ||
  match s with
  | EmptyString => false
  | String c s' => match_prefix (deriv c r) s'
  end.

(** [re.search(r, s)]: some factor of [s] is in [r]. *)
Fixpoint search (r : re) (s : string) : bool :=
  match_prefix r s ||
  match s with
  | EmptyString => false
  | String _ s' => search r s'
  end.

(** Pattern syntax. *)
Definition chr (c : ascii) : re := Sym (Ascii.eqb c).

Fixpoint lit (s : string) : re :=
  match s with
  | EmptyString => Eps
  | String c s' => Cat (chr c) (lit s')
  end.

(** [(?:a|b|c)] *)
Definition alts (l : list string) : re :=
  fold_right (fun s r => Alt (lit s) r) Void l.

(** [.]: one character that is no line feed: a byte of ASCII, or a first
    byte with its continuation bytes. *)
Definition continuation : re := Sym (Str.between 128 191).

Definition dot : re :=
  Alt (Sym (fun c => Str.between 0 127 c && negb (Nat.eqb (Str.code c) 10)))
    (Alt (Cat (Sym (Str.between 194 223)) continuation)
       (Alt (Cat (Sym (Str.between 224 239)) (Cat continuation continuation))
          (Cat (Sym (Str.between 240 244))
             (Cat continuation (Cat continuation continuation))))).
Definition dots : re := Star dot.                      (* [.*] *)
Definition opt (r : re) : re := Alt r Eps.             (* [r?] *)
Definition plus (r : re) : re := Cat r (Star r).       (* [r+] *)

(** One character of a class, as the alternative of the encodings of its
    members. *)
Definition class (ranges : list (Z * Z)) : re :=
  alts (Unicode.encode_char <$> Unicode.members ranges).

Definition ws : re := class Unicode.White_Space.       (* [\s] *)
Definition digit : re := class Unicode.Decimal.        (* [\d] *)

Fixpoint seq (l : list re) : re :=
  match l with
  | [] => Eps
  | r :: l' => Cat r (seq l')
  end.

End Re.

(** ** Characters of more than one byte

    In UTF-8 a character is one byte that is no continuation byte, followed
    by its continuation bytes.  The operations below read a string as Python
    reads a [str]: character by character. *)

Module Text.

Definition is_continuation (c : ascii) : bool := Str.between 128 191 c.

(** [len(s)] *)
Fixpoint length (s : string) : nat :=
  match s with
  | EmptyString => 0%nat
  | String c s' => ((if is_continuation c then 0 else 1) + length s')%nat
  end.

(** [s[:n]] *)
Fixpoint take (n : nat) (s : string) : string :=
  match s with
  | EmptyString => EmptyString
  | String c s' =>
      if is_continuation c then String c (take n s')
      else match n with
           | O => EmptyString
           | S n' => String c (take n' s')
           end
  end.

(** [s.replace(c, '')] for a one-byte character [c]. *)
Fixpoint without (c : ascii) (s : string) : string :=
  match s with
  | EmptyString => EmptyString
  | String d s' => if Ascii.eqb c d then without c s' else String d (without c s')
  end.

(** The number of characters whose first byte satisfies [p]. *)
Fixpoint count (p : ascii -> bool) (s : string) : nat :=
  match s with
  | EmptyString => 0%nat
  | String c s' => ((if p c then 1 else 0) + count p s')%nat
  end.

(** [len(s.strip()) == 0]: every character is white space for
    [str.isspace]: the ASCII ones, U+0085, U+00A0, U+1680, U+2000 to
    U+200A, U+2028, U+2029, U+202F, U+205F and U+3000. *)
Fixpoint blank (s : string) : bool :=
  match s with
  | EmptyString => true
  | String c s1 =>
      if Str.is_space c then blank s1
      else if Nat.eqb (Str.code c) 194 then
        match s1 with
        | String d s2 =>
            (Nat.eqb (Str.code d) 133 || Nat.eqb (Str.code d) 160) && blank s2
        | _ => false
        end
      else if Nat.eqb (Str.code c) 225 then
        match s1 with
        | String d (String e s3) =>
            Nat.eqb (Str.code d) 154 && Nat.eqb (Str.code e) 128 && blank s3
        | _ => false
        end
      else if Nat.eqb (Str.code c) 226 then
        match s1 with
        | String d (String e s3) =>
            ((Nat.eqb (Str.code d) 128
              && (Str.between 128 138 e || Nat.eqb (Str.code e) 168
                  || Nat.eqb (Str.code e) 169 || Nat.eqb (Str.code e) 175))
             || (Nat.eqb (Str.code d) 129 && Nat.eqb (Str.code e) 159))
            && blank s3
        | _ => false
        end
      else if Nat.eqb (Str.code c) 227 then
        match s1 with
        | String d (String e s3) =>
            Nat.eqb (Str.code d) 128 && Nat.eqb (Str.code e) 128 && blank s3
        | _ => false
        end
      else false
  end.

(** The characters of [s], in order: every byte that is no continuation
    byte starts one. *)
Fixpoint continuation_prefix (s : string) : string :=
  match s with
  | String c s' =>
      if is_continuation c then String c (continuation_prefix s')
      else EmptyString
  | EmptyString => EmptyString
  end.

Fixpoint chars (s : string) : list string :=
  match s with
  | EmptyString => []
  | String c s' =>
      if is_continuation c then chars s'
      else String c (continuation_prefix s') :: chars s'
  end.

Fixpoint drop_blank (l : list string) : list string :=
  match l with
  | ch :: rest => if blank ch then drop_blank rest else l
  | [] => []
  end.

(** [s.strip()]: the white space of [str.isspace] is removed at both
    ends. *)
Definition strip (s : string) : string :=
  String.concat "" (rev (drop_blank (rev (drop_blank (chars s))))).

End Text.

(** ** Time *)

(** A [datetime] in microseconds; [timedelta(minutes=n)] and seconds. *)
Definition minutes (n : Z) : Z := n * 60 * 1000000.
Definition seconds (n : Z) : Z := n * 1000000.

(** [int(t.timestamp())] *)
Definition epoch_seconds (t : Z) : Z := Z.quot t 1000000.

(** [l[i:]] with Python's reading of a negative start. *)
Definition slice_from {A : Type} (i : Z) (l : list A) : list A :=
  if i <? 0
  then drop (Z.to_nat (Z.max 0 (Z.of_nat (length l) + i))) l
  else drop (Z.to_nat i) l.

(** ** models/schemas.py *)

Inductive IntentType : Type :=
| CREATE_TICKET | CHECK_STATUS | UPDATE_TICKET | CLOSE_TICKET
| PROPERTY_INQUIRY | SCHEDULE_VIEWING | GENERAL_INQUIRY.

Inductive Priority : Type := LOWEST | LOW | MEDIUM | HIGH | HIGHEST.

Definition Priority_value (p : Priority) : string :=
  match p with
  | LOWEST => "Lowest" | LOW => "Low" | MEDIUM => "Medium"
  | HIGH => "High" | HIGHEST => "Highest"
  end.

Definition IntentType_value (i : IntentType) : string :=
  match i with
  | CREATE_TICKET => "create_ticket" | CHECK_STATUS => "check_status"
  | UPDATE_TICKET => "update_ticket" | CLOSE_TICKET => "close_ticket"
  | PROPERTY_INQUIRY => "property_inquiry"
  | SCHEDULE_VIEWING => "schedule_viewing"
  | GENERAL_INQUIRY => "general_inquiry"
  end.

Record IntentClassification : Type := mkIntentClassification {
  ic_intent : IntentType;
  ic_confidence : Q;
  ic_ticket_key : option string;
  ic_priority : option Priority
}.

Record PendingTicket : Type := mkPendingTicket {
  user_phone : string;
  user_name : string;
  summary : string;
  description : string;
  team : string;
  project_key : string;
  priority : Priority;
  attachments : list string;
  timestamp : Z;
  awaiting_confirmation : bool
}.

(** [ticket.description += extra] *)
Definition add_description (extra : string) (t : PendingTicket) : PendingTicket :=
  {| user_phone := user_phone t; user_name := user_name t;
     summary := summary t; description := description t +:+ extra;
     team := team t; project_key := project_key t; priority := priority t;
     attachments := attachments t; timestamp := timestamp t;
     awaiting_confirmation := awaiting_confirmation t |}.

(** The truth value of an optional string: [None] and [""] are false. *)
Definition truthy (o : option string) : bool :=
  match o with
  | Some (String _ _) => true
  | _ => false
  end.

(** ** services/response_service.py *)

Module ResponseService.

Definition _pending_ticket_timeout_minutes : Z := 60.

(** [self._pending_tickets[user_phone] = ticket] *)
Definition store_pending_ticket (phone : string) (ticket : PendingTicket)
    (st : gmap string PendingTicket) : gmap string PendingTicket :=
  <[phone := ticket]> st.

Definition get_pending_ticket (now : Z) (phone : string)
    (st : gmap string PendingTicket)
    : option PendingTicket * gmap string PendingTicket :=
  match st !! phone with
  | Some ticket =>
      let age := now - timestamp ticket in
      if minutes _pending_ticket_timeout_minutes <? age
      then (None, delete phone st)
      else (Some ticket, st)
  | None => (None, st)
  end.

Definition clear_pending_ticket (phone : string)
    (st : gmap string PendingTicket) : bool * gmap string PendingTicket :=
  match st !! phone with
  | Some _ => (true, delete phone st)
  | None => (false, st)
  end.

Definition cleanup_old_pending_tickets (now : Z)
    (st : gmap string PendingTicket) : nat * gmap string PendingTicket :=
  let cutoff := now - minutes _pending_ticket_timeout_minutes in
  let expired := filter (fun kv : string * PendingTicket => timestamp kv.2 < cutoff) st in
  (size expired,
   filter (fun kv : string * PendingTicket => ~ timestamp kv.2 < cutoff) st).

(** [get_all_pending_tickets]: a copy of the store. *)
Definition get_all_pending_tickets (st : gmap string PendingTicket)
    : gmap string PendingTicket := st.

Definition get_pending_tickets_count (st : gmap string PendingTicket) : nat :=
  size st.

End ResponseService.

(** ** services/conversation_memory.py *)

Module ConversationMemory.

Inductive ConversationState : Type :=
| GREETING | INQUIRY | QUALIFICATION | PROPERTY_SEARCH | VIEWING_SCHEDULE
| NEGOTIATION | DOCUMENTATION | SUPPORT_TICKET | CLOSED.

Definition ConversationState_value (s : ConversationState) : string :=
  match s with
  | GREETING => "greeting" | INQUIRY => "inquiry"
  | QUALIFICATION => "qualification" | PROPERTY_SEARCH => "property_search"
  | VIEWING_SCHEDULE => "viewing_schedule" | NEGOTIATION => "negotiation"
  | DOCUMENTATION => "documentation" | SUPPORT_TICKET => "support_ticket"
  | CLOSED => "closed"
  end.

Definition ConversationState_eqb (a b : ConversationState) : bool :=
  String.eqb (ConversationState_value a) (ConversationState_value b).

Inductive MessageRole : Type := USER | AGENT | SYSTEM.

Record ConversationMessage : Type := mkMessage {
  role : MessageRole;
  content : string;
  msg_timestamp : Z;
  msg_intent : option string;
  metadata : list (string * option string)
}.

(** The fields of a session that the pipeline reads or writes. *)
Record ConversationContext : Type := mkContext {
  user_phone : string;
  user_name : string;
  conversation_id : string;
  state : ConversationState;
  started_at : Z;
  last_activity : Z;
  message_count : Z;
  messages : list ConversationMessage;
  is_vip : bool;
  vip_tier : option string;
  preferred_language : string;
  topics_discussed : list string;
  pending_ticket_key : option string;
  active_tickets : list string
}.

(** Assignments to one attribute of a session. *)
Definition set_state (v : ConversationState) (s : ConversationContext) :=
  mkContext (user_phone s) (user_name s) (conversation_id s) v
    (started_at s) (last_activity s) (message_count s) (messages s)
    (is_vip s) (vip_tier s) (preferred_language s) (topics_discussed s)
    (pending_ticket_key s) (active_tickets s).

Definition set_last_activity (v : Z) (s : ConversationContext) :=
  mkContext (user_phone s) (user_name s) (conversation_id s) (state s)
    (started_at s) v (message_count s) (messages s)
    (is_vip s) (vip_tier s) (preferred_language s) (topics_discussed s)
    (pending_ticket_key s) (active_tickets s).

Definition set_history (n : Z) (ms : list ConversationMessage)
    (s : ConversationContext) :=
  mkContext (user_phone s) (user_name s) (conversation_id s) (state s)
    (started_at s) (last_activity s) n ms
    (is_vip s) (vip_tier s) (preferred_language s) (topics_discussed s)
    (pending_ticket_key s) (active_tickets s).

Definition set_vip (b : bool) (tier : option string) (s : ConversationContext) :=
  mkContext (user_phone s) (user_name s) (conversation_id s) (state s)
    (started_at s) (last_activity s) (message_count s) (messages s)
    b tier (preferred_language s) (topics_discussed s)
    (pending_ticket_key s) (active_tickets s).

Definition set_preferred_language (v : string) (s : ConversationContext) :=
  mkContext (user_phone s) (user_name s) (conversation_id s) (state s)
    (started_at s) (last_activity s) (message_count s) (messages s)
    (is_vip s) (vip_tier s) v (topics_discussed s)
    (pending_ticket_key s) (active_tickets s).

Definition set_topics (v : list string) (s : ConversationContext) :=
  mkContext (user_phone s) (user_name s) (conversation_id s) (state s)
    (started_at s) (last_activity s) (message_count s) (messages s)
    (is_vip s) (vip_tier s) (preferred_language s) v
    (pending_ticket_key s) (active_tickets s).

Definition set_pending_ticket_key (v : option string) (s : ConversationContext) :=
  mkContext (user_phone s) (user_name s) (conversation_id s) (state s)
    (started_at s) (last_activity s) (message_count s) (messages s)
    (is_vip s) (vip_tier s) (preferred_language s) (topics_discussed s)
    v (active_tickets s).

Definition set_active_tickets (v : list string) (s : ConversationContext) :=
  mkContext (user_phone s) (user_name s) (conversation_id s) (state s)
    (started_at s) (last_activity s) (message_count s) (messages s)
    (is_vip s) (vip_tier s) (preferred_language s) (topics_discussed s)
    (pending_ticket_key s) v.

(** The service object: its configuration, its sessions, and the log of
    the sessions handed to [_archive_session], oldest first. *)
Record Memory : Type := mkMemory {
  _sessions : gmap string ConversationContext;
  _max_history : Z;
  _session_timeout : Z;
  _last_cleanup : Z;
  archived : list ConversationContext
}.

Definition with_sessions (m : gmap string ConversationContext) (mem : Memory) :=
  mkMemory m (_max_history mem) (_session_timeout mem) (_last_cleanup mem)
    (archived mem).

(** [ConversationMemoryService(max_history_per_user, session_timeout_minutes)],
    built at instant [now]. *)
Definition init (max_history_per_user session_timeout_minutes now : Z) : Memory :=
  mkMemory ∅ max_history_per_user (minutes session_timeout_minutes) now [].

(** The global instance of the module. *)
Definition conversation_memory (now : Z) : Memory := init 50 30 now.

(** [session.last_activity] is older than the timeout at [now]. *)
Definition stale (mem : Memory) (now : Z) (s : ConversationContext) : Prop :=
  _session_timeout mem < now - last_activity s.

#[global] Instance stale_dec mem now s : Decision (stale mem now s) :=
  Z.lt_dec _ _.

Definition _archive_session (s : ConversationContext) (mem : Memory) : Memory :=
  mkMemory (_sessions mem) (_max_history mem) (_session_timeout mem)
    (_last_cleanup mem) (archived mem ++ [s]).

Definition _cleanup_expired_sessions (now : Z) (mem : Memory) : Memory :=
  let expired :=
    filter (fun kv : string * ConversationContext => stale mem now kv.2)
      (_sessions mem) in
  let kept :=
    filter (fun kv : string * ConversationContext => ~ stale mem now kv.2)
      (_sessions mem) in
  mkMemory kept (_max_history mem) (_session_timeout mem) now
    (archived mem ++ (map_to_list expired).*2).

Definition _create_new_session (now : Z) (phone name : string) (mem : Memory)
    : ConversationContext * Memory :=
  let session :=
    {| user_phone := phone; user_name := name;
       conversation_id := phone +:+ "_" +:+ Str.of_Z (epoch_seconds now);
       state := GREETING; started_at := now; last_activity := now;
       message_count := 0; messages := [];
       is_vip := false; vip_tier := None; preferred_language := "en";
       topics_discussed := []; pending_ticket_key := None;
       active_tickets := [] |} in
  (session, with_sessions (<[phone := session]> (_sessions mem)) mem).

Definition get_or_create_session (now : Z) (phone name : string) (mem : Memory)
    : ConversationContext * Memory :=
  let mem :=
    if bool_decide (seconds 300 < now - _last_cleanup mem)
    then _cleanup_expired_sessions now mem
    else mem in
  match _sessions mem !! phone with
  | Some session =>
      if bool_decide (stale mem now session)
      then _create_new_session now phone name (_archive_session session mem)
      else
        let session := set_last_activity now session in
        (session, with_sessions (<[phone := session]> (_sessions mem)) mem)
  | None => _create_new_session now phone name mem
  end.

Definition add_message (now : Z) (phone : string) (r : MessageRole)
    (text : string) (intent : option string)
    (meta : list (string * option string)) (mem : Memory)
    : ConversationMessage * Memory :=
  let '(session, mem) := get_or_create_session now phone "User" mem in
  let message := mkMessage r text now intent meta in
  let ms := messages session ++ [message] in
  let ms :=
    if bool_decide (_max_history mem < Z.of_nat (length ms))
    then slice_from (- _max_history mem) ms
    else ms in
  let session :=
    set_last_activity now (set_history (message_count session + 1) ms session) in
  (message, with_sessions (<[phone := session]> (_sessions mem)) mem).

Definition is_system (m : ConversationMessage) : bool :=
  match role m with SYSTEM => true | _ => false end.

(** [get_conversation_history(user_phone, limit, include_system)];
    a limit of [None] or [0] keeps everything. *)
Definition get_conversation_history (phone : string) (limit : option Z)
    (include_system : bool) (mem : Memory) : list ConversationMessage :=
  match _sessions mem !! phone with
  | None => []
  | Some session =>
      let ms := messages session in
      let ms := if include_system then ms
                else List.filter (fun m => negb (is_system m)) ms in
      match limit with
      | Some n => if n =? 0 then ms else slice_from (- n) ms
      | None => ms
      end
  end.

(** [get_recent_context]: the messages behind the dictionaries it builds;
    cutting each text to 200 characters is left to the reader of the list. *)
Definition get_recent_context (phone : string) (n : Z) (mem : Memory)
    : list ConversationMessage :=
  get_conversation_history phone (Some n) false mem.

Definition update_state (now : Z) (phone : string)
    (new_state : ConversationState) (mem : Memory) : Memory :=
  let '(session, mem) := get_or_create_session now phone "User" mem in
  let old_state := state session in
  let mem :=
    with_sessions (<[phone := set_state new_state session]> (_sessions mem)) mem in
  (add_message now phone SYSTEM
     ("State changed to " +:+ ConversationState_value new_state) None
     [("old_state", Some (ConversationState_value old_state));
      ("new_state", Some (ConversationState_value new_state))] mem).2.

Definition set_vip_status (now : Z) (phone : string) (vip : bool)
    (tier : option string) (mem : Memory) : Memory :=
  let '(session, mem) := get_or_create_session now phone "User" mem in
  with_sessions (<[phone := set_vip vip tier session]> (_sessions mem)) mem.

Definition add_topic (now : Z) (phone topic : string) (mem : Memory) : Memory :=
  let '(session, mem) := get_or_create_session now phone "User" mem in
  if bool_decide (topic ∈ topics_discussed session) then mem
  else with_sessions
         (<[phone := set_topics (topics_discussed session ++ [topic]) session]>
            (_sessions mem)) mem.

Definition set_pending_ticket (now : Z) (phone ticket_key : string)
    (mem : Memory) : Memory :=
  let '(session, mem) := get_or_create_session now phone "User" mem in
  let mem :=
    with_sessions
      (<[phone := set_pending_ticket_key (Some ticket_key) session]>
         (_sessions mem)) mem in
  if ConversationState_eqb (state session) SUPPORT_TICKET then mem
  else update_state now phone SUPPORT_TICKET mem.

Definition add_active_ticket (now : Z) (phone ticket_key : string)
    (mem : Memory) : Memory :=
  let '(session, mem) := get_or_create_session now phone "User" mem in
  if bool_decide (ticket_key ∈ active_tickets session) then mem
  else with_sessions
         (<[phone := set_active_tickets (active_tickets session ++ [ticket_key])
                       session]> (_sessions mem)) mem.

(** [update_preference]; of the preference fields only the language, the
    one the pipeline writes, is kept in the session. *)
Definition update_preference (now : Z) (phone key value : string)
    (mem : Memory) : Memory :=
  let '(session, mem) := get_or_create_session now phone "User" mem in
  if String.eqb key "preferred_language"
  then with_sessions
         (<[phone := set_preferred_language value session]> (_sessions mem)) mem
  else mem.

(** [end_session]: the session is marked closed, archived and dropped. *)
Definition end_session (phone : string) (mem : Memory) : Memory :=
  match _sessions mem !! phone with
  | Some session =>
      let session := set_state CLOSED session in
      let mem := _archive_session session mem in
      with_sessions (delete phone (_sessions mem)) mem
  | None => mem
  end.

Definition get_state (phone : string) (mem : Memory) : ConversationState :=
  match _sessions mem !! phone with
  | None => GREETING
  | Some session => state session
  end.

Definition has_discussed_topic (phone topic : string) (mem : Memory) : bool :=
  match _sessions mem !! phone with
  | None => false
  | Some session => bool_decide (topic ∈ topics_discussed session)
  end.

Definition force_cleanup (now : Z) (mem : Memory) : Memory :=
  _cleanup_expired_sessions now mem.

Definition get_active_session_count (mem : Memory) : nat :=
  size (_sessions mem).

Definition clear_session (phone : string) (mem : Memory) : Memory :=
  match _sessions mem !! phone with
  | Some session =>
      let mem := _archive_session session mem in
      with_sessions (delete phone (_sessions mem)) mem
  | None => mem
  end.

End ConversationMemory.

(** ** services/sentiment_service.py *)

Module Sentiment.

Definition _negative_keywords : list (string * Z) :=
  [("urgent", 3); ("critical", 3); ("emergency", 4); ("immediately", 3);
   ("asap", 2); ("frustrated", 3); ("angry", 3); ("disappointed", 2);
   ("unacceptable", 3); ("terrible", 3); ("worst", 3); ("broken", 2);
   ("not working", 2); ("failed", 2); ("issue", 1); ("problem", 1);
   ("bug", 1); ("error", 1); ("down", 2); ("crash", 2); ("losing", 3);
   ("lost", 3)].

Definition _positive_keywords : list (string * Z) :=
  [("thank", 1); ("thanks", 1); ("appreciate", 2); ("great", 2);
   ("excellent", 2); ("perfect", 2); ("resolved", 2); ("fixed", 2);
   ("working", 1); ("good", 1); ("helpful", 2)].

Definition _urgency_patterns : list Re.re :=
  [Re.seq [Re.lit "need"; Re.dots; Re.lit "immediately"];
   Re.seq [Re.lit "urgent"; Re.dots; Re.lit "help"];
   Re.lit "asap";
   Re.lit "right now";
   Re.lit "can't wait";
   Re.seq [Re.lit "losing"; Re.dots; Re.lit "money"];
   Re.seq [Re.lit "client"; Re.dots; Re.lit "waiting"];
   Re.seq [Re.lit "deal"; Re.dots; Re.lit "pending"];
   Re.seq [Re.lit "vip"; Re.dots; Re.lit "client"]].

Definition _frustration_window_minutes : Z := 30.

Record Entry : Type := mkEntry {
  e_timestamp : Z;
  e_sentiment : Q;
  e_urgency : Z
}.

(** [self._user_frustration_history] *)
Abbreviation History := (gmap string (list Entry)).

Inductive Label : Type := positive | neutral | negative.

Record Result : Type := mkResult {
  sentiment : Label;
  score : Q;                 (* before it is rounded to two decimals *)
  urgency : Z;
  escalate : bool;
  reason : string;
  negative_score : Z;
  positive_score : Z;
  pattern_matches : bool
}.

(** The weights of the keywords that occur in the message, added up. *)
Definition keyword_score (table : list (string * Z)) (message_lower : string) : Z :=
  fold_left
    (fun acc kw => if Str.contains kw.1 message_lower then acc + kw.2 else acc)
    table 0.

(** [(positive_score - negative_score) / total], or [0.0]. *)
Definition sentiment_score (pos neg : Z) : Q :=
  let total := neg + pos in
  if 0 <? total then Qmake (pos - neg) (Z.to_pos total) else 0%Q.

Definition Qltb (a b : Q) : bool := negb (Qle_bool b a).

Definition label (s : Q) : Label :=
  if Qltb (3 # 10) s then positive
  else if Qltb s (- (3 # 10)) then negative
  else neutral.

Definition is_negative (l : Label) : bool :=
  match l with negative => true | _ => false end.

Definition _calculate_urgency (message : string) : Z :=
  let urgency := Z.min (Z.of_nat (Str.count_char "!" message)) 3 in
  let words := Str.split message in
  let caps_words :=
    List.filter
      (fun w => Str.isupper w && (3 <? Str.len w)) words in
  let urgency := urgency + Z.min (Z.of_nat (length caps_words)) 2 in
  urgency + Z.min (Z.of_nat (Str.count_char "?" message)) 1.

Definition _update_frustration_history (now : Z) (phone : string)
    (sentiment_score : Q) (urgency : Z) (h : History) : History :=
  let entries := default [] (h !! phone) ++ [mkEntry now sentiment_score urgency] in
  let cutoff := now - minutes _frustration_window_minutes in
  <[phone := List.filter (fun e => cutoff <? e_timestamp e) entries]> h.

Definition _check_repeat_frustration (phone : string) (h : History) : bool :=
  let history := default [] (h !! phone) in
  if (length history <? 2)%nat then false
  else
    let recent := slice_from (-3) history in
    let negative_count :=
      length (List.filter (fun e => Qltb (e_sentiment e) (- (3 # 10))) recent) in
    (2 <=? negative_count)%nat.

(** [analyze_sentiment(message, user_phone)]; history is kept only for a
    phone that is given and not empty. *)
Definition analyze_sentiment (now : Z) (message : string)
    (phone : option string) (h : History) : Result * History :=
  let message_lower := Str.lower message in
  let neg := keyword_score _negative_keywords message_lower in
  let pos := keyword_score _positive_keywords message_lower in
  let sc := sentiment_score pos neg in
  let lab := label sc in
  let urgency := _calculate_urgency message_lower in
  let pattern_urgency :=
    2 * Z.of_nat (length (List.filter (fun p => Re.search p message_lower)
                            _urgency_patterns)) in
  let urgency := Z.min (urgency + pattern_urgency) 10 in
  let '(urgency, h) :=
    match phone with
    | Some (String c p) =>
        let h := _update_frustration_history now (String c p) sc urgency h in
        if _check_repeat_frustration (String c p) h
        then (Z.min (urgency + 3) 10, h)
        else (urgency, h)
    | _ => (urgency, h)
    end in
  let has w := Str.contains w message_lower in
  let should_escalate :=
    (7 <=? urgency) || (is_negative lab && (5 <=? urgency)) || has "vip"
    || (has "urgent" && has "client") in
  let escalation_reason :=
    if should_escalate then
      if 8 <=? urgency then "Critical urgency detected"
      else if has "vip" then "VIP client mention"
      else if is_negative lab && (5 <=? urgency)
           then "High negative sentiment with urgency"
           else "Escalation threshold met"
    else EmptyString in
  (mkResult lab sc urgency should_escalate escalation_reason neg pos
     (0 <? pattern_urgency), h).

End Sentiment.

(** ** Collaborators and the state of the process *)

Definition nl : string := String "010"%char EmptyString.

Inductive Language : Type := ENGLISH | ARABIC | MIXED.

Definition Language_value (l : Language) : string :=
  match l with ENGLISH => "en" | ARABIC => "ar" | MIXED => "mixed" end.

Definition is_arabic (l : Language) : bool :=
  match l with ARABIC => true | _ => false end.

(** What [jira_service.create_ticket] returns: success with the new key (the
    summary it echoes is the one it was given), or failure with a text. *)
Inductive CreateResult : Type :=
| Created (ticket_key : string)
| CreateFailed (error : option string).

Record TicketInfo : Type := mkTicketInfo {
  ti_key : string;
  ti_summary : string;
  ti_status : string
}.

Inductive StatusResult : Type :=
| StatusFound (summary status priority assignee url : string)
| StatusFailed (error : string).

Inductive ChangeResult : Type :=
| Changed
| ChangeFailed (error : option string).

(** The calls made to the issue tracker. *)
Inductive JiraCall : Type :=
| CreateTicket (summary description project_key : string) (priority : Priority)
| SearchTickets (phone : string) (limit : Z)
| GetTicketStatus (ticket_key : string)
| UpdateTicket (ticket_key comment : string) (priority : option Priority)
| CloseTicket (ticket_key : string)
| GetAllProjects.

(** The external services and settings the pipeline consumes.  The tracker
    may answer differently from one call to the next: its answers depend on the
    calls made so far. *)
Record Collaborators : Type := mkCollaborators {
  (* multilingual_service *)
  detect_language : string -> Language;
  translate : string -> Language -> string;
  get_smart_response : string -> string -> list (string * string) -> string;
  (* vip_detection_service, team_detection_service *)
  detect_vip : string -> string -> string -> bool * option string;
  detect_team : string -> string;
  (* openai_service *)
  classify_intent :
    string -> string -> string -> list ConversationMemory.ConversationMessage ->
    IntentClassification;
  generate_ticket_summary : string -> string -> string -> string -> string;
  generate_ticket_description : string -> string -> string -> string;
  (* jira_service *)
  jira_create_ticket :
    list JiraCall -> string -> string -> string -> Priority -> CreateResult;
  jira_search_tickets : list JiraCall -> string -> Z -> list TicketInfo;
  jira_get_ticket_status : list JiraCall -> string -> StatusResult;
  jira_update_ticket :
    list JiraCall -> string -> string -> option Priority -> ChangeResult;
  jira_close_ticket : list JiraCall -> string -> ChangeResult;
  (* settings *)
  JIRA_PROJECT_KEY : string;
  WHATSAPP_BUSINESS_EMAIL : string;
  WHATSAPP_BUSINESS_WEBSITE : string
}.

(** The mutable state of the process: the three service singletons, the
    messages handed to [gallabox_service.send_text_message] (recipient and
    text, oldest first) and the calls made to the tracker (oldest first). *)
Record World : Type := mkWorld {
  memory : ConversationMemory.Memory;
  pending_tickets : gmap string PendingTicket;
  frustration : Sentiment.History;
  sent : list (string * string);
  jira_calls : list JiraCall
}.

(** A computation that reads and updates the state. *)
Definition M (A : Type) : Type := World -> A * World.

#[global] Instance M_ret : MRet M := fun A (a : A) w => (a, w).

#[global] Instance M_bind : MBind M :=
  fun A B (f : A -> M B) (m : M A) w => let r := m w in f r.1 r.2.

Definition get_world : M World := fun w => (w, w).

(** Running an operation of one service on its part of the state. *)
Definition on_memory {A : Type}
    (f : ConversationMemory.Memory -> A * ConversationMemory.Memory) : M A :=
  fun w =>
    let r := f (memory w) in
    (r.1, mkWorld r.2 (pending_tickets w) (frustration w) (sent w) (jira_calls w)).

Definition update_memory
    (f : ConversationMemory.Memory -> ConversationMemory.Memory) : M unit :=
  on_memory (fun mem => (tt, f mem)).

Definition on_pending {A : Type}
    (f : gmap string PendingTicket -> A * gmap string PendingTicket) : M A :=
  fun w =>
    let r := f (pending_tickets w) in
    (r.1, mkWorld (memory w) r.2 (frustration w) (sent w) (jira_calls w)).

Definition on_frustration {A : Type}
    (f : Sentiment.History -> A * Sentiment.History) : M A :=
  fun w =>
    let r := f (frustration w) in
    (r.1, mkWorld (memory w) (pending_tickets w) r.2 (sent w) (jira_calls w)).

(** [await gallabox_service.send_text_message(to, message)] *)
Definition send_text_message (to message : string) : M unit :=
  fun w =>
    (tt, mkWorld (memory w) (pending_tickets w) (frustration w)
           (sent w ++ [(to, message)]) (jira_calls w)).

(** A call to the tracker: [answer] looks at the earlier calls, and the call
    is logged. *)
Definition jira {A : Type} (call : JiraCall) (answer : list JiraCall -> A) : M A :=
  fun w =>
    (answer (jira_calls w),
     mkWorld (memory w) (pending_tickets w) (frustration w) (sent w)
       (jira_calls w ++ [call])).

(** ** services/intent_service.py *)

(** The dictionary a handler returns; a key that is absent is [None]. *)
Module Response.

Record Preview : Type := mkPreview {
  p_summary : string;
  p_team : string;
  p_project_key : string;
  p_priority : string
}.

Record t : Type := mk {
  intent : option string;
  action : string;
  response_sent : option bool;
  ticket_key : option string;
  error : option (option string);
  reprocess : option bool;
  ticket_preview : option Preview
}.

(** [{"action": a, "response_sent": True}] *)
Definition sent_action (a : string) : t :=
  mk None a (Some true) None None None None.

(** [{"intent": i, "action": a, "response_sent": True}] *)
Definition sent_intent (i a : string) : t :=
  mk (Some i) a (Some true) None None None None.

(** [{"intent": i, "action": a, "ticket_key": k, "response_sent": True}] *)
Definition sent_ticket (i a k : string) : t :=
  mk (Some i) a (Some true) (Some k) None None None.

End Response.

Module IntentService.

Definition _technical_keywords : list string :=
  ["report"; "dashboard"; "data"; "analytics"; "kpi"; "metric";
   "ai report"; "campaign report"; "marketing report"; "analysis";
   "salesforce"; "crm"; "system"; "ticket"; "support"; "issue";
   "error"; "bug"; "not working"; "down"; "sync"; "login";
   "password"; "access"; "permission"; "laptop"; "keyboard";
   "website"; "api"; "database"; "server"; "deployment"].

Definition _real_estate_keywords : list string :=
  ["villa"; "apartment"; "penthouse"; "property"; "bedroom";
   "buy"; "sell"; "rent"; "lease"; "viewing"; "purchase"].

Definition problem_indicators : list string :=
  ["issue"; "problem"; "error"; "not working"; "broken";
   "down"; "failed"; "can't"; "unable"; "wrong";
   "need help"; "need support"; "not loading"; "stuck"].

Definition technical_patterns : list Re.re :=
  [Re.seq [Re.alts ["salesforce"; "crm"; "dashboard"]; Re.dots;
           Re.alts ["not"; "issue"; "error"; "problem"]];
   Re.seq [Re.alts ["laptop"; "keyboard"; "computer"]; Re.dots;
           Re.alts ["not working"; "broken"; "issue"]];
   Re.seq [Re.alts ["login"; "password"; "access"]; Re.dots;
           Re.alts ["issue"; "problem"; "expired"; "denied"]];
   Re.seq [Re.alts ["report"; "data"; "dashboard"]; Re.dots;
           Re.alts ["wrong"; "incorrect"; "missing"; "error"]];
   Re.seq [Re.alts ["website"; "api"; "system"]; Re.dots;
           Re.alts ["down"; "not loading"; "error"; "crashed"]]].

Definition _is_technical_query (message : string) : bool :=
  let message_lower := Str.lower message in
  let technical_count := Str.count_in _technical_keywords message_lower in
  let has_problem := Str.any_in problem_indicators message_lower in
  let matches_pattern :=
    existsb (fun p => Re.search p message_lower) technical_patterns in
  (2 <=? technical_count)%nat
  || ((1 <=? technical_count)%nat && has_problem)
  || matches_pattern.

Definition property_patterns : list Re.re :=
  [Re.seq [Re.alts ["buy"; "purchase"; "looking for"; "want"; "need"; "show me"];
           Re.plus Re.ws; Re.opt (Re.alts ["a"; "an"]); Re.Star Re.ws;
           Re.opt (Re.plus Re.digit); Re.Star Re.ws;
           Re.opt (Re.alts ["bedroom"; "bed"; "br"]); Re.Star Re.ws;
           Re.alts ["villa"; "apartment"; "property"; "penthouse"]];
   Re.seq [Re.alts ["buy"; "rent"; "lease"]; Re.plus Re.ws; Re.lit "property"];
   Re.seq [Re.alts ["villa"; "apartment"; "property"]; Re.dots;
           Re.alts ["for sale"; "for rent"; "available"]];
   Re.seq [Re.lit "view"; Re.opt (Re.lit "ing"); Re.plus Re.ws;
           Re.opt (Re.alts ["a"; "the"]); Re.Star Re.ws; Re.lit "property"];
   Re.seq [Re.alts ["2"; "3"; "4"; "5"]; Re.Star Re.ws;
           Re.alts ["bed"; "bedroom"; "br"]; Re.plus Re.ws;
           Re.alts ["villa"; "apartment"]];
   Re.seq [Re.lit "budget"; Re.dots;
           Re.alts ["villa"; "apartment"; "property"]]].

Definition _is_real_estate_query (message : string) : bool :=
  let message_lower := Str.lower message in
  if Str.any_in _technical_keywords message_lower then false
  else
    let matches_property_pattern :=
      existsb (fun p => Re.search p message_lower) property_patterns in
    let property_keyword_count :=
      Str.count_in _real_estate_keywords message_lower in
    matches_property_pattern || (3 <=? property_keyword_count)%nat.

(** The longest prefix of [l] made of characters in [p], and the rest. *)
Fixpoint span (p : Z -> bool) (l : list Z) : list Z * list Z :=
  match l with
  | [] => ([], [])
  | c :: l' =>
      if p c then let '(a, b) := span p l' in (c :: a, b)
      else ([], l)
  end.

(** What [[A-Z]] matches when the case is ignored: the ASCII letters and the
    four characters that have an ASCII letter as their other case (the
    dotted capital I, the dotless i, the long s and the Kelvin sign). *)
Definition key_letter (c : Z) : bool :=
  ((65 <=? c) && (c <=? 90)) || ((97 <=? c) && (c <=? 122))
  || (c =? 304) || (c =? 305) || (c =? 383) || (c =? 8490).

(** [str.upper] on the characters of a match: those letters, the hyphen
    and digits. *)
Definition key_upper (c : Z) : Z :=
  if (97 <=? c) && (c <=? 122) then c - 32
  else if c =? 305 then 73
  else if c =? 383 then 83
  else c.

(** A match of [[A-Z]{2,}-\d+\b] (case ignored) at the start of [l]: the
    runs of letters and of digits are taken whole, because a shorter run is
    followed by a letter or a digit and not by the hyphen or the word
    boundary. *)
Definition ticket_key_at (l : list Z) : option (list Z) :=
  let '(letters, rest) := span key_letter l in
  if (2 <=? length letters)%nat then
    match rest with
    | c :: rest =>
        if c =? 45 then
          let '(digits, rest) := span Unicode.is_decimal rest in
          if (1 <=? length digits)%nat then
            let found := letters ++ 45 :: digits in
            match rest with
            | [] => Some found
            | c :: _ => if Unicode.is_word c then None else Some found
            end
          else None
        else None
    | [] => None
    end
  else None.

(** The leftmost match of the pattern of a ticket number; [after_word]
    tells whether the character before [l] is a word character. *)
Fixpoint search_ticket_key (after_word : bool) (l : list Z) : option (list Z) :=
  match l with
  | [] => None
  | c :: l' =>
      match (if after_word then None else ticket_key_at l) with
      | Some k => Some k
      | None => search_ticket_key (Unicode.is_word c) l'
      end
  end.

(** [re.search(r'\b([A-Z]{2,}-\d+)\b', text, re.IGNORECASE)], then
    [match.group(1).upper()]. *)
Definition find_ticket_key (text : string) : option string :=
  match Unicode.decode text with
  | Some l =>
      (fun k => Unicode.encode (key_upper <$> k)) <$> search_ticket_key false l
  | None => None
  end.

(** [ticket_key = intent_result.ticket_key], or the one in the text. *)
Definition resolve_ticket_key (given : option string) (text : string)
    : option string :=
  if truthy given then given
  else match find_ticket_key text with
       | Some k => Some k
       | None => given
       end.

(** The keyword lists of [_handle_confirmation]. *)
Definition new_issue_keywords : list string :=
  ["salesforce"; "dashboard"; "login"; "password"; "website";
   "laptop"; "keyboard"; "error"; "not working"; "down";
   "report"; "data"; "sync"; "campaign"; "urgent"; "api";
   "crm"; "system"; "database"; "server"; "access"].

Definition confirm_keywords : list string :=
  ["yes"; "confirm"; "create"; "ok"; "sure"; "proceed";
   "correct"; "right"; "good"; "yeah"; "yep"; "y";
   "نعم"; "موافق"; "تمام"].

Definition cancel_keywords : list string :=
  ["cancel"; "no"; "stop"; "لا"; "إلغاء"].

(** The three signals the handler computes from the message. *)
Definition issue_keyword_count (message_text : string) : nat :=
  Str.count_in new_issue_keywords (Text.strip (Str.lower message_text)).

Definition is_confirmation (message_text : string) : bool :=
  Str.any_in confirm_keywords (Text.strip (Str.lower message_text)).

Definition is_cancellation (message_text : string) : bool :=
  Str.any_in cancel_keywords (Text.strip (Str.lower message_text)).

(** The test of the new-issue branch. *)
Definition is_override (message_text : string) : bool :=
  (2 <=? issue_keyword_count message_text)%nat
  && negb (is_confirmation message_text)
  && negb (is_cancellation message_text).

Section Handlers.

Context (env : Collaborators).

Definition _handle_create_ticket (now : Z) (phone name message_text : string)
    (intent_result : option IntentClassification) (lang : Language)
    : M Response.t :=
  update_memory
    (ConversationMemory.update_state now phone ConversationMemory.SUPPORT_TICKET);;
  let team_name := detect_team env message_text in
  let project_key := JIRA_PROJECT_KEY env in
  (* [project_name]: the tracker is asked for its projects; the name found
     is not used afterwards *)
  jira GetAllProjects (fun _ => tt);;
  let summary := generate_ticket_summary env message_text name team_name phone in
  let description := generate_ticket_description env message_text name phone in
  let priority :=
    match intent_result with
    | Some ir => default MEDIUM (ic_priority ir)
    | None => MEDIUM
    end in
  session ← on_memory (ConversationMemory.get_or_create_session now phone name);
  let priority := if ConversationMemory.is_vip session then HIGH else priority in
  let pending_ticket :=
    {| user_phone := phone; user_name := name; summary := summary;
       description := description; team := team_name;
       project_key := project_key; priority := priority;
       attachments := []; timestamp := now;
       awaiting_confirmation := true |} in
  on_pending
    (fun st => (tt, ResponseService.store_pending_ticket phone pending_ticket st));;
  update_memory
    (ConversationMemory.set_pending_ticket now phone ("PENDING_" +:+ project_key));;
  let confirmation_message :=
    get_smart_response env "confirm_ticket" message_text
      [("summary", summary); ("team", team_name);
       ("priority", Priority_value priority)] in
  send_text_message phone confirmation_message;;
  on_memory
    (ConversationMemory.add_message now phone ConversationMemory.AGENT
       confirmation_message (Some "ticket_preview") []);;
  mret (Response.mk (Some "create_ticket") "awaiting_confirmation" (Some true)
          None None None
          (Some (Response.mkPreview summary team_name project_key
                   (Priority_value priority)))).

Definition _handle_confirmation (now : Z) (phone name message_text : string)
    (pending : PendingTicket) (lang : Language) : M Response.t :=
  if is_override message_text then
    on_pending (ResponseService.clear_pending_ticket phone);;
    let ack_msg :=
      if is_arabic lang then "حسناً! دعني أساعدك في هذه المشكلة الجديدة."
      else "Got it! Let me help with this new issue." in
    send_text_message phone ack_msg;;
    mret (Response.mk None "new_issue_detected" (Some true) None None
            (Some true) None)
  else if is_confirmation message_text then
    result ← jira
      (CreateTicket (summary pending) (description pending)
         (project_key pending) (priority pending))
      (fun earlier =>
         jira_create_ticket env earlier (summary pending) (description pending)
           (project_key pending) (priority pending));
    match result with
    | Created key =>
        update_memory (ConversationMemory.add_active_ticket now phone key);;
        let success_msg :=
          get_smart_response env "ticket_created" message_text
            [("ticket_key", key); ("summary", summary pending)] in
        send_text_message phone success_msg;;
        on_memory
          (ConversationMemory.add_message now phone ConversationMemory.AGENT
             success_msg (Some "ticket_created") []);;
        on_pending (ResponseService.clear_pending_ticket phone);;
        mret (Response.mk (Some "create_ticket") "created" (Some true)
                (Some key) None None None)
    | CreateFailed err =>
        let error_msg := get_smart_response env "error" message_text [] in
        send_text_message phone error_msg;;
        mret (Response.mk None "failed" None None (Some err) None None)
    end
  else if is_cancellation message_text then
    on_pending (ResponseService.clear_pending_ticket phone);;
    let cancel_msg :=
      if is_arabic lang then "تم إلغاء إنشاء التذكرة. كيف يمكنني مساعدتك؟"
      else "Ticket creation cancelled. How else can I help you?" in
    send_text_message phone cancel_msg;;
    mret (Response.sent_action "cancelled")
  else
    let pending :=
      add_description
        (nl +:+ nl +:+ "*Additional Information:*" +:+ nl +:+ message_text)
        pending in
    on_pending
      (fun st => (tt, ResponseService.store_pending_ticket phone pending st));;
    let updated_msg :=
      get_smart_response env "confirm_ticket" message_text
        [("summary", summary pending); ("team", team pending);
         ("priority", Priority_value (priority pending))] in
    send_text_message phone updated_msg;;
    mret (Response.sent_action "updated_preview").

(** The list of recent tickets sent by [_handle_check_status]. *)
Definition recent_tickets_message (tickets : list TicketInfo) : string :=
  fold_left
    (fun message t =>
       let status_emoji :=
         if bool_decide (ti_status t ∈ ["Done"; "Closed"]) then "✅" else "🔄" in
       message +:+ status_emoji +:+ " *" +:+ ti_key t +:+ "*" +:+ nl
         +:+ ti_summary t +:+ nl +:+ "_Status: " +:+ ti_status t +:+ "_"
         +:+ nl +:+ nl)
    tickets ("📋 *Your Recent Tickets:*" +:+ nl +:+ nl)
  +:+ "Reply with the ticket number (e.g., SUP-123) to see details.".

Definition _handle_check_status (now : Z) (phone name message_text : string)
    (intent_result : IntentClassification) (lang : Language) : M Response.t :=
  let ticket_key := resolve_ticket_key (ic_ticket_key intent_result) message_text in
  if negb (truthy ticket_key) then
    tickets ← jira (SearchTickets phone 5)
                (fun earlier => jira_search_tickets env earlier phone 5);
    match tickets with
    | _ :: _ =>
        let message := recent_tickets_message tickets in
        let message :=
          if is_arabic lang then translate env message ARABIC else message in
        send_text_message phone message
    | [] =>
        let no_tickets_msg :=
          if is_arabic lang then "لم أجد أي تذاكر مرتبطة برقمك."
          else "I couldn't find any tickets associated with your number." in
        send_text_message phone no_tickets_msg
    end;;
    mret (Response.sent_action "requested_ticket_key")
  else
    let key := default EmptyString ticket_key in
    ticket_data ← jira (GetTicketStatus key)
                    (fun earlier => jira_get_ticket_status env earlier key);
    match ticket_data with
    | StatusFound smry status prio assignee url =>
        let status_msg :=
          get_smart_response env "ticket_status" message_text
            [("ticket_key", key); ("summary", smry); ("status", status);
             ("priority", prio); ("assignee", assignee); ("url", url)] in
        send_text_message phone status_msg;;
        mret (Response.sent_ticket "check_status" "status_sent" key)
    | StatusFailed err =>
        send_text_message phone ("❌ " +:+ err);;
        mret (Response.sent_action "ticket_not_found")
    end.

(** How [f"{result.get('error')}"] prints an absent error. *)
Definition show_error (err : option string) : string := default "None" err.

Definition _handle_update_ticket (now : Z) (phone name message_text : string)
    (intent_result : IntentClassification) (lang : Language) : M Response.t :=
  let ticket_key := resolve_ticket_key (ic_ticket_key intent_result) message_text in
  if negb (truthy ticket_key) then
    let msg :=
      if is_arabic lang
      then "يرجى تقديم رقم التذكرة التي ترغب في تحديثها (مثال: SUP-123)."
      else "Please provide the ticket number you'd like to update (e.g., SUP-123)." in
    send_text_message phone msg;;
    mret (Response.sent_action "requested_ticket_key")
  else
    let key := default EmptyString ticket_key in
    let comment :=
      "*Comment from user via WhatsApp:*" +:+ nl +:+ message_text +:+ nl +:+ nl
        +:+ "_Added by: " +:+ name +:+ " (" +:+ phone +:+ ")_" in
    result ← jira (UpdateTicket key comment (ic_priority intent_result))
               (fun earlier =>
                  jira_update_ticket env earlier key comment
                    (ic_priority intent_result));
    match result with
    | Changed =>
        let success_msg :=
          if is_arabic lang
          then "✅ تم تحديث التذكرة *" +:+ key +:+ "* بتعليقك."
          else "✅ Ticket *" +:+ key +:+ "* has been updated with your comment." in
        send_text_message phone success_msg;;
        mret (Response.sent_ticket "update_ticket" "updated" key)
    | ChangeFailed err =>
        send_text_message phone
          ("❌ Failed to update ticket: " +:+ show_error err);;
        mret (Response.sent_ticket "update_ticket" "failed" key)
    end.

Definition _handle_close_ticket (now : Z) (phone name message_text : string)
    (intent_result : IntentClassification) (lang : Language) : M Response.t :=
  let ticket_key := resolve_ticket_key (ic_ticket_key intent_result) message_text in
  if negb (truthy ticket_key) then
    let msg :=
      if is_arabic lang
      then "أي تذكرة ترغب في إغلاقها؟ يرجى تقديم رقم التذكرة."
      else "Which ticket would you like to close? Please provide the ticket number." in
    send_text_message phone msg;;
    mret (Response.sent_action "requested_ticket_key")
  else
    let key := default EmptyString ticket_key in
    result ← jira (CloseTicket key)
               (fun earlier => jira_close_ticket env earlier key);
    match result with
    | Changed =>
        let success_msg :=
          if is_arabic lang
          then "✅ تم إغلاق التذكرة *" +:+ key +:+ "*." +:+ nl +:+ nl
                 +:+ "شكراً لك على التأكيد!"
          else "✅ Ticket *" +:+ key +:+ "* has been closed." +:+ nl +:+ nl
                 +:+ "Thank you for confirming!" in
        send_text_message phone success_msg;;
        mret (Response.sent_ticket "close_ticket" "closed" key)
    | ChangeFailed err =>
        send_text_message phone
          ("❌ Failed to close ticket: " +:+ show_error err);;
        mret (Response.sent_ticket "close_ticket" "failed" key)
    end.

(** The redirection to the sales team, shared by the two property
    handlers and by step 7 of [process_message]. *)
Definition property_redirect (name user_message : string) : string :=
  get_smart_response env "property_redirect" user_message
    [("name", name); ("email", WHATSAPP_BUSINESS_EMAIL env);
     ("website", WHATSAPP_BUSINESS_WEBSITE env)].

Definition _handle_property_inquiry (now : Z) (phone name message_text : string)
    (intent_result : IntentClassification) (lang : Language) : M Response.t :=
  send_text_message phone (property_redirect name message_text);;
  mret (Response.sent_intent "property_inquiry" "redirected_to_sales").

Definition _handle_schedule_viewing (now : Z) (phone name message_text : string)
    (intent_result : IntentClassification) (lang : Language) : M Response.t :=
  send_text_message phone (property_redirect name message_text);;
  mret (Response.sent_intent "schedule_viewing" "redirected_to_sales").

Definition greeting (name : string) (lang : Language) : string :=
  if is_arabic lang then
    "مرحباً " +:+ name +:+ "! 👋" +:+ nl +:+ nl
      +:+ "أنا مساعد دعم Jira. يمكنني مساعدتك في:" +:+ nl
      +:+ "• إنشاء تذاكر الدعم" +:+ nl
      +:+ "• التحقق من حالة التذكرة" +:+ nl
      +:+ "• تحديث التذاكر الموجودة" +:+ nl +:+ nl
      +:+ "كيف يمكنني مساعدتك اليوم؟"
  else
    "Hello " +:+ name +:+ "! 👋" +:+ nl +:+ nl
      +:+ "I'm your Jira Support Assistant. I can help you with:" +:+ nl
      +:+ "• Create support tickets" +:+ nl
      +:+ "• Check ticket status  " +:+ nl
      +:+ "• Update existing tickets" +:+ nl +:+ nl
      +:+ "What can I help you with today?".

Definition _handle_general_inquiry (now : Z) (phone name message_text : string)
    (intent_result : IntentClassification) (lang : Language) : M Response.t :=
  send_text_message phone (greeting name lang);;
  on_memory
    (ConversationMemory.add_message now phone ConversationMemory.AGENT
       (greeting name lang) (Some "general_response") []);;
  mret (Response.sent_intent "general_inquiry" "responded").

(** [_route_intent]: the table of handlers has an entry for every intent. *)
Definition _route_intent (now : Z) (phone name message_text : string)
    (intent_result : IntentClassification) (lang : Language) : M Response.t :=
  let handler :=
    match ic_intent intent_result with
    | CREATE_TICKET =>
        fun now phone name text ir lang =>
          _handle_create_ticket now phone name text (Some ir) lang
    | CHECK_STATUS => _handle_check_status
    | UPDATE_TICKET => _handle_update_ticket
    | CLOSE_TICKET => _handle_close_ticket
    | PROPERTY_INQUIRY => _handle_property_inquiry
    | SCHEDULE_VIEWING => _handle_schedule_viewing
    | GENERAL_INQUIRY => _handle_general_inquiry
    end in
  handler now phone name message_text intent_result lang.

(** Steps 6 to 9 of [process_message]: what runs when no pending ticket
    ended the call.  [original_message] is the text before translation. *)
Definition classify_and_route (now : Z)
    (phone name original_message message_text : string) (lang : Language)
    : M Response.t :=
  if _is_technical_query message_text then
    _handle_create_ticket now phone name message_text None lang
  else if _is_real_estate_query message_text then
    let response := property_redirect name original_message in
    send_text_message phone response;;
    on_memory
      (ConversationMemory.add_message now phone ConversationMemory.AGENT
         response (Some "property_redirect") []);;
    mret (Response.sent_intent "property_inquiry" "redirected_to_sales")
  else
    w ← get_world;
    let conversation_history :=
      ConversationMemory.get_recent_context phone 5 (memory w) in
    let intent_result :=
      classify_intent env message_text name phone conversation_history in
    update_memory
      (ConversationMemory.add_topic now phone
         (IntentType_value (ic_intent intent_result)));;
    _route_intent now phone name message_text intent_result lang.

(** [process_message(user_phone, user_name, message_text)] at instant [now]. *)
Definition process_message (now : Z) (phone name message_text : string)
    : M Response.t :=
  let detected_language := detect_language env message_text in
  let original_message := message_text in
  let message_text :=
    if is_arabic detected_language
    then translate env message_text ENGLISH
    else message_text in
  on_memory (ConversationMemory.get_or_create_session now phone name);;
  update_memory
    (ConversationMemory.update_preference now phone "preferred_language"
       (Language_value detected_language));;
  on_memory
    (ConversationMemory.add_message now phone ConversationMemory.USER
       original_message None
       [("translated",
         if is_arabic detected_language then Some message_text else None)]);;
  on_frustration (Sentiment.analyze_sentiment now message_text (Some phone));;
  let vip_result := detect_vip env message_text phone name in
  (if vip_result.1
   then update_memory
          (ConversationMemory.set_vip_status now phone true vip_result.2)
   else mret tt);;
  pending ← on_pending (ResponseService.get_pending_ticket now phone);
  match pending with
  | Some ticket =>
      if awaiting_confirmation ticket then
        result ← _handle_confirmation now phone name message_text ticket
                   detected_language;
        if String.eqb (Response.action result) "new_issue_detected"
        then classify_and_route now phone name original_message message_text
               detected_language
        else mret result
      else classify_and_route now phone name original_message message_text
             detected_language
  | None => classify_and_route now phone name original_message message_text
              detected_language
  end.

End Handlers.

End IntentService.

(** ** services/multilingual.py *)

Module Multilingual.

(** [TranslationCache]: an [OrderedDict], oldest entry first. *)
Module TranslationCache.

Record t : Type := mk {
  _cache : list (string * string);
  _max_size : Z
}.

Definition init (max_size : Z) : t := mk [] max_size.

Definition _generate_key (text source target : string) : string :=
  source +:+ ":" +:+ target +:+ ":" +:+ Text.take 100 text.

(** [d[key]], [del d[key]] and [d[key] = value] on an ordered dictionary:
    a key that is present keeps its place when its value is assigned. *)
Fixpoint lookup (key : string) (d : list (string * string)) : option string :=
  match d with
  | [] => None
  | (k, v) :: d' => if String.eqb k key then Some v else lookup key d'
  end.

Definition remove (key : string) (d : list (string * string))
    : list (string * string) :=
  List.filter (fun kv => negb (String.eqb kv.1 key)) d.

Definition assign (key value : string) (d : list (string * string))
    : list (string * string) :=
  match lookup key d with
  | Some _ => map (fun kv => if String.eqb kv.1 key then (key, value) else kv) d
  | None => d ++ [(key, value)]
  end.

(** [get]: a hit moves the entry to the end. *)
Definition get (text source target : string) (c : t) : option string * t :=
  let key := _generate_key text source target in
  match lookup key (_cache c) with
  | Some v => (Some v, mk (remove key (_cache c) ++ [(key, v)]) (_max_size c))
  | None => (None, c)
  end.

(** [set]; [None] stands for the [KeyError] of [popitem] on an empty
    dictionary. *)
Definition set (text source target translation : string) (c : t) : option t :=
  let key := _generate_key text source target in
  cache ← (if bool_decide (_max_size c <= Z.of_nat (List.length (_cache c)))
           then match _cache c with
                | [] => None
                | _ :: rest => Some rest
                end
           else Some (_cache c));
  Some (mk (assign key translation cache) (_max_size c)).

End TranslationCache.

Definition _arabish_patterns : list (string * string) :=
  [("marhaba", "مرحبا"); ("shukran", "شكراً"); ("afwan", "عفواً");
   ("na3am", "نعم"); ("la", "لا"); ("3akar", "عقار"); ("villa", "فيلا");
   ("sha2a", "شقة"); ("ghorfa", "غرفة"); ("si3r", "سعر");
   ("maw2i3", "موقع"); ("dubai", "دبي")].

(** The characters U+0600 to U+06FF are those whose first byte is D8 to
    DB. *)
Definition arabic_chars (text : string) : Z :=
  Z.of_nat (Text.count (Str.between 216 219) text).

Definition total_chars (text : string) : Z :=
  Z.of_nat (Text.length (Text.without " " text)).

(** [detect_language(text)]: the language and the confidence.  The ratio and
    the confidence are floats in the source and exact fractions here; the
    comparisons with 0.3 and 0.5 come out the same for a text of fewer than
    10^15 characters. *)
Definition detect_language (text : string) : Language * Q :=
  if Text.blank text then (ENGLISH, 1 # 2)
  else
    if total_chars text =? 0 then (ENGLISH, 1 # 2)
    else
      let arabic_ratio := Qmake (arabic_chars text) (Z.to_pos (total_chars text)) in
      if Sentiment.Qltb (3 # 10) arabic_ratio then
        let confidence :=
          if Sentiment.Qltb 1 (arabic_ratio * (3 # 2)) then 1%Q
          else (arabic_ratio * (3 # 2))%Q in
        (ARABIC, confidence)
      else
        let text_lower := Str.lower text in
        let arabish_matches :=
          Str.count_in (map fst _arabish_patterns) text_lower in
        if (2 <=? arabish_matches)%nat then (MIXED, 7 # 10)
        else if Str.any_in ["3akar"; "sha2a"; "ghorfa"] text_lower
             then (MIXED, 6 # 10)
             else (ENGLISH, 8 # 10).

(** [is_arabic(text)] *)
Definition is_arabic (text : string) : bool :=
  let '(lang, confidence) := detect_language text in
  is_arabic lang && Sentiment.Qltb (1 # 2) confidence.

End Multilingual.

(** ** controllers/chatbot_controller.py

    The time of [datetime.now().timestamp()] is, like every instant here, a
    number of microseconds; a number of seconds of the source is converted
    with [seconds]. *)

Module Controller.

Definition WEBHOOK_DUPLICATE_WINDOW : Z := 300.

Definition VALID_MESSAGE_TYPES : list string :=
  ["text"; "image"; "document"; "audio"; "video"].

Definition MAX_WEBHOOK_TRACKER_SIZE : Z := 10000.

Module WebhookTracker.

Record t : Type := mk {
  _tracker : gmap string Z;
  _window : Z;
  _last_cleanup : Z
}.

Definition init (window_seconds now : Z) : t := mk ∅ window_seconds now.

(** [_cleanup(current_time)] *)
Definition _cleanup (current_time : Z) (tr : t) : t :=
  let cutoff := current_time - seconds (_window tr) in
  mk (filter (fun kv => cutoff < kv.2) (_tracker tr)) (_window tr) current_time.

(** [is_duplicate(message_id)]: the answer and the tracker afterwards. *)
Definition is_duplicate (now : Z) (message_id : string) (tr : t) : bool * t :=
  let tr :=
    if bool_decide (seconds 60 < now - _last_cleanup tr)
    then _cleanup now tr else tr in
  match _tracker tr !! message_id with
  | Some _ => (true, tr)
  | None =>
      let tr :=
        if bool_decide (MAX_WEBHOOK_TRACKER_SIZE < Z.of_nat (size (_tracker tr)))
        then _cleanup now tr else tr in
      (false,
       mk (<[message_id := now]> (_tracker tr)) (_window tr) (_last_cleanup tr))
  end.

Definition size (tr : t) : nat := base.size (_tracker tr).

Definition clear (tr : t) : t := mk ∅ (_window tr) (_last_cleanup tr).

End WebhookTracker.

(** The body of a delivery, as the provider sends it: a JSON object whose
    fields, where present, are strings.  [media_link] and [media_caption] are
    the fields [link] and [caption] of the entry of [whatsapp] that is named
    after the type of the message. *)
Record Payload : Type := mkPayload {
  whatsapp_messageId : option string;
  data_id : option string;
  whatsapp_type : option string;
  whatsapp_status : option string;
  whatsapp_from : option string;
  contact_name : option string;
  text_body : option string;
  media_link : option string;
  media_caption : option string
}.

(** The dictionary [receive_webhook] returns; an absent key is [None]. *)
Record Reply : Type := mkReply {
  status : string;
  message : option string;
  messageId : option string
}.

(** The state the controller works on: its tracker and the services. *)
Record Server : Type := mkServer {
  webhook_tracker : WebhookTracker.t;
  world : World
}.

(** [message_type in VALID_MESSAGE_TYPES] *)
Definition is_valid_type (message_type : option string) : bool :=
  match message_type with
  | Some ty => bool_decide (ty ∈ VALID_MESSAGE_TYPES)
  | None => false
  end.

Definition unsupported_notice : string :=
  "Sorry, this message type is not supported. Please send text or file messages.".

Section Webhook.

Variable env : Collaborators.

(** The identifier given to a delivery that brings none: ["msg-"] and the
    milliseconds of the clock, which the source computes in floating point. *)
Variable clock_id : Z -> string.

(** [_handle_text_message]; the identifier is only printed. *)
Definition _handle_text_message (now : Z) (data : Payload)
    (sender user_name : string) : M unit :=
  let text := Text.strip (default "" (text_body data)) in
  if truthy (Some text) then
    _ ← IntentService.process_message env now sender user_name text;
    mret tt
  else mret tt.

(** [_handle_file_message] *)
Definition _handle_file_message (now : Z) (data : Payload)
    (sender user_name message_type : string) : M unit :=
  let link := media_link data in
  let caption := default "" (media_caption data) in
  if negb (truthy link) then
    send_text_message sender
      ("Sorry, couldn't access the " +:+ message_type +:+ ". Please try again.")
  else
    let message := "📎 I received your " +:+ message_type +:+ "." in
    if truthy (Some caption) then
      let message := message +:+ nl +:+ nl +:+ "You wrote: " +:+ caption in
      _ ← IntentService.process_message env now sender user_name caption;
      mret tt
    else
      let message :=
        message +:+ nl +:+ nl +:+ "Please describe the issue you're facing." in
      send_text_message sender message.

(** The identifier of a delivery: [whatsapp.messageId or id or "msg-..."]. *)
Definition message_id_of (now : Z) (data : Payload) : string :=
  if truthy (whatsapp_messageId data) then default "" (whatsapp_messageId data)
  else if truthy (data_id data) then default "" (data_id data)
  else clock_id now.

(** [receive_webhook] *)
Definition receive_webhook (now : Z) (data : Payload) (sv : Server)
    : Reply * Server :=
  let message_id := message_id_of now data in
  let message_type := whatsapp_type data in
  let sender := whatsapp_from data in
  let user_name := default "User" (contact_name data) in
  let d := WebhookTracker.is_duplicate now message_id (webhook_tracker sv) in
  let sv := mkServer d.2 (world sv) in
  if d.1 then (mkReply "duplicate_blocked" None None, sv)
  else if negb (bool_decide (whatsapp_status data = Some "received")) then
    (mkReply "ignored_status" None None, sv)
  else if negb (truthy sender) then
    (mkReply "error" (Some "Missing sender") None, sv)
  else
    let sender := default "" sender in
    if negb (is_valid_type message_type) then
      (mkReply "unsupported_type" None None,
       mkServer (webhook_tracker sv)
         (send_text_message sender unsupported_notice (world sv)).2)
    else
      let message_type := default "" message_type in
      let handled :=
        if bool_decide (message_type = "text")
        then _handle_text_message now data sender user_name
        else _handle_file_message now data sender user_name message_type in
      (mkReply "processed" None (Some message_id),
       mkServer (webhook_tracker sv) (handled (world sv)).2).

End Webhook.

End Controller.

(** ** services/gallabox_service.py: the circuit breaker and the rate limits *)

Module Gallabox.

Record t : Type := mk {
  _failure_count : Z;
  _circuit_open : bool;
  _last_failure_time : option Z;
  _max_failures : Z;
  _circuit_timeout : Z;
  _user_message_times : gmap string (list Z);
  _rate_limit_window : Z;
  _rate_limit_max : Z;
  _global_message_times : list Z;
  _global_rate_limit : Z
}.

(** The values [__init__] gives. *)
Definition init : t := mk 0 false None 5 60 ∅ 60 10 [] 50.

Definition with_breaker (count : Z) (open : bool) (last : option Z) (g : t) : t :=
  mk count open last (_max_failures g) (_circuit_timeout g)
    (_user_message_times g) (_rate_limit_window g) (_rate_limit_max g)
    (_global_message_times g) (_global_rate_limit g).

Definition with_user_times (m : gmap string (list Z)) (g : t) : t :=
  mk (_failure_count g) (_circuit_open g) (_last_failure_time g)
    (_max_failures g) (_circuit_timeout g)
    m (_rate_limit_window g) (_rate_limit_max g)
    (_global_message_times g) (_global_rate_limit g).

Definition with_global_times (l : list Z) (g : t) : t :=
  mk (_failure_count g) (_circuit_open g) (_last_failure_time g)
    (_max_failures g) (_circuit_timeout g)
    (_user_message_times g) (_rate_limit_window g) (_rate_limit_max g)
    l (_global_rate_limit g).

(** [timedelta.seconds]: the seconds of a duration within its day, the days
    and the microseconds left aside. *)
Definition timedelta_seconds (d : Z) : Z := (d mod seconds 86400) / seconds 1.

(** [_check_circuit_breaker] *)
Definition _check_circuit_breaker (now : Z) (g : t) : bool * t :=
  if negb (_circuit_open g) then (true, g)
  else
    match _last_failure_time g with
    | Some last =>
        let elapsed := timedelta_seconds (now - last) in
        if bool_decide (_circuit_timeout g < elapsed)
        then (true, with_breaker 0 false (_last_failure_time g) g)
        else (false, g)
    | None => (false, g)
    end.

(** [_record_failure] *)
Definition _record_failure (now : Z) (g : t) : t :=
  let count := _failure_count g + 1 in
  if bool_decide (_max_failures g <= count)
  then with_breaker count true (Some now) g
  else with_breaker count (_circuit_open g) (_last_failure_time g) g.

(** [_record_success] *)
Definition _record_success (g : t) : t :=
  if bool_decide (0 < _failure_count g)
  then with_breaker (Z.max 0 (_failure_count g - 1)) (_circuit_open g)
         (_last_failure_time g) g
  else g.

(** [reset_circuit_breaker] *)
Definition reset_circuit_breaker (g : t) : t := with_breaker 0 false None g.

(** [t.timestamp()]: the seconds since the epoch as a float, the whole
    seconds plus the microseconds divided by [1e6]. *)
Definition float_of (n : Z) : PrimFloat.float :=
  PrimFloat.of_uint63 (Uint63.of_Z n).

Definition timestamp_seconds (t : Z) : PrimFloat.float :=
  PrimFloat.add (float_of (t / 1000000))
    (PrimFloat.div (float_of (t mod 1000000)) (float_of 1000000)).

(** [now - first > window], on the floats of the two instants. *)
Definition is_old (now window first : Z) : bool :=
  PrimFloat.ltb (float_of window)
    (PrimFloat.sub (timestamp_seconds now) (timestamp_seconds first)).

(** [while times and now - times[0] > window: times.popleft()].  The deque
    holds the float seconds of instants; here it holds the instants, and their
    floats are taken where the code computes with them. *)
Fixpoint drop_old (now window : Z) (times : list Z) : list Z :=
  match times with
  | first :: rest =>
      if is_old now window first then drop_old now window rest else times
  | [] => []
  end.

(** [append] on a [deque] of bounded length: when the deque is full, the
    oldest element makes room. *)
Definition append_bounded (maxlen : nat) (x : Z) (times : list Z) : list Z :=
  if (maxlen <=? length times)%nat then tail times ++ [x] else times ++ [x].

(** [_check_user_rate_limit(phone)]; reading the [defaultdict] files an
    empty deque under a number not yet seen. *)
Definition _check_user_rate_limit (now : Z) (phone : string) (g : t) : bool * t :=
  let user_times := default [] (_user_message_times g !! phone) in
  let user_times := drop_old now (_rate_limit_window g) user_times in
  if bool_decide (_rate_limit_max g <= Z.of_nat (length user_times))
  then (false, with_user_times (<[phone := user_times]> (_user_message_times g)) g)
  else
    (true,
     with_user_times
       (<[phone := append_bounded 20 now user_times]> (_user_message_times g)) g).

(** [_check_global_rate_limit] *)
Definition _check_global_rate_limit (now : Z) (g : t) : bool * t :=
  let times := drop_old now 60 (_global_message_times g) in
  if bool_decide (_global_rate_limit g <= Z.of_nat (length times))
  then (false, with_global_times times g)
  else (true, with_global_times (append_bounded 100 now times) g).

End Gallabox.

(** ** services/jira_service.py: the issue type and the priority of a new
    ticket *)

Module Jira.

(** [_get_valid_issue_type], given the issue types the project offers. *)
Definition _get_valid_issue_type (available_types : list string)
    (requested_type : string) : string :=
  if bool_decide (requested_type ∈ available_types) then requested_type
  else
    match List.find (fun alt_type => bool_decide (alt_type ∈ available_types))
            ["Task"; "Bug"; "Story"; "Epic"] with
    | Some alt_type => alt_type
    | None =>
        match available_types with
        | first :: _ => first
        | [] => "Task"
        end
    end.

Definition priority_mapping : list (string * list string) :=
  [("Critical", ["Critical"; "Highest"; "P1"]);
   ("High", ["High"; "P2"]);
   ("Medium", ["Medium"; "P3"]);
   ("Low", ["Low"; "Lowest"; "P4"])].

(** [d.get(key, [])] on a dictionary written as a list of entries. *)
Definition get_list (key : string) (d : list (string * list string)) : list string :=
  match List.find (fun kv => bool_decide (kv.1 = key)) d with
  | Some kv => kv.2
  | None => []
  end.

(** [_get_valid_priority], given the priorities the tracker offers. *)
Definition _get_valid_priority (available_priorities : list string)
    (requested_priority : Priority) : option string :=
  match List.find (fun p => bool_decide (p ∈ available_priorities))
          (get_list (Priority_value requested_priority) priority_mapping) with
  | Some jira_priority => Some jira_priority
  | None =>
      if bool_decide (Priority_value requested_priority ∈ available_priorities)
      then Some (Priority_value requested_priority)
      else None
  end.

(** The fields of the issue [create_ticket] asks the tracker to create. *)
Record IssueFields : Type := mkIssueFields {
  f_project : string;
  f_summary : string;
  f_issuetype : string;
  f_description : option string;
  f_priority : option string
}.

(** [create_ticket], from the choice of the issue type to the request: the
    dictionary [issue_dict]. *)
Definition issue_dict (available_types available_priorities : list string)
    (summary description project_key : string) (priority : Priority)
    (issue_type : string) : IssueFields :=
  let valid_issue_type := _get_valid_issue_type available_types issue_type in
  let valid_priority := _get_valid_priority available_priorities priority in
  mkIssueFields project_key (Text.take 255 summary) valid_issue_type
    (if truthy (Some description) then Some description else None)
    (if truthy valid_priority then valid_priority else None).

End Jira.

(** ** services/vip_detection.py

    The scores are the floating-point numbers of the source (binary64), and
    are added in its order. *)

Module VipDetection.
Import PrimFloat.

Definition _vip_keywords : list string :=
  ["vip"; "premium"; "exclusive"; "high-value";
   "investor"; "portfolio"; "multiple properties";
   "urgent client"; "important client"].

Definition _luxury_indicators : list string :=
  ["penthouse"; "villa"; "mansion"; "estate";
   "palm jumeirah"; "burj khalifa"; "emirates hills";
   "jumeirah bay island"; "dubai hills";
   "million"; "billion"; "luxury"].

Definition _business_value_indicators : list string :=
  ["deal pending"; "closing soon"; "contract";
   "agreement"; "sale falling through"; "losing client";
   "commission"; "multiple units"].

(** An entry of the registry; a key that is absent is [None]. *)
Record VipData : Type := mkVipData {
  name : option string;
  tier : option string;
  registered_at : option Z;
  metadata : list (string * string)
}.

(** The dictionary [detect_vip] returns; [vip_name] is absent, or [None],
    when it is [None] here. *)
Record Result : Type := mkResult {
  is_vip : bool;
  vip_tier : string;
  confidence : float;
  indicators : list string;
  auto_escalate : bool;
  vip_name : option string
}.

Record t : Type := mk {
  _vip_registry : gmap string VipData;
  _session_vip_flags : gmap string Result
}.

Definition init : t := mk ∅ ∅.

(** [num / den] rounded to the nearest integer, a tie to the even one. *)
Definition half_even (num den : Z) : Z :=
  let q := num / den in
  let r := num mod den in
  if 2 * r <? den then q
  else if den <? 2 * r then q + 1
  else if Z.even q then q else q + 1.

(** [round(x, 2)] for [x] from 0 to 1: the number of hundredths nearest to
    the exact value of [x], a tie to the even one, as a float. *)
Definition round2 (x : float) : float :=
  match FloatOps.Prim2SF x with
  | SpecFloat.S754_finite false m e =>
      let n :=
        if 0 <=? e then 100 * Z.pos m * 2 ^ e
        else half_even (100 * Z.pos m) (2 ^ (- e)) in
      (of_uint63 (Uint63.of_Z n) / 100)%float
  | _ => x
  end.

(** One loop over a list of keywords: every keyword found in the message
    adds an indicator and its weight. *)
Definition scan (label : string) (weight : float) (keywords : list string)
    (message_lower : string) (acc : list string * float) : list string * float :=
  fold_left
    (fun acc keyword =>
       if Str.contains keyword message_lower
       then (acc.1 ++ [label +:+ keyword], (acc.2 + weight)%float)
       else acc)
    keywords acc.

(** [min(score, 1.0)] *)
Definition min_one (score : float) : float := if ltb 1 score then 1%float else score.

Definition tier_of (confidence : float) : string :=
  if leb 0.9 confidence then "diamond"
  else if leb 0.7 confidence then "platinum"
  else if leb 0.5 confidence then "gold"
  else "standard".

Section Detection.

(** [re.findall(r'\b(\d{1,3}(?:,\d{3})+|\d{7,})\b', message)]: the numbers
    written with thousands separators or with seven digits and more. *)
Variable findall_large_numbers : string -> list string.

(** What [detect_vip] reads from the content of a message. *)
Definition detect_from_content (message : string) : Result :=
  let message_lower := Str.lower message in
  let acc := ([], 0%float) in
  let acc := scan "VIP keyword: " 0.3 _vip_keywords message_lower acc in
  let acc := scan "Luxury property: " 0.2 _luxury_indicators message_lower acc in
  let acc :=
    scan "Business value: " 0.25 _business_value_indicators message_lower acc in
  let acc :=
    match findall_large_numbers message with
    | first :: _ =>
        (acc.1 ++ ["Large number mentioned: " +:+ first], (acc.2 + 0.2)%float)
    | [] => acc
    end in
  let score := acc.2 in
  let confidence := min_one score in
  let is_vip := leb 0.5 confidence in
  let tier := tier_of confidence in
  mkResult is_vip tier (round2 confidence) acc.1
    (is_vip && bool_decide (tier ∈ ["platinum"; "diamond"])) None.

(** [detect_vip(message, user_phone, user_name)]; the name is only
    printed. *)
Definition detect_vip (message user_phone : string) (user_name : option string)
    (st : t) : Result * t :=
  match _vip_registry st !! user_phone with
  | Some vip_data =>
      (mkResult true (default "gold" (tier vip_data)) 1%float
         ["Registered VIP client"] true (name vip_data),
       st)
  | None =>
      match _session_vip_flags st !! user_phone with
      | Some flagged => (flagged, st)
      | None =>
          let result := detect_from_content message in
          (result,
           if is_vip result
           then mk (_vip_registry st) (<[user_phone := result]> (_session_vip_flags st))
           else st)
      end
  end.

End Detection.

(** [register_vip(phone, name, tier, metadata)] *)
Definition register_vip (now : Z) (phone vip_name vip_tier : string)
    (vip_metadata : list (string * string)) (st : t) : t :=
  mk (<[phone := mkVipData (Some vip_name) (Some vip_tier) (Some now) vip_metadata]>
        (_vip_registry st))
     (_session_vip_flags st).

(** [remove_vip(phone)] *)
Definition remove_vip (phone : string) (st : t) : t :=
  mk (delete phone (_vip_registry st)) (_session_vip_flags st).

(** [get_vip_info(phone)] *)
Definition get_vip_info (phone : string) (st : t) : option VipData :=
  _vip_registry st !! phone.

(** [clear_session_flags(phone)] *)
Definition clear_session_flags (phone : option string) (st : t) : t :=
  if truthy phone
  then mk (_vip_registry st) (delete (default "" phone) (_session_vip_flags st))
  else mk (_vip_registry st) ∅.

End VipDetection.
(** * Notions used in the statements *)

(** ** Characters *)

Module UnicodeSpec.
Import Unicode.

(** What the proofs need of a run of the table of lower-case mappings: the
    characters and their images are letters beyond the punctuation of ASCII,
    the images are characters, and only the capital V becomes a "v". *)
Definition run_ok (r : Z * Z * Z * Z) : bool :=
  let '(lo, hi, step, d) := r in
  (64 <=? lo) && (64 <=? lo + d) && (hi + d <=? 1114111)
  && ((hi + d <? 55296) || (57343 <? lo + d))
  && ((118 <? lo + d) || (hi + d <? 118) || (d =? 32)).

(** The text holds a capital letter that [lower] leaves a capital. *)
Definition lasting_capitals (s : string) : bool :=
  match decode s with
  | Some l => existsb lasting_capital l
  | None => false
  end.

(** The number of times [c] occurs in [l]. *)
Definition occurrences (c : Z) (l : list Z) : nat :=
  length (List.filter (Z.eqb c) l).

End UnicodeSpec.


(** ** The words of a pattern *)

Module ReSpec.
Import Re.

(** [matches r s]: the word [s] belongs to the pattern [r]. *)
Inductive matches : re -> string -> Prop :=
| matches_eps : matches Eps EmptyString
| matches_sym p c : p c = true -> matches (Sym p) (String c EmptyString)
| matches_alt_l a b s : matches a s -> matches (Alt a b) s
| matches_alt_r a b s : matches b s -> matches (Alt a b) s
| matches_cat a b s1 s2 :
    matches a s1 -> matches b s2 -> matches (Cat a b) (s1 +:+ s2)
| matches_star_nil a : matches (Star a) EmptyString
| matches_star_app a s1 s2 :
    matches a s1 -> matches (Star a) s2 -> matches (Star a) (s1 +:+ s2).

End ReSpec.

(** ** Sessions and history *)

Module MemorySpec.
Import ConversationMemory.

(** The opportunistic sweep at the head of [get_or_create_session]. *)
Definition sweep (now : Z) (mem : Memory) : Memory :=
  if bool_decide (seconds 300 < now - _last_cleanup mem)
  then _cleanup_expired_sessions now mem
  else mem.

(** The trimming step of [add_message]. *)
Definition trim (cap : Z) (ms : list ConversationMessage) : list ConversationMessage :=
  if bool_decide (cap < Z.of_nat (length ms)) then slice_from (- cap) ms else ms.

(** The [n] most recent elements of a list that grows at its end. *)
Definition last_n {A : Type} (n : nat) (l : list A) : list A :=
  drop (length l - n) l.

(** One call of [add_message] for a given user: when, and what is added. *)
Record Call : Type := mkCall {
  c_now : Z;
  c_role : MessageRole;
  c_content : string;
  c_intent : option string;
  c_metadata : list (string * option string)
}.

Definition message_of (c : Call) : ConversationMessage :=
  mkMessage (c_role c) (c_content c) (c_now c) (c_intent c) (c_metadata c).

Definition add_call (phone : string) (mem : Memory) (c : Call) : Memory :=
  (add_message (c_now c) phone (c_role c) (c_content c) (c_intent c)
     (c_metadata c) mem).2.

(** A sequence of [add_message] calls, in order. *)
Definition add_messages (phone : string) (calls : list Call) (mem : Memory) : Memory :=
  fold_left (add_call phone) calls mem.

(** No call comes later than the timeout after the activity before it, so
    that the session is never replaced; [last] is the last activity so far. *)
Fixpoint unexpired (timeout last : Z) (calls : list Call) : Prop :=
  match calls with
  | [] => True
  | c :: calls' => ~ timeout < c_now c - last /\ unexpired timeout (c_now c) calls'
  end.

(** Every session is stored under the phone number it carries. *)
Definition keyed (mem : Memory) : Prop :=
  map_Forall (fun k s => user_phone s = k) (_sessions mem).

(** The session was made by [_create_new_session] and then only refreshed:
    its identifier is the one minted at its start, and its clock has not run
    backwards. *)
Definition minted (s : ConversationContext) : Prop :=
  conversation_id s =
    user_phone s +:+ "_" +:+ Str.of_Z (epoch_seconds (started_at s))
  /\ started_at s <= last_activity s.

(** What holds of the sessions at every instant [clock] of a run whose clock
    does not run backwards: each is stored under its own phone number, was
    made by the service, and was last active no later than [clock]. *)
Definition well_formed (clock : Z) (mem : Memory) : Prop :=
  map_Forall
    (fun k s => user_phone s = k /\ minted s /\ last_activity s <= clock)
    (_sessions mem).

(** A change of a session that keeps who it belongs to, its identifier and
    its start, and leaves its last activity between the start and [now]. *)
Definition refreshes (now : Z) (s s' : ConversationContext) : Prop :=
  user_phone s' = user_phone s
  /\ conversation_id s' = conversation_id s
  /\ started_at s' = started_at s
  /\ started_at s <= last_activity s' <= now.

(** The sessions of one user in the archive log. *)
Definition archived_for (phone : string) (log : list ConversationContext)
    : list ConversationContext :=
  filter (fun s => user_phone s = phone) log.

(** A user with one session made at instant 0 under the shipped
    configuration (history of 50, timeout of 30 minutes). *)
Definition sample_phone : string := "+971500000001".

Definition sample_memory : Memory :=
  (get_or_create_session 0 sample_phone "Bob" (conversation_memory 0)).2.

Definition sample_session : ConversationContext :=
  (get_or_create_session 0 sample_phone "Bob" (conversation_memory 0)).1.

(** Fifty-one user messages, one per second. *)
Definition sample_calls : list Call :=
  map (fun i => mkCall (seconds (Z.of_nat i)) USER (Str.of_Z (Z.of_nat i)) None [])
    (seq 1 51).

End MemorySpec.

(** ** Sentiment *)

Module SentimentSpec.
Import Sentiment.

(** The message analysed in isolation: no user, hence no history. *)
Definition isolated (message : string) : Result :=
  (analyze_sentiment 0 message None ∅).1.

(** The entries kept for a user. *)
Definition entries (phone : string) (h : History) : list Entry :=
  default [] (h !! phone).

(** A frustrated message that already reaches the top of the scale:
    three exclamation marks and four urgency patterns. *)
Definition loud_message : string :=
  "urgent help asap right now can't wait!!!".

End SentimentSpec.

(** ** The pipeline *)

Module PipelineSpec.
Import IntentService.

(** The sessions of the process are well formed at instant [clock]. *)
Definition sessions_ok (clock : Z) (w : World) : Prop :=
  MemorySpec.well_formed clock (memory w).

(** One more message to [phone] at the end of the log of messages sent, or
    two. *)
Definition sends_one (phone : string) (w w' : World) : Prop :=
  exists text, sent w' = sent w ++ [(phone, text)].

Definition sends_two (phone : string) (w w' : World) : Prop :=
  exists text1 text2, sent w' = sent w ++ [(phone, text1); (phone, text2)].

(** The acknowledgement of a new issue. *)
Definition acknowledgement (lang : Language) : string :=
  if is_arabic lang then "حسناً! دعني أساعدك في هذه المشكلة الجديدة."
  else "Got it! Let me help with this new issue.".

(** What a modification appends to the description of the draft. *)
Definition additional_information (text : string) : string :=
  nl +:+ nl +:+ "*Additional Information:*" +:+ nl +:+ text.

(** Free text: fewer than two new-issue keywords, no confirmation keyword
    and no cancellation keyword. *)
Definition ambiguous (text : string) : bool :=
  negb (is_override text) && negb (is_confirmation text)
  && negb (is_cancellation text).

(** The request sent to the tracker when a draft is confirmed. *)
Definition create_call (t : PendingTicket) : JiraCall :=
  CreateTicket (summary t) (description t) (project_key t) (priority t).

(** The bytes of the white space of [str.strip]: the first byte of a
    character of white space, and any of its bytes. *)
Definition space_lead (c : ascii) : bool :=
  Str.is_space c || Str.between 194 194 c || Str.between 225 227 c.

Definition space_byte (c : ascii) : bool :=
  space_lead c || Str.between 128 138 c || Str.between 154 154 c
  || Str.between 159 160 c || Str.between 168 169 c || Str.between 175 175 c.

Fixpoint every (p : ascii -> bool) (s : string) : bool :=
  match s with
  | EmptyString => true
  | String c s' => p c && every p s'
  end.

(** No end of the keyword is the beginning of white space: it starts with
    a byte that does not start white space, or holds a byte that white space
    has not. *)
Fixpoint ends_clear (kw : string) : bool :=
  match kw with
  | EmptyString => true
  | String c kw' =>
      (negb (space_lead c) || negb (every space_byte kw)) && ends_clear kw'
  end.

(** A keyword that neither starts nor ends in white space. *)
Definition solid (kw : string) : bool :=
  match kw with
  | EmptyString => false
  | String c _ => negb (space_byte c) && negb (Text.is_continuation c)
  end
  && ends_clear kw.

Section WithCollaborators.

Context (env : Collaborators).

(** The text the pipeline works on: the message, translated when the
    language detector says Arabic. *)
Definition working_text (message_text : string) : string :=
  if is_arabic (detect_language env message_text)
  then translate env message_text ENGLISH
  else message_text.

(** Steps 1 to 4 of [process_message]. *)
Definition prelude (now : Z) (phone name message_text : string) : M unit :=
  on_memory (ConversationMemory.get_or_create_session now phone name);;
  update_memory
    (ConversationMemory.update_preference now phone "preferred_language"
       (Language_value (detect_language env message_text)));;
  on_memory
    (ConversationMemory.add_message now phone ConversationMemory.USER
       message_text None
       [("translated",
         if is_arabic (detect_language env message_text)
         then Some (working_text message_text) else None)]);;
  on_frustration
    (Sentiment.analyze_sentiment now (working_text message_text) (Some phone));;
  (if (detect_vip env (working_text message_text) phone name).1
   then update_memory
          (ConversationMemory.set_vip_status now phone true
             (detect_vip env (working_text message_text) phone name).2)
   else mret tt).

(** What step 5 does with the answer of the draft store. *)
Definition after_pending_check (now : Z) (phone name message_text : string)
    (pending : option PendingTicket) : M Response.t :=
  let lang := detect_language env message_text in
  let text := working_text message_text in
  match pending with
  | Some ticket =>
      if awaiting_confirmation ticket then
        result ← _handle_confirmation env now phone name text ticket lang;
        if String.eqb (Response.action result) "new_issue_detected"
        then classify_and_route env now phone name message_text text lang
        else mret result
      else classify_and_route env now phone name message_text text lang
  | None => classify_and_route env now phone name message_text text lang
  end.

(** Step 8 and 9 of [process_message]: the classifier and the handler it
    selects. *)
Definition ai_route (now : Z) (phone name text : string) (lang : Language)
    : M Response.t :=
  w ← get_world;
  let intent_result :=
    classify_intent env text name phone
      (ConversationMemory.get_recent_context phone 5 (memory w)) in
  update_memory
    (ConversationMemory.add_topic now phone
       (IntentType_value (ic_intent intent_result)));;
  _route_intent env now phone name text intent_result lang.

(** The call meets a live draft awaiting confirmation and takes the
    new-issue branch. *)
Definition overridden (now : Z) (phone message_text : string) (w : World) : bool :=
  match (ResponseService.get_pending_ticket now phone (pending_tickets w)).1 with
  | Some t => awaiting_confirmation t && is_override (working_text message_text)
  | None => false
  end.

(** The draft [_handle_create_ticket] stores for a text, up to its priority. *)
Definition draft_of (now : Z) (phone name text : string) (p : Priority)
    : PendingTicket :=
  {| user_phone := phone; user_name := name;
     summary := generate_ticket_summary env text name (detect_team env text) phone;
     description := generate_ticket_description env text name phone;
     team := detect_team env text; project_key := JIRA_PROJECT_KEY env;
     priority := p; attachments := []; timestamp := now;
     awaiting_confirmation := true |}.

End WithCollaborators.

(** Collaborators for the examples: English only, nobody is a VIP, the
    summary of a ticket is its text, templates are sent by name, the tracker
    accepts or refuses every ticket, and the classifier answers [intent]. *)
Definition sample_collaborators (tracker_up : bool) (intent : IntentType)
    : Collaborators :=
  {| detect_language := fun _ => ENGLISH;
     translate := fun text _ => text;
     get_smart_response := fun template _ _ => template;
     detect_vip := fun _ _ _ => (false, None);
     detect_team := fun _ => "IT Support";
     classify_intent := fun _ _ _ _ => mkIntentClassification intent (1 # 2) None None;
     generate_ticket_summary := fun text _ _ _ => text;
     generate_ticket_description := fun text _ _ => text;
     jira_create_ticket :=
       fun _ _ _ _ _ =>
         if tracker_up then Created "SUP-1" else CreateFailed (Some "unreachable");
     jira_search_tickets := fun _ _ _ => [];
     jira_get_ticket_status := fun _ _ => StatusFailed "Ticket not found";
     jira_update_ticket := fun _ _ _ _ => Changed;
     jira_close_ticket := fun _ _ => Changed;
     JIRA_PROJECT_KEY := "SUP";
     WHATSAPP_BUSINESS_EMAIL := "sales@example.com";
     WHATSAPP_BUSINESS_WEBSITE := "example.com" |}.

(** The process right after start, at instant 0. *)
Definition fresh_world : World :=
  mkWorld (ConversationMemory.conversation_memory 0) ∅ ∅ [] [].

(** A first technical message has left a draft awaiting confirmation. *)
Definition world_with_draft : World :=
  (process_message (sample_collaborators true GENERAL_INQUIRY) (seconds 1)
     MemorySpec.sample_phone "Bob" "salesforce sync is broken, losing leads"
     fresh_world).2.

Definition sample_draft : PendingTicket :=
  draft_of (sample_collaborators true GENERAL_INQUIRY) (seconds 1)
    MemorySpec.sample_phone "Bob" "salesforce sync is broken, losing leads" MEDIUM.

End PipelineSpec.
(** ** Runs of the service *)

Module ServiceSpec.
Import ConversationMemory IntentService PipelineSpec.

(** A request to create a ticket in the tracker. *)
Definition is_create (c : JiraCall) : bool :=
  match c with
  | CreateTicket _ _ _ _ => true
  | _ => false
  end.

(** The calls added to the log of the tracker are no requests to create. *)
Definition no_create (w w' : World) : Prop :=
  exists calls,
    jira_calls w' = jira_calls w ++ calls
    /\ forallb (fun c => negb (is_create c)) calls = true.

(** What is sent when a draft is cancelled. *)
Definition cancellation_notice (lang : Language) : string :=
  if is_arabic lang then "تم إلغاء إنشاء التذكرة. كيف يمكنني مساعدتك؟"
  else "Ticket creation cancelled. How else can I help you?".

(** One delivery to [process_message]: when, from whom, what. *)
Record Delivery : Type := mkDelivery {
  d_now : Z;
  d_phone : string;
  d_name : string;
  d_text : string
}.

Definition deliver (env : Collaborators) (w : World) (d : Delivery) : World :=
  (process_message env (d_now d) (d_phone d) (d_name d) (d_text d) w).2.

(** The deliveries of a list, handled one after the other. *)
Definition run (env : Collaborators) (ds : list Delivery) (w : World) : World :=
  fold_left (deliver env) ds w.

(** The clock does not run backwards from one delivery to the next;
    [clock] is the instant before the first. *)
Fixpoint chronological (clock : Z) (ds : list Delivery) : Prop :=
  match ds with
  | [] => True
  | d :: ds' => clock <= d_now d /\ chronological (d_now d) ds'
  end.

(** The instant of the last delivery, or [clock] when there is none. *)
Definition final_clock (clock : Z) (ds : list Delivery) : Z :=
  fold_left (fun _ d => d_now d) ds clock.

(** The sessions of the users other than [phone] between two states of the
    memory: each is as it was, or it was older than the timeout at [now]
    and is gone. *)
Definition others_kept (phone : string) (now : Z) (mem mem' : Memory) : Prop :=
  _session_timeout mem' = _session_timeout mem
  /\ forall other, other <> phone ->
       _sessions mem' !! other = _sessions mem !! other
       \/ (_sessions mem' !! other = None
           /\ exists s, _sessions mem !! other = Some s /\ stale mem now s).

(** Nothing of the users other than [phone] is touched between two states
    of the process, expired sessions apart: not their drafts, not their
    frustration history, and every message sent goes to [phone]. *)
Definition untouched_others (phone : string) (now : Z) (w w' : World) : Prop :=
  others_kept phone now (memory w) (memory w')
  /\ (forall other, other <> phone ->
        pending_tickets w' !! other = pending_tickets w !! other)
  /\ (forall other, other <> phone ->
        frustration w' !! other = frustration w !! other)
  /\ exists texts, sent w' = sent w ++ map (pair phone) texts.

(** Collaborators like the sample ones, with a VIP detector that looks for
    the word in the message. *)
Definition vip_collaborators : Collaborators :=
  let base := sample_collaborators true GENERAL_INQUIRY in
  {| detect_language := detect_language base;
     translate := translate base;
     get_smart_response := get_smart_response base;
     detect_vip :=
       fun message _ _ =>
         if Str.contains "vip" (Str.lower message) then (true, Some "gold")
         else (false, Some "standard");
     detect_team := detect_team base;
     classify_intent := classify_intent base;
     generate_ticket_summary := generate_ticket_summary base;
     generate_ticket_description := generate_ticket_description base;
     jira_create_ticket := jira_create_ticket base;
     jira_search_tickets := jira_search_tickets base;
     jira_get_ticket_status := jira_get_ticket_status base;
     jira_update_ticket := jira_update_ticket base;
     jira_close_ticket := jira_close_ticket base;
     JIRA_PROJECT_KEY := JIRA_PROJECT_KEY base;
     WHATSAPP_BUSINESS_EMAIL := WHATSAPP_BUSINESS_EMAIL base;
     WHATSAPP_BUSINESS_WEBSITE := WHATSAPP_BUSINESS_WEBSITE base |}.

(** A user who has said to be a VIP, one second after start. *)
Definition world_with_vip : World :=
  (process_message vip_collaborators (seconds 1) MemorySpec.sample_phone "Bob"
     "good morning, vip client here" fresh_world).2.

End ServiceSpec.

(** ** The translation cache *)

Module CacheSpec.
Import Multilingual.TranslationCache.

(** No key twice, and no more entries than the capacity. *)
Definition tidy (c : t) : Prop :=
  NoDup (map fst (_cache c)) /\ Z.of_nat (length (_cache c)) <= _max_size c.

(** The operations on a cache. *)
Inductive Op : Type :=
| Lookup (text source target : string)
| Store (text source target translation : string).

Definition step (c : option t) (op : Op) : option t :=
  c ← c;
  match op with
  | Lookup text source target => Some (get text source target c).2
  | Store text source target translation => set text source target translation c
  end.

(** The operations of a list, one after the other; [None] when one of
    them raised. *)
Definition run (ops : list Op) (c : t) : option t :=
  fold_left step ops (Some c).

End CacheSpec.

(** ** Runs of the controller and of the gateway *)

Module TrackerSpec.
Import Controller.WebhookTracker.

(** The calls of a list, each an instant and an identifier, one after the
    other. *)
Definition run (calls : list (Z * string)) (tr : t) : t :=
  fold_left (fun tr c => (is_duplicate c.1 c.2 tr).2) calls tr.

(** Every call of the list is made before [limit]. *)
Definition all_before {A : Type} (limit : Z) (calls : list (Z * A)) : Prop :=
  Forall (fun c => c.1 < limit) calls.

End TrackerSpec.

Module WebhookSpec.
Import Controller.

(** The deliveries of a list, each an instant and a body, one after the
    other. *)
Definition deliver_all (env : Collaborators) (clock_id : Z -> string)
    (ds : list (Z * Payload)) (sv : Server) : Server :=
  fold_left (fun sv d => (receive_webhook env clock_id d.1 d.2 sv).2) ds sv.

(** The answers of [receive_webhook] that go with no processing. *)
Definition refusals : list string :=
  ["duplicate_blocked"; "ignored_status"; "error"].

(** A text message with identifier [id] from the sample user. *)
Definition text_delivery (id delivery_status body : string) : Payload :=
  mkPayload (Some id) None (Some "text") (Some delivery_status)
    (Some MemorySpec.sample_phone) (Some "Bob") (Some body) None None.

(** The controller at start, and a clock identifier for the examples. *)
Definition fresh_server : Server :=
  mkServer (WebhookTracker.init WEBHOOK_DUPLICATE_WINDOW 0) PipelineSpec.fresh_world.

Definition sample_clock_id (now : Z) : string := "msg-" +:+ Str.of_Z (now / 1000).

End WebhookSpec.

Module GatewaySpec.
Import Gallabox.

(** The clock does not run backwards from one call to the next; [clock] is
    the instant before the first. *)
Fixpoint chronological {A : Type} (clock : Z) (calls : list (Z * A)) : Prop :=
  match calls with
  | [] => True
  | c :: calls' => clock <= c.1 /\ chronological c.1 calls'
  end.

(** The instant of the last call, or [clock] when there is none. *)
Definition final_clock {A : Type} (clock : Z) (calls : list (Z * A)) : Z :=
  fold_left (fun _ c => c.1) calls clock.

(** The instants, among the calls of a list (each an instant and a phone
    number, made one after the other), at which a message for [phone] passed
    the limit of the user. *)
Fixpoint passed (phone : string) (calls : list (Z * string)) (g : t) : list Z :=
  match calls with
  | [] => []
  | c :: calls' =>
      let r := _check_user_rate_limit c.1 c.2 g in
      (if r.1 && bool_decide (c.2 = phone) then [c.1] else [])
      ++ passed phone calls' r.2
  end.

(** The gateway after the calls. *)
Definition after (calls : list (Z * string)) (g : t) : t :=
  fold_left (fun g c => (_check_user_rate_limit c.1 c.2 g).2) calls g.

(** The same for the limit of the whole gateway; a call is an instant. *)
Fixpoint passed_global (calls : list (Z * unit)) (g : t) : list Z :=
  match calls with
  | [] => []
  | c :: calls' =>
      let r := _check_global_rate_limit c.1 g in
      (if r.1 then [c.1] else []) ++ passed_global calls' r.2
  end.

(** The gateway after these calls. *)
Definition after_global (calls : list (Z * unit)) (g : t) : t :=
  fold_left (fun g c => (_check_global_rate_limit c.1 g).2) calls g.

(** How many instants of a list lie between [lo] and [hi], bounds
    included. *)
Definition within (lo hi : Z) (l : list Z) : nat :=
  length (List.filter (fun a => (lo <=? a) && (a <=? hi)) l).

(** The float test of [drop_old] at [now] tells the age of the instant [a]
    right: found old when it is older than the window, and not when it is
    younger.  (Nothing is asked at the very age of the window, where the
    rounding of the floats decides.) *)
Definition accurate (window now a : Z) : bool :=
  if seconds window <? now - a then is_old now window a
  else if now - a <? seconds window then negb (is_old now window a)
  else true.

(** The same for every two instants of a list. *)
Definition accurate_on (window : Z) (instants : list Z) : bool :=
  forallb (fun now => forallb (accurate window now) instants) instants.

(** What happens to the circuit breaker. *)
Inductive Event : Type :=
| Failure (now : Z)
| Success
| Check (now : Z).

(** The breaker after an event, and after a list of them. *)
Definition apply_event (g : t) (e : Event) : t :=
  match e with
  | Failure now => _record_failure now g
  | Success => _record_success g
  | Check now => (_check_circuit_breaker now g).2
  end.

Definition run (events : list Event) (g : t) : t := fold_left apply_event events g.

(** The number of failures among the events. *)
Definition is_failure (e : Event) : bool :=
  match e with Failure _ => true | _ => false end.

Definition failures (events : list Event) : nat :=
  length (List.filter is_failure events).

(** The step both limits make on their deque. *)
Definition limiter (window limit : Z) (maxlen : nat) (now : Z) (times : list Z)
    : bool * list Z :=
  let times := drop_old now window times in
  if bool_decide (limit <= Z.of_nat (length times))
  then (false, times)
  else (true, append_bounded maxlen now times).

(** As old as the window at [now], or older. *)
Definition old (now window : Z) (a : Z) : Prop := seconds window <= now - a.

(** Younger than the window at [now]. *)
Definition recent (now window : Z) (a : Z) : bool := now - a <? seconds window.

(** What the deque knows of the instants let through so far, all of them
    among the instants [known]: it is their end, and those it has forgotten
    are as old as the window. *)
Record tracks (known : list Z) (window limit clock : Z)
    (times passed_so_far : list Z) : Prop :=
  mkTracks {
    tr_split : exists forgotten,
        passed_so_far = forgotten ++ times
        /\ Forall (old clock window) forgotten;
    tr_past : Forall (fun a => a <= clock /\ In a known) passed_so_far;
    tr_limit : forall t,
        Z.of_nat (within (t - seconds window + 1) t passed_so_far) <= limit
  }.

(** The deque of a user; none is an empty one. *)
Definition times_of (phone : string) (g : t) : list Z :=
  default [] (_user_message_times g !! phone).

(** What holds of the breaker after the events [seen], when the count was
    [count0] before them: the count is bounded by the failures, and an open
    circuit knows the failure that opened it. *)
Record sane (count0 : Z) (seen : list Event) (g : t) : Prop := mkSane {
  sane_count : 0 <= _failure_count g <= count0 + Z.of_nat (failures seen);
  sane_open : _circuit_open g = true ->
              _max_failures g <= count0 + Z.of_nat (failures seen)
              /\ exists last, _last_failure_time g = Some last
                              /\ In (Failure last) seen
}.

End GatewaySpec.

(** ** The detection of VIP clients *)

Module VipSpec.
Import VipDetection.
Import PrimFloat.

(** A score counted in twentieths: 0.3, 0.2, 0.25 and 0.2 are 6, 4, 5 and 4
    of them. *)
Definition twentieths (vip luxury business number : nat) : nat :=
  (6 * vip + 4 * luxury + 5 * business + 4 * number)%nat.

(** The four ways to a score of 0.9 in which the sum of the floats stays
    below 0.9. *)
Definition one_short (vip luxury business number : nat) : bool :=
  bool_decide ((vip, luxury, business, number)
               ∈ [(0, 1, 2, 1); (1, 2, 0, 1); (1, 3, 0, 0); (3, 0, 0, 0)]%nat).

(** The tier that goes with the numbers of keywords found. *)
Definition tier_for (vip luxury business number : nat) : string :=
  let score := twentieths vip luxury business number in
  if (18 <=? score)%nat && negb (one_short vip luxury business number)
  then "diamond"
  else if (14 <=? score)%nat then "platinum"
  else if (10 <=? score)%nat then "gold"
  else "standard".

(** Whether the expression for large numbers finds one. *)
Definition number_found (findall : string -> list string) (message : string) : nat :=
  match findall message with
  | [] => 0%nat
  | _ :: _ => 1%nat
  end.

(** Calls of [detect_vip], each a message and a phone number, one after
    the other. *)
Definition run (findall : string -> list string) (calls : list (string * string))
    (st : t) : t :=
  fold_left (fun st c => (detect_vip findall c.1 c.2 None st).2) calls st.

(** A detector of large numbers for the examples: it finds none. *)
Definition no_numbers (message : string) : list string := [].

(** [x] added [n] times to [s]. *)
Fixpoint add_times (n : nat) (x s : PrimFloat.float) : PrimFloat.float :=
  match n with
  | O => s
  | S n' => add_times n' x (PrimFloat.add s x)
  end.

(** The confidence that goes with the numbers of keywords found. *)
Definition confidence_for (vip luxury business number : nat) : PrimFloat.float :=
  min_one
    (add_times number 0.2%float
       (add_times business 0.25%float
          (add_times luxury 0.2%float (add_times vip 0.3%float 0%float)))).

(** The table of the tiers, checked for all the numbers of keywords that
    the three lists allow. *)
Definition table_row (vip luxury business number : nat) : bool :=
  let x := confidence_for vip luxury business number in
  let score := twentieths vip luxury business number in
  Bool.eqb (PrimFloat.leb 0.5%float x) (10 <=? score)%nat
  && String.eqb (tier_of x) (tier_for vip luxury business number)
  && Bool.eqb
       (PrimFloat.leb 0.5%float x && bool_decide (tier_of x ∈ ["platinum"; "diamond"]))
       (14 <=? score)%nat.

(** All the rows. *)
Definition table : bool :=
  forallb (fun vip =>
    forallb (fun luxury =>
      forallb (fun business =>
        forallb (fun number => table_row vip luxury business number)
          (seq 0 2))
        (seq 0 9))
      (seq 0 13))
    (seq 0 10).

End VipSpec.

(** ** The choices made for a new issue *)

Module JiraSpec.
Import Jira.

(** The names under which a priority is looked for in the tracker, in
    order. *)
Definition candidates (p : Priority) : list string :=
  get_list (Priority_value p) priority_mapping ++ [Priority_value p].

End JiraSpec.
(** * Properties *)

(** ** Characters and their bytes *)

Module UnicodeFacts.
Import Unicode UnicodeSpec.

Lemma code_range b : 0 <= code b < 256.
Proof. unfold code. pose proof (nat_ascii_bounded b). lia. Qed.

Lemma code_byte n : 0 <= n < 256 -> code (byte n) = n.
Proof.
  intros H. unfold code, byte. rewrite nat_ascii_embedding by lia. lia.
Qed.

Lemma byte_code b : byte (code b) = b.
Proof. unfold code, byte. rewrite Nat2Z.id. apply ascii_nat_embedding. Qed.

Lemma scalar_range c : scalar c = true -> 0 <= c <= 1114111.
Proof. unfold scalar. intros H. lia. Qed.

Lemma tail_byte n : 128 <= n <= 191 -> tail (byte n) = Some (n - 128).
Proof.
  intros H. unfold tail. rewrite code_byte by lia.
  replace ((128 <=? n) && (n <=? 191)) with true by lia. reflexivity.
Qed.

Lemma tail_inv b x : tail b = Some x -> 0 <= x < 64 /\ b = byte (128 + x).
Proof.
  unfold tail. destruct ((128 <=? code b) && (code b <=? 191)) eqn:E; [|discriminate].
  intros [= <-]. split; [lia|].
  replace (128 + (code b - 128)) with (code b) by lia. symmetry. apply byte_code.
Qed.

(** Reading back what was written. *)
Lemma decode_encode_char c s :
  scalar c = true -> decode (encode_char c +:+ s) = push c (decode s).
Proof.
  intros Hc. pose proof (scalar_range c Hc) as Hr. unfold encode_char.
  destruct (Z.ltb_spec c 128).
  { cbv [append]. cbn [decode]. rewrite code_byte by lia.
    replace (c <? 128) with true by lia. reflexivity. }
  destruct (Z.ltb_spec c 2048).
  { cbv [append]. cbn [decode].
    assert (2 <= c / 64 < 32) by (Z.to_euclidean_division_equations; lia).
    assert (0 <= c mod 64 < 64) by (Z.to_euclidean_division_equations; lia).
    rewrite code_byte, tail_byte by lia.
    replace (192 + c / 64 <? 128) with false by lia.
    replace (192 + c / 64 <? 224) with true by lia.
    cbv zeta.
    replace ((192 + c / 64 - 192) * 64 + (128 + c mod 64 - 128)) with c
      by (Z.to_euclidean_division_equations; lia).
    replace (128 <=? c) with true by lia. reflexivity. }
  destruct (Z.ltb_spec c 65536).
  { cbv [append]. cbn [decode].
    assert (0 <= c / 4096 < 16) by (Z.to_euclidean_division_equations; lia).
    assert (0 <= (c / 64) mod 64 < 64) by (Z.to_euclidean_division_equations; lia).
    assert (0 <= c mod 64 < 64) by (Z.to_euclidean_division_equations; lia).
    rewrite code_byte, !tail_byte by lia.
    replace (224 + c / 4096 <? 128) with false by lia.
    replace (224 + c / 4096 <? 224) with false by lia.
    replace (224 + c / 4096 <? 240) with true by lia.
    cbv zeta.
    replace ((224 + c / 4096 - 224) * 4096 + (128 + (c / 64) mod 64 - 128) * 64
             + (128 + c mod 64 - 128)) with c
      by (Z.to_euclidean_division_equations; lia).
    rewrite Hc. replace (2048 <=? c) with true by lia. reflexivity. }
  cbv [append]. cbn [decode].
  assert (0 <= c / 262144 < 5) by (Z.to_euclidean_division_equations; lia).
  assert (0 <= (c / 4096) mod 64 < 64) by (Z.to_euclidean_division_equations; lia).
  assert (0 <= (c / 64) mod 64 < 64) by (Z.to_euclidean_division_equations; lia).
  assert (0 <= c mod 64 < 64) by (Z.to_euclidean_division_equations; lia).
  rewrite code_byte, !tail_byte by lia.
  replace (240 + c / 262144 <? 128) with false by lia.
  replace (240 + c / 262144 <? 224) with false by lia.
  replace (240 + c / 262144 <? 240) with false by lia.
  cbv zeta.
  replace ((240 + c / 262144 - 240) * 262144 + (128 + (c / 4096) mod 64 - 128) * 4096
           + (128 + (c / 64) mod 64 - 128) * 64 + (128 + c mod 64 - 128)) with c
    by (Z.to_euclidean_division_equations; lia).
  replace ((65536 <=? c) && (c <=? 1114111)) with true by lia. reflexivity.
Qed.

Lemma decode_encode l :
  Forall (fun c => scalar c = true) l -> decode (encode l) = Some l.
Proof.
  induction 1 as [|c l Hc _ IH]; [reflexivity|].
  cbn [encode]. rewrite (decode_encode_char c _ Hc), IH. reflexivity.
Qed.

Lemma push_inv c o l :
  push c o = Some l -> exists l', o = Some l' /\ l = c :: l'.
Proof. destruct o as [l'|]; [|discriminate]. intros [= <-]. eauto. Qed.

(** What is read is made of characters, and writing it gives the bytes
    back. *)
Lemma encode_decode_bounded n s l :
  (String.length s < n)%nat ->
  decode s = Some l ->
  encode l = s /\ Forall (fun c => scalar c = true) l.
Proof.
  revert s l. induction n as [|n IH]; intros s l Hn; [lia|].
  destruct s as [|a s1]; [intros [= <-]; split; [reflexivity | constructor]|].
  cbn [decode]. pose proof (code_range a) as Ha.
  destruct (Z.ltb_spec (code a) 128).
  { intros Hd. apply push_inv in Hd as (l' & Hl & ->).
    destruct (IH s1 l') as [E F]; [cbn in Hn; lia | exact Hl|].
    split.
    - cbn [encode]. unfold encode_char.
      replace (code a <? 128) with true by lia.
      cbv [append]. rewrite byte_code, E. reflexivity.
    - constructor; [unfold scalar; lia | exact F]. }
  destruct (Z.ltb_spec (code a) 224).
  { destruct s1 as [|b s2]; [discriminate|].
    destruct (tail b) as [x|] eqn:Hb; [|discriminate].
    apply tail_inv in Hb as [Hx ->]. cbv zeta.
    set (c := (code a - 192) * 64 + x).
    destruct (Z.leb_spec 128 c); [|discriminate].
    intros Hd. apply push_inv in Hd as (l' & Hl & ->).
    destruct (IH s2 l') as [E F]; [cbn in Hn; lia | exact Hl|].
    assert (c / 64 = code a - 192 /\ c mod 64 = x) as [Hq Hm]
      by (subst c; Z.to_euclidean_division_equations; lia).
    split.
    - cbn [encode]. unfold encode_char.
      replace (c <? 128) with false by lia.
      replace (c <? 2048) with true by lia.
      cbv [append]. rewrite Hq, Hm, E.
      replace (192 + (code a - 192)) with (code a) by lia.
      rewrite byte_code. reflexivity.
    - constructor; [unfold scalar; lia | exact F]. }
  destruct (Z.ltb_spec (code a) 240).
  { destruct s1 as [|b [|b' s3]]; try discriminate.
    destruct (tail b) as [x|] eqn:Hb; [|discriminate].
    destruct (tail b') as [y|] eqn:Hb'; [|discriminate].
    apply tail_inv in Hb as [Hx ->]. apply tail_inv in Hb' as [Hy ->]. cbv zeta.
    set (c := (code a - 224) * 4096 + x * 64 + y).
    destruct ((2048 <=? c) && scalar c) eqn:Hc; [|discriminate].
    apply andb_true_iff in Hc as [Hlo Hsc].
    intros Hd. apply push_inv in Hd as (l' & Hl & ->).
    destruct (IH s3 l') as [E F]; [cbn in Hn; lia | exact Hl|].
    assert (c / 4096 = code a - 224 /\ (c / 64) mod 64 = x /\ c mod 64 = y)
      as (Hq & Hm1 & Hm2)
      by (subst c; Z.to_euclidean_division_equations; lia).
    split.
    - cbn [encode]. unfold encode_char.
      replace (c <? 128) with false by lia.
      replace (c <? 2048) with false by lia.
      replace (c <? 65536) with true by lia.
      cbv [append]. rewrite Hq, Hm1, Hm2, E.
      replace (224 + (code a - 224)) with (code a) by lia.
      rewrite byte_code. reflexivity.
    - constructor; [exact Hsc | exact F]. }
  destruct s1 as [|b [|b' [|b'' s4]]]; try discriminate.
  destruct (tail b) as [x|] eqn:Hb; [|discriminate].
  destruct (tail b') as [y|] eqn:Hb'; [|discriminate].
  destruct (tail b'') as [z|] eqn:Hb''; [|discriminate].
  apply tail_inv in Hb as [Hx ->]. apply tail_inv in Hb' as [Hy ->].
  apply tail_inv in Hb'' as [Hz ->]. cbv zeta.
  set (c := (code a - 240) * 262144 + x * 4096 + y * 64 + z).
  destruct ((65536 <=? c) && (c <=? 1114111)) eqn:Hc; [|discriminate].
  intros Hd. apply push_inv in Hd as (l' & Hl & ->).
  destruct (IH s4 l') as [E F]; [cbn in Hn; lia | exact Hl|].
  assert (c / 262144 = code a - 240 /\ (c / 4096) mod 64 = x
          /\ (c / 64) mod 64 = y /\ c mod 64 = z)
    as (Hq & Hm1 & Hm2 & Hm3)
    by (subst c; Z.to_euclidean_division_equations; lia).
  split.
  - cbn [encode]. unfold encode_char.
    replace (c <? 128) with false by lia.
    replace (c <? 2048) with false by lia.
    replace (c <? 65536) with false by lia.
    cbv [append]. rewrite Hq, Hm1, Hm2, Hm3, E.
    replace (240 + (code a - 240)) with (code a) by lia.
    rewrite byte_code. reflexivity.
  - constructor; [unfold scalar; lia | exact F].
Qed.

Lemma encode_decode s l : decode s = Some l -> encode l = s.
Proof. intros H. apply (encode_decode_bounded (S (String.length s)) s l); [lia | exact H]. Qed.

Lemma decode_scalar s l :
  decode s = Some l -> Forall (fun c => scalar c = true) l.
Proof. intros H. apply (encode_decode_bounded (S (String.length s)) s l); [lia | exact H]. Qed.

(** *** The bytes of ASCII in an encoding are its ASCII characters *)

Lemma count_char_app b s1 s2 :
  Str.count_char b (s1 +:+ s2)
  = (Str.count_char b s1 + Str.count_char b s2)%nat.
Proof.
  induction s1 as [|a s1 IH]; [reflexivity|].
  cbv [append]. fold append. cbn [Str.count_char]. rewrite IH. lia.
Qed.

Lemma eqb_byte b n : 0 <= n < 256 -> Ascii.eqb b (byte n) = (code b =? n).
Proof.
  intros Hn. destruct (Ascii.eqb_spec b (byte n)) as [->|Hne].
  - rewrite code_byte by exact Hn. symmetry. apply Z.eqb_refl.
  - symmetry. apply Z.eqb_neq. intros E. apply Hne.
    rewrite <- E. symmetry. apply byte_code.
Qed.

Lemma count_char_encode_char b c :
  scalar c = true -> code b < 128 ->
  Str.count_char b (encode_char c) = if c =? code b then 1%nat else 0%nat.
Proof.
  intros Hc Hb. pose proof (scalar_range c Hc) as Hr.
  pose proof (code_range b) as Hcb. unfold encode_char.
  destruct (Z.ltb_spec c 128).
  { cbn [Str.count_char]. rewrite eqb_byte by lia.
    rewrite (Z.eqb_sym c). destruct (code b =? c); reflexivity. }
  replace (c =? code b) with false by lia.
  assert (0 <= c mod 64 < 64) by (Z.to_euclidean_division_equations; lia).
  assert (0 <= (c / 64) mod 64 < 64) by (Z.to_euclidean_division_equations; lia).
  assert (0 <= (c / 4096) mod 64 < 64) by (Z.to_euclidean_division_equations; lia).
  destruct (Z.ltb_spec c 2048).
  { assert (0 <= c / 64 < 32) by (Z.to_euclidean_division_equations; lia).
    cbn [Str.count_char]. rewrite !eqb_byte by lia.
    replace (code b =? 192 + c / 64) with false by lia.
    replace (code b =? 128 + c mod 64) with false by lia. reflexivity. }
  destruct (Z.ltb_spec c 65536).
  { assert (0 <= c / 4096 < 16) by (Z.to_euclidean_division_equations; lia).
    cbn [Str.count_char]. rewrite !eqb_byte by lia.
    replace (code b =? 224 + c / 4096) with false by lia.
    replace (code b =? 128 + (c / 64) mod 64) with false by lia.
    replace (code b =? 128 + c mod 64) with false by lia. reflexivity. }
  assert (0 <= c / 262144 < 5) by (Z.to_euclidean_division_equations; lia).
  cbn [Str.count_char]. rewrite !eqb_byte by lia.
  replace (code b =? 240 + c / 262144) with false by lia.
  replace (code b =? 128 + (c / 4096) mod 64) with false by lia.
  replace (code b =? 128 + (c / 64) mod 64) with false by lia.
  replace (code b =? 128 + c mod 64) with false by lia. reflexivity.
Qed.

Lemma count_char_encode b l :
  Forall (fun c => scalar c = true) l -> code b < 128 ->
  Str.count_char b (encode l) = occurrences (code b) l.
Proof.
  intros Hl Hb. induction Hl as [|c l Hc _ IH]; [reflexivity|].
  cbn [encode]. rewrite count_char_app, IH, (count_char_encode_char b c Hc Hb).
  unfold occurrences. cbn [List.filter]. rewrite (Z.eqb_sym (code b)).
  destruct (c =? code b); reflexivity.
Qed.

Lemma occurrences_app c l1 l2 :
  occurrences c (l1 ++ l2) = (occurrences c l1 + occurrences c l2)%nat.
Proof. unfold occurrences. rewrite List.filter_app, length_app. reflexivity. Qed.

Lemma occurrences_pos c l : (0 < occurrences c l)%nat <-> In c l.
Proof.
  unfold occurrences. induction l as [|a l IH]; cbn [List.filter In length].
  - split; [lia | intros []].
  - destruct (Z.eqb_spec c a) as [->|Hne]; cbn [length].
    + split; [auto | lia].
    + rewrite IH. split; [auto | intros [E|H]; [congruence | exact H]].
Qed.

(** *** [lower] *)

Lemma delta_in_spec c runs :
  delta_in c runs = 0
  \/ exists lo hi step d,
       In (lo, hi, step, d) runs /\ lo <= c <= hi /\ delta_in c runs = d.
Proof.
  induction runs as [|[[[lo hi] step] d] runs IH]; [left; reflexivity|].
  cbn [delta_in]. destruct (Z.ltb_spec c lo); [left; reflexivity|].
  destruct ((c <=? hi) && ((c - lo) mod step =? 0)) eqn:E.
  - right. exists lo, hi, step, d. repeat split; [left; reflexivity | lia | lia].
  - destruct IH as [IH|(lo' & hi' & step' & d' & Hin & Hr & Hd)]; [left; exact IH|].
    right. exists lo', hi', step', d'. repeat split; [right; exact Hin | lia | lia | exact Hd].
Qed.

Lemma Lower_Runs_ok : forallb run_ok Lower_Runs = true.
Proof. vm_compute. reflexivity. Qed.

Lemma delta_ok c :
  delta_in c Lower_Runs = 0
  \/ exists lo hi step d,
       run_ok (lo, hi, step, d) = true /\ lo <= c <= hi
       /\ delta_in c Lower_Runs = d.
Proof.
  destruct (delta_in_spec c Lower_Runs)
    as [H|(lo & hi & step & d & Hin & Hr & Hd)]; [left; exact H|].
  right. exists lo, hi, step, d. split; [|split; [exact Hr | exact Hd]].
  exact (proj1 (forallb_forall _ _) Lower_Runs_ok _ Hin).
Qed.

Lemma lower_char_scalar c :
  scalar c = true -> Forall (fun x => scalar x = true) (lower_char c).
Proof.
  intros Hc. unfold lower_char. destruct (c =? 304).
  { repeat constructor. }
  constructor; [|constructor].
  destruct (delta_ok c) as [->|(lo & hi & step & d & Hok & Hr & ->)].
  - rewrite Z.add_0_r. exact Hc.
  - unfold run_ok in Hok. unfold scalar. lia.
Qed.

(** The punctuation of ASCII is neither changed nor made. *)
Lemma lower_char_low m c :
  m < 64 -> occurrences m (lower_char c) = if m =? c then 1%nat else 0%nat.
Proof.
  intros Hm. unfold lower_char, occurrences.
  destruct (Z.eqb_spec c 304) as [->|_].
  { cbn [List.filter]. replace (m =? 105) with false by lia.
    replace (m =? 775) with false by lia. replace (m =? 304) with false by lia.
    reflexivity. }
  cbn [List.filter].
  destruct (delta_ok c) as [->|(lo & hi & step & d & Hok & Hr & ->)].
  - rewrite Z.add_0_r. destruct (m =? c); reflexivity.
  - unfold run_ok in Hok.
    replace (m =? c + d) with false by lia. replace (m =? c) with false by lia.
    reflexivity.
Qed.

(** A "v" comes from a "v" or a "V". *)
Lemma lower_char_v c : In 118 (lower_char c) -> c = 118 \/ c = 86.
Proof.
  unfold lower_char. destruct (Z.eqb_spec c 304) as [->|_].
  { cbn [In]. lia. }
  cbn [In]. intros [H|[]].
  destruct (delta_ok c) as [E|(lo & hi & step & d & Hok & Hr & E)];
    rewrite E in H; [lia|].
  unfold run_ok in Hok. lia.
Qed.

Lemma lower_from_scalar before l :
  Forall (fun c => scalar c = true) l ->
  Forall (fun c => scalar c = true) (lower_from before l).
Proof.
  intros H. revert before. induction H as [|c l Hc _ IH]; intros before; [constructor|].
  cbn [lower_from]. apply Forall_app. split; [|apply IH].
  destruct (c =? 931); [|apply lower_char_scalar, Hc].
  destruct (before && negb (cased_next l)); repeat constructor.
Qed.

Lemma lower_from_low m before l :
  m < 64 -> occurrences m (lower_from before l) = occurrences m l.
Proof.
  intros Hm. revert before. induction l as [|c l IH]; intros before; [reflexivity|].
  cbn [lower_from]. rewrite occurrences_app, IH.
  change (c :: l) with ([c] ++ l). rewrite occurrences_app. f_equal.
  destruct (Z.eqb_spec c 931) as [->|_].
  - unfold occurrences. cbn [List.filter].
    destruct (before && negb (cased_next l)); cbn [List.filter];
      replace (m =? 931) with false by lia;
      [replace (m =? 962) with false by lia | replace (m =? 963) with false by lia];
      reflexivity.
  - rewrite lower_char_low by exact Hm. unfold occurrences. cbn [List.filter].
    destruct (m =? c); reflexivity.
Qed.

Lemma lower_from_v before l :
  In 118 (lower_from before l) -> In 118 l \/ In 86 l.
Proof.
  revert before. induction l as [|c l IH]; intros before; [intros []|].
  cbn [lower_from]. intros H. apply in_app_or in H as [H|H].
  - destruct (Z.eqb_spec c 931) as [->|_].
    + destruct (before && negb (cased_next l)); cbn [In] in H; lia.
    + apply lower_char_v in H as [->| ->]; [left | right]; left; reflexivity.
  - destruct (IH _ H) as [H1|H1]; [left | right]; right; exact H1.
Qed.

(** After [lower] no capital is left, but those that last. *)
Lemma lower_from_no_capital before l :
  existsb lasting_capital l = false ->
  existsb is_upper (lower_from before l) = false.
Proof.
  revert before. induction l as [|c l IH]; intros before; [reflexivity|].
  cbn [existsb lower_from]. intros H. apply orb_false_iff in H as [Hc Hl].
  rewrite existsb_app, (IH _ Hl), orb_false_r.
  destruct (c =? 931); [|exact Hc].
  destruct (before && negb (cased_next l)); vm_compute; reflexivity.
Qed.

(** *** [split] and [isupper] *)

Lemma split_from_words (P : Z -> Prop) cur l :
  Forall P cur -> Forall P l -> Forall (Forall P) (split_from cur l).
Proof.
  intros Hcur Hl. revert cur Hcur.
  assert (Hflush : forall cur, Forall P cur ->
            Forall (Forall P) match cur with [] => [] | _ => [rev cur] end).
  { intros [|a cur] H; [constructor|].
    constructor; [apply Forall_rev, H | constructor]. }
  induction Hl as [|c l Hc _ IH]; intros cur Hcur; cbn [split_from].
  - apply Hflush, Hcur.
  - destruct (is_space c).
    + apply Forall_app. split; [apply Hflush, Hcur | apply IH; constructor].
    + apply IH. constructor; [exact Hc | exact Hcur].
Qed.

Lemma isupper_no_capital l : existsb is_upper l = false -> isupper l = false.
Proof. intros H. unfold isupper. rewrite H. apply andb_false_r. Qed.

(** *** The strings *)

Lemma lower_eq s l :
  decode s = Some l -> Str.lower s = encode (lower l) /\ encode l = s
  /\ Forall (fun c => scalar c = true) (lower l).
Proof.
  intros H. unfold Str.lower. rewrite H. split; [reflexivity|].
  split; [apply encode_decode, H|].
  apply lower_from_scalar, (decode_scalar s), H.
Qed.

(** [lower] neither changes nor makes the punctuation of ASCII. *)
Lemma count_char_lower m s :
  code m < 64 -> Str.count_char m (Str.lower s) = Str.count_char m s.
Proof.
  intros Hm. destruct (decode s) as [l|] eqn:Hd.
  - destruct (lower_eq s l Hd) as (-> & E & Hsc).
    rewrite <- E.
    rewrite !count_char_encode by (assumption || lia || apply (decode_scalar s), Hd).
    apply lower_from_low, Hm.
  - unfold Str.lower. rewrite Hd. reflexivity.
Qed.

Lemma some_char_count (c : ascii) s :
  Str.some_char (Ascii.eqb c) s = true <-> (0 < Str.count_char c s)%nat.
Proof.
  induction s as [|a s IH]; cbn [Str.some_char Str.count_char].
  - split; [discriminate | lia].
  - destruct (Ascii.eqb c a); cbn [orb]; [split; [lia | reflexivity]|].
    rewrite IH. reflexivity.
Qed.

(** A "v" in the lower-cased text is a "v" or a "V" of the text. *)
Lemma lower_v s :
  Str.some_char (Ascii.eqb "v") (Str.lower s) = true ->
  Str.some_char (Ascii.eqb "v") s = true \/ Str.some_char (Ascii.eqb "V") s = true.
Proof.
  destruct (decode s) as [l|] eqn:Hd.
  - destruct (lower_eq s l Hd) as (-> & E & Hsc).
    pose proof (decode_scalar s l Hd) as Hl.
    rewrite <- E. rewrite !some_char_count.
    rewrite !count_char_encode by (assumption || (vm_compute; reflexivity)).
    change (code "v") with 118. change (code "V") with 86.
    rewrite !occurrences_pos. apply lower_from_v.
  - unfold Str.lower. rewrite Hd. auto.
Qed.

(** No word of a lower-cased text without lasting capitals is in
    capitals. *)
Lemma split_lower_no_capitals s :
  lasting_capitals s = false ->
  Forall (fun w => Str.isupper w = false) (Str.split (Str.lower s)).
Proof.
  unfold lasting_capitals. destruct (decode s) as [l|] eqn:Hd.
  - intros Hcap. destruct (lower_eq s l Hd) as (-> & E & Hsc).
    unfold Str.split. rewrite (decode_encode _ Hsc).
    pose proof (lower_from_no_capital false l Hcap) as Hup.
    fold (lower l) in Hup.
    assert (Hall : Forall (fun c => scalar c = true /\ is_upper c = false) (lower l)).
    { apply List.Forall_forall. intros c Hc. split.
      - exact (proj1 (List.Forall_forall _ _) Hsc c Hc).
      - destruct (is_upper c) eqn:Hu; [|reflexivity].
        assert (existsb is_upper (lower l) = true)
          by (apply existsb_exists; eauto).
        congruence. }
    pose proof (split_from_words _ [] (lower l) (Forall_nil_2 _) Hall) as Hw.
    fold (split (lower l)) in Hw.
    apply Forall_fmap. revert Hw. apply List.Forall_impl. intros w Hw.
    cbn. unfold Str.isupper. rewrite decode_encode.
    + apply isupper_no_capital.
      destruct (existsb is_upper w) eqn:Hu; [|reflexivity].
      apply existsb_exists in Hu as (c & Hc & Hcu).
      destruct (proj1 (List.Forall_forall _ _) Hw c Hc) as [_ Hn]. congruence.
    + revert Hw. apply List.Forall_impl. intros c [Hc _]. exact Hc.
  - intros _. unfold Str.lower. rewrite Hd. unfold Str.split. rewrite Hd.
    constructor.
Qed.

End UnicodeFacts.

(** ** The pattern matcher finds the words of a pattern *)

Module ReFacts.
Import Re ReSpec.

Lemma matches_void_inv (s : string) : matches Void s -> False.
Proof. inversion 1. Qed.

Lemma matches_eps_inv (s : string) : matches Eps s -> s = EmptyString.
Proof. inversion 1. reflexivity. Qed.

Lemma matches_sym_inv p (s : string) :
  matches (Sym p) s -> exists c, s = String c EmptyString /\ p c = true.
Proof. inversion 1; subst. eauto. Qed.

Lemma matches_alt_inv a b (s : string) :
  matches (Alt a b) s -> matches a s \/ matches b s.
Proof. inversion 1; subst; auto. Qed.

Lemma matches_cat_inv a b (s : string) :
  matches (Cat a b) s ->
  exists s1 s2, s = s1 +:+ s2 /\ matches a s1 /\ matches b s2.
Proof. inversion 1; subst. eauto. Qed.

Lemma append_nil_inv (s1 s2 : string) :
  s1 +:+ s2 = EmptyString -> s1 = EmptyString /\ s2 = EmptyString.
Proof. destruct s1; [cbn; auto | discriminate]. Qed.

Lemma nullable_spec (r : re) : nullable r = true <-> matches r EmptyString.
Proof.
  induction r as [| |p|a IHa b IHb|a IHa b IHb|a IHa]; cbn [nullable].
  - split; [discriminate | intros H; destruct (matches_void_inv _ H)].
  - split; [constructor | reflexivity].
  - split; [discriminate|].
    intros H. apply matches_sym_inv in H as (c & Hc & _). discriminate.
  - rewrite orb_true_iff, IHa, IHb. split.
    + intros [H|H]; [apply matches_alt_l | apply matches_alt_r]; exact H.
    + apply matches_alt_inv.
  - rewrite andb_true_iff, IHa, IHb. split.
    + intros [Ha Hb]. exact (matches_cat a b _ _ Ha Hb).
    + intros H. apply matches_cat_inv in H as (s1 & s2 & Heq & Ha & Hb).
      symmetry in Heq. apply append_nil_inv in Heq as [-> ->]. auto.
  - split; [constructor | reflexivity].
Qed.

Lemma alt_spec (a b : re) (s : string) :
  matches (alt a b) s <-> matches (Alt a b) s.
Proof.
  assert (Hl : forall b0, matches (Alt Void b0) s <-> matches b0 s).
  { intros b0. split; [|apply matches_alt_r].
    intros H. apply matches_alt_inv in H as [H|H];
      [destruct (matches_void_inv _ H) | exact H]. }
  assert (Hr : forall a0, matches (Alt a0 Void) s <-> matches a0 s).
  { intros a0. split; [|apply matches_alt_l].
    intros H. apply matches_alt_inv in H as [H|H];
      [exact H | destruct (matches_void_inv _ H)]. }
  unfold alt. destruct a; try (symmetry; apply Hl);
    destruct b; try (symmetry; apply Hr); reflexivity.
Qed.

Lemma cat_spec (a b : re) (s : string) :
  matches (cat a b) s <-> matches (Cat a b) s.
Proof.
  assert (Hv1 : forall b0, matches Void s <-> matches (Cat Void b0) s).
  { intros b0. split; [intros H; destruct (matches_void_inv _ H)|].
    intros H. apply matches_cat_inv in H as (s1 & s2 & _ & H & _).
    destruct (matches_void_inv _ H). }
  assert (Hv2 : forall a0, matches Void s <-> matches (Cat a0 Void) s).
  { intros a0. split; [intros H; destruct (matches_void_inv _ H)|].
    intros H. apply matches_cat_inv in H as (s1 & s2 & _ & _ & H).
    destruct (matches_void_inv _ H). }
  assert (He : forall b0, matches b0 s <-> matches (Cat Eps b0) s).
  { intros b0. split.
    - intros H. exact (matches_cat Eps b0 EmptyString s matches_eps H).
    - intros H. apply matches_cat_inv in H as (s1 & s2 & -> & H1 & H2).
      apply matches_eps_inv in H1 as ->. exact H2. }
  unfold cat. destruct a; try apply Hv1;
    destruct b; try apply Hv2; try apply He; reflexivity.
Qed.

Lemma matches_star_cons (a : re) (c : ascii) (s : string) :
  matches (Star a) (String c s) ->
  exists s1 s2, s = s1 +:+ s2 /\ matches a (String c s1) /\ matches (Star a) s2.
Proof.
  intros H. remember (Star a) as r eqn:Er. remember (String c s) as w eqn:Ew.
  revert Er Ew.
  induction H as [| | | | |a0|a0 s1 s2 H1 _ H2 IH2]; intros Er Ew;
    try discriminate.
  injection Er as ->. destruct s1 as [|d s1].
  - cbn in Ew. apply IH2; [reflexivity | exact Ew].
  - cbn in Ew. injection Ew as -> <-. exists s1, s2. auto.
Qed.

(** The derivative by [c] holds the words that [c] turns into words of the
    pattern. *)
Lemma deriv_spec (r : re) (c : ascii) (s : string) :
  matches (deriv c r) s <-> matches r (String c s).
Proof.
  revert s. induction r as [| |p|a IHa b IHb|a IHa b IHb|a IHa]; intros s;
    cbn [deriv].
  - split; intros H; destruct (matches_void_inv _ H).
  - split; intros H; [destruct (matches_void_inv _ H)|].
    apply matches_eps_inv in H. discriminate.
  - destruct (p c) eqn:Hp; split; intros H.
    + apply matches_eps_inv in H as ->. constructor. exact Hp.
    + apply matches_sym_inv in H as (d & [= <- ->] & _). constructor.
    + destruct (matches_void_inv _ H).
    + apply matches_sym_inv in H as (d & [= <- ->] & Hd). congruence.
  - rewrite alt_spec. split; intros H; apply matches_alt_inv in H as [H|H];
      first [apply matches_alt_l, IHa; exact H | apply matches_alt_r, IHb; exact H].
  - assert (Hcat : matches (cat (deriv c a) b) s ->
                   matches (Cat a b) (String c s)).
    { rewrite cat_spec. intros H.
      apply matches_cat_inv in H as (s1 & s2 & -> & Ha & Hb).
      apply IHa in Ha. exact (matches_cat a b (String c s1) s2 Ha Hb). }
    assert (Hinv : matches (Cat a b) (String c s) ->
                   matches (cat (deriv c a) b) s
                   \/ (matches a EmptyString /\ matches b (String c s))).
    { intros H. apply matches_cat_inv in H as (s1 & s2 & Heq & Ha & Hb).
      destruct s1 as [|d s1].
      - right. change (String c s = s2) in Heq. subst s2. auto.
      - left. change (String c s = String d (s1 +:+ s2)) in Heq.
        injection Heq as -> ->.
        apply cat_spec. apply IHa in Ha. exact (matches_cat _ _ _ _ Ha Hb). }
    destruct (nullable a) eqn:Hn.
    + rewrite alt_spec. split.
      * intros H. apply matches_alt_inv in H as [H|H]; [apply Hcat, H|].
        apply nullable_spec in Hn. apply IHb in H.
        exact (matches_cat a b EmptyString _ Hn H).
      * intros H. destruct (Hinv H) as [H1|[_ H2]];
          [apply matches_alt_l; exact H1 | apply matches_alt_r, IHb; exact H2].
    + split; [exact Hcat|]. intros H. destruct (Hinv H) as [H1|[H2 _]];
        [exact H1|]. apply nullable_spec in H2. congruence.
  - rewrite cat_spec. split; intros H.
    + apply matches_cat_inv in H as (s1 & s2 & -> & Ha & Hb).
      apply IHa in Ha. exact (matches_star_app a (String c s1) s2 Ha Hb).
    + apply matches_star_cons in H as (s1 & s2 & -> & Ha & Hs).
      apply IHa in Ha. exact (matches_cat _ _ _ _ Ha Hs).
Qed.

(** [match_prefix]: some prefix of the text is a word of the pattern. *)
Lemma match_prefix_spec (r : re) (s : string) :
  match_prefix r s = true <->
  exists s1 s2, s = s1 +:+ s2 /\ matches r s1.
Proof.
  revert r. induction s as [|c s IH]; intros r; cbn [match_prefix].
  - rewrite orb_false_r, nullable_spec. split.
    + intros H. exists EmptyString, EmptyString. auto.
    + intros (s1 & s2 & Heq & H). destruct s1; [exact H | discriminate].
  - rewrite orb_true_iff, nullable_spec, IH. split.
    + intros [H|(s1 & s2 & -> & H)].
      * exists EmptyString, (String c s). auto.
      * exists (String c s1), s2. split; [reflexivity|]. apply deriv_spec, H.
    + intros (s1 & s2 & Heq & H). destruct s1 as [|d s1]; [left; exact H|].
      right. cbn in Heq. injection Heq as <- ->.
      exists s1, s2. split; [reflexivity|]. apply deriv_spec, H.
Qed.

(** [search]: some factor of the text is a word of the pattern. *)
Lemma search_spec (r : re) (s : string) :
  search r s = true <->
  exists s0 s1 s2, s = s0 +:+ s1 +:+ s2 /\ matches r s1.
Proof.
  induction s as [|c s IH]; cbn [search].
  - rewrite orb_false_r, match_prefix_spec. split.
    + intros (s1 & s2 & Heq & H). exists EmptyString, s1, s2. auto.
    + intros (s0 & s1 & s2 & Heq & H). destruct s0; [|discriminate].
      exists s1, s2. auto.
  - rewrite orb_true_iff, match_prefix_spec, IH. split.
    + intros [(s1 & s2 & Heq & H)|(s0 & s1 & s2 & -> & H)].
      * exists EmptyString, s1, s2. auto.
      * exists (String c s0), s1, s2. auto.
    + intros (s0 & s1 & s2 & Heq & H). destruct s0 as [|d s0].
      * left. exists s1, s2. auto.
      * right. cbn in Heq. injection Heq as <- ->. exists s0, s1, s2. auto.
Qed.

End ReFacts.
(** ** Keywords and white space *)

Module StrFacts.
Import Str PipelineSpec.

Lemma append_assoc (a b c : string) : (a +:+ b) +:+ c = a +:+ (b +:+ c).
Proof.
  induction a as [|x a IH]; [reflexivity|].
  cbv [append]. fold append. rewrite IH. reflexivity.
Qed.

Lemma append_nil_r (a : string) : a +:+ "" = a.
Proof.
  induction a as [|x a IH]; [reflexivity|].
  cbv [append]. fold append. rewrite IH. reflexivity.
Qed.

Lemma every_app p (a b : string) : every p (a +:+ b) = every p a && every p b.
Proof.
  induction a as [|x a IH]; [reflexivity|].
  cbv [append]. fold append. cbn [every]. rewrite IH. apply andb_assoc.
Qed.

Lemma every_impl (p q : ascii -> bool) (s : string) :
  (forall c, p c = true -> q c = true) -> every p s = true -> every q s = true.
Proof.
  intros Hpq. induction s as [|c s IH]; [reflexivity|].
  cbn [every]. intros H. apply andb_true_iff in H as [H1 H2].
  rewrite (Hpq c H1), (IH H2). reflexivity.
Qed.

(** A text that starts with a keyword holds its bytes. *)
Lemma starts_with_every p (kw s : string) :
  starts_with kw s = true -> every p s = true -> every p kw = true.
Proof.
  revert s. induction kw as [|a kw IH]; intros s Hs Hp; [reflexivity|].
  destruct s as [|b s]; [discriminate|].
  cbn [starts_with] in Hs. destruct (Ascii.eqb_spec a b) as [->|]; [|discriminate].
  cbn [every] in Hp |- *. apply andb_true_iff in Hp as [Hb Hp].
  rewrite Hb, (IH s Hs Hp). reflexivity.
Qed.

(** A keyword does not begin where its first byte cannot be. *)
Lemma contains_skip (c : ascii) (kw p s : string) :
  every (fun b => negb (Ascii.eqb c b)) p = true ->
  contains (String c kw) (p +:+ s) = contains (String c kw) s.
Proof.
  intros H. induction p as [|b p IH]; [reflexivity|].
  cbn [every] in H. apply andb_true_iff in H as [Hb Hp].
  cbv [append]. fold append. cbn [contains starts_with].
  apply negb_true_iff in Hb. rewrite Hb. cbn [orb]. apply IH, Hp.
Qed.

(** The white space [q] after a text: no end of the keyword begins it. *)
Lemma starts_with_clear (kw q : string) :
  ends_clear kw = true -> every space_byte q = true ->
  match q with
  | String c _ => space_lead c = true
  | EmptyString => True
  end ->
  kw <> EmptyString -> starts_with kw q = false.
Proof.
  intros Hkw Hq Hlead Hne. destruct kw as [|a kw]; [contradiction Hne; reflexivity|].
  destruct (starts_with (String a kw) q) eqn:Hs; [|reflexivity].
  pose proof (starts_with_every _ _ _ Hs Hq) as Hall.
  cbn [ends_clear] in Hkw. apply andb_true_iff in Hkw as [Hk _].
  rewrite Hall in Hk. cbn [negb] in Hk. rewrite orb_false_r in Hk.
  destruct q as [|c q]; [discriminate|].
  cbn [starts_with] in Hs. destruct (Ascii.eqb_spec a c) as [->|]; [|discriminate].
  rewrite Hlead in Hk. discriminate.
Qed.

Lemma starts_with_before (kw s q : string) :
  ends_clear kw = true -> every space_byte q = true ->
  match q with
  | String c _ => space_lead c = true
  | EmptyString => True
  end ->
  starts_with kw (s +:+ q) = starts_with kw s.
Proof.
  intros Hkw Hq Hlead. revert kw Hkw.
  induction s as [|b s IH]; intros kw Hkw.
  - destruct kw as [|a kw]; [destruct q; reflexivity|].
    change ("" +:+ q) with q.
    rewrite (starts_with_clear (String a kw) q Hkw Hq Hlead) by discriminate.
    reflexivity.
  - destruct kw as [|a kw]; [reflexivity|].
    cbv [append]. fold append. cbn [starts_with].
    destruct (Ascii.eqb a b); [|reflexivity].
    apply IH. cbn [ends_clear] in Hkw. apply andb_true_iff in Hkw as [_ Hkw].
    exact Hkw.
Qed.

Lemma contains_before (c : ascii) (kw s q : string) :
  space_byte c = false ->
  ends_clear (String c kw) = true -> every space_byte q = true ->
  match q with
  | String c _ => space_lead c = true
  | EmptyString => True
  end ->
  contains (String c kw) (s +:+ q) = contains (String c kw) s.
Proof.
  intros Hc Hkw Hq Hlead. induction s as [|b s IH].
  - change ("" +:+ q) with q.
    rewrite <- (append_nil_r q), contains_skip; [reflexivity|].
    revert Hq. apply every_impl. intros d Hd.
    destruct (Ascii.eqb_spec c d) as [->|]; [congruence | reflexivity].
  - pose proof (starts_with_before (String c kw) (String b s) q Hkw Hq Hlead) as Hs.
    cbv [append] in Hs |- *. fold append in Hs |- *.
    cbn [contains]. rewrite IH. f_equal. exact Hs.
Qed.

Ltac space_of E :=
  unfold space_byte, space_lead, Str.between; rewrite E;
  match goal with
  | |- context [Str.is_space ?x] => destruct (Str.is_space x)
  end; reflexivity.

(** The bytes of white space. *)
Lemma blank_bytes n (s : string) :
  (String.length s <= n)%nat -> Text.blank s = true ->
  every space_byte s = true
  /\ match s with
     | String c _ => space_lead c = true
     | EmptyString => True
     end.
Proof.
  revert s. induction n as [|n IH]; intros s Hn Hb.
  { destruct s; [split; [reflexivity | exact I] | cbn in Hn; lia]. }
  destruct s as [|c s1]; [split; [reflexivity | exact I]|].
  cbn [Text.blank] in Hb. cbn [String.length] in Hn.
  destruct (Str.is_space c) eqn:Hc.
  { destruct (IH s1 ltac:(lia) Hb) as [H1 _].
    split; [|unfold space_lead; rewrite Hc; reflexivity].
    cbn [every]. rewrite H1. unfold space_byte, space_lead. rewrite Hc. reflexivity. }
  destruct (Nat.eqb_spec (Str.code c) 194) as [E|_].
  { destruct s1 as [|d s2]; [discriminate|].
    apply andb_true_iff in Hb as [Hd Hb].
    cbn [String.length] in Hn.
    destruct (IH s2 ltac:(lia) Hb) as [H1 _].
    assert (Hl : space_lead c = true)
      by (space_of E).
    split; [|exact Hl]. cbn [every]. rewrite H1.
    unfold space_byte at 1. rewrite Hl.
    assert (Hd' : space_byte d = true).
    { apply orb_true_iff in Hd as [Hd|Hd]; apply Nat.eqb_eq in Hd; space_of Hd. }
    rewrite Hd'. reflexivity. }
  assert (Hthree : forall d e s3,
            s1 = String d (String e s3) ->
            space_lead c = true -> space_byte d = true -> space_byte e = true ->
            Text.blank s3 = true ->
            every space_byte (String c s1) = true /\ space_lead c = true).
  { intros d e s3 -> Hl Hd He Hb3. cbn [String.length] in Hn.
    destruct (IH s3 ltac:(lia) Hb3) as [H1 _].
    split; [|exact Hl]. cbn [every]. rewrite H1, Hd, He.
    unfold space_byte. rewrite Hl. reflexivity. }
  destruct (Nat.eqb_spec (Str.code c) 225) as [E|_].
  { destruct s1 as [|d [|e s3]]; try discriminate.
    apply andb_true_iff in Hb as [Hde Hb]. apply andb_true_iff in Hde as [Hd He].
    apply Nat.eqb_eq in Hd, He.
    apply (Hthree d e s3 eq_refl);
      [space_of E | space_of Hd | space_of He | exact Hb]. }
  destruct (Nat.eqb_spec (Str.code c) 226) as [E|_].
  { destruct s1 as [|d [|e s3]]; try discriminate.
    apply andb_true_iff in Hb as [Hde Hb].
    apply (Hthree d e s3 eq_refl);
      [space_of E | | | exact Hb].
    - apply orb_true_iff in Hde as [H|H]; apply andb_true_iff in H as [Hd _];
        apply Nat.eqb_eq in Hd; space_of Hd.
    - apply orb_true_iff in Hde as [H|H]; apply andb_true_iff in H as [_ He].
      + rewrite !orb_true_iff in He.
        destruct He as [[[He|He]|He]|He];
          [unfold space_byte; rewrite He; rewrite orb_true_r; reflexivity
          | apply Nat.eqb_eq in He; space_of He
          | apply Nat.eqb_eq in He; space_of He
          | apply Nat.eqb_eq in He; space_of He].
      + apply Nat.eqb_eq in He. space_of He. }
  destruct (Nat.eqb_spec (Str.code c) 227) as [E|_]; [|discriminate].
  destruct s1 as [|d [|e s3]]; try discriminate.
  apply andb_true_iff in Hb as [Hde Hb]. apply andb_true_iff in Hde as [Hd He].
  apply Nat.eqb_eq in Hd, He.
  apply (Hthree d e s3 eq_refl);
    [space_of E | space_of Hd | space_of He | exact Hb].
Qed.

(** White space put together is white space. *)
Lemma blanks_bytes (l : list string) :
  Forall (fun ch => Text.blank ch = true) l ->
  every space_byte (String.concat "" l) = true
  /\ match String.concat "" l with
     | String c _ => space_lead c = true
     | EmptyString => True
     end.
Proof.
  assert (Hcat : forall ch l', String.concat "" (ch :: l') = ch +:+ String.concat "" l').
  { intros ch [|x l']; cbn [String.concat]; [symmetry; apply append_nil_r | reflexivity]. }
  induction 1 as [|ch l Hch _ [IH1 IH2]]; [split; [reflexivity | exact I]|].
  rewrite Hcat.
  destruct (blank_bytes (String.length ch) ch (le_n _) Hch) as [H1 H2].
  split; [rewrite every_app, H1, IH1; reflexivity|].
  destruct ch as [|c ch]; [exact IH2 | exact H2].
Qed.

(** The text is what [chars] reads, after the continuation bytes it may
    start with. *)
Lemma chars_concat (s : string) :
  s = Text.continuation_prefix s +:+ String.concat "" (Text.chars s).
Proof.
  assert (Hcat : forall ch l', String.concat "" (ch :: l') = ch +:+ String.concat "" l').
  { intros ch [|x l']; cbn [String.concat]; [symmetry; apply append_nil_r | reflexivity]. }
  induction s as [|c s IH]; [reflexivity|].
  cbn [Text.continuation_prefix Text.chars].
  destruct (Text.is_continuation c).
  - cbv [append]. fold append. rewrite <- IH. reflexivity.
  - rewrite Hcat. cbv [append]. fold append. rewrite <- IH. reflexivity.
Qed.

Lemma drop_blank_split (l : list string) :
  exists blanks,
    l = blanks ++ Text.drop_blank l
    /\ Forall (fun ch => Text.blank ch = true) blanks.
Proof.
  induction l as [|ch l (blanks & Heq & Hb)]; [exists []; split; [reflexivity | constructor]|].
  cbn [Text.drop_blank]. destruct (Text.blank ch) eqn:Hch.
  - exists (ch :: blanks). split; [cbn; congruence | constructor; assumption].
  - exists []. split; [reflexivity | constructor].
Qed.

Lemma concat_app (l1 l2 : list string) :
  String.concat "" (l1 ++ l2) = String.concat "" l1 +:+ String.concat "" l2.
Proof.
  assert (Hcat : forall ch l', String.concat "" (ch :: l') = ch +:+ String.concat "" l').
  { intros ch [|x l']; cbn [String.concat]; [symmetry; apply append_nil_r | reflexivity]. }
  induction l1 as [|ch l1 IH]; [reflexivity|].
  cbn [app]. rewrite !Hcat, IH, append_assoc. reflexivity.
Qed.

Lemma continuation_prefix_every (s : string) :
  every Text.is_continuation (Text.continuation_prefix s) = true.
Proof.
  induction s as [|c s IH]; [reflexivity|].
  cbn [Text.continuation_prefix]. destruct (Text.is_continuation c) eqn:E; [|reflexivity].
  cbn [every]. rewrite E, IH. reflexivity.
Qed.

(** Stripping a text changes nothing for the keywords of the tables, which
    neither start nor end in white space. *)
Lemma contains_strip (kw s : string) :
  solid kw = true -> contains kw (Text.strip s) = contains kw s.
Proof.
  unfold solid. intros H. apply andb_true_iff in H as [H1 H2].
  destruct kw as [|c kw]; [discriminate|].
  apply andb_true_iff in H1 as [Hc Hcont]. apply negb_true_iff in Hc, Hcont.
  unfold Text.strip.
  pose proof (chars_concat s) as Hs.
  destruct (drop_blank_split (Text.chars s)) as (b1 & E1 & Hb1).
  set (rest1 := Text.drop_blank (Text.chars s)) in *.
  destruct (drop_blank_split (rev rest1)) as (b2 & E2 & Hb2).
  set (rest2 := Text.drop_blank (rev rest1)) in *.
  assert (E3 : rest1 = rev rest2 ++ rev b2).
  { rewrite <- (rev_involutive rest1), E2, rev_app_distr. reflexivity. }
  replace (contains (String c kw) s)
    with (contains (String c kw)
            (Text.continuation_prefix s +:+ String.concat "" (Text.chars s)))
    by (rewrite <- Hs; reflexivity).
  rewrite E1, E3, !concat_app.
  destruct (blanks_bytes b1 Hb1) as [Hq1 _].
  destruct (blanks_bytes (rev b2) (Forall_rev Hb2)) as [Hq2 Hl2].
  rewrite <- append_assoc, contains_skip.
  - rewrite (contains_before c kw _ _ Hc H2 Hq2 Hl2). reflexivity.
  - rewrite every_app. apply andb_true_iff. split.
    + generalize (continuation_prefix_every s). apply every_impl.
      intros d Hd. destruct (Ascii.eqb_spec c d) as [->|]; [congruence | reflexivity].
    + revert Hq1. apply every_impl.
      intros d Hd. destruct (Ascii.eqb_spec c d) as [->|]; [congruence | reflexivity].
Qed.

Lemma any_in_strip (ks : list string) (s : string) :
  forallb solid ks = true -> any_in ks (Text.strip s) = any_in ks s.
Proof.
  unfold any_in. induction ks as [|k ks IH]; intros H; [reflexivity|].
  cbn [forallb] in H. apply andb_true_iff in H as [Hk Hks].
  cbn [existsb]. rewrite contains_strip, IH by assumption. reflexivity.
Qed.

Lemma count_in_strip (ks : list string) (s : string) :
  forallb solid ks = true -> count_in ks (Text.strip s) = count_in ks s.
Proof.
  unfold count_in. induction ks as [|k ks IH]; intros H; [reflexivity|].
  cbn [forallb] in H. apply andb_true_iff in H as [Hk Hks].
  cbn [List.filter]. rewrite contains_strip by assumption.
  destruct (contains k s); cbn [length]; rewrite IH by assumption; reflexivity.
Qed.

Lemma any_in_elem (ks : list string) (k s : string) :
  k ∈ ks -> contains k s = true -> any_in ks s = true.
Proof.
  intros Hin Hc. unfold any_in. apply existsb_exists. exists k.
  split; [apply list_elem_of_In, Hin | exact Hc].
Qed.

End StrFacts.

(** ** Sessions *)

Module MemoryFacts.
Import ConversationMemory MemorySpec.

Lemma get_or_create_session_eq now phone name mem :
  get_or_create_session now phone name mem =
  match _sessions (sweep now mem) !! phone with
  | Some session =>
      if bool_decide (stale (sweep now mem) now session)
      then _create_new_session now phone name
             (_archive_session session (sweep now mem))
      else (set_last_activity now session,
            with_sessions
              (<[phone := set_last_activity now session]>
                 (_sessions (sweep now mem))) (sweep now mem))
  | None => _create_new_session now phone name (sweep now mem)
  end.
Proof. reflexivity. Qed.

Lemma sweep_config now mem :
  _max_history (sweep now mem) = _max_history mem
  /\ _session_timeout (sweep now mem) = _session_timeout mem.
Proof. unfold sweep. case_bool_decide; auto. Qed.

Lemma sweep_recent now mem :
  ~ seconds 300 < now - _last_cleanup (sweep now mem).
Proof.
  unfold sweep. case_bool_decide as H; [|exact H].
  cbn. unfold seconds. lia.
Qed.

Lemma stale_sweep now mem t s :
  stale (sweep now mem) t s <-> stale mem t s.
Proof. unfold stale. destruct (sweep_config now mem) as [_ ->]. tauto. Qed.

Lemma sweep_lookup_live now mem phone s :
  _sessions mem !! phone = Some s -> ~ stale mem now s ->
  _sessions (sweep now mem) !! phone = Some s.
Proof.
  intros Hs Hl. unfold sweep. case_bool_decide; [|exact Hs].
  cbn. apply map_lookup_filter_Some. split; [exact Hs | exact Hl].
Qed.

(** A call leaves a session for the user, active at [now]. *)
Lemma get_or_create_session_stored now phone name mem :
  let r := get_or_create_session now phone name mem in
  _sessions r.2 !! phone = Some r.1
  /\ last_activity r.1 = now
  /\ _max_history r.2 = _max_history mem
  /\ _session_timeout r.2 = _session_timeout mem
  /\ ~ seconds 300 < now - _last_cleanup r.2.
Proof.
  cbv zeta. rewrite get_or_create_session_eq.
  pose proof (sweep_config now mem) as [Hc Ht].
  pose proof (sweep_recent now mem) as Hr.
  destruct (_sessions (sweep now mem) !! phone) as [s|];
    [case_bool_decide|]; cbn; rewrite ?lookup_insert_eq; auto.
Qed.

(** With a session that is not stale, the call only refreshes it. *)
Lemma get_or_create_session_live now phone name mem s :
  _sessions mem !! phone = Some s -> ~ stale mem now s ->
  (get_or_create_session now phone name mem).1 = set_last_activity now s.
Proof.
  intros Hs Hl. rewrite get_or_create_session_eq.
  rewrite (sweep_lookup_live _ _ _ _ Hs Hl).
  rewrite bool_decide_eq_false_2 by (rewrite stale_sweep; exact Hl).
  reflexivity.
Qed.

Lemma length_slice_from_neg {A : Type} (n : Z) (l : list A) :
  0 < n -> slice_from (- n) l = last_n (Z.to_nat n) l.
Proof.
  intros Hn. unfold slice_from, last_n.
  replace (- n <? 0) with true by (symmetry; apply Z.ltb_lt; lia).
  f_equal. lia.
Qed.

Lemma trim_last_n cap ms :
  0 < cap -> trim cap ms = last_n (Z.to_nat cap) ms.
Proof.
  intros Hc. unfold trim. case_bool_decide as Hlen.
  - apply length_slice_from_neg, Hc.
  - unfold last_n. replace (length ms - Z.to_nat cap)%nat with 0%nat by lia.
    reflexivity.
Qed.

Lemma length_last_n {A : Type} (n : nat) (l : list A) :
  length (last_n n l) = Nat.min n (length l).
Proof. unfold last_n. rewrite length_drop. lia. Qed.

Lemma last_n_all {A : Type} (n : nat) (l : list A) :
  (length l <= n)%nat -> last_n n l = l.
Proof.
  intros H. unfold last_n.
  replace (length l - n)%nat with 0%nat by lia. reflexivity.
Qed.

(** Trimming after every append keeps what trimming once at the end keeps. *)
Lemma last_n_app {A : Type} (n : nat) (l k : list A) :
  last_n n (last_n n l ++ k) = last_n n (l ++ k).
Proof.
  destruct (Nat.le_gt_cases (length l) n) as [Hle|Hgt].
  - rewrite (last_n_all n l Hle). reflexivity.
  - unfold last_n at 1 3. rewrite !length_app, length_last_n.
    replace (Nat.min n (length l) + length k - n)%nat with (length k) by lia.
    unfold last_n.
    destruct (Nat.le_gt_cases (length k) n) as [Hk|Hk].
    + rewrite !drop_app_le by (rewrite ?length_drop; lia).
      rewrite drop_drop. do 2 f_equal. lia.
    + rewrite !drop_app_ge by (rewrite ?length_drop; lia).
      rewrite length_drop. f_equal. lia.
Qed.

(** [add_message] always leaves the user a session whose history fits. *)
Lemma add_message_bound now phone r text intent meta mem :
  0 < _max_history mem ->
  exists s',
    _sessions (add_message now phone r text intent meta mem).2 !! phone = Some s'
    /\ Z.of_nat (length (messages s')) <= _max_history mem.
Proof.
  intros Hcap. unfold add_message.
  pose proof (get_or_create_session_stored now phone "User" mem) as H.
  cbv zeta in H. destruct (get_or_create_session now phone "User" mem) as [s1 mem1].
  cbn [fst snd] in H. destruct H as (_ & _ & Hc & _).
  cbn [snd]. cbn [with_sessions _sessions]. rewrite lookup_insert_eq.
  eexists. split; [reflexivity|]. cbn [messages set_last_activity set_history].
  rewrite Hc. fold (trim (_max_history mem) (messages s1 ++ [mkMessage r text now intent meta])).
  rewrite trim_last_n by exact Hcap. rewrite length_last_n. lia.
Qed.

(** On a session that is not stale, [add_message] appends, trims, counts
    and refreshes; it keeps the identifier and the configuration. *)
Lemma add_message_live now phone r text intent meta mem s :
  _sessions mem !! phone = Some s -> ~ stale mem now s ->
  let mem' := (add_message now phone r text intent meta mem).2 in
  exists s',
    _sessions mem' !! phone = Some s'
    /\ messages s' = trim (_max_history mem)
                       (messages s ++ [mkMessage r text now intent meta])
    /\ message_count s' = message_count s + 1
    /\ last_activity s' = now
    /\ conversation_id s' = conversation_id s
    /\ _max_history mem' = _max_history mem
    /\ _session_timeout mem' = _session_timeout mem
    /\ active_tickets s' = active_tickets s.
Proof.
  intros Hs Hl. cbv zeta. unfold add_message.
  pose proof (get_or_create_session_stored now phone "User" mem) as H.
  pose proof (get_or_create_session_live now phone "User" mem s Hs Hl) as H1.
  cbv zeta in H. destruct (get_or_create_session now phone "User" mem) as [s1 mem1].
  cbn [fst snd] in H, H1. destruct H as (_ & _ & Hc & Ht & _). subst s1.
  cbn [snd with_sessions _sessions _max_history _session_timeout].
  rewrite lookup_insert_eq. eexists. split; [reflexivity|].
  cbn. rewrite Hc. unfold trim. repeat split; auto.
Qed.

Lemma add_call_config phone mem c :
  _max_history (add_call phone mem c) = _max_history mem
  /\ _session_timeout (add_call phone mem c) = _session_timeout mem.
Proof.
  unfold add_call, add_message.
  pose proof (get_or_create_session_stored (c_now c) phone "User" mem) as H.
  cbv zeta in H.
  destruct (get_or_create_session (c_now c) phone "User" mem) as [s1 mem1].
  cbn [fst snd] in H. destruct H as (_ & _ & Hc & Ht & _).
  cbn. auto.
Qed.

Lemma add_messages_config phone calls mem :
  _max_history (add_messages phone calls mem) = _max_history mem
  /\ _session_timeout (add_messages phone calls mem) = _session_timeout mem.
Proof.
  revert mem. induction calls as [|c calls IH]; intros mem; [auto|].
  cbn [add_messages fold_left]. fold (add_messages phone calls (add_call phone mem c)).
  destruct (IH (add_call phone mem c)) as [-> ->]. apply add_call_config.
Qed.

(** The history of a session that does not expire: the most recent
    messages of everything appended, and a count of them all. *)
Lemma add_messages_live phone calls :
  forall mem s,
    0 < _max_history mem ->
    _sessions mem !! phone = Some s ->
    Z.of_nat (length (messages s)) <= _max_history mem ->
    unexpired (_session_timeout mem) (last_activity s) calls ->
    exists s',
      _sessions (add_messages phone calls mem) !! phone = Some s'
      /\ messages s' =
           last_n (Z.to_nat (_max_history mem))
             (messages s ++ map message_of calls)
      /\ message_count s' = message_count s + Z.of_nat (length calls)
      /\ conversation_id s' = conversation_id s.
Proof.
  induction calls as [|c calls IH]; intros mem s Hcap Hs Hlen Hun.
  - exists s. cbn [add_messages fold_left map length].
    rewrite app_nil_r, last_n_all by lia.
    repeat split; [exact Hs | lia].
  - destruct Hun as [Hlive Hun].
    destruct (add_message_live (c_now c) phone (c_role c) (c_content c)
                (c_intent c) (c_metadata c) mem s Hs Hlive)
      as (s1 & Hs1 & Hm1 & Hc1 & Ha1 & Hid1 & Hcap1 & Ht1 & _).
    fold (add_call phone mem c) in Hs1, Hcap1, Ht1.
    rewrite trim_last_n in Hm1 by exact Hcap.
    destruct (IH (add_call phone mem c) s1) as (s' & Hs' & Hm' & Hc' & Hid').
    + rewrite Hcap1. exact Hcap.
    + exact Hs1.
    + rewrite Hcap1, Hm1, length_last_n. lia.
    + rewrite Ht1, Ha1. exact Hun.
    + exists s'. cbn [add_messages fold_left].
      fold (add_messages phone calls (add_call phone mem c)).
      split; [exact Hs'|]. rewrite Hm', Hc', Hid', Hcap1, Hm1, Hc1, Hid1.
      fold (message_of c). rewrite last_n_app, <- app_assoc.
      cbn [map length app]. repeat split. lia.
Qed.

(** [add_active_ticket] leaves the user a session, active at [now], that
    lists the ticket. *)
Lemma add_active_ticket_stored now phone key mem :
  0 <= _session_timeout mem ->
  exists s,
    _sessions (add_active_ticket now phone key mem) !! phone = Some s
    /\ key ∈ active_tickets s
    /\ ~ stale (add_active_ticket now phone key mem) now s.
Proof.
  intros Ht. unfold add_active_ticket.
  pose proof (get_or_create_session_stored now phone "User" mem) as H.
  cbv zeta in H. destruct (get_or_create_session now phone "User" mem) as [s1 mem1].
  cbn [fst snd] in H. destruct H as (Hs & Hact & _ & Htime & _).
  case_bool_decide as Hin.
  - exists s1. repeat split; [exact Hs | exact Hin |]. unfold stale. lia.
  - eexists. cbn [with_sessions _sessions]. rewrite lookup_insert_eq.
    split; [reflexivity|]. cbn [active_tickets set_active_tickets].
    split; [apply elem_of_app; right; apply list_elem_of_singleton; reflexivity|].
    unfold stale. cbn. lia.
Qed.

(** *** Identifiers and expiry *)

Lemma of_Z_inj (a b : Z) : Str.of_Z a = Str.of_Z b -> a = b.
Proof.
  unfold Str.of_Z. intros H.
  assert (Hn : forall n, NilZero.int_of_string (NilZero.string_of_int (Z.to_int n))
                         = Some (Z.to_int n)).
  { intros n. apply NilZero.isi; destruct n; cbn; try discriminate;
      intros [= Hp]; exact (DecimalPos.Unsigned.to_uint_nonnil _ Hp). }
  pose proof (Hn a) as Ha. rewrite H, Hn in Ha.
  apply DecimalZ.to_int_inj. congruence.
Qed.

Lemma epoch_seconds_lt (a b : Z) :
  a + seconds 2 < b -> epoch_seconds a < epoch_seconds b.
Proof.
  unfold seconds, epoch_seconds. intros H.
  pose proof (Z.quot_rem' a 1000000). pose proof (Z.quot_rem' b 1000000).
  pose proof (Z.rem_bound_abs a 1000000). pose proof (Z.rem_bound_abs b 1000000).
  lia.
Qed.

Lemma filter_none {A : Type} (P : A -> Prop) `{forall x, Decision (P x)}
    (l : list A) :
  (forall x, x ∈ l -> ~ P x) -> filter P l = [].
Proof.
  induction l as [|x l IH]; intros Hl; [reflexivity|].
  rewrite filter_cons_False by (apply Hl; left).
  apply IH. intros y Hy. apply Hl. right. exact Hy.
Qed.

(** The sweep archives a stale session of [phone] once and removes it. *)
Lemma cleanup_archives_once now mem phone old :
  keyed mem ->
  _sessions mem !! phone = Some old ->
  stale mem now old ->
  _sessions (_cleanup_expired_sessions now mem) !! phone = None
  /\ archived_for phone (archived (_cleanup_expired_sessions now mem)) =
       archived_for phone (archived mem) ++ [old].
Proof.
  intros Hk Hs Hst. unfold _cleanup_expired_sessions. cbn [_sessions archived].
  split.
  - apply map_lookup_filter_None. right. intros s Hs' Hn.
    cbn in Hn. rewrite Hs in Hs'. injection Hs' as <-. exact (Hn Hst).
  - unfold archived_for. rewrite filter_app. f_equal.
    set (E := filter (fun kv : string * ConversationContext => stale mem now kv.2)
                (_sessions mem)).
    assert (HE : E !! phone = Some old).
    { apply map_lookup_filter_Some. split; [exact Hs | exact Hst]. }
    apply Permutation_singleton_r.
    rewrite <- (map_to_list_delete E phone old HE).
    cbn [fmap list_fmap snd]. rewrite filter_cons_True by (apply (Hk _ _ Hs)).
    rewrite filter_none; [reflexivity|].
    intros s Hin Hp.
    apply list_elem_of_fmap_1 in Hin as ([k s'] & -> & Hin).
    apply elem_of_map_to_list in Hin. cbn in Hp.
    destruct (decide (k = phone)) as [->|Hne].
    + rewrite lookup_delete_eq in Hin. discriminate.
    + rewrite lookup_delete_ne in Hin by congruence.
      apply map_lookup_filter_Some in Hin as [Hin _].
      apply Hk in Hin. congruence.
Qed.

(** *** Well-formed sessions are an invariant of the service *)

Lemma well_formed_keyed clock mem : well_formed clock mem -> keyed mem.
Proof. intros H k s Hs. apply (H k s Hs). Qed.

Lemma well_formed_minted clock mem k s :
  well_formed clock mem -> _sessions mem !! k = Some s -> minted s.
Proof. intros H Hs. apply (H k s Hs). Qed.

Lemma well_formed_mono clock now mem :
  clock <= now -> well_formed clock mem -> well_formed now mem.
Proof.
  intros Hle H k s Hs. destruct (H k s Hs) as (H1 & H2 & H3).
  split; [exact H1|]. split; [exact H2 | lia].
Qed.

Lemma init_well_formed cap timeout now : well_formed now (init cap timeout now).
Proof. intros k s Hs. cbn in Hs. rewrite lookup_empty in Hs. discriminate. Qed.

Lemma sweep_well_formed now mem :
  well_formed now mem -> well_formed now (sweep now mem).
Proof.
  intros H k s. unfold sweep. case_bool_decide; [|apply H].
  cbn. intros Hf. apply map_lookup_filter_Some in Hf as [Hf _]. apply (H k s Hf).
Qed.

Lemma get_or_create_session_well_formed clock now phone name mem :
  clock <= now -> well_formed clock mem ->
  well_formed now (get_or_create_session now phone name mem).2.
Proof.
  intros Hle H. apply (well_formed_mono clock now mem Hle) in H.
  apply sweep_well_formed in H.
  assert (Hnew : forall m0, well_formed now m0 ->
                   well_formed now (_create_new_session now phone name m0).2).
  { intros m0 H0. unfold well_formed. cbn [_create_new_session snd with_sessions _sessions].
    apply map_Forall_insert_2; [|exact H0].
    split; [reflexivity|]. split; [split; [reflexivity | cbn; lia] | cbn; lia]. }
  rewrite get_or_create_session_eq.
  destruct (_sessions (sweep now mem) !! phone) as [s|] eqn:Hs;
    [case_bool_decide|]; try (apply Hnew; exact H).
  unfold well_formed. cbn [snd with_sessions _sessions].
  apply map_Forall_insert_2; [|exact H].
  destruct (H _ _ Hs) as (H1 & [H2 H3] & H4).
  split; [exact H1|]. split; [split; [exact H2 | cbn; lia] | cbn; lia].
Qed.

(** Storing back a refreshed version of the user's session keeps the
    sessions well formed. *)
Lemma store_back_well_formed now phone mem s s' :
  well_formed now mem ->
  _sessions mem !! phone = Some s ->
  refreshes now s s' ->
  well_formed now (with_sessions (<[phone := s']> (_sessions mem)) mem).
Proof.
  intros H Hs (R1 & R2 & R3 & R4). unfold well_formed.
  cbn [with_sessions _sessions].
  apply map_Forall_insert_2; [|exact H].
  destruct (H _ _ Hs) as (H1 & [H2 H3] & H4).
  unfold minted. rewrite R1, R2, R3.
  split; [exact H1|]. split; [split; [exact H2 | lia] | lia].
Qed.

Lemma refreshes_refl now s :
  started_at s <= last_activity s <= now -> refreshes now s s.
Proof. intros H. repeat split; apply H. Qed.

(** Every operation is a look-up of the session followed, at most, by
    storing back a refreshed version of it. *)
Lemma after_session_well_formed clock now phone mem
    (f : ConversationContext -> ConversationContext) :
  clock <= now -> well_formed clock mem ->
  (forall s, started_at s <= last_activity s <= now -> refreshes now s (f s)) ->
  let r := get_or_create_session now phone "User" mem in
  well_formed now r.2
  /\ well_formed now (with_sessions (<[phone := f r.1]> (_sessions r.2)) r.2).
Proof.
  intros Hle H Hf. cbv zeta.
  pose proof (get_or_create_session_well_formed clock now phone "User" mem Hle H)
    as Hwf.
  pose proof (get_or_create_session_stored now phone "User" mem) as Hst.
  cbv zeta in Hst. destruct Hst as (Hs & _).
  split; [exact Hwf|].
  apply (store_back_well_formed now phone _ _ _ Hwf Hs). apply Hf.
  destruct (Hwf _ _ Hs) as (_ & [_ H3] & H4). lia.
Qed.

Lemma add_message_well_formed clock now phone r text intent meta mem :
  clock <= now -> well_formed clock mem ->
  well_formed now (add_message now phone r text intent meta mem).2.
Proof.
  intros Hle H. unfold add_message.
  pose proof (after_session_well_formed clock now phone mem
                (fun s => set_last_activity now
                   (set_history (message_count s + 1)
                      (trim (_max_history (get_or_create_session now phone "User" mem).2)
                         (messages s ++ [mkMessage r text now intent meta])) s))
                Hle H) as Hwf.
  cbv zeta in Hwf.
  destruct (get_or_create_session now phone "User" mem) as [s1 mem1].
  apply Hwf. intros s Hs. repeat split; cbn; lia.
Qed.

Lemma update_state_well_formed clock now phone st mem :
  clock <= now -> well_formed clock mem ->
  well_formed now (update_state now phone st mem).
Proof.
  intros Hle H. unfold update_state.
  pose proof (after_session_well_formed clock now phone mem (set_state st) Hle H)
    as Hwf. cbv zeta in Hwf.
  destruct (get_or_create_session now phone "User" mem) as [s1 mem1].
  apply (add_message_well_formed now now); [lia|].
  apply Hwf. intros s Hs. repeat split; cbn; lia.
Qed.

Lemma set_vip_status_well_formed clock now phone vip tier mem :
  clock <= now -> well_formed clock mem ->
  well_formed now (set_vip_status now phone vip tier mem).
Proof.
  intros Hle H. unfold set_vip_status.
  pose proof (after_session_well_formed clock now phone mem (set_vip vip tier) Hle H)
    as Hwf. cbv zeta in Hwf.
  destruct (get_or_create_session now phone "User" mem) as [s1 mem1].
  apply Hwf. intros s Hs. repeat split; cbn; lia.
Qed.

Lemma add_topic_well_formed clock now phone topic mem :
  clock <= now -> well_formed clock mem ->
  well_formed now (add_topic now phone topic mem).
Proof.
  intros Hle H. unfold add_topic.
  pose proof (fun f => after_session_well_formed clock now phone mem f Hle H) as Hwf.
  cbv zeta in Hwf.
  destruct (get_or_create_session now phone "User" mem) as [s1 mem1].
  case_bool_decide.
  - apply (Hwf (fun s => s)). intros s Hs. apply refreshes_refl, Hs.
  - apply (Hwf (fun s => set_topics (topics_discussed s1 ++ [topic]) s)).
    intros s Hs. repeat split; cbn; lia.
Qed.

Lemma add_active_ticket_well_formed clock now phone key mem :
  clock <= now -> well_formed clock mem ->
  well_formed now (add_active_ticket now phone key mem).
Proof.
  intros Hle H. unfold add_active_ticket.
  pose proof (fun f => after_session_well_formed clock now phone mem f Hle H) as Hwf.
  cbv zeta in Hwf.
  destruct (get_or_create_session now phone "User" mem) as [s1 mem1].
  case_bool_decide.
  - apply (Hwf (fun s => s)). intros s Hs. apply refreshes_refl, Hs.
  - apply (Hwf (fun s => set_active_tickets (active_tickets s1 ++ [key]) s)).
    intros s Hs. repeat split; cbn; lia.
Qed.

Lemma update_preference_well_formed clock now phone key value mem :
  clock <= now -> well_formed clock mem ->
  well_formed now (update_preference now phone key value mem).
Proof.
  intros Hle H. unfold update_preference.
  pose proof (fun f => after_session_well_formed clock now phone mem f Hle H) as Hwf.
  cbv zeta in Hwf.
  destruct (get_or_create_session now phone "User" mem) as [s1 mem1].
  destruct (String.eqb key "preferred_language").
  - apply (Hwf (set_preferred_language value)).
    intros s Hs. repeat split; cbn; lia.
  - apply (Hwf (fun s => s)). intros s Hs. apply refreshes_refl, Hs.
Qed.

Lemma set_pending_ticket_well_formed clock now phone key mem :
  clock <= now -> well_formed clock mem ->
  well_formed now (set_pending_ticket now phone key mem).
Proof.
  intros Hle H. unfold set_pending_ticket.
  pose proof (after_session_well_formed clock now phone mem
                (set_pending_ticket_key (Some key)) Hle H) as Hwf.
  cbv zeta in Hwf.
  destruct (get_or_create_session now phone "User" mem) as [s1 mem1].
  assert (Hwf' : well_formed now
                   (with_sessions
                      (<[phone := set_pending_ticket_key (Some key) s1]>
                         (_sessions mem1)) mem1)).
  { apply Hwf. intros s Hs. repeat split; cbn; lia. }
  destruct (ConversationState_eqb (state s1) SUPPORT_TICKET); [exact Hwf'|].
  apply (update_state_well_formed now now); [lia | exact Hwf'].
Qed.

End MemoryFacts.

(** ** Sentiment *)

Module SentimentFacts.
Import Sentiment SentimentSpec.

(** The analysis of a message for a named user, in terms of the analysis in
    isolation: the history gets one more entry, and only the urgency (and what
    is derived from it) can differ. *)
Lemma analyze_sentiment_urgency now message c p h :
  let phone := String c p in
  let iso := isolated message in
  let h' := _update_frustration_history now phone (score iso) (urgency iso) h in
  (analyze_sentiment now message (Some phone) h).2 = h'
  /\ sentiment (analyze_sentiment now message (Some phone) h).1 = sentiment iso
  /\ urgency (analyze_sentiment now message (Some phone) h).1 =
       if _check_repeat_frustration phone h'
       then Z.min (urgency iso + 3) 10
       else urgency iso.
Proof.
  cbv zeta. unfold isolated, analyze_sentiment.
  cbn [fst snd score urgency sentiment].
  destruct (_check_repeat_frustration _ _); cbn [fst snd urgency sentiment];
    repeat split; reflexivity.
Qed.

Lemma isolated_urgency_le message : urgency (isolated message) <= 10.
Proof. unfold isolated, analyze_sentiment. cbn [fst urgency]. lia. Qed.

Lemma negative_score message :
  sentiment (isolated message) = negative ->
  Qltb (score (isolated message)) (- (3 # 10)) = true.
Proof.
  unfold isolated, analyze_sentiment. cbn [fst sentiment score]. unfold label.
  destruct (Qltb (3 # 10) _); [discriminate|].
  destruct (Qltb _ (- (3 # 10))); [reflexivity|discriminate].
Qed.

End SentimentFacts.

(** ** The handlers *)

Module HandlerFacts.
Import IntentService PipelineSpec.

Lemma sends_one_then_one phone w1 w2 w3 :
  sends_one phone w1 w2 -> sends_one phone w2 w3 -> sends_two phone w1 w3.
Proof.
  intros [a Ha] [b Hb]. exists a, b. rewrite Hb, Ha, <- app_assoc. reflexivity.
Qed.

(** The signals of the confirmation handler read the lower-cased message:
    stripping it changes nothing for these keywords. *)
Lemma is_confirmation_eq text :
  is_confirmation text = Str.any_in confirm_keywords (Str.lower text).
Proof. apply StrFacts.any_in_strip. reflexivity. Qed.

Lemma is_cancellation_eq text :
  is_cancellation text = Str.any_in cancel_keywords (Str.lower text).
Proof. apply StrFacts.any_in_strip. reflexivity. Qed.

Lemma issue_keyword_count_eq text :
  issue_keyword_count text = Str.count_in new_issue_keywords (Str.lower text).
Proof. apply StrFacts.count_in_strip. reflexivity. Qed.

Lemma ambiguous_not_override text :
  ambiguous text = true -> is_override text = false.
Proof.
  unfold ambiguous. destruct (is_override text); [|reflexivity].
  cbn [negb andb]. discriminate.
Qed.

Lemma clear_pending_ticket_delete phone (st : gmap string PendingTicket) :
  (ResponseService.clear_pending_ticket phone st).2 = delete phone st.
Proof.
  unfold ResponseService.clear_pending_ticket.
  destruct (st !! phone) eqn:E; [reflexivity|].
  cbn [snd]. symmetry. apply delete_id, E.
Qed.

Section WithCollaborators.

Context (env : Collaborators).

(** The four branches of [_handle_confirmation]. *)
Lemma handle_confirmation_override now phone name text t lang w :
  is_override text = true ->
  _handle_confirmation env now phone name text t lang w =
  (Response.mk None "new_issue_detected" (Some true) None None (Some true) None,
   mkWorld (memory w) (delete phone (pending_tickets w)) (frustration w)
     (sent w ++ [(phone, acknowledgement lang)]) (jira_calls w)).
Proof.
  intros H. unfold _handle_confirmation. rewrite H.
  rewrite <- clear_pending_ticket_delete. reflexivity.
Qed.

Lemma confirmation_not_override text :
  is_confirmation text = true -> is_override text = false.
Proof.
  intros H. unfold is_override. rewrite H, andb_false_r. reflexivity.
Qed.

Lemma handle_confirmation_confirm now phone name text t lang w :
  is_confirmation text = true ->
  _handle_confirmation env now phone name text t lang w =
  match jira_create_ticket env (jira_calls w) (summary t) (description t)
          (project_key t) (priority t) with
  | Created key =>
      let success_msg :=
        get_smart_response env "ticket_created" text
          [("ticket_key", key); ("summary", summary t)] in
      (Response.mk (Some "create_ticket") "created" (Some true) (Some key)
         None None None,
       mkWorld
         (ConversationMemory.add_message now phone ConversationMemory.AGENT
            success_msg (Some "ticket_created") []
            (ConversationMemory.add_active_ticket now phone key (memory w))).2
         (delete phone (pending_tickets w)) (frustration w)
         (sent w ++ [(phone, success_msg)])
         (jira_calls w ++ [create_call t]))
  | CreateFailed err =>
      (Response.mk None "failed" None None (Some err) None None,
       mkWorld (memory w) (pending_tickets w) (frustration w)
         (sent w ++ [(phone, get_smart_response env "error" text [])])
         (jira_calls w ++ [create_call t]))
  end.
Proof.
  intros H. unfold _handle_confirmation.
  rewrite (confirmation_not_override text H), H.
  unfold mbind, M_bind, jira. cbn [jira_calls fst snd].
  destruct (jira_create_ticket _ _ _ _ _ _) as [key|err]; [|reflexivity].
  cbv zeta. rewrite <- clear_pending_ticket_delete. reflexivity.
Qed.

Lemma handle_confirmation_modify now phone name text t lang w :
  ambiguous text = true ->
  _handle_confirmation env now phone name text t lang w =
  (Response.sent_action "updated_preview",
   mkWorld (memory w)
     (<[phone := add_description (additional_information text) t]>
        (pending_tickets w))
     (frustration w)
     (sent w ++ [(phone,
                  get_smart_response env "confirm_ticket" text
                    [("summary", summary t); ("team", team t);
                     ("priority", Priority_value (priority t))])])
     (jira_calls w)).
Proof.
  unfold ambiguous. intros H.
  apply andb_true_iff in H as [H H3]. apply andb_true_iff in H as [H1 H2].
  apply negb_true_iff in H1, H2, H3.
  unfold _handle_confirmation. rewrite H1, H2, H3. reflexivity.
Qed.

(** Every handler sends exactly one message. *)
Lemma handle_create_ticket_sends now phone name text ir lang w :
  sends_one phone w (_handle_create_ticket env now phone name text ir lang w).2.
Proof. eexists. reflexivity. Qed.

Lemma handle_confirmation_sends now phone name text t lang w :
  sends_one phone w (_handle_confirmation env now phone name text t lang w).2.
Proof.
  unfold _handle_confirmation.
  destruct (is_override text); [eexists; reflexivity|].
  destruct (is_confirmation text).
  - unfold mbind, M_bind, jira. cbn [fst snd jira_calls].
    destruct (jira_create_ticket _ _ _ _ _ _); eexists; reflexivity.
  - destruct (is_cancellation text); eexists; reflexivity.
Qed.

Lemma handle_check_status_sends now phone name text ir lang w :
  sends_one phone w (_handle_check_status env now phone name text ir lang w).2.
Proof.
  unfold _handle_check_status.
  destruct (negb (truthy _));
    unfold mbind, M_bind, jira; cbn [fst snd jira_calls].
  - destruct (jira_search_tickets _ _ _ _); eexists; reflexivity.
  - destruct (jira_get_ticket_status _ _ _); eexists; reflexivity.
Qed.

Lemma handle_update_ticket_sends now phone name text ir lang w :
  sends_one phone w (_handle_update_ticket env now phone name text ir lang w).2.
Proof.
  unfold _handle_update_ticket.
  destruct (negb (truthy _)); [eexists; reflexivity|].
  unfold mbind, M_bind, jira. cbn [fst snd jira_calls].
  destruct (jira_update_ticket _ _ _ _ _); eexists; reflexivity.
Qed.

Lemma handle_close_ticket_sends now phone name text ir lang w :
  sends_one phone w (_handle_close_ticket env now phone name text ir lang w).2.
Proof.
  unfold _handle_close_ticket.
  destruct (negb (truthy _)); [eexists; reflexivity|].
  unfold mbind, M_bind, jira. cbn [fst snd jira_calls].
  destruct (jira_close_ticket _ _ _); eexists; reflexivity.
Qed.

Lemma route_intent_sends now phone name text ir lang w :
  sends_one phone w (_route_intent env now phone name text ir lang w).2.
Proof.
  unfold _route_intent. destruct (ic_intent ir).
  - apply handle_create_ticket_sends.
  - apply handle_check_status_sends.
  - apply handle_update_ticket_sends.
  - apply handle_close_ticket_sends.
  - eexists; reflexivity.
  - eexists; reflexivity.
  - eexists; reflexivity.
Qed.

Lemma classify_and_route_eq now phone name original text lang w :
  classify_and_route env now phone name original text lang w =
  if _is_technical_query text
  then _handle_create_ticket env now phone name text None lang w
  else if _is_real_estate_query text
       then (Response.sent_intent "property_inquiry" "redirected_to_sales",
             mkWorld
               (ConversationMemory.add_message now phone ConversationMemory.AGENT
                  (property_redirect env name original)
                  (Some "property_redirect") [] (memory w)).2
               (pending_tickets w) (frustration w)
               (sent w ++ [(phone, property_redirect env name original)])
               (jira_calls w))
       else ai_route env now phone name text lang w.
Proof.
  unfold classify_and_route.
  destruct (_is_technical_query text); [reflexivity|].
  destruct (_is_real_estate_query text); reflexivity.
Qed.

Lemma ai_route_sends now phone name text lang w :
  sends_one phone w (ai_route env now phone name text lang w).2.
Proof.
  unfold ai_route, mbind, M_bind. cbv zeta. cbn [get_world fst snd].
  set (ir := classify_intent env text name phone _).
  set (w1 := (update_memory _ w).2).
  destruct (route_intent_sends now phone name text ir lang w1) as [m Hm].
  exists m. exact Hm.
Qed.

Lemma classify_and_route_sends now phone name original text lang w :
  sends_one phone w (classify_and_route env now phone name original text lang w).2.
Proof.
  rewrite classify_and_route_eq.
  destruct (_is_technical_query text); [apply handle_create_ticket_sends|].
  destruct (_is_real_estate_query text); [eexists; reflexivity|].
  apply ai_route_sends.
Qed.

End WithCollaborators.

End HandlerFacts.

(** ** The pipeline *)

Module PipelineFacts.
Import IntentService PipelineSpec HandlerFacts.

Lemma world_eta (w : World) :
  mkWorld (memory w) (pending_tickets w) (frustration w) (sent w) (jira_calls w) = w.
Proof. destruct w. reflexivity. Qed.

(** A draft that is stored and not older than an hour is returned, and the
    store stays as it is. *)
Lemma get_pending_ticket_live now phone (st : gmap string PendingTicket) t :
  st !! phone = Some t ->
  now - timestamp t <= minutes 60 ->
  ResponseService.get_pending_ticket now phone st = (Some t, st).
Proof.
  intros Hs Hage. unfold ResponseService.get_pending_ticket. rewrite Hs.
  cbv zeta. unfold ResponseService._pending_ticket_timeout_minutes.
  replace (minutes 60 <? now - timestamp t) with false
    by (symmetry; apply Z.ltb_ge; exact Hage).
  reflexivity.
Qed.

Section WithCollaborators.

Context (env : Collaborators).

(** Nothing is sent, no ticket call is made and no draft is touched before
    the pending-ticket check. *)
Lemma prelude_frame now phone name message_text w :
  let w1 := (prelude env now phone name message_text w).2 in
  pending_tickets w1 = pending_tickets w
  /\ sent w1 = sent w
  /\ jira_calls w1 = jira_calls w.
Proof.
  cbv zeta. unfold prelude, mbind, M_bind. cbv zeta.
  destruct (detect_vip env (working_text env message_text) phone name).1;
    repeat split; reflexivity.
Qed.

(** [process_message] step by step: the prelude, the look-up of the draft
    (which evicts an expired one), and the rest. *)
Lemma process_message_eq now phone name message_text w :
  process_message env now phone name message_text w =
  let w1 := (prelude env now phone name message_text w).2 in
  let p := ResponseService.get_pending_ticket now phone (pending_tickets w1) in
  after_pending_check env now phone name message_text p.1
    (mkWorld (memory w1) p.2 (frustration w1) (sent w1) (jira_calls w1)).
Proof. reflexivity. Qed.

(** The action of the confirmation handler says whether the new-issue
    branch was taken. *)
Lemma handle_confirmation_action now phone name text t lang w :
  String.eqb
    (Response.action (_handle_confirmation env now phone name text t lang w).1)
    "new_issue_detected" = is_override text.
Proof.
  unfold _handle_confirmation.
  destruct (is_override text); [reflexivity|].
  destruct (is_confirmation text).
  - unfold mbind, M_bind, jira. cbn [fst snd jira_calls].
    destruct (jira_create_ticket _ _ _ _ _ _); reflexivity.
  - destruct (is_cancellation text); reflexivity.
Qed.

(** With a live draft awaiting confirmation, the call is the confirmation
    handler run after the prelude, followed by the rest of the pipeline when
    the handler took the new-issue branch. *)
Lemma process_message_pending now phone name message_text w t :
  pending_tickets w !! phone = Some t ->
  now - timestamp t <= minutes 60 ->
  awaiting_confirmation t = true ->
  let lang := detect_language env message_text in
  let text := working_text env message_text in
  let w1 := (prelude env now phone name message_text w).2 in
  let r := _handle_confirmation env now phone name text t lang w1 in
  process_message env now phone name message_text w =
  if is_override text
  then classify_and_route env now phone name message_text text lang r.2
  else r.
Proof.
  intros Hs Hage Haw. cbv zeta. rewrite process_message_eq. cbv zeta.
  set (w1 := (prelude env now phone name message_text w).2).
  destruct (prelude_frame now phone name message_text w) as (Hp & _ & _).
  cbv zeta in Hp. fold w1 in Hp.
  rewrite Hp, (get_pending_ticket_live now phone _ t Hs Hage), <- Hp.
  cbn [fst snd]. rewrite world_eta.
  unfold after_pending_check. rewrite Haw.
  unfold mbind, M_bind. cbv zeta.
  rewrite handle_confirmation_action.
  destruct (is_override _); [reflexivity|].
  unfold mret, M_ret.
  destruct (_handle_confirmation _ _ _ _ _ _ _ _); reflexivity.
Qed.

(** The world after [_handle_create_ticket]: a draft for the text, one
    message. *)
Lemma handle_create_ticket_world now phone name text ir lang w :
  let r := _handle_create_ticket env now phone name text ir lang w in
  exists p,
    Response.action r.1 = "awaiting_confirmation"
    /\ pending_tickets r.2 =
         <[phone := draft_of env now phone name text p]> (pending_tickets w)
    /\ sent r.2 =
         sent w ++ [(phone,
                     get_smart_response env "confirm_ticket" text
                       [("summary", summary (draft_of env now phone name text p));
                        ("team", detect_team env text);
                        ("priority", Priority_value p)])]
    /\ jira_calls r.2 = jira_calls w ++ [GetAllProjects].
Proof. cbv zeta. eexists. repeat split; reflexivity. Qed.

(** A live draft and a free-text message: the draft grows by the text, at
    its place in the store, and one preview is sent. *)
Lemma process_message_modify now phone name message_text w t :
  pending_tickets w !! phone = Some t ->
  now - timestamp t <= minutes 60 ->
  awaiting_confirmation t = true ->
  ambiguous (working_text env message_text) = true ->
  let r := process_message env now phone name message_text w in
  r.1 = Response.sent_action "updated_preview"
  /\ pending_tickets r.2 =
       <[phone := add_description
                    (additional_information (working_text env message_text)) t]>
         (pending_tickets w)
  /\ sends_one phone w r.2
  /\ jira_calls r.2 = jira_calls w.
Proof.
  intros Hs Hage Haw Hamb. cbv zeta.
  pose proof (process_message_pending now phone name message_text w t Hs Hage Haw)
    as Heq. cbv zeta in Heq.
  rewrite (ambiguous_not_override _ Hamb) in Heq.
  rewrite (handle_confirmation_modify env _ _ _ _ _ _ _ Hamb) in Heq.
  destruct (prelude_frame now phone name message_text w) as (Hp & Hsent & Hj).
  cbv zeta in Hp, Hsent, Hj.
  rewrite Hp, Hsent, Hj in Heq. rewrite Heq.
  split; [reflexivity|]. split; [reflexivity|].
  split; [eexists; reflexivity | reflexivity].
Qed.

(** *** The pipeline keeps the sessions well formed *)

Lemma handle_create_ticket_ok now phone name text ir lang w :
  sessions_ok now w ->
  sessions_ok now (_handle_create_ticket env now phone name text ir lang w).2.
Proof.
  unfold sessions_ok. intros H.
  change (memory (_handle_create_ticket env now phone name text ir lang w).2)
    with (ConversationMemory.add_message now phone ConversationMemory.AGENT
            (get_smart_response env "confirm_ticket" text
               [("summary", generate_ticket_summary env text name
                              (detect_team env text) phone);
                ("team", detect_team env text);
                ("priority",
                 Priority_value
                   (if ConversationMemory.is_vip
                         (ConversationMemory.get_or_create_session now phone name
                            (ConversationMemory.update_state now phone
                               ConversationMemory.SUPPORT_TICKET (memory w))).1
                    then HIGH
                    else match ir with
                         | Some ir0 => default MEDIUM (ic_priority ir0)
                         | None => MEDIUM
                         end))])
            (Some "ticket_preview") []
            (ConversationMemory.set_pending_ticket now phone
               ("PENDING_" +:+ JIRA_PROJECT_KEY env)
               (ConversationMemory.get_or_create_session now phone name
                  (ConversationMemory.update_state now phone
                     ConversationMemory.SUPPORT_TICKET (memory w))).2)).2.
  apply (MemoryFacts.add_message_well_formed now now); [lia|].
  apply (MemoryFacts.set_pending_ticket_well_formed now now); [lia|].
  apply (MemoryFacts.get_or_create_session_well_formed now now); [lia|].
  apply (MemoryFacts.update_state_well_formed now now); [lia | exact H].
Qed.

Lemma handle_confirmation_ok now phone name text t lang w :
  sessions_ok now w ->
  sessions_ok now (_handle_confirmation env now phone name text t lang w).2.
Proof.
  unfold sessions_ok. intros H. unfold _handle_confirmation.
  destruct (is_override text); [exact H|].
  destruct (is_confirmation text).
  - unfold mbind, M_bind, jira. cbn [fst snd jira_calls].
    destruct (jira_create_ticket _ _ _ _ _ _) as [key|err]; [|exact H].
    apply (MemoryFacts.add_message_well_formed now now); [lia|].
    apply (MemoryFacts.add_active_ticket_well_formed now now); [lia | exact H].
  - destruct (is_cancellation text); exact H.
Qed.

Lemma route_intent_ok now phone name text ir lang w :
  sessions_ok now w ->
  sessions_ok now (_route_intent env now phone name text ir lang w).2.
Proof.
  intros H. unfold _route_intent. destruct (ic_intent ir).
  - apply handle_create_ticket_ok, H.
  - unfold _handle_check_status.
    destruct (negb (truthy _)); unfold mbind, M_bind, jira; cbn [fst snd jira_calls].
    + destruct (jira_search_tickets _ _ _ _); exact H.
    + destruct (jira_get_ticket_status _ _ _); exact H.
  - unfold _handle_update_ticket.
    destruct (negb (truthy _)); [exact H|].
    unfold mbind, M_bind, jira. cbn [fst snd jira_calls].
    destruct (jira_update_ticket _ _ _ _ _); exact H.
  - unfold _handle_close_ticket.
    destruct (negb (truthy _)); [exact H|].
    unfold mbind, M_bind, jira. cbn [fst snd jira_calls].
    destruct (jira_close_ticket _ _ _); exact H.
  - exact H.
  - exact H.
  - apply (MemoryFacts.add_message_well_formed now now); [lia | exact H].
Qed.

Lemma classify_and_route_ok now phone name original text lang w :
  sessions_ok now w ->
  sessions_ok now (classify_and_route env now phone name original text lang w).2.
Proof.
  intros H. rewrite classify_and_route_eq.
  destruct (_is_technical_query text); [apply handle_create_ticket_ok, H|].
  destruct (_is_real_estate_query text).
  - apply (MemoryFacts.add_message_well_formed now now); [lia | exact H].
  - unfold ai_route, mbind, M_bind. cbv zeta. cbn [get_world fst snd].
    apply route_intent_ok.
    apply (MemoryFacts.add_topic_well_formed now now); [lia | exact H].
Qed.

Lemma prelude_ok clock now phone name message_text w :
  clock <= now -> sessions_ok clock w ->
  sessions_ok now (prelude env now phone name message_text w).2.
Proof.
  unfold sessions_ok. intros Hle H.
  assert (H3 : MemorySpec.well_formed now
                 (ConversationMemory.add_message now phone ConversationMemory.USER
                    message_text None
                    [("translated",
                      if is_arabic (detect_language env message_text)
                      then Some (working_text env message_text) else None)]
                    (ConversationMemory.update_preference now phone
                       "preferred_language"
                       (Language_value (detect_language env message_text))
                       (ConversationMemory.get_or_create_session now phone name
                          (memory w)).2)).2).
  { apply (MemoryFacts.add_message_well_formed now now); [lia|].
    apply (MemoryFacts.update_preference_well_formed now now); [lia|].
    apply (MemoryFacts.get_or_create_session_well_formed clock now); assumption. }
  unfold prelude, mbind, M_bind. cbv zeta.
  destruct (detect_vip env (working_text env message_text) phone name).1.
  - apply (MemoryFacts.set_vip_status_well_formed now now); [lia | exact H3].
  - exact H3.
Qed.

Lemma after_pending_check_ok now phone name message_text pending w :
  sessions_ok now w ->
  sessions_ok now (after_pending_check env now phone name message_text pending w).2.
Proof.
  intros H. unfold after_pending_check.
  destruct pending as [t|]; [|apply classify_and_route_ok, H].
  destruct (awaiting_confirmation t); [|apply classify_and_route_ok, H].
  unfold mbind, M_bind. cbv zeta.
  pose proof (handle_confirmation_ok now phone name
                (working_text env message_text) t
                (detect_language env message_text) w H) as H3.
  pose proof (handle_confirmation_action now phone name
                (working_text env message_text) t
                (detect_language env message_text) w) as H4.
  revert H3 H4.
  generalize (_handle_confirmation env now phone name
                (working_text env message_text) t
                (detect_language env message_text) w).
  intros r H3 H4. rewrite H4.
  destruct (is_override _); [apply classify_and_route_ok, H3 | exact H3].
Qed.

(** Well-formed sessions stay well formed through a call of the pipeline,
    as long as the clock does not run backwards between calls. *)
Lemma process_message_ok clock now phone name message_text w :
  clock <= now -> sessions_ok clock w ->
  sessions_ok now (process_message env now phone name message_text w).2.
Proof.
  intros Hle H. rewrite process_message_eq. cbv zeta.
  apply after_pending_check_ok.
  exact (prelude_ok clock now phone name message_text w Hle H).
Qed.

End WithCollaborators.

End PipelineFacts.
(** ** Characters outside ASCII: some cases *)

Module CaseFacts.
Import IntentService PipelineSpec.

(** [lower] on the two characters that become letters of ASCII, the dotted
    capital I and the Kelvin sign, and on the capital sigma. *)
Lemma lower_special :
  Str.lower "APİ OK" = "api̇ ok"
  /\ Str.lower "ΟΔΟΣ ΣΑΣ" = "οδος σας"
  /\ Str.lower "𝐏𝐋𝐄𝐀𝐒𝐄 call" = "𝐏𝐋𝐄𝐀𝐒𝐄 call".
Proof. vm_compute. repeat split; reflexivity. Qed.

(** So the keywords "api" and "ok" are found in these texts. *)
Lemma keywords_behind_special_letters :
  is_confirmation "dashboard login OK" = true
  /\ is_override "dashboard login OK" = false
  /\ is_confirmation "cancel OK" = true
  /\ issue_keyword_count "APİ error" = 2%nat
  /\ is_override "APİ error" = true
  /\ ambiguous "APİ error" = false
  /\ _is_technical_query "APİ report" = true
  /\ _is_technical_query "APİ is slow and buggy?" = true
  /\ _is_real_estate_query "buy a villa via APİ" = false.
Proof. vm_compute. repeat split; reflexivity. Qed.

(** [strip] takes off the white space of Unicode, which hides no keyword. *)
Lemma strip_no_break_space :
  Text.strip (Str.lower " Yes ") = "yes"
  /\ is_confirmation " Yes " = true.
Proof. vm_compute. split; reflexivity. Qed.

(** The digits of a ticket number and of a property pattern may be those of
    another script; a word character before or after the key spoils it. *)
Lemma digits_of_other_scripts :
  find_ticket_key "see sup-١٢٣ please" = Some "SUP-١٢٣"
  /\ find_ticket_key "xSUP-12_" = None
  /\ find_ticket_key "(ab-7)" = Some "AB-7"
  /\ _is_real_estate_query "want ٣ bedroom villa" = true.
Proof. vm_compute. repeat split; reflexivity. Qed.

End CaseFacts.


(** * The claims *)

Section SessionClaims.

Import ConversationMemory MemorySpec.

(** C6 (history cap).  With a positive cap, whatever the clock does, every
    [add_message] call of every sequence leaves the user a session holding at
    most the cap; and while the session does not expire, its history is
    exactly the most recent messages of everything appended, oldest dropped
    first, [message_count] counts every appended message, and once more than
    the cap were appended exactly the cap remain. *)
Theorem history_cap (mem : Memory) (phone : string) (s : ConversationContext)
    (calls : list Call) :
  0 < _max_history mem ->
  _sessions mem !! phone = Some s ->
  Z.of_nat (length (messages s)) <= _max_history mem ->
  (forall c, exists s',
      _sessions (add_call phone (add_messages phone calls mem) c) !! phone = Some s'
      /\ Z.of_nat (length (messages s')) <= _max_history mem)
  /\ (unexpired (_session_timeout mem) (last_activity s) calls ->
      exists s',
        _sessions (add_messages phone calls mem) !! phone = Some s'
        /\ messages s' =
             last_n (Z.to_nat (_max_history mem))
               (messages s ++ map message_of calls)
        /\ message_count s' = message_count s + Z.of_nat (length calls)
        /\ conversation_id s' = conversation_id s
        /\ (_max_history mem < Z.of_nat (length (messages s) + length calls) ->
            Z.of_nat (length (messages s')) = _max_history mem)).
Proof.
  intros Hcap Hs Hlen. split.
  - intros c.
    destruct (MemoryFacts.add_messages_config phone calls mem) as [Hc _].
    rewrite <- Hc. apply MemoryFacts.add_message_bound. rewrite Hc. exact Hcap.
  - intros Hun.
    destruct (MemoryFacts.add_messages_live phone calls mem s Hcap Hs Hlen Hun)
      as (s' & Hs' & Hm' & Hc' & Hid').
    exists s'. repeat split; try assumption.
    intros Hmore. rewrite Hm', MemoryFacts.length_last_n, length_app, length_map.
    lia.
Qed.

(** The shipped configuration, one session, fifty-one messages one second
    apart: the hypotheses of [history_cap] hold, and fifty messages remain. *)
Lemma history_cap_witness :
  (forall c, exists s',
      _sessions (add_call sample_phone
                   (add_messages sample_phone sample_calls sample_memory) c)
        !! sample_phone = Some s'
      /\ Z.of_nat (length (messages s')) <= 50)
  /\ (exists s',
        _sessions (add_messages sample_phone sample_calls sample_memory)
          !! sample_phone = Some s'
        /\ messages s' = last_n 50 (map message_of sample_calls)
        /\ message_count s' = 51
        /\ conversation_id s' = "+971500000001_0"
        /\ (50 < 51 -> Z.of_nat (length (messages s')) = 50)).
Proof.
  destruct (history_cap sample_memory sample_phone sample_session sample_calls)
    as [Hbound Hlive].
  - reflexivity.
  - reflexivity.
  - vm_compute. discriminate.
  - split; [exact Hbound|]. apply Hlive.
    vm_compute. repeat split; intro; discriminate.
Defined.

(** C7 (session expiry).  For a stored session of the user, made by the
    service, whose last activity is older than the timeout (of at least two
    seconds; 30 minutes as shipped), [get_or_create_session] returns and stores
    a new, empty session whose [conversation_id] differs from the old one, and
    the old session is handed to the archive exactly once, whether the sweep
    or the inline check finds it. *)
Theorem session_expiry (mem : Memory) (now : Z) (phone name : string)
    (old : ConversationContext) :
  keyed mem ->
  _sessions mem !! phone = Some old ->
  minted old ->
  seconds 2 <= _session_timeout mem ->
  stale mem now old ->
  let r := get_or_create_session now phone name mem in
  conversation_id r.1 <> conversation_id old
  /\ started_at r.1 = now
  /\ messages r.1 = []
  /\ _sessions r.2 !! phone = Some r.1
  /\ archived_for phone (archived r.2) = archived_for phone (archived mem) ++ [old].
Proof.
  intros Hk Hs [Hid Hclock] Ht Hst. cbv zeta.
  assert (Hphone : user_phone old = phone) by exact (Hk _ _ Hs).
  assert (Hnew : phone +:+ "_" +:+ Str.of_Z (epoch_seconds now)
                 <> conversation_id old).
  { rewrite Hid, Hphone. intros Heq.
    apply String.app_inj in Heq. apply (String.app_inj "_") in Heq.
    apply MemoryFacts.of_Z_inj in Heq.
    assert (epoch_seconds (started_at old) < epoch_seconds now); [|lia].
    apply MemoryFacts.epoch_seconds_lt. unfold stale in Hst. lia. }
  rewrite MemoryFacts.get_or_create_session_eq. unfold sweep.
  case_bool_decide as Hsweep.
  - destruct (MemoryFacts.cleanup_archives_once now mem phone old Hk Hs Hst)
      as [Hnone Harch].
    rewrite Hnone. cbn [_create_new_session fst snd conversation_id started_at
                        messages with_sessions _sessions archived].
    rewrite lookup_insert_eq. repeat split; try assumption.
  - rewrite Hs. rewrite bool_decide_eq_true_2 by exact Hst.
    cbn [_create_new_session _archive_session fst snd conversation_id started_at
         messages with_sessions _sessions archived].
    rewrite lookup_insert_eq. repeat split; try assumption.
    unfold archived_for. rewrite filter_app.
    rewrite filter_cons_True by exact Hphone. reflexivity.
Qed.

(** The sample session, last active at instant 0, fetched 31 minutes later. *)
Lemma session_expiry_witness :
  let r := get_or_create_session (minutes 31) sample_phone "Bob" sample_memory in
  conversation_id r.1 <> "+971500000001_0"
  /\ started_at r.1 = minutes 31
  /\ messages r.1 = []
  /\ _sessions r.2 !! sample_phone = Some r.1
  /\ archived_for sample_phone (archived r.2) = [sample_session].
Proof.
  apply (session_expiry sample_memory (minutes 31) sample_phone "Bob" sample_session).
  - unfold keyed. apply (bool_decide_unpack _). vm_compute. exact I.
  - reflexivity.
  - split; [reflexivity | vm_compute; discriminate].
  - vm_compute. discriminate.
  - vm_compute. reflexivity.
Defined.

End SessionClaims.

Section SentimentClaims.

Import Sentiment SentimentSpec MemorySpec.

(** C9, as amended (escalation boost on repeated frustration).  For a user
    with no frustration history, the analysis of one negative message gives
    the urgency of the message in isolation and leaves one entry in the
    history; the analysis of a second negative message within the 30-minute
    window gives the isolated urgency plus three, capped at 10: strictly
    higher than in isolation exactly when the isolated urgency is below 10. *)
Theorem repeated_frustration_boost (phone : string) (h : History) (t1 t2 : Z)
    (m1 m2 : string) :
  phone <> EmptyString ->
  entries phone h = [] ->
  sentiment (isolated m1) = negative ->
  sentiment (isolated m2) = negative ->
  t2 - minutes _frustration_window_minutes < t1 ->
  let r1 := analyze_sentiment t1 m1 (Some phone) h in
  let r2 := analyze_sentiment t2 m2 (Some phone) r1.2 in
  urgency r1.1 = urgency (isolated m1)
  /\ length (entries phone r1.2) = 1%nat
  /\ urgency r2.1 = Z.min (urgency (isolated m2) + 3) 10
  /\ (urgency (isolated m2) < urgency r2.1 <-> urgency (isolated m2) < 10).
Proof.
  intros Hphone Hh Hn1 Hn2 Hwin. cbv zeta.
  destruct phone as [|c p]; [congruence|].
  destruct (SentimentFacts.analyze_sentiment_urgency t1 m1 c p h) as (E1 & _ & U1).
  cbv zeta in E1, U1. rewrite E1.
  destruct (SentimentFacts.analyze_sentiment_urgency t2 m2 c p
              (_update_frustration_history t1 (String c p) (score (isolated m1))
                 (urgency (isolated m1)) h)) as (_ & _ & U2).
  cbv zeta in U2. rewrite U1, U2. clear E1 U1 U2.
  pose proof (SentimentFacts.negative_score m1 Hn1) as S1.
  pose proof (SentimentFacts.negative_score m2 Hn2) as S2.
  pose proof (SentimentFacts.isolated_urgency_le m2) as Hle.
  set (e1 := mkEntry t1 (score (isolated m1)) (urgency (isolated m1))).
  set (e2 := mkEntry t2 (score (isolated m2)) (urgency (isolated m2))).
  assert (H1 : _update_frustration_history t1 (String c p) (score (isolated m1))
                 (urgency (isolated m1)) h = <[String c p := [e1]]> h).
  { unfold _update_frustration_history. fold (entries (String c p) h).
    rewrite Hh. cbn [app List.filter e_timestamp].
    replace (t1 - minutes _frustration_window_minutes <? t1) with true
      by (symmetry; apply Z.ltb_lt; unfold minutes, _frustration_window_minutes; lia).
    reflexivity. }
  rewrite H1.
  assert (H2 : _update_frustration_history t2 (String c p) (score (isolated m2))
                 (urgency (isolated m2)) (<[String c p := [e1]]> h)
               = <[String c p := [e1; e2]]> (<[String c p := [e1]]> h)).
  { unfold _update_frustration_history. rewrite lookup_insert_eq.
    cbn [default from_option id app List.filter e_timestamp e1 e2].
    replace (t2 - minutes _frustration_window_minutes <? t1) with true
      by (symmetry; apply Z.ltb_lt; exact Hwin).
    replace (t2 - minutes _frustration_window_minutes <? t2) with true
      by (symmetry; apply Z.ltb_lt; unfold minutes, _frustration_window_minutes; lia).
    reflexivity. }
  rewrite H2. unfold _check_repeat_frustration, entries.
  rewrite !lookup_insert_eq. cbn [default from_option id length Nat.ltb Nat.leb].
  unfold slice_from. cbn [Z.ltb Z.compare length].
  change (Z.to_nat (Z.max 0 (Z.of_nat 2 + -3))) with 0%nat.
  cbn [drop List.filter e_sentiment e1 e2].
  rewrite S1, S2. cbn [length Nat.leb].
  repeat split; lia.
Qed.

(** A first and then a second frustrated message, ten seconds apart. *)
Lemma repeated_frustration_boost_witness :
  let r1 := analyze_sentiment 0 "the report is broken" (Some sample_phone) ∅ in
  let r2 := analyze_sentiment (seconds 10) "still broken, this is terrible"
              (Some sample_phone) r1.2 in
  urgency r1.1 = urgency (isolated "the report is broken")
  /\ length (entries sample_phone r1.2) = 1%nat
  /\ urgency r2.1 = Z.min (urgency (isolated "still broken, this is terrible") + 3) 10
  /\ (urgency (isolated "still broken, this is terrible") < urgency r2.1
      <-> urgency (isolated "still broken, this is terrible") < 10).
Proof.
  apply (repeated_frustration_boost sample_phone ∅ 0 (seconds 10)
           "the report is broken" "still broken, this is terrible").
  - discriminate.
  - reflexivity.
  - vm_compute. reflexivity.
  - vm_compute. reflexivity.
  - vm_compute. reflexivity.
Defined.

(** C9, as stated, fails at the cap: the second analysis of a negative message
    whose isolated urgency is already 10 yields 10 again, not more. *)
Lemma repeated_frustration_at_cap :
  let r1 := analyze_sentiment 0 loud_message (Some sample_phone) ∅ in
  let r2 := analyze_sentiment (seconds 10) loud_message (Some sample_phone) r1.2 in
  sentiment r1.1 = negative
  /\ sentiment r2.1 = negative
  /\ length (entries sample_phone r2.2) = 2%nat
  /\ urgency (isolated loud_message) = 10
  /\ urgency r2.1 = 10.
Proof. vm_compute. repeat split; reflexivity. Qed.

End SentimentClaims.

Section PipelineClaims.

Import IntentService PipelineSpec MemorySpec.

(** C1 (confirmation precedence).  A message that contains a confirmation
    keyword is resolved by the confirmation handler as a confirmation, also
    when it contains two or more new-issue keywords: the handler asks the
    tracker to create the ticket of the draft and answers "created" or
    "failed", never "new_issue_detected". *)
Theorem confirmation_precedence (env : Collaborators) (now : Z)
    (phone name text : string) (t : PendingTicket) (lang : Language) (w : World) :
  is_confirmation text = true ->
  (2 <= issue_keyword_count text)%nat ->
  let r := _handle_confirmation env now phone name text t lang w in
  is_override text = false
  /\ (Response.action r.1 = "created" \/ Response.action r.1 = "failed")
  /\ Response.action r.1 <> "new_issue_detected"
  /\ jira_calls r.2 = jira_calls w ++ [create_call t].
Proof.
  intros Hc _. cbv zeta.
  split; [apply HandlerFacts.confirmation_not_override, Hc|].
  rewrite (HandlerFacts.handle_confirmation_confirm env now phone name text t lang w Hc).
  destruct (jira_create_ticket _ _ _ _ _ _); cbn [fst snd Response.action jira_calls];
    repeat split; auto; discriminate.
Qed.

(** The example of the specification: "yes" together with "salesforce",
    "down" and "dashboard". *)
Lemma confirmation_precedence_witness :
  let r :=
    _handle_confirmation (sample_collaborators true GENERAL_INQUIRY) (seconds 60)
      sample_phone "Bob"
      "yes, by the way salesforce is down and dashboard is broken"
      sample_draft ENGLISH world_with_draft in
  is_override "yes, by the way salesforce is down and dashboard is broken" = false
  /\ (Response.action r.1 = "created" \/ Response.action r.1 = "failed")
  /\ Response.action r.1 <> "new_issue_detected"
  /\ jira_calls r.2 = jira_calls world_with_draft ++ [create_call sample_draft].
Proof.
  apply (confirmation_precedence (sample_collaborators true GENERAL_INQUIRY)).
  - vm_compute. reflexivity.
  - apply Nat.leb_le. vm_compute. reflexivity.
Defined.

(** C3 (atomicity on ticket-creation failure).  When a draft is confirmed
    and the tracker refuses the ticket, the handler sends the error text and
    leaves the draft store and the sessions as they were; when the tracker
    creates the ticket, the draft of the user is deleted, the success text is
    sent, and the new key is among the active tickets of the user's session. *)
Theorem ticket_creation_atomicity (env : Collaborators) (now : Z)
    (phone name text : string) (t : PendingTicket) (lang : Language) (w : World) :
  is_confirmation text = true ->
  0 <= ConversationMemory._session_timeout (memory w) ->
  let r := _handle_confirmation env now phone name text t lang w in
  jira_calls r.2 = jira_calls w ++ [create_call t]
  /\ match jira_create_ticket env (jira_calls w) (summary t) (description t)
             (project_key t) (priority t) with
     | CreateFailed err =>
         Response.action r.1 = "failed"
         /\ sent r.2 = sent w ++ [(phone, get_smart_response env "error" text [])]
         /\ pending_tickets r.2 = pending_tickets w
         /\ memory r.2 = memory w
     | Created key =>
         Response.action r.1 = "created"
         /\ Response.ticket_key r.1 = Some key
         /\ sent r.2 =
              sent w ++ [(phone,
                          get_smart_response env "ticket_created" text
                            [("ticket_key", key); ("summary", summary t)])]
         /\ pending_tickets r.2 = delete phone (pending_tickets w)
         /\ exists s,
              ConversationMemory._sessions (memory r.2) !! phone = Some s
              /\ key ∈ ConversationMemory.active_tickets s
     end.
Proof.
  intros Hc Ht. cbv zeta.
  rewrite (HandlerFacts.handle_confirmation_confirm env now phone name text t lang w Hc).
  destruct (jira_create_ticket _ _ _ _ _ _) as [key|err];
    cbn [fst snd Response.action Response.ticket_key jira_calls sent
         pending_tickets memory]; repeat split.
  destruct (MemoryFacts.add_active_ticket_stored now phone key (memory w) Ht)
    as (s & Hs & Hin & Hlive).
  destruct (MemoryFacts.add_message_live now phone ConversationMemory.AGENT
              (get_smart_response env "ticket_created" text
                 [("ticket_key", key); ("summary", summary t)])
              (Some "ticket_created") [] _ s Hs Hlive)
    as (s' & Hs' & _ & _ & _ & _ & _ & _ & Hact).
  exists s'. split; [exact Hs'|]. rewrite Hact. exact Hin.
Qed.

(** The tracker is down when the user of the sample draft says "yes": the
    draft stays, to be confirmed again. *)
Lemma ticket_creation_atomicity_witness :
  let r :=
    _handle_confirmation (sample_collaborators false GENERAL_INQUIRY) (seconds 60)
      sample_phone "Bob" "yes" sample_draft ENGLISH world_with_draft in
  jira_calls r.2 = jira_calls world_with_draft ++ [create_call sample_draft]
  /\ Response.action r.1 = "failed"
  /\ sent r.2 = sent world_with_draft ++ [(sample_phone, "error")]
  /\ pending_tickets r.2 = pending_tickets world_with_draft
  /\ memory r.2 = memory world_with_draft.
Proof.
  apply (ticket_creation_atomicity (sample_collaborators false GENERAL_INQUIRY)
           (seconds 60) sample_phone "Bob" "yes" sample_draft ENGLISH
           world_with_draft).
  - vm_compute. reflexivity.
  - vm_compute. discriminate.
Defined.

(** C10 (tokens are substrings).  The confirmation and cancellation signals
    are substring tests of the keyword tables on the whole lower-cased
    message: each holds exactly when one of its keywords occurs somewhere in
    it.  So a message in which any confirmation keyword occurs, be it the
    letter "y" or the "ok" of "broken", is no new issue and is handled as a
    confirmation whatever else it contains: the tracker is asked to create the
    ticket.  And a message in which "no" occurs, as in "not working", carries
    the cancellation signal: it is no new issue either, and unless it also
    holds a confirmation keyword the draft is cancelled. *)
Theorem substring_tokens (env : Collaborators) (now : Z)
    (phone name text : string) (t : PendingTicket) (lang : Language) (w : World) :
  let r := _handle_confirmation env now phone name text t lang w in
  (is_confirmation text = true
   <-> exists kw, kw ∈ confirm_keywords /\ Str.contains kw (Str.lower text) = true)
  /\ (is_cancellation text = true
      <-> exists kw, kw ∈ cancel_keywords /\ Str.contains kw (Str.lower text) = true)
  /\ (forall kw,
        kw ∈ confirm_keywords -> Str.contains kw (Str.lower text) = true ->
        is_override text = false
        /\ jira_calls r.2 = jira_calls w ++ [create_call t]
        /\ (Response.action r.1 = "created" \/ Response.action r.1 = "failed"))
  /\ (Str.contains "no" (Str.lower text) = true ->
      is_cancellation text = true
      /\ is_override text = false
      /\ (is_confirmation text = false ->
          Response.action r.1 = "cancelled"
          /\ pending_tickets r.2 = delete phone (pending_tickets w)
          /\ jira_calls r.2 = jira_calls w)).
Proof.
  cbv zeta.
  assert (Hany : forall ks s,
            Str.any_in ks s = true
            <-> exists kw, kw ∈ ks /\ Str.contains kw s = true).
  { intros ks s. unfold Str.any_in. rewrite existsb_exists. split.
    - intros (kw & Hin & Hc). exists kw. split; [apply list_elem_of_In, Hin | exact Hc].
    - intros (kw & Hin & Hc). exists kw. split; [apply list_elem_of_In, Hin | exact Hc]. }
  split; [rewrite HandlerFacts.is_confirmation_eq; apply Hany|].
  split; [rewrite HandlerFacts.is_cancellation_eq; apply Hany|].
  split.
  - intros kw Hkw Hin.
    assert (Hc : is_confirmation text = true).
    { rewrite HandlerFacts.is_confirmation_eq.
      apply (StrFacts.any_in_elem _ kw); assumption. }
    split; [apply HandlerFacts.confirmation_not_override, Hc|].
    rewrite (HandlerFacts.handle_confirmation_confirm env now phone name text t lang w Hc).
    split; destruct (jira_create_ticket _ _ _ _ _ _); cbn; auto.
  - intros Hno.
    assert (Hcan : is_cancellation text = true).
    { rewrite HandlerFacts.is_cancellation_eq.
      apply (StrFacts.any_in_elem _ "no"); [|exact Hno].
      apply list_elem_of_In. vm_compute. auto. }
    assert (Hov : is_override text = false)
      by (unfold is_override; rewrite Hcan, andb_false_r; reflexivity).
    split; [exact Hcan|]. split; [exact Hov|].
    intros Hcf. unfold _handle_confirmation. rewrite Hov, Hcf, Hcan.
    unfold mbind, M_bind, on_pending.
    cbn [fst snd pending_tickets sent jira_calls send_text_message mret M_ret
         Response.action Response.sent_action].
    rewrite HandlerFacts.clear_pending_ticket_delete. repeat split.
Qed.

(** The "y" of "KEYBOARD" confirms the old draft, though the message names
    four new issues and holds a "no"; and "NOT working" alone cancels it. *)
Lemma substring_tokens_witness :
  let env := sample_collaborators true GENERAL_INQUIRY in
  let handle text :=
    _handle_confirmation env (seconds 60) sample_phone "Bob" text sample_draft
      ENGLISH world_with_draft in
  let text1 := "the KEYBOARD is not working and the laptop is down" in
  let text2 := "it is NOT working" in
  (is_override text1 = false
   /\ jira_calls (handle text1).2
      = jira_calls world_with_draft ++ [create_call sample_draft]
   /\ (Response.action (handle text1).1 = "created"
       \/ Response.action (handle text1).1 = "failed"))
  /\ (is_cancellation text2 = true
      /\ is_override text2 = false
      /\ Response.action (handle text2).1 = "cancelled"
      /\ pending_tickets (handle text2).2
         = delete sample_phone (pending_tickets world_with_draft)
      /\ jira_calls (handle text2).2 = jira_calls world_with_draft).
Proof.
  cbv zeta. split.
  - destruct (substring_tokens (sample_collaborators true GENERAL_INQUIRY)
                (seconds 60) sample_phone "Bob"
                "the KEYBOARD is not working and the laptop is down"
                sample_draft ENGLISH world_with_draft) as (_ & _ & H & _).
    apply (H "y").
    + apply list_elem_of_In. vm_compute. auto 20.
    + vm_compute. reflexivity.
  - destruct (substring_tokens (sample_collaborators true GENERAL_INQUIRY)
                (seconds 60) sample_phone "Bob" "it is NOT working"
                sample_draft ENGLISH world_with_draft) as (_ & _ & _ & H).
    destruct H as (H1 & H2 & H3); [vm_compute; reflexivity|].
    destruct H3 as (H3 & H4 & H5); [vm_compute; reflexivity|].
    repeat split; assumption.
Defined.

(** C5, as amended (messages sent per call).  Every call of
    [process_message] sends exactly one message to the user, except a call
    that meets a live draft awaiting confirmation and takes the new-issue
    branch: that call sends exactly two, the acknowledgement and then the
    reply of the rest of the pipeline. *)
Theorem sends_per_call (env : Collaborators) (now : Z)
    (phone name message_text : string) (w : World) :
  let w' := (process_message env now phone name message_text w).2 in
  if overridden env now phone message_text w
  then sends_two phone w w'
  else sends_one phone w w'.
Proof.
  cbv zeta. rewrite PipelineFacts.process_message_eq. cbv zeta.
  set (w1 := (prelude env now phone name message_text w).2).
  destruct (PipelineFacts.prelude_frame env now phone name message_text w)
    as (Hp & Hsent & _).
  cbv zeta in Hp, Hsent. fold w1 in Hp, Hsent.
  unfold overridden. rewrite Hp.
  destruct (ResponseService.get_pending_ticket now phone (pending_tickets w))
    as [pending st].
  cbn [fst snd].
  set (w2 := mkWorld (memory w1) st (frustration w1) (sent w1) (jira_calls w1)).
  assert (Hs2 : sent w2 = sent w) by exact Hsent.
  assert (Hroute : forall lang text,
             sends_one phone w
               (classify_and_route env now phone name message_text text lang w2).2).
  { intros lang text.
    destruct (HandlerFacts.classify_and_route_sends env now phone name
                message_text text lang w2) as [m Hm].
    exists m. rewrite Hm, Hs2. reflexivity. }
  unfold after_pending_check.
  destruct pending as [t|]; [|apply Hroute].
  destruct (awaiting_confirmation t); [|apply Hroute].
  cbn [andb]. unfold mbind, M_bind. cbv zeta.
  rewrite PipelineFacts.handle_confirmation_action.
  set (r := _handle_confirmation env now phone name _ t _ w2).
  assert (Hr : sends_one phone w r.2).
  { destruct (HandlerFacts.handle_confirmation_sends env now phone name
                (working_text env message_text) t
                (detect_language env message_text) w2) as [m Hm].
    exists m. fold r in Hm. rewrite Hm, Hs2. reflexivity. }
  destruct (is_override _).
  - apply (HandlerFacts.sends_one_then_one phone w r.2); [exact Hr|].
    apply HandlerFacts.classify_and_route_sends.
  - exact Hr.
Qed.

(** C5, as stated, fails: a new issue reported while a draft is pending is
    answered with two messages in one call. *)
Lemma two_sends_in_one_call :
  let w' :=
    (process_message (sample_collaborators true GENERAL_INQUIRY) (seconds 60)
       sample_phone "Bob" "the dashboard is down and salesforce login failed"
       world_with_draft).2 in
  sent w' =
    sent world_with_draft
    ++ [(sample_phone, "Got it! Let me help with this new issue.");
        (sample_phone, "confirm_ticket")]
  /\ length (sent w') = (length (sent world_with_draft) + 2)%nat.
Proof. vm_compute. split; reflexivity. Qed.

(** C2, as amended (override fallthrough).  A message sent while a live
    draft awaits confirmation, whose text holds two or more new-issue keywords
    and no confirmation or cancellation keyword as a substring, is resolved as
    a new issue: the handler answers "new_issue_detected", deletes the old
    draft and sends the acknowledgement, and [process_message] does not
    return but runs the query-type stage on the same text.  When that text is
    a technical query, the call ends with a fresh draft made from it, awaiting
    confirmation, and two messages sent; the tracker has been asked for its
    projects and for nothing else. *)
Theorem override_fallthrough (env : Collaborators) (now : Z)
    (phone name message_text : string) (w : World) (t : PendingTicket) :
  pending_tickets w !! phone = Some t ->
  now - timestamp t <= minutes 60 ->
  awaiting_confirmation t = true ->
  is_override (working_text env message_text) = true ->
  let lang := detect_language env message_text in
  let text := working_text env message_text in
  let w1 := (prelude env now phone name message_text w).2 in
  let w2 :=
    mkWorld (memory w1) (delete phone (pending_tickets w)) (frustration w1)
      (sent w ++ [(phone, acknowledgement lang)]) (jira_calls w) in
  _handle_confirmation env now phone name text t lang w1 =
    (Response.mk None "new_issue_detected" (Some true) None None (Some true) None,
     w2)
  /\ process_message env now phone name message_text w =
       classify_and_route env now phone name message_text text lang w2
  /\ (_is_technical_query text = true ->
      let r := process_message env now phone name message_text w in
      exists p text2,
        Response.action r.1 = "awaiting_confirmation"
        /\ pending_tickets r.2 =
             <[phone := draft_of env now phone name text p]>
               (delete phone (pending_tickets w))
        /\ sent r.2 =
             sent w ++ [(phone, acknowledgement lang); (phone, text2)]
        /\ jira_calls r.2 = jira_calls w ++ [GetAllProjects]).
Proof.
  intros Hs Hage Haw Hov. cbv zeta.
  pose proof (PipelineFacts.process_message_pending env now phone name
                message_text w t Hs Hage Haw) as Heq.
  cbv zeta in Heq. rewrite Hov in Heq.
  rewrite (HandlerFacts.handle_confirmation_override env _ _ _ _ _ _ _ Hov) in Heq.
  rewrite (HandlerFacts.handle_confirmation_override env _ _ _ _ _ _ _ Hov).
  destruct (PipelineFacts.prelude_frame env now phone name message_text w)
    as (Hp & Hsent & Hj).
  cbv zeta in Hp, Hsent, Hj. rewrite Hp, Hsent, Hj in Heq |- *.
  split; [reflexivity|]. split; [exact Heq|].
  intros Htech. rewrite Heq, HandlerFacts.classify_and_route_eq, Htech.
  match goal with
  | |- context [_handle_create_ticket env now phone name ?x None ?l ?w0] =>
      destruct (PipelineFacts.handle_create_ticket_world env now phone name x
                  None l w0) as (p & Ha & Hpt & Hse & Hjc)
  end.
  cbv zeta in Ha, Hpt, Hse, Hjc.
  exists p. eexists. rewrite Ha, Hpt, Hse, Hjc.
  cbn [fst snd pending_tickets sent jira_calls]. rewrite <- app_assoc.
  repeat split; reflexivity.
Qed.

(** A new issue with no "ok", "y" or "no" in it, reported on the sample
    draft: the old draft gives way to a draft for the new text. *)
Lemma override_fallthrough_witness :
  let env := sample_collaborators true GENERAL_INQUIRY in
  let text := "the dashboard is down and salesforce login failed" in
  let r := process_message env (seconds 60) sample_phone "Bob" text world_with_draft in
  exists p text2,
    Response.action r.1 = "awaiting_confirmation"
    /\ pending_tickets r.2 =
         <[sample_phone := draft_of env (seconds 60) sample_phone "Bob" text p]>
           (delete sample_phone (pending_tickets world_with_draft))
    /\ sent r.2 =
         sent world_with_draft
         ++ [(sample_phone, acknowledgement ENGLISH); (sample_phone, text2)]
    /\ jira_calls r.2 = jira_calls world_with_draft ++ [GetAllProjects].
Proof.
  cbv zeta.
  apply (override_fallthrough (sample_collaborators true GENERAL_INQUIRY)
           (seconds 60) sample_phone "Bob"
           "the dashboard is down and salesforce login failed"
           world_with_draft sample_draft).
  - vm_compute. reflexivity.
  - vm_compute. discriminate.
  - reflexivity.
  - vm_compute. reflexivity.
  - vm_compute. reflexivity.
Defined.

(** C2, as stated, fails twice.  Its example is no new issue for the code:
    "broken" contains "ok", so the message confirms the old draft, a ticket is
    created from it and no fresh draft is left.  And a new issue need not be
    technical: "urgent campaign" overrides the draft but is no technical
    query, and the call ends without any draft. *)
Lemma override_example_is_confirmation :
  let env := sample_collaborators true GENERAL_INQUIRY in
  let text := "the dashboard is broken and salesforce login failed" in
  let r := process_message env (seconds 60) sample_phone "Bob" text world_with_draft in
  let r' := process_message env (seconds 60) sample_phone "Bob" "urgent campaign"
              world_with_draft in
  (2 <=? issue_keyword_count text)%nat = true
  /\ is_confirmation text = true
  /\ is_override text = false
  /\ Response.action r.1 = "created"
  /\ jira_calls r.2 = jira_calls world_with_draft ++ [create_call sample_draft]
  /\ pending_tickets r.2 !! sample_phone = None
  /\ is_override "urgent campaign" = true
  /\ _is_technical_query "urgent campaign" = false
  /\ Response.action r'.1 = "responded"
  /\ pending_tickets r'.2 !! sample_phone = None.
Proof. vm_compute. repeat split; reflexivity. Qed.

(** C4 (modification frame).  While a draft is live and awaiting
    confirmation, a free-text message (fewer than two new-issue keywords, no
    confirmation keyword, no cancellation keyword) is appended to the
    description of the draft as additional information and the draft is stored
    again under the same user; every other field, the timestamp that measures
    its age included, is unchanged and the draft still awaits confirmation.
    After three such messages the description holds the three fragments in
    order. *)
Theorem modification_frame (env : Collaborators) (phone name : string)
    (w : World) (t : PendingTicket) (n1 n2 n3 : Z) (m1 m2 m3 : string) :
  pending_tickets w !! phone = Some t ->
  awaiting_confirmation t = true ->
  n1 - timestamp t <= minutes 60 ->
  n2 - timestamp t <= minutes 60 ->
  n3 - timestamp t <= minutes 60 ->
  ambiguous (working_text env m1) = true ->
  ambiguous (working_text env m2) = true ->
  ambiguous (working_text env m3) = true ->
  let f1 := additional_information (working_text env m1) in
  let f2 := additional_information (working_text env m2) in
  let f3 := additional_information (working_text env m3) in
  let r1 := process_message env n1 phone name m1 w in
  let r2 := process_message env n2 phone name m2 r1.2 in
  let r3 := process_message env n3 phone name m3 r2.2 in
  let grown (d : string) :=
    mkPendingTicket (user_phone t) (user_name t) (summary t) d (team t)
      (project_key t) (priority t) (attachments t) (timestamp t) true in
  pending_tickets r1.2 = <[phone := grown (description t +:+ f1)]> (pending_tickets w)
  /\ pending_tickets r2.2 !! phone = Some (grown ((description t +:+ f1) +:+ f2))
  /\ pending_tickets r3.2 !! phone =
       Some (grown (((description t +:+ f1) +:+ f2) +:+ f3))
  /\ Response.action r1.1 = "updated_preview"
  /\ Response.action r2.1 = "updated_preview"
  /\ Response.action r3.1 = "updated_preview"
  /\ sent r3.2 =
       sent w
       ++ [(phone, get_smart_response env "confirm_ticket" (working_text env m1)
                     [("summary", summary t); ("team", team t);
                      ("priority", Priority_value (priority t))]);
           (phone, get_smart_response env "confirm_ticket" (working_text env m2)
                     [("summary", summary t); ("team", team t);
                      ("priority", Priority_value (priority t))]);
           (phone, get_smart_response env "confirm_ticket" (working_text env m3)
                     [("summary", summary t); ("team", team t);
                      ("priority", Priority_value (priority t))])].
Proof.
  intros Hs Haw Ha1 Ha2 Ha3 Hm1 Hm2 Hm3. cbv zeta.
  assert (Hstep : forall now m w0 d,
             pending_tickets w0 !! phone =
               Some (mkPendingTicket (user_phone t) (user_name t) (summary t) d
                       (team t) (project_key t) (priority t) (attachments t)
                       (timestamp t) true) ->
             now - timestamp t <= minutes 60 ->
             ambiguous (working_text env m) = true ->
             let r := process_message env now phone name m w0 in
             Response.action r.1 = "updated_preview"
             /\ pending_tickets r.2 =
                  <[phone := mkPendingTicket (user_phone t) (user_name t)
                               (summary t)
                               (d +:+ additional_information (working_text env m))
                               (team t) (project_key t) (priority t)
                               (attachments t) (timestamp t) true]>
                    (pending_tickets w0)
             /\ sent r.2 =
                  sent w0
                  ++ [(phone,
                       get_smart_response env "confirm_ticket" (working_text env m)
                         [("summary", summary t); ("team", team t);
                          ("priority", Priority_value (priority t))])]).
  { intros now m w0 d Hs0 Hage Hamb. cbv zeta.
    pose proof (PipelineFacts.process_message_pending env now phone name m w0 _
                  Hs0 Hage eq_refl) as Heq.
    cbv zeta in Heq.
    rewrite (HandlerFacts.ambiguous_not_override _ Hamb) in Heq.
    rewrite (HandlerFacts.handle_confirmation_modify env _ _ _ _ _ _ _ Hamb) in Heq.
    destruct (PipelineFacts.prelude_frame env now phone name m w0)
      as (Hp & Hsent & _).
    cbv zeta in Hp, Hsent. rewrite Hp, Hsent in Heq. rewrite Heq.
    repeat split; reflexivity. }
  assert (Ht : t = mkPendingTicket (user_phone t) (user_name t) (summary t)
                     (description t) (team t) (project_key t) (priority t)
                     (attachments t) (timestamp t) true)
    by (destruct t; cbn in Haw |- *; rewrite Haw; reflexivity).
  rewrite Ht in Hs.
  destruct (Hstep n1 m1 w (description t) Hs Ha1 Hm1) as (A1 & P1 & S1).
  cbv zeta in A1, P1, S1.
  assert (L1 := f_equal (fun st => st !! phone) P1). cbv beta in L1.
  rewrite lookup_insert_eq in L1.
  destruct (Hstep n2 m2 _ _ L1 Ha2 Hm2) as (A2 & P2 & S2).
  cbv zeta in A2, P2, S2.
  assert (L2 := f_equal (fun st => st !! phone) P2). cbv beta in L2.
  rewrite lookup_insert_eq in L2.
  destruct (Hstep n3 m3 _ _ L2 Ha3 Hm3) as (A3 & P3 & S3).
  cbv zeta in A3, P3, S3.
  assert (L3 := f_equal (fun st => st !! phone) P3). cbv beta in L3.
  rewrite lookup_insert_eq in L3.
  repeat split; try assumption.
  rewrite S3, S2, S1, <- !app_assoc. reflexivity.
Qed.

(** Three clarifications of the sample draft, a minute apart. *)
Lemma modification_frame_witness :
  let env := sample_collaborators true GENERAL_INQUIRY in
  let r1 := process_message env (seconds 60) sample_phone "Bob"
              "also affects the team" world_with_draft in
  let r2 := process_message env (seconds 120) sample_phone "Bob"
              "it started three hours ago" r1.2 in
  let r3 := process_message env (seconds 180) sample_phone "Bob"
              "the export button hangs" r2.2 in
  exists t3,
    pending_tickets r3.2 !! sample_phone = Some t3
    /\ description t3 =
         ((description sample_draft
           +:+ additional_information "also affects the team")
          +:+ additional_information "it started three hours ago")
         +:+ additional_information "the export button hangs"
    /\ summary t3 = summary sample_draft
    /\ team t3 = team sample_draft
    /\ project_key t3 = project_key sample_draft
    /\ priority t3 = priority sample_draft
    /\ timestamp t3 = timestamp sample_draft
    /\ awaiting_confirmation t3 = true.
Proof.
  cbv zeta.
  destruct (modification_frame (sample_collaborators true GENERAL_INQUIRY)
              sample_phone "Bob" world_with_draft sample_draft
              (seconds 60) (seconds 120) (seconds 180)
              "also affects the team" "it started three hours ago"
              "the export button hangs")
    as (_ & _ & H3 & _).
  - vm_compute. reflexivity.
  - reflexivity.
  - vm_compute. discriminate.
  - vm_compute. discriminate.
  - vm_compute. discriminate.
  - vm_compute. reflexivity.
  - vm_compute. reflexivity.
  - vm_compute. reflexivity.
  - eexists. split; [exact H3|]. repeat split; reflexivity.
Defined.

(** C8, as amended (technical before property).  When a technical keyword
    occurs in a message, the real-estate detector answers no, so the message
    is never redirected to sales by the query-type stage: it goes to the
    create-ticket handler when it is a technical query (two keywords, or one
    with a problem word, or a technical pattern) and to the intent classifier
    otherwise.  And the technical check comes first: a technical query goes
    to the create-ticket handler whatever the real-estate detector says. *)
Theorem technical_before_property (env : Collaborators) (now : Z)
    (phone name original text : string) (lang : Language) (w : World) :
  Str.any_in _technical_keywords (Str.lower text) = true ->
  _is_real_estate_query text = false
  /\ classify_and_route env now phone name original text lang w =
       (if _is_technical_query text
        then _handle_create_ticket env now phone name text None lang w
        else ai_route env now phone name text lang w)
  /\ (forall text',
        _is_technical_query text' = true ->
        classify_and_route env now phone name original text' lang w =
        _handle_create_ticket env now phone name text' None lang w).
Proof.
  intros Hkw.
  assert (Hre : _is_real_estate_query text = false)
    by (unfold _is_real_estate_query; rewrite Hkw; reflexivity).
  split; [exact Hre|]. split.
  - rewrite HandlerFacts.classify_and_route_eq, Hre. reflexivity.
  - intros text' Ht. rewrite HandlerFacts.classify_and_route_eq, Ht. reflexivity.
Qed.

(** "dashboard" next to "villa": not a property query. *)
Lemma technical_before_property_witness :
  let env := sample_collaborators true GENERAL_INQUIRY in
  let text := "the dashboard for the villa listings is broken" in
  _is_real_estate_query text = false
  /\ classify_and_route env (seconds 1) sample_phone "Bob" text text ENGLISH
       fresh_world =
     _handle_create_ticket env (seconds 1) sample_phone "Bob" text None ENGLISH
       fresh_world.
Proof.
  cbv zeta.
  destruct (technical_before_property (sample_collaborators true GENERAL_INQUIRY)
              (seconds 1) sample_phone "Bob"
              "the dashboard for the villa listings is broken"
              "the dashboard for the villa listings is broken" ENGLISH fresh_world)
    as (H1 & H2 & _).
  - vm_compute. reflexivity.
  - split; [exact H1|]. rewrite H2. reflexivity.
Defined.

(** C8, as stated, fails: one technical keyword without a problem word does
    not make a technical query.  "report" occurs in a request to buy a villa;
    the message reaches the intent classifier, and when the classifier says
    property inquiry the user is redirected to sales and no draft is made. *)
Lemma technical_keyword_not_technical :
  let text := "I want to buy a villa, please send the report" in
  let r := process_message (sample_collaborators true PROPERTY_INQUIRY) (seconds 1)
             sample_phone "Bob" text fresh_world in
  Str.any_in _technical_keywords (Str.lower text) = true
  /\ Str.any_in _real_estate_keywords (Str.lower text) = true
  /\ _is_technical_query text = false
  /\ Response.intent r.1 = Some "property_inquiry"
  /\ Response.action r.1 = "redirected_to_sales"
  /\ pending_tickets r.2 !! sample_phone = None.
Proof. vm_compute. repeat split; reflexivity. Qed.

End PipelineClaims.

(** * Further properties of the services *)

(** ** Sessions: continuity, state, topics, ending, cleaning *)

Module SessionFacts.
Import ConversationMemory MemorySpec.

Lemma memory_eta (mem : Memory) :
  mkMemory (_sessions mem) (_max_history mem) (_session_timeout mem)
    (_last_cleanup mem) (archived mem) = mem.
Proof. destruct mem; reflexivity. Qed.

(** The whole result of a call that finds a session that is not stale. *)
Lemma get_or_create_session_live_eq now phone name mem s :
  _sessions mem !! phone = Some s -> ~ stale mem now s ->
  get_or_create_session now phone name mem =
  (set_last_activity now s,
   with_sessions (<[phone := set_last_activity now s]> (_sessions (sweep now mem)))
     (sweep now mem)).
Proof.
  intros Hs Hl. rewrite MemoryFacts.get_or_create_session_eq.
  rewrite (MemoryFacts.sweep_lookup_live _ _ _ _ Hs Hl).
  rewrite bool_decide_eq_false_2 by (rewrite MemoryFacts.stale_sweep; exact Hl).
  reflexivity.
Qed.

(** The sweep hands over to the archive only sessions that were stored. *)
Lemma sweep_archived now mem :
  exists gone,
    archived (sweep now mem) = archived mem ++ gone
    /\ Forall (fun s => exists k, _sessions mem !! k = Some s) gone.
Proof.
  unfold sweep. case_bool_decide.
  - eexists. split; [reflexivity|].
    apply Forall_forall. intros s Hin.
    apply list_elem_of_fmap_1 in Hin as ([k s'] & -> & Hin).
    apply elem_of_map_to_list in Hin.
    apply map_lookup_filter_Some in Hin as [Hin _]. exists k. exact Hin.
  - exists []. rewrite app_nil_r. split; [reflexivity | constructor].
Qed.

Lemma sweep_archived_for now mem phone s :
  keyed mem -> _sessions mem !! phone = Some s -> ~ stale mem now s ->
  archived_for phone (archived (sweep now mem)) = archived_for phone (archived mem).
Proof.
  intros Hk Hs Hl. unfold sweep. case_bool_decide; [|reflexivity].
  cbn [_cleanup_expired_sessions archived]. unfold archived_for.
  rewrite filter_app.
  match goal with |- ?a ++ ?b = ?a => assert (Hb : b = []) end;
    [|rewrite Hb; apply app_nil_r].
  apply MemoryFacts.filter_none. intros s0 Hin Hp.
  apply list_elem_of_fmap_1 in Hin as ([k s'] & -> & Hin).
  apply elem_of_map_to_list in Hin.
  apply map_lookup_filter_Some in Hin as [Hin Hst]. cbn in Hst, Hp.
  pose proof (Hk _ _ Hin) as Hkey. cbn in Hkey.
  assert (Heq : k = phone) by congruence. rewrite Heq in Hin.
  rewrite Hs in Hin. injection Hin as <-. contradiction.
Qed.

(** A second call at the same instant finds the session of the first and
    changes nothing. *)
Lemma get_or_create_session_again now phone name mem s :
  0 <= _session_timeout mem ->
  ~ seconds 300 < now - _last_cleanup mem ->
  _sessions mem !! phone = Some s ->
  last_activity s = now ->
  get_or_create_session now phone name mem = (s, mem).
Proof.
  intros Ht Hc Hs Hl.
  assert (Hlive : ~ stale mem now s) by (unfold stale; lia).
  rewrite (get_or_create_session_live_eq now phone name mem s Hs Hlive).
  assert (Hsw : sweep now mem = mem)
    by (unfold sweep; rewrite bool_decide_eq_false_2 by exact Hc; reflexivity).
  rewrite Hsw.
  assert (Hsame : set_last_activity now s = s)
    by (rewrite <- Hl; destruct s; reflexivity).
  rewrite Hsame. f_equal.
  unfold with_sessions. rewrite insert_id by exact Hs. apply memory_eta.
Qed.

(** The session a call returns is the stored one, refreshed, or a new one. *)
Lemma get_or_create_session_cases now phone name mem :
  let r := get_or_create_session now phone name mem in
  (exists s, _sessions mem !! phone = Some s /\ r.1 = set_last_activity now s)
  \/ r.1 = (_create_new_session now phone name mem).1.
Proof.
  cbv zeta. rewrite MemoryFacts.get_or_create_session_eq.
  destruct (_sessions (sweep now mem) !! phone) as [s|] eqn:Hs;
    [case_bool_decide|]; try (right; reflexivity).
  left. exists s. split; [|reflexivity].
  unfold sweep in Hs. case_bool_decide; [|exact Hs].
  apply map_lookup_filter_Some in Hs as [Hs _]. exact Hs.
Qed.

(** What [update_state] does to the session it works on. *)
Lemma update_state_eq now phone st mem :
  0 <= _session_timeout mem ->
  let r := get_or_create_session now phone "User" mem in
  let message :=
    mkMessage SYSTEM ("State changed to " +:+ ConversationState_value st) now None
      [("old_state", Some (ConversationState_value (state r.1)));
       ("new_state", Some (ConversationState_value st))] in
  update_state now phone st mem =
  with_sessions
    (<[phone :=
         set_last_activity now
           (set_history (message_count r.1 + 1)
              (trim (_max_history mem) (messages r.1 ++ [message]))
              (set_state st r.1))]> (_sessions r.2)) r.2.
Proof.
  intros Ht. cbv zeta. unfold update_state.
  pose proof (MemoryFacts.get_or_create_session_stored now phone "User" mem) as H.
  cbv zeta in H.
  destruct (get_or_create_session now phone "User" mem) as [s1 mem1].
  cbn [fst snd] in *. destruct H as (Hs1 & Hl1 & Hc1 & Ht1 & Hr1).
  set (mem2 := with_sessions (<[phone := set_state st s1]> (_sessions mem1)) mem1).
  unfold add_message.
  rewrite (get_or_create_session_again now phone "User" mem2 (set_state st s1)).
  - cbn [snd mem2 with_sessions _sessions _max_history _session_timeout
         _last_cleanup archived messages message_count set_state].
    rewrite insert_insert_eq, Hc1. reflexivity.
  - cbn. lia.
  - exact Hr1.
  - cbn. apply lookup_insert_eq.
  - exact Hl1.
Qed.


End SessionFacts.

Section SessionExtras.

Import ConversationMemory MemorySpec.

(** X1 (a live session is continued).  When the user has a session that is
    not older than the timeout, [get_or_create_session] returns that session
    with nothing changed but its last activity, stores it back, archives
    nothing of the user, and ignores the name it is given. *)
Theorem session_continuity (mem : Memory) (now : Z) (phone name : string)
    (s : ConversationContext) :
  keyed mem ->
  _sessions mem !! phone = Some s ->
  ~ stale mem now s ->
  let r := get_or_create_session now phone name mem in
  r.1 = set_last_activity now s
  /\ user_name r.1 = user_name s
  /\ _sessions r.2 !! phone = Some r.1
  /\ archived_for phone (archived r.2) = archived_for phone (archived mem).
Proof.
  intros Hk Hs Hl. cbv zeta.
  rewrite (SessionFacts.get_or_create_session_live_eq now phone name mem s Hs Hl).
  cbn [fst snd with_sessions _sessions archived].
  rewrite lookup_insert_eq.
  repeat split.
  apply (SessionFacts.sweep_archived_for now mem phone s Hk Hs Hl).
Qed.

(** Bob's session of instant 0, fetched ten minutes later under another
    name. *)
Lemma session_continuity_witness :
  let r := get_or_create_session (minutes 10) sample_phone "Robert" sample_memory in
  r.1 = set_last_activity (minutes 10) sample_session
  /\ user_name r.1 = "Bob"
  /\ _sessions r.2 !! sample_phone = Some r.1
  /\ archived_for sample_phone (archived r.2) = [].
Proof.
  apply (session_continuity sample_memory (minutes 10) sample_phone "Robert"
           sample_session).
  - unfold keyed. apply (bool_decide_unpack _). vm_compute. exact I.
  - reflexivity.
  - vm_compute. discriminate.
Defined.

(** X2 (state round trip).  With a timeout that is not negative, after
    [update_state] the state read back by [get_state] is the new one; the
    session the call worked on keeps its identifier, counts one more message
    and has the system message of the change appended to its history, which is
    trimmed like after any other message. *)
Theorem update_state_round_trip (mem : Memory) (now : Z) (phone : string)
    (st : ConversationState) :
  0 <= _session_timeout mem ->
  let s := (get_or_create_session now phone "User" mem).1 in
  let mem' := update_state now phone st mem in
  get_state phone mem' = st
  /\ exists s' meta,
       _sessions mem' !! phone = Some s'
       /\ conversation_id s' = conversation_id s
       /\ message_count s' = message_count s + 1
       /\ messages s' =
            trim (_max_history mem)
              (messages s
               ++ [mkMessage SYSTEM
                     ("State changed to " +:+ ConversationState_value st)
                     now None meta]).
Proof.
  intros Ht. cbv zeta.
  rewrite (SessionFacts.update_state_eq now phone st mem Ht). cbv zeta.
  unfold get_state. cbn [with_sessions _sessions]. rewrite lookup_insert_eq.
  split; [reflexivity|].
  eexists. eexists. split; [reflexivity|].
  repeat split.
Qed.

(** Bob's session goes to the ticket state one minute after its start. *)
Lemma update_state_round_trip_witness :
  let mem' := update_state (minutes 1) sample_phone SUPPORT_TICKET sample_memory in
  get_state sample_phone mem' = SUPPORT_TICKET
  /\ exists s' meta,
       _sessions mem' !! sample_phone = Some s'
       /\ conversation_id s' = "+971500000001_0"
       /\ message_count s' = 0 + 1
       /\ messages s' =
            trim 50
              ([] ++ [mkMessage SYSTEM "State changed to support_ticket"
                        (minutes 1) None meta]).
Proof.
  apply (update_state_round_trip sample_memory (minutes 1) sample_phone
           SUPPORT_TICKET).
  vm_compute. discriminate.
Defined.

(** X3 (topics are recorded once).  After [add_topic] the topic is found by
    [has_discussed_topic]; a list of topics without repetition stays without
    repetition; and, the timeout not being negative, adding the same topic
    again at the same instant changes nothing. *)
Theorem add_topic_once (mem : Memory) (now : Z) (phone topic : string) :
  0 <= _session_timeout mem ->
  (forall s, _sessions mem !! phone = Some s -> NoDup (topics_discussed s)) ->
  let mem' := add_topic now phone topic mem in
  has_discussed_topic phone topic mem' = true
  /\ (exists s', _sessions mem' !! phone = Some s'
                 /\ NoDup (topics_discussed s'))
  /\ add_topic now phone topic mem' = mem'.
Proof.
  intros Ht Hnd. cbv zeta.
  assert (Hshape : exists s',
             _sessions (add_topic now phone topic mem) !! phone = Some s'
             /\ topic ∈ topics_discussed s'
             /\ NoDup (topics_discussed s')
             /\ last_activity s' = now
             /\ _session_timeout (add_topic now phone topic mem) = _session_timeout mem
             /\ ~ seconds 300 < now - _last_cleanup (add_topic now phone topic mem)).
  { unfold add_topic.
    pose proof (MemoryFacts.get_or_create_session_stored now phone "User" mem) as H.
    pose proof (SessionFacts.get_or_create_session_cases now phone "User" mem) as Hc.
    cbv zeta in H, Hc.
    destruct (get_or_create_session now phone "User" mem) as [s1 mem1].
    cbn [fst snd] in *. destruct H as (Hs1 & Hl1 & _ & Ht1 & Hr1).
    assert (Hnd1 : NoDup (topics_discussed s1)).
    { destruct Hc as [(s & Hs & ->)| ->].
      - cbn. apply (Hnd s Hs).
      - cbn. constructor. }
    case_bool_decide as Hin.
    - exists s1. auto 10.
    - eexists. cbn [with_sessions _sessions _session_timeout _last_cleanup].
      rewrite lookup_insert_eq. split; [reflexivity|].
      cbn [topics_discussed set_topics last_activity].
      split; [apply elem_of_app; right; apply list_elem_of_singleton; reflexivity|].
      split; [|auto].
      apply NoDup_app. split; [exact Hnd1|]. split.
      + intros x Hx Hx'. apply list_elem_of_singleton in Hx'. subst x. contradiction.
      + apply NoDup_singleton. }
  destruct Hshape as (s' & Hs' & Hin & Hnd' & Hl' & Ht' & Hr').
  split; [unfold has_discussed_topic; rewrite Hs'; apply bool_decide_eq_true_2, Hin|].
  split; [exists s'; auto|].
  set (mem' := add_topic now phone topic mem) in *.
  unfold add_topic.
  rewrite (SessionFacts.get_or_create_session_again now phone "User" mem' s');
    try assumption; [|lia].
  rewrite bool_decide_eq_true_2 by exact Hin. reflexivity.
Qed.

(** A first topic for Bob. *)
Lemma add_topic_once_witness :
  let mem' := add_topic (minutes 1) sample_phone "create_ticket" sample_memory in
  has_discussed_topic sample_phone "create_ticket" mem' = true
  /\ (exists s', _sessions mem' !! sample_phone = Some s'
                 /\ NoDup (topics_discussed s'))
  /\ add_topic (minutes 1) sample_phone "create_ticket" mem' = mem'.
Proof.
  apply (add_topic_once sample_memory (minutes 1) sample_phone "create_ticket").
  - vm_compute. discriminate.
  - intros s Hs.
    assert (Hs' : Some s = Some sample_session) by (rewrite <- Hs; reflexivity).
    injection Hs' as ->. constructor.
Defined.

(** X4 (ending a session).  [end_session] on a user with a session removes
    it, hands it to the archive once, marked closed, and touches no other
    user; afterwards the user reads as a newcomer (state greeting, empty
    history) and ending again changes nothing. *)
Theorem end_session_closes (mem : Memory) (phone : string)
    (s : ConversationContext) :
  _sessions mem !! phone = Some s ->
  let mem' := end_session phone mem in
  _sessions mem' !! phone = None
  /\ archived mem' = archived mem ++ [set_state CLOSED s]
  /\ (forall other, other <> phone ->
        _sessions mem' !! other = _sessions mem !! other)
  /\ get_state phone mem' = GREETING
  /\ get_conversation_history phone None true mem' = []
  /\ end_session phone mem' = mem'.
Proof.
  intros Hs. cbv zeta.
  assert (E : end_session phone mem =
              mkMemory (delete phone (_sessions mem)) (_max_history mem)
                (_session_timeout mem) (_last_cleanup mem)
                (archived mem ++ [set_state CLOSED s]))
    by (unfold end_session; rewrite Hs; reflexivity).
  rewrite E.
  assert (Hnone : delete phone (_sessions mem) !! phone = None)
    by apply lookup_delete_eq.
  split; [exact Hnone|]. split; [reflexivity|].
  split; [intros other Hne; apply lookup_delete_ne; congruence|].
  split; [unfold get_state; cbn [_sessions]; rewrite Hnone; reflexivity|].
  split; [unfold get_conversation_history; cbn [_sessions]; rewrite Hnone;
          reflexivity|].
  unfold end_session. cbn [_sessions]. rewrite Hnone. reflexivity.
Qed.

(** Bob's session is ended. *)
Lemma end_session_closes_witness :
  let mem' := end_session sample_phone sample_memory in
  _sessions mem' !! sample_phone = None
  /\ archived mem' = [] ++ [set_state CLOSED sample_session]
  /\ (forall other, other <> sample_phone ->
        _sessions mem' !! other = _sessions sample_memory !! other)
  /\ get_state sample_phone mem' = GREETING
  /\ get_conversation_history sample_phone None true mem' = []
  /\ end_session sample_phone mem' = mem'.
Proof.
  apply (end_session_closes sample_memory sample_phone sample_session).
  reflexivity.
Defined.

(** X5 (the cleaning removes exactly the expired sessions).  After
    [force_cleanup] the stored sessions are those that were stored and not
    older than the timeout, unchanged; the others, and only they, are appended
    to the archive, so that no session is lost or archived twice; and a second
    cleaning at the same instant changes nothing. *)
Theorem force_cleanup_exact (mem : Memory) (now : Z) :
  let mem' := force_cleanup now mem in
  (forall phone s,
      _sessions mem' !! phone = Some s
      <-> _sessions mem !! phone = Some s /\ ~ stale mem now s)
  /\ (exists gone,
        archived mem' = archived mem ++ gone
        /\ (forall s, s ∈ gone
                      <-> exists phone, _sessions mem !! phone = Some s
                                        /\ stale mem now s)
        /\ (length gone + get_active_session_count mem'
            = get_active_session_count mem)%nat)
  /\ force_cleanup now mem' = mem'.
Proof.
  cbv zeta. unfold force_cleanup, _cleanup_expired_sessions, get_active_session_count.
  cbn [_sessions archived _max_history _session_timeout].
  set (expired := filter (fun kv : string * ConversationContext => stale mem now kv.2)
                    (_sessions mem)).
  set (kept := filter (fun kv : string * ConversationContext => ~ stale mem now kv.2)
                 (_sessions mem)).
  split; [|split].
  - intros phone s. unfold kept. apply map_lookup_filter_Some.
  - exists ((map_to_list expired).*2). split; [reflexivity|]. split.
    + intros s. split.
      * intros Hin. apply list_elem_of_fmap_1 in Hin as ([k s'] & -> & Hin).
        apply elem_of_map_to_list in Hin.
        apply map_lookup_filter_Some in Hin. exists k. exact Hin.
      * intros (k & Hk & Hst). apply list_elem_of_fmap.
        exists (k, s). split; [reflexivity|].
        apply elem_of_map_to_list. apply map_lookup_filter_Some. auto.
    + rewrite length_fmap, length_map_to_list.
      rewrite <- (map_size_disj_union expired kept)
        by apply map_disjoint_filter_complement.
      unfold expired, kept. rewrite map_filter_union_complement. reflexivity.
  - assert (Hnone :
      filter (fun kv : string * ConversationContext =>
                stale (mkMemory kept (_max_history mem) (_session_timeout mem) now
                         (archived mem ++ (map_to_list expired).*2)) now kv.2)
        kept = ∅).
    { apply map_empty. intros k. apply map_lookup_filter_None. right.
      intros s Hs Hst. apply map_lookup_filter_Some in Hs as [_ Hn].
      apply Hn. exact Hst. }
    assert (Hsame :
      filter (fun kv : string * ConversationContext =>
                ~ stale (mkMemory kept (_max_history mem) (_session_timeout mem) now
                           (archived mem ++ (map_to_list expired).*2)) now kv.2)
        kept = kept).
    { apply map_filter_id. intros k s Hs.
      apply map_lookup_filter_Some in Hs as [_ Hn]. exact Hn. }
    rewrite Hnone, Hsame, map_to_list_empty. cbn [fmap list_fmap].
    rewrite app_nil_r. reflexivity.
Qed.

(** X6 (what the classifier is shown of the history).  For a positive
    number [n], [get_recent_context] returns at most [n] messages, none of
    them a system message: the [n] most recent of the user's history without
    system messages, and nothing for a user without session.  A limit of 0
    does not limit: it returns what no limit returns. *)
Theorem recent_context_bound (mem : Memory) (phone : string) (n : Z) :
  0 < n ->
  let ms := get_recent_context phone n mem in
  Z.of_nat (length ms) <= n
  /\ Forall (fun m => role m <> SYSTEM) ms
  /\ ms = last_n (Z.to_nat n) (get_conversation_history phone None false mem)
  /\ (_sessions mem !! phone = None -> ms = [])
  /\ get_conversation_history phone (Some 0) false mem
     = get_conversation_history phone None false mem.
Proof.
  intros Hn. cbv zeta.
  assert (E : get_recent_context phone n mem
              = last_n (Z.to_nat n) (get_conversation_history phone None false mem)).
  { unfold get_recent_context, get_conversation_history.
    destruct (_sessions mem !! phone) as [s|]; [|reflexivity].
    replace (n =? 0) with false by (symmetry; apply Z.eqb_neq; lia).
    apply MemoryFacts.length_slice_from_neg, Hn. }
  rewrite E. split; [rewrite MemoryFacts.length_last_n; lia|].
  split.
  - unfold last_n. apply Forall_drop.
    unfold get_conversation_history.
    destruct (_sessions mem !! phone) as [s|]; [|constructor].
    apply Forall_forall. intros m Hin.
    apply list_elem_of_In, filter_In in Hin as [_ Hin].
    unfold is_system in Hin. intros Hr. rewrite Hr in Hin. discriminate.
  - split; [reflexivity|]. split; [|reflexivity].
    intros Hnone. unfold get_conversation_history. rewrite Hnone. reflexivity.
Qed.

(** The classifier's view of Bob's history after the fifty-one messages. *)
Lemma recent_context_bound_witness :
  let mem := add_messages sample_phone sample_calls sample_memory in
  let ms := get_recent_context sample_phone 5 mem in
  Z.of_nat (length ms) <= 5
  /\ Forall (fun m => role m <> SYSTEM) ms
  /\ ms = last_n 5 (get_conversation_history sample_phone None false mem)
  /\ (_sessions mem !! sample_phone = None -> ms = [])
  /\ get_conversation_history sample_phone (Some 0) false mem
     = get_conversation_history sample_phone None false mem.
Proof.
  apply (recent_context_bound
           (add_messages sample_phone sample_calls sample_memory) sample_phone 5).
  reflexivity.
Defined.

End SessionExtras.

(** ** The pipeline: tickets, drafts, users *)

Module ServiceFacts.
Import IntentService PipelineSpec ServiceSpec HandlerFacts PipelineFacts.

Lemma no_create_refl w w' : jira_calls w' = jira_calls w -> no_create w w'.
Proof. intros H. exists []. rewrite app_nil_r. auto. Qed.

Lemma no_create_trans w1 w2 w3 :
  no_create w1 w2 -> no_create w2 w3 -> no_create w1 w3.
Proof.
  intros (a & Ha & Fa) (b & Hb & Fb). exists (a ++ b).
  rewrite Hb, Ha, <- app_assoc. split; [reflexivity|].
  rewrite forallb_app, Fa, Fb. reflexivity.
Qed.

Lemma no_create_one w w' c :
  jira_calls w' = jira_calls w ++ [c] -> is_create c = false -> no_create w w'.
Proof. intros H Hc. exists [c]. split; [exact H|]. cbn. rewrite Hc. reflexivity. Qed.

Section WithCollaborators.

Context (env : Collaborators).

Lemma route_intent_no_create now phone name text ir lang w :
  no_create w (_route_intent env now phone name text ir lang w).2.
Proof.
  unfold _route_intent. destruct (ic_intent ir).
  - eapply no_create_one; reflexivity.
  - unfold _handle_check_status.
    destruct (negb (truthy _));
      unfold mbind, M_bind, jira; cbn [fst snd jira_calls].
    + eapply no_create_one; [destruct (jira_search_tickets _ _ _ _); reflexivity | reflexivity].
    + eapply no_create_one; [destruct (jira_get_ticket_status _ _ _); reflexivity | reflexivity].
  - unfold _handle_update_ticket.
    destruct (negb (truthy _)); [apply no_create_refl; reflexivity|].
    unfold mbind, M_bind, jira. cbn [fst snd jira_calls].
    eapply no_create_one; [destruct (jira_update_ticket _ _ _ _ _); reflexivity | reflexivity].
  - unfold _handle_close_ticket.
    destruct (negb (truthy _)); [apply no_create_refl; reflexivity|].
    unfold mbind, M_bind, jira. cbn [fst snd jira_calls].
    eapply no_create_one; [destruct (jira_close_ticket _ _ _); reflexivity | reflexivity].
  - apply no_create_refl. reflexivity.
  - apply no_create_refl. reflexivity.
  - apply no_create_refl. reflexivity.
Qed.

Lemma classify_and_route_no_create now phone name original text lang w :
  no_create w (classify_and_route env now phone name original text lang w).2.
Proof.
  rewrite classify_and_route_eq.
  destruct (_is_technical_query text); [eapply no_create_one; reflexivity|].
  destruct (_is_real_estate_query text); [apply no_create_refl; reflexivity|].
  unfold ai_route, mbind, M_bind. cbv zeta. cbn [get_world fst snd].
  set (ir := classify_intent env text name phone _).
  set (w1 := (update_memory _ w).2).
  apply (no_create_trans w w1); [apply no_create_refl; reflexivity|].
  apply route_intent_no_create.
Qed.

(** Without a live draft awaiting confirmation the call is the rest of the
    pipeline, run after the prelude on the store that
    [get_pending_ticket] leaves. *)
Lemma process_message_no_draft now phone name message_text w :
  let w1 := (prelude env now phone name message_text w).2 in
  let p := ResponseService.get_pending_ticket now phone (pending_tickets w) in
  match p.1 with
  | Some t => awaiting_confirmation t = false
  | None => True
  end ->
  process_message env now phone name message_text w =
  classify_and_route env now phone name message_text
    (working_text env message_text) (detect_language env message_text)
    (mkWorld (memory w1) p.2 (frustration w1) (sent w) (jira_calls w)).
Proof.
  cbv zeta. intros Hp. rewrite process_message_eq. cbv zeta.
  destruct (prelude_frame env now phone name message_text w) as (Hpt & Hsent & Hj).
  cbv zeta in Hpt, Hsent, Hj. rewrite Hpt, Hsent, Hj.
  destruct (ResponseService.get_pending_ticket now phone (pending_tickets w))
    as [[t|] st]; cbn [fst snd] in *; unfold after_pending_check.
  - rewrite Hp. reflexivity.
  - reflexivity.
Qed.

End WithCollaborators.

End ServiceFacts.

Section ServiceExtras.

Import IntentService PipelineSpec ServiceSpec MemorySpec.

(** X7 (no ticket without confirmation).  Whatever the message and whatever
    the collaborators answer, a call of [process_message] asks the tracker to
    create a ticket at most once, and only when the user has a draft that is
    not older than an hour and awaits confirmation, and the text carries a
    confirmation keyword; the ticket requested is then that draft. *)
Theorem tickets_need_confirmation (env : Collaborators) (now : Z)
    (phone name message_text : string) (w : World) :
  let w' := (process_message env now phone name message_text w).2 in
  exists calls,
    jira_calls w' = jira_calls w ++ calls
    /\ forall c, c ∈ calls -> is_create c = true ->
         calls = [c]
         /\ is_confirmation (working_text env message_text) = true
         /\ exists t,
              pending_tickets w !! phone = Some t
              /\ now - timestamp t <= minutes 60
              /\ awaiting_confirmation t = true
              /\ c = create_call t.
Proof.
  cbv zeta.
  assert (Hfree : forall w',
             no_create w w' ->
             exists calls,
               jira_calls w' = jira_calls w ++ calls
               /\ forall c, c ∈ calls -> is_create c = true ->
                    calls = [c]
                    /\ is_confirmation (working_text env message_text) = true
                    /\ exists t,
                         pending_tickets w !! phone = Some t
                         /\ now - timestamp t <= minutes 60
                         /\ awaiting_confirmation t = true
                         /\ c = create_call t).
  { intros w' (calls & Hc & Hf). exists calls. split; [exact Hc|].
    intros c Hin Hcr. exfalso.
    rewrite forallb_forall in Hf. apply list_elem_of_In in Hin.
    specialize (Hf c Hin). rewrite Hcr in Hf. discriminate. }
  set (text := working_text env message_text).
  set (lang := detect_language env message_text).
  set (w1 := (prelude env now phone name message_text w).2).
  destruct (pending_tickets w !! phone) as [t|] eqn:Hs.
  - destruct (Z_le_gt_dec (now - timestamp t) (minutes 60)) as [Hage|Hage].
    + destruct (awaiting_confirmation t) eqn:Haw.
      * pose proof (PipelineFacts.process_message_pending env now phone name
                      message_text w t Hs Hage Haw) as Heq.
        cbv zeta in Heq. fold text lang w1 in Heq.
        destruct (PipelineFacts.prelude_frame env now phone name message_text w)
          as (_ & _ & Hj). cbv zeta in Hj. fold w1 in Hj.
        destruct (is_override text) eqn:Hov.
        -- rewrite Heq. apply Hfree.
           rewrite (HandlerFacts.handle_confirmation_override env _ _ _ _ _ _ _ Hov).
           cbn [snd].
           eapply ServiceFacts.no_create_trans;
             [|apply ServiceFacts.classify_and_route_no_create].
           apply ServiceFacts.no_create_refl. exact Hj.
        -- rewrite Heq.
           destruct (bool_dec (is_confirmation text) true) as [Hcf|Hcf];
             [|apply not_true_is_false in Hcf].
           ++ rewrite (HandlerFacts.handle_confirmation_confirm env _ _ _ _ _ _ _ Hcf).
              exists [create_call t]. split.
              ** destruct (jira_create_ticket _ _ _ _ _ _);
                   cbn [snd jira_calls]; rewrite Hj; reflexivity.
              ** intros c Hin _. apply list_elem_of_singleton in Hin. subst c.
                 split; [reflexivity|]. split; [exact Hcf|].
                 exists t. auto.
           ++ apply Hfree. apply ServiceFacts.no_create_refl.
              unfold _handle_confirmation. rewrite Hov, Hcf.
              destruct (is_cancellation text); cbn [snd jira_calls]; exact Hj.
      * rewrite ServiceFacts.process_message_no_draft.
        -- apply Hfree. eapply ServiceFacts.no_create_trans;
             [|apply ServiceFacts.classify_and_route_no_create].
           apply ServiceFacts.no_create_refl. reflexivity.
        -- cbv zeta.
           rewrite (PipelineFacts.get_pending_ticket_live now phone _ t Hs Hage).
           exact Haw.
    + rewrite ServiceFacts.process_message_no_draft.
      * apply Hfree. eapply ServiceFacts.no_create_trans;
          [|apply ServiceFacts.classify_and_route_no_create].
        apply ServiceFacts.no_create_refl. reflexivity.
      * cbv zeta. unfold ResponseService.get_pending_ticket. rewrite Hs.
        cbv zeta. unfold ResponseService._pending_ticket_timeout_minutes.
        replace (minutes 60 <? now - timestamp t) with true
          by (symmetry; apply Z.ltb_lt; lia).
        exact I.
  - rewrite ServiceFacts.process_message_no_draft.
    + apply Hfree. eapply ServiceFacts.no_create_trans;
        [|apply ServiceFacts.classify_and_route_no_create].
      apply ServiceFacts.no_create_refl. reflexivity.
    + cbv zeta. unfold ResponseService.get_pending_ticket. rewrite Hs. exact I.
Qed.

(** X8 (cancelling).  When the user has a draft that is not older than an
    hour and awaits confirmation, a message with a cancellation keyword and
    no confirmation keyword is answered "cancelled": the draft is deleted, the
    notice of cancellation is the one message sent, and the tracker is not
    called. *)
Theorem cancellation_drops_draft (env : Collaborators) (now : Z)
    (phone name message_text : string) (w : World) (t : PendingTicket) :
  pending_tickets w !! phone = Some t ->
  now - timestamp t <= minutes 60 ->
  awaiting_confirmation t = true ->
  is_cancellation (working_text env message_text) = true ->
  is_confirmation (working_text env message_text) = false ->
  let r := process_message env now phone name message_text w in
  Response.action r.1 = "cancelled"
  /\ pending_tickets r.2 = delete phone (pending_tickets w)
  /\ sent r.2 =
       sent w ++ [(phone, cancellation_notice (detect_language env message_text))]
  /\ jira_calls r.2 = jira_calls w.
Proof.
  intros Hs Hage Haw Hcan Hcf. cbv zeta.
  pose proof (PipelineFacts.process_message_pending env now phone name
                message_text w t Hs Hage Haw) as Heq.
  cbv zeta in Heq.
  assert (Hov : is_override (working_text env message_text) = false)
    by (unfold is_override; rewrite Hcan, andb_false_r; reflexivity).
  rewrite Hov in Heq. rewrite Heq.
  destruct (PipelineFacts.prelude_frame env now phone name message_text w)
    as (Hp & Hsent & Hj). cbv zeta in Hp, Hsent, Hj.
  unfold _handle_confirmation. rewrite Hov, Hcf, Hcan.
  unfold mbind, M_bind, on_pending. cbn [fst snd pending_tickets sent jira_calls
    send_text_message mret M_ret Response.action Response.sent_action].
  rewrite HandlerFacts.clear_pending_ticket_delete, Hp, Hsent, Hj.
  repeat split.
Qed.

(** Bob cancels the sample draft. *)
Lemma cancellation_drops_draft_witness :
  let r := process_message (sample_collaborators true GENERAL_INQUIRY) (seconds 60)
             sample_phone "Bob" "cancel" world_with_draft in
  Response.action r.1 = "cancelled"
  /\ pending_tickets r.2 = delete sample_phone (pending_tickets world_with_draft)
  /\ sent r.2 =
       sent world_with_draft
       ++ [(sample_phone, "Ticket creation cancelled. How else can I help you?")]
  /\ jira_calls r.2 = jira_calls world_with_draft.
Proof.
  apply (cancellation_drops_draft (sample_collaborators true GENERAL_INQUIRY)
           (seconds 60) sample_phone "Bob" "cancel" world_with_draft sample_draft).
  - vm_compute. reflexivity.
  - vm_compute. discriminate.
  - reflexivity.
  - vm_compute. reflexivity.
  - vm_compute. reflexivity.
Defined.

(** X9 (a draft expires after an hour).  When the draft of the user is
    older than 60 minutes, the next message of the user deletes it and is
    handled like a message without draft: by the query-type stage, after the
    prelude; so that even a "yes" asks the tracker for no ticket. *)
Theorem expired_draft_is_dropped (env : Collaborators) (now : Z)
    (phone name message_text : string) (w : World) (t : PendingTicket) :
  pending_tickets w !! phone = Some t ->
  minutes 60 < now - timestamp t ->
  let w1 := (prelude env now phone name message_text w).2 in
  let r := process_message env now phone name message_text w in
  r = classify_and_route env now phone name message_text
        (working_text env message_text) (detect_language env message_text)
        (mkWorld (memory w1) (delete phone (pending_tickets w)) (frustration w1)
           (sent w) (jira_calls w))
  /\ no_create w r.2.
Proof.
  intros Hs Hage. cbv zeta.
  assert (Hget : ResponseService.get_pending_ticket now phone (pending_tickets w)
                 = (None, delete phone (pending_tickets w))).
  { unfold ResponseService.get_pending_ticket. rewrite Hs. cbv zeta.
    unfold ResponseService._pending_ticket_timeout_minutes.
    replace (minutes 60 <? now - timestamp t) with true
      by (symmetry; apply Z.ltb_lt; exact Hage).
    reflexivity. }
  pose proof (ServiceFacts.process_message_no_draft env now phone name
                message_text w) as Heq.
  cbv zeta in Heq. rewrite Hget in Heq. cbn [fst snd] in Heq.
  rewrite (Heq I). split; [reflexivity|].
  eapply ServiceFacts.no_create_trans;
    [|apply ServiceFacts.classify_and_route_no_create].
  apply ServiceFacts.no_create_refl. reflexivity.
Qed.

(** Bob says "yes" to the sample draft sixty-two minutes too late. *)
Lemma expired_draft_is_dropped_witness :
  let env := sample_collaborators true GENERAL_INQUIRY in
  let w1 := (prelude env (minutes 62) sample_phone "Bob" "yes" world_with_draft).2 in
  let r := process_message env (minutes 62) sample_phone "Bob" "yes" world_with_draft in
  r = classify_and_route env (minutes 62) sample_phone "Bob" "yes" "yes" ENGLISH
        (mkWorld (memory w1) (delete sample_phone (pending_tickets world_with_draft))
           (frustration w1) (sent world_with_draft) (jira_calls world_with_draft))
  /\ no_create world_with_draft r.2.
Proof.
  apply (expired_draft_is_dropped (sample_collaborators true GENERAL_INQUIRY)
           (minutes 62) sample_phone "Bob" "yes" world_with_draft sample_draft).
  - vm_compute. reflexivity.
  - vm_compute. reflexivity.
Defined.

(** X10 (the drafts of a VIP are of high priority).  When the session of
    the user is marked VIP and is not older than the timeout,
    [_handle_create_ticket] stores a draft of priority HIGH and shows that
    priority in its preview, whatever priority the classifier proposed. *)
Theorem vip_draft_is_high (env : Collaborators) (now : Z)
    (phone name text : string) (ir : option IntentClassification)
    (lang : Language) (w : World) (s : ConversationMemory.ConversationContext) :
  0 <= ConversationMemory._session_timeout (memory w) ->
  ConversationMemory._sessions (memory w) !! phone = Some s ->
  ConversationMemory.is_vip s = true ->
  ~ ConversationMemory.stale (memory w) now s ->
  let r := _handle_create_ticket env now phone name text ir lang w in
  pending_tickets r.2 =
    <[phone := draft_of env now phone name text HIGH]> (pending_tickets w)
  /\ Response.p_priority <$> Response.ticket_preview r.1 = Some "High"
  /\ sent r.2 =
       sent w ++ [(phone,
                   get_smart_response env "confirm_ticket" text
                     [("summary", summary (draft_of env now phone name text HIGH));
                      ("team", detect_team env text); ("priority", "High")])].
Proof.
  intros Ht Hs Hvip Hlive. cbv zeta.
  unfold _handle_create_ticket, mbind, M_bind, update_memory, on_memory.
  cbv zeta. cbn [fst snd memory].
  rewrite (SessionFacts.update_state_eq now phone
             ConversationMemory.SUPPORT_TICKET (memory w) Ht).
  cbv zeta.
  pose proof (MemoryFacts.get_or_create_session_stored now phone "User" (memory w))
    as H.
  pose proof (MemoryFacts.get_or_create_session_live now phone "User" (memory w) s
                Hs Hlive) as H1.
  cbv zeta in H.
  destruct (ConversationMemory.get_or_create_session now phone "User" (memory w))
    as [s1 mem1].
  cbn [fst snd] in *. destruct H as (Hs1 & Hl1 & Hc1 & Ht1 & Hr1). subst s1.
  erewrite (SessionFacts.get_or_create_session_again now phone name);
    [ | cbn; lia | exact Hr1 | cbn; apply lookup_insert_eq | reflexivity ].
  cbn [fst snd ConversationMemory.is_vip ConversationMemory.set_last_activity
       ConversationMemory.set_history ConversationMemory.set_state
       pending_tickets sent on_pending send_text_message mret M_ret
       Response.ticket_preview Response.p_priority fmap option_fmap option_map
       ResponseService.store_pending_ticket].
  rewrite Hvip. repeat split.
Qed.

(** Bob, a VIP, reports a problem; the classifier's priority is LOW. *)
Lemma vip_draft_is_high_witness :
  let env := vip_collaborators in
  let text := "the dashboard is down" in
  let r := _handle_create_ticket env (seconds 60) sample_phone "Bob" text
             (Some (mkIntentClassification CREATE_TICKET (9 # 10) None (Some LOW)))
             ENGLISH world_with_vip in
  pending_tickets r.2 =
    <[sample_phone := draft_of env (seconds 60) sample_phone "Bob" text HIGH]>
      (pending_tickets world_with_vip)
  /\ Response.p_priority <$> Response.ticket_preview r.1 = Some "High"
  /\ sent r.2 =
       sent world_with_vip
       ++ [(sample_phone,
            get_smart_response env "confirm_ticket" text
              [("summary", summary (draft_of env (seconds 60) sample_phone "Bob"
                                      text HIGH));
               ("team", detect_team env text); ("priority", "High")])].
Proof.
  eapply (vip_draft_is_high vip_collaborators (seconds 60) sample_phone "Bob"
            "the dashboard is down" _ ENGLISH world_with_vip).
  - vm_compute. discriminate.
  - vm_compute. reflexivity.
  - reflexivity.
  - vm_compute. discriminate.
Defined.

(** X11 (the sessions stay well formed).  Along any list of deliveries whose
    clock does not run backwards, whatever the collaborators answer, every
    stored session stays filed under the phone number it carries, keeps the
    identifier made of that number and the second of its start, and was last
    active no later than the last delivery. *)
Theorem sessions_stay_well_formed (env : Collaborators) (ds : list Delivery)
    (clock : Z) (w : World) :
  chronological clock ds ->
  sessions_ok clock w ->
  sessions_ok (final_clock clock ds) (run env ds w).
Proof.
  revert clock w. induction ds as [|d ds IH]; intros clock w Hch Hok.
  - exact Hok.
  - destruct Hch as [Hle Hch]. cbn [run final_clock fold_left].
    apply (IH (d_now d)); [exact Hch|].
    apply (PipelineFacts.process_message_ok env clock); assumption.
Qed.

(** Two users write to the service right after its start. *)
Lemma sessions_stay_well_formed_witness :
  sessions_ok (seconds 5)
    (run (sample_collaborators true GENERAL_INQUIRY)
       [mkDelivery (seconds 1) sample_phone "Bob" "salesforce sync is broken";
        mkDelivery (seconds 5) "+971500000002" "Alice" "hello"]
       fresh_world).
Proof.
  apply (sessions_stay_well_formed (sample_collaborators true GENERAL_INQUIRY)
           [mkDelivery (seconds 1) sample_phone "Bob" "salesforce sync is broken";
            mkDelivery (seconds 5) "+971500000002" "Alice" "hello"]
           0 fresh_world).
  - cbn. unfold seconds. lia.
  - apply MemoryFacts.init_well_formed.
Defined.

End ServiceExtras.

(** ** One user's message leaves the other users alone *)

Module IsolationFacts.
Import ConversationMemory IntentService PipelineSpec ServiceSpec.
Import HandlerFacts PipelineFacts.

Lemma others_kept_refl phone now mem : others_kept phone now mem mem.
Proof. split; [reflexivity|]. intros other _. left. reflexivity. Qed.

Lemma others_kept_trans phone now m1 m2 m3 :
  others_kept phone now m1 m2 -> others_kept phone now m2 m3 ->
  others_kept phone now m1 m3.
Proof.
  intros [Ht12 H12] [Ht23 H23]. split; [congruence|].
  intros other Hne.
  destruct (H23 other Hne) as [E23|(N3 & s & S2 & St)];
    destruct (H12 other Hne) as [E12|(N2 & s' & S1 & St')].
  - left. congruence.
  - right. split; [congruence|]. exists s'. auto.
  - right. split; [exact N3|]. exists s. split; [congruence|].
    unfold stale in *. rewrite <- Ht12. exact St.
  - congruence.
Qed.

Lemma sweep_others_kept phone now mem :
  others_kept phone now mem (MemorySpec.sweep now mem).
Proof.
  split; [apply MemoryFacts.sweep_config|].
  intros other _. unfold MemorySpec.sweep. case_bool_decide; [|left; reflexivity].
  cbn [_cleanup_expired_sessions _sessions].
  destruct (_sessions mem !! other) as [s|] eqn:Hs.
  - destruct (decide (stale mem now s)) as [Hst|Hl].
    + right. split; [|exists s; auto].
      apply map_lookup_filter_None. right. intros s' Hs' Hn.
      rewrite Hs in Hs'. injection Hs' as <-. exact (Hn Hst).
    + left. apply map_lookup_filter_Some. auto.
  - left. apply map_lookup_filter_None. left. exact Hs.
Qed.

(** Writing the session of [phone] back does not touch the others. *)
Lemma store_others_kept phone now mem mem1 x :
  others_kept phone now mem mem1 ->
  others_kept phone now mem (with_sessions (<[phone := x]> (_sessions mem1)) mem1).
Proof.
  intros [Ht H]. split; [exact Ht|].
  intros other Hne. cbn [with_sessions _sessions].
  rewrite lookup_insert_ne by congruence. apply H, Hne.
Qed.

Lemma archive_others_kept phone now mem mem1 x :
  others_kept phone now mem mem1 ->
  others_kept phone now mem (_archive_session x mem1).
Proof. intros [Ht H]. split; [exact Ht | exact H]. Qed.

Lemma get_or_create_session_others phone now name mem :
  others_kept phone now mem (get_or_create_session now phone name mem).2.
Proof.
  rewrite MemoryFacts.get_or_create_session_eq.
  pose proof (sweep_others_kept phone now mem) as Hsw.
  destruct (_sessions (MemorySpec.sweep now mem) !! phone) as [s|];
    [case_bool_decide|]; cbn [snd _create_new_session].
  - apply store_others_kept, archive_others_kept, Hsw.
  - apply store_others_kept, Hsw.
  - apply store_others_kept, Hsw.
Qed.

Lemma add_message_others phone now r text intent meta mem :
  others_kept phone now mem (add_message now phone r text intent meta mem).2.
Proof.
  unfold add_message.
  pose proof (get_or_create_session_others phone now "User" mem) as H.
  destruct (get_or_create_session now phone "User" mem) as [s1 mem1].
  cbn [snd] in *. apply store_others_kept, H.
Qed.

Lemma update_state_others phone now st mem :
  others_kept phone now mem (update_state now phone st mem).
Proof.
  unfold update_state.
  pose proof (get_or_create_session_others phone now "User" mem) as H.
  destruct (get_or_create_session now phone "User" mem) as [s1 mem1].
  cbn [snd] in H.
  eapply others_kept_trans; [|apply add_message_others].
  apply store_others_kept, H.
Qed.

Lemma set_vip_status_others phone now vip tier mem :
  others_kept phone now mem (set_vip_status now phone vip tier mem).
Proof.
  unfold set_vip_status.
  pose proof (get_or_create_session_others phone now "User" mem) as H.
  destruct (get_or_create_session now phone "User" mem) as [s1 mem1].
  cbn [snd] in H. apply store_others_kept, H.
Qed.

Lemma add_topic_others phone now topic mem :
  others_kept phone now mem (add_topic now phone topic mem).
Proof.
  unfold add_topic.
  pose proof (get_or_create_session_others phone now "User" mem) as H.
  destruct (get_or_create_session now phone "User" mem) as [s1 mem1].
  cbn [snd] in H. case_bool_decide; [exact H | apply store_others_kept, H].
Qed.

Lemma add_active_ticket_others phone now key mem :
  others_kept phone now mem (add_active_ticket now phone key mem).
Proof.
  unfold add_active_ticket.
  pose proof (get_or_create_session_others phone now "User" mem) as H.
  destruct (get_or_create_session now phone "User" mem) as [s1 mem1].
  cbn [snd] in H. case_bool_decide; [exact H | apply store_others_kept, H].
Qed.

Lemma update_preference_others phone now key value mem :
  others_kept phone now mem (update_preference now phone key value mem).
Proof.
  unfold update_preference.
  pose proof (get_or_create_session_others phone now "User" mem) as H.
  destruct (get_or_create_session now phone "User" mem) as [s1 mem1].
  cbn [snd] in H. destruct (String.eqb key _); [apply store_others_kept, H | exact H].
Qed.

Lemma set_pending_ticket_others phone now key mem :
  others_kept phone now mem (set_pending_ticket now phone key mem).
Proof.
  unfold set_pending_ticket.
  pose proof (get_or_create_session_others phone now "User" mem) as H.
  destruct (get_or_create_session now phone "User" mem) as [s1 mem1].
  cbn [snd] in H.
  destruct (ConversationState_eqb _ _); [apply store_others_kept, H|].
  eapply others_kept_trans; [|apply update_state_others].
  apply store_others_kept, H.
Qed.

Create HintDb isolation.

#[export] Hint Resolve get_or_create_session_others add_message_others
  update_state_others set_vip_status_others add_topic_others
  add_active_ticket_others update_preference_others set_pending_ticket_others
  : isolation.

(** *** The steps of a handler *)

Lemma untouched_refl phone now w : untouched_others phone now w w.
Proof.
  split; [apply others_kept_refl|]. split; [auto|]. split; [auto|].
  exists []. symmetry. apply app_nil_r.
Qed.

Lemma untouched_trans phone now w1 w2 w3 :
  untouched_others phone now w1 w2 -> untouched_others phone now w2 w3 ->
  untouched_others phone now w1 w3.
Proof.
  intros (M12 & P12 & F12 & a & S12) (M23 & P23 & F23 & b & S23).
  split; [eapply others_kept_trans; eassumption|].
  split; [intros o Ho; rewrite P23, P12 by exact Ho; reflexivity|].
  split; [intros o Ho; rewrite F23, F12 by exact Ho; reflexivity|].
  exists (a ++ b). rewrite S23, S12, map_app, <- app_assoc. reflexivity.
Qed.

Lemma untouched_memory phone now w mem' :
  others_kept phone now (memory w) mem' ->
  untouched_others phone now w
    (mkWorld mem' (pending_tickets w) (frustration w) (sent w) (jira_calls w)).
Proof.
  intros H. split; [exact H|]. split; [auto|]. split; [auto|].
  exists []. symmetry. apply app_nil_r.
Qed.

Lemma untouched_update_memory phone now f w :
  others_kept phone now (memory w) (f (memory w)) ->
  untouched_others phone now w (update_memory f w).2.
Proof. apply untouched_memory. Qed.

Lemma untouched_on_memory {A} phone now
    (f : Memory -> A * Memory) w :
  others_kept phone now (memory w) (f (memory w)).2 ->
  untouched_others phone now w (on_memory f w).2.
Proof. apply untouched_memory. Qed.

Lemma untouched_on_pending {A} phone now
    (f : gmap string PendingTicket -> A * gmap string PendingTicket) w :
  (forall other, other <> phone ->
     (f (pending_tickets w)).2 !! other = pending_tickets w !! other) ->
  untouched_others phone now w (on_pending f w).2.
Proof.
  intros H. split; [apply others_kept_refl|]. split; [exact H|].
  split; [auto|]. exists []. symmetry. apply app_nil_r.
Qed.

Lemma untouched_send phone now text w :
  untouched_others phone now w (send_text_message phone text w).2.
Proof.
  split; [apply others_kept_refl|]. split; [auto|]. split; [auto|].
  exists [text]. reflexivity.
Qed.

Lemma untouched_jira {A} phone now call (answer : list JiraCall -> A) w :
  untouched_others phone now w (jira call answer w).2.
Proof.
  split; [apply others_kept_refl|]. split; [auto|]. split; [auto|].
  exists []. symmetry. apply app_nil_r.
Qed.

Lemma store_pending_ticket_others phone t (st : gmap string PendingTicket) other :
  other <> phone ->
  ResponseService.store_pending_ticket phone t st !! other = st !! other.
Proof. intros H. apply lookup_insert_ne. congruence. Qed.

Lemma clear_pending_ticket_others phone (st : gmap string PendingTicket) other :
  other <> phone ->
  (ResponseService.clear_pending_ticket phone st).2 !! other = st !! other.
Proof.
  intros H. rewrite clear_pending_ticket_delete.
  apply lookup_delete_ne. congruence.
Qed.

Lemma get_pending_ticket_others now phone (st : gmap string PendingTicket) other :
  other <> phone ->
  (ResponseService.get_pending_ticket now phone st).2 !! other = st !! other.
Proof.
  intros H. unfold ResponseService.get_pending_ticket.
  destruct (st !! phone) as [t|]; [|reflexivity]. cbv zeta.
  destruct (_ <? _); [|reflexivity].
  apply lookup_delete_ne. congruence.
Qed.

Lemma analyze_sentiment_others now message phone (h : Sentiment.History) other :
  other <> phone ->
  (Sentiment.analyze_sentiment now message (Some phone) h).2 !! other = h !! other.
Proof.
  intros H. unfold Sentiment.analyze_sentiment. cbv zeta.
  destruct phone as [|c p]; [reflexivity|].
  destruct (Sentiment._check_repeat_frustration _ _); cbn [snd];
    unfold Sentiment._update_frustration_history;
    apply lookup_insert_ne; congruence.
Qed.

Lemma untouched_on_frustration phone now message w :
  untouched_others phone now w
    (on_frustration (Sentiment.analyze_sentiment now message (Some phone)) w).2.
Proof.
  split; [apply others_kept_refl|]. split; [auto|]. split.
  - intros other Hne. apply analyze_sentiment_others, Hne.
  - exists []. symmetry. apply app_nil_r.
Qed.

(** A handler is a chain of steps: the last step is taken off, and the
    rest is looked at in the same way. *)
Ltac isolation :=
  lazymatch goal with
  | |- untouched_others _ _ ?w ?w => apply untouched_refl
  | |- untouched_others ?p ?n ?w (snd (mret _ ?x)) =>
      change (untouched_others p n w x); isolation
  | |- untouched_others ?p ?n ?w (snd (get_world ?x)) =>
      change (untouched_others p n w x); isolation
  | |- untouched_others ?p ?n ?w (snd (update_memory ?f ?x)) =>
      apply (untouched_trans p n w x);
        [isolation | apply untouched_update_memory; auto with isolation]
  | |- untouched_others ?p ?n ?w (snd (on_memory ?f ?x)) =>
      apply (untouched_trans p n w x);
        [isolation | apply untouched_on_memory; auto with isolation]
  | |- untouched_others ?p ?n ?w (snd (on_pending ?f ?x)) =>
      apply (untouched_trans p n w x);
        [isolation
        | apply untouched_on_pending; intros ? ?; cbn [snd];
          first [ apply store_pending_ticket_others
                | apply clear_pending_ticket_others
                | apply get_pending_ticket_others ]; assumption]
  | |- untouched_others ?p ?n ?w (snd (on_frustration _ ?x)) =>
      apply (untouched_trans p n w x);
        [isolation | apply untouched_on_frustration]
  | |- untouched_others ?p ?n ?w (snd (send_text_message _ _ ?x)) =>
      apply (untouched_trans p n w x); [isolation | apply untouched_send]
  | |- untouched_others ?p ?n ?w (snd (jira _ _ ?x)) =>
      apply (untouched_trans p n w x); [isolation | apply untouched_jira]
  end.

Section WithCollaborators.

Context (env : Collaborators).

Lemma handle_create_ticket_untouched now phone name text ir lang w :
  untouched_others phone now w
    (_handle_create_ticket env now phone name text ir lang w).2.
Proof.
  unfold _handle_create_ticket, mbind, M_bind. cbv beta zeta. isolation.
Qed.

Lemma handle_confirmation_untouched now phone name text t lang w :
  untouched_others phone now w
    (_handle_confirmation env now phone name text t lang w).2.
Proof.
  unfold _handle_confirmation.
  destruct (is_override text);
    [unfold mbind, M_bind; cbv beta zeta; isolation|].
  destruct (is_confirmation text).
  - unfold mbind, M_bind. cbv beta zeta.
    destruct (jira _ _ w).1; cbv beta zeta; isolation.
  - destruct (is_cancellation text); unfold mbind, M_bind; cbv beta zeta;
      isolation.
Qed.

Lemma route_intent_untouched now phone name text ir lang w :
  untouched_others phone now w (_route_intent env now phone name text ir lang w).2.
Proof.
  unfold _route_intent. destruct (ic_intent ir).
  - apply handle_create_ticket_untouched.
  - unfold _handle_check_status.
    destruct (negb (truthy _)); unfold mbind, M_bind; cbv beta zeta.
    + destruct (jira _ _ w).1; isolation.
    + destruct (jira _ _ w).1; cbv beta zeta; isolation.
  - unfold _handle_update_ticket.
    destruct (negb (truthy _)); unfold mbind, M_bind; cbv beta zeta;
      [isolation|].
    destruct (jira _ _ w).1; cbv beta zeta; isolation.
  - unfold _handle_close_ticket.
    destruct (negb (truthy _)); unfold mbind, M_bind; cbv beta zeta;
      [isolation|].
    destruct (jira _ _ w).1; cbv beta zeta; isolation.
  - unfold _handle_property_inquiry, mbind, M_bind. cbv beta zeta. isolation.
  - unfold _handle_schedule_viewing, mbind, M_bind. cbv beta zeta. isolation.
  - unfold _handle_general_inquiry, mbind, M_bind. cbv beta zeta. isolation.
Qed.

Lemma classify_and_route_untouched now phone name original text lang w :
  untouched_others phone now w
    (classify_and_route env now phone name original text lang w).2.
Proof.
  unfold classify_and_route.
  destruct (_is_technical_query text); [apply handle_create_ticket_untouched|].
  destruct (_is_real_estate_query text);
    [unfold mbind, M_bind; cbv beta zeta; isolation|].
  unfold mbind, M_bind. cbv beta zeta.
  eapply untouched_trans; [|apply route_intent_untouched].
  isolation.
Qed.

Lemma prelude_untouched now phone name message_text w :
  untouched_others phone now w (prelude env now phone name message_text w).2.
Proof.
  unfold prelude, mbind, M_bind. cbv beta zeta.
  destruct (detect_vip env (working_text env message_text) phone name).1;
    isolation.
Qed.

Lemma process_message_untouched now phone name message_text w :
  untouched_others phone now w
    (process_message env now phone name message_text w).2.
Proof.
  rewrite process_message_eq. cbv zeta.
  pose proof (prelude_untouched now phone name message_text w) as H1.
  set (w1 := (prelude env now phone name message_text w).2) in *.
  set (p := ResponseService.get_pending_ticket now phone (pending_tickets w1)).
  set (w2 := mkWorld (memory w1) p.2 (frustration w1) (sent w1) (jira_calls w1)).
  assert (H2 : untouched_others phone now w w2).
  { eapply untouched_trans; [exact H1|].
    split; [apply others_kept_refl|]. split.
    - intros other Hne. apply get_pending_ticket_others, Hne.
    - split; [auto|]. exists []. symmetry. apply app_nil_r. }
  clearbody w2. clear H1.
  unfold after_pending_check.
  destruct p.1 as [t|];
    [|eapply untouched_trans; [exact H2 | apply classify_and_route_untouched]].
  destruct (awaiting_confirmation t);
    [|eapply untouched_trans; [exact H2 | apply classify_and_route_untouched]].
  unfold mbind, M_bind. cbv zeta.
  pose proof (handle_confirmation_untouched now phone name
                (working_text env message_text) t
                (detect_language env message_text) w2) as H3.
  revert H3.
  generalize (_handle_confirmation env now phone name
                (working_text env message_text) t
                (detect_language env message_text) w2).
  intros r H3.
  destruct (String.eqb _ _).
  - eapply untouched_trans; [exact H2|].
    eapply untouched_trans; [exact H3 | apply classify_and_route_untouched].
  - eapply untouched_trans; [exact H2 | exact H3].
Qed.

End WithCollaborators.

End IsolationFacts.

Section IsolationExtras.

Import IntentService PipelineSpec ServiceSpec MemorySpec.

(** X12 (one user's message leaves the other users alone).  Whatever the
    message and whatever the collaborators answer, a call of
    [process_message] for one user keeps the draft and the frustration
    history of every other user, sends messages to no one else, and leaves
    every other session as it was, or drops it when it was older than the
    timeout. *)
Theorem other_users_untouched (env : Collaborators) (now : Z)
    (phone name message_text : string) (w : World) :
  untouched_others phone now w
    (process_message env now phone name message_text w).2.
Proof. apply IsolationFacts.process_message_untouched. Qed.

End IsolationExtras.

(** ** The draft store and the sentiment analyser *)

Module StoreFacts.
Import ResponseService.

Lemma expired_iff now (t : PendingTicket) :
  timestamp t < now - minutes _pending_ticket_timeout_minutes
  <-> minutes _pending_ticket_timeout_minutes < now - timestamp t.
Proof. lia. Qed.

End StoreFacts.

Module SentimentMore.
Import Sentiment SentimentSpec.

Lemma keyword_score_from table message acc :
  Forall (fun kw : string * Z => 0 <= kw.2) table ->
  acc <= fold_left
           (fun a kw => if Str.contains kw.1 message then a + kw.2 else a)
           table acc.
Proof.
  intros H. revert acc. induction H as [|kw table Hkw _ IH]; intros acc; cbn.
  - lia.
  - destruct (Str.contains kw.1 message); [|apply IH].
    etransitivity; [|apply IH]. lia.
Qed.

Lemma keyword_score_nonneg table message :
  Forall (fun kw : string * Z => 0 <= kw.2) table ->
  0 <= keyword_score table message.
Proof. apply keyword_score_from. Qed.

Lemma negative_keywords_nonneg :
  Forall (fun kw : string * Z => 0 <= kw.2) _negative_keywords.
Proof. repeat constructor; cbn; lia. Qed.

Lemma positive_keywords_nonneg :
  Forall (fun kw : string * Z => 0 <= kw.2) _positive_keywords.
Proof. repeat constructor; cbn; lia. Qed.

Lemma sentiment_score_range pos neg :
  0 <= pos -> 0 <= neg ->
  (- (1) <= sentiment_score pos neg)%Q /\ (sentiment_score pos neg <= 1)%Q.
Proof.
  intros Hp Hn. unfold sentiment_score. cbv zeta.
  destruct (0 <? neg + pos) eqn:Ht.
  - apply Z.ltb_lt in Ht. unfold Qle. cbn [Qnum Qden Qopp inject_Z].
    rewrite Z2Pos.id by lia. split; lia.
  - split; unfold Qle; cbn; lia.
Qed.

(** The urgency of a lower-cased text without lasting capitals: no word is
    in capitals. *)
Lemma calculate_urgency_lower message :
  UnicodeSpec.lasting_capitals message = false ->
  _calculate_urgency (Str.lower message) =
  Z.min (Z.of_nat (Str.count_char "!" message)) 3
  + Z.min (Z.of_nat (Str.count_char "?" message)) 1.
Proof.
  intros Hcap. unfold _calculate_urgency. cbv zeta.
  rewrite !UnicodeFacts.count_char_lower by (vm_compute; reflexivity).
  assert (E : List.filter
                (fun w => Str.isupper w && (3 <? Str.len w))
                (Str.split (Str.lower message)) = []).
  { pose proof (UnicodeFacts.split_lower_no_capitals message Hcap) as H.
    induction H as [|w l Hw _ IH]; [reflexivity|].
    cbn [List.filter]. rewrite Hw. exact IH. }
  rewrite E. cbn [length]. lia.
Qed.

Lemma calculate_urgency_nonneg message : 0 <= _calculate_urgency message.
Proof. unfold _calculate_urgency. cbv zeta. lia. Qed.

End SentimentMore.

Section StoreExtras.

Import ResponseService.

(** X13 (the draft store: what is put in comes out, for an hour).  A draft
    just stored replaces the one before; [get_pending_ticket] returns it as
    long as it is at most 60 minutes old and leaves the store alone, and
    returns nothing and deletes it afterwards; [clear_pending_ticket] says
    whether there was a draft and removes it, and says no for a user without
    draft. *)
Theorem draft_store_round_trip (st : gmap string PendingTicket) (phone : string)
    (t : PendingTicket) (now : Z) :
  let st' := store_pending_ticket phone t st in
  get_pending_ticket now phone st' =
    (if bool_decide (now - timestamp t <= minutes 60)
     then (Some t, st') else (None, delete phone st))
  /\ clear_pending_ticket phone st' = (true, delete phone st)
  /\ clear_pending_ticket phone (delete phone st) = (false, delete phone st)
  /\ get_pending_ticket now phone (delete phone st) = (None, delete phone st).
Proof.
  cbv zeta. unfold store_pending_ticket, get_pending_ticket, clear_pending_ticket.
  rewrite !lookup_insert_eq, !lookup_delete_eq, delete_insert_eq. cbv zeta.
  unfold _pending_ticket_timeout_minutes.
  split; [|auto].
  case_bool_decide as H.
  - replace (minutes 60 <? now - timestamp t) with false
      by (symmetry; apply Z.ltb_ge; exact H). reflexivity.
  - replace (minutes 60 <? now - timestamp t) with true
      by (symmetry; apply Z.ltb_lt; lia). reflexivity.
Qed.

(** X14 (the cleaning of drafts agrees with their expiry on reading).
    [cleanup_old_pending_tickets] removes the drafts that
    [get_pending_ticket] would refuse at the same instant, and only those:
    after it every user gets the answer he would have got before, nothing is
    left to evict, the number it returns is the number of drafts removed, and
    a second cleaning removes nothing. *)
Theorem cleanup_agrees_with_expiry (st : gmap string PendingTicket) (now : Z) :
  let r := cleanup_old_pending_tickets now st in
  (forall phone,
      get_pending_ticket now phone r.2 = ((get_pending_ticket now phone st).1, r.2))
  /\ (r.1 + get_pending_tickets_count r.2 = get_pending_tickets_count st)%nat
  /\ cleanup_old_pending_tickets now r.2 = (0%nat, r.2).
Proof.
  cbv zeta. unfold cleanup_old_pending_tickets, get_pending_tickets_count.
  cbv zeta. cbn [fst snd].
  set (cutoff := now - minutes _pending_ticket_timeout_minutes).
  set (kept := filter (fun kv : string * PendingTicket => ~ timestamp kv.2 < cutoff) st).
  set (gone := filter (fun kv : string * PendingTicket => timestamp kv.2 < cutoff) st).
  split; [|split].
  - intros phone. unfold get_pending_ticket.
    destruct (st !! phone) as [t|] eqn:Hs.
    + cbv zeta. destruct (_ <? _) eqn:Hage.
      * apply Z.ltb_lt in Hage.
        assert (Hk : kept !! phone = None).
        { apply map_lookup_filter_None. right. intros t' Ht' Hn.
          rewrite Hs in Ht'. injection Ht' as <-. apply Hn.
          unfold cutoff. cbn. lia. }
        rewrite Hk. reflexivity.
      * apply Z.ltb_ge in Hage.
        assert (Hk : kept !! phone = Some t).
        { apply map_lookup_filter_Some. split; [exact Hs|].
          unfold cutoff. cbn. lia. }
        rewrite Hk. cbv zeta.
        replace (_ <? _) with false by (symmetry; apply Z.ltb_ge; exact Hage).
        reflexivity.
    + assert (Hk : kept !! phone = None)
        by (apply map_lookup_filter_None; left; exact Hs).
      rewrite Hk. reflexivity.
  - rewrite <- (map_size_disj_union gone kept)
      by apply map_disjoint_filter_complement.
    unfold gone, kept. rewrite map_filter_union_complement. reflexivity.
  - assert (Hnone :
      filter (fun kv : string * PendingTicket => timestamp kv.2 < cutoff) kept = ∅).
    { apply map_empty. intros k. apply map_lookup_filter_None. right.
      intros t Ht Hlt. apply map_lookup_filter_Some in Ht as [_ Hn].
      apply Hn. exact Hlt. }
    assert (Hsame :
      filter (fun kv : string * PendingTicket => ~ timestamp kv.2 < cutoff) kept
      = kept).
    { apply map_filter_id. intros k t Ht.
      apply map_lookup_filter_Some in Ht as [_ Hn]. exact Hn. }
    rewrite Hnone, Hsame, map_size_empty. reflexivity.
Qed.

End StoreExtras.

Section SentimentExtras.

Import Sentiment SentimentSpec.

(** X15 (the ranges of the analysis).  For every message, user and history,
    the urgency computed lies between 0 and 10, the score between -1 and 1,
    and the two keyword sums are not negative. *)
Theorem sentiment_ranges (now : Z) (message : string) (phone : option string)
    (h : History) :
  let r := (analyze_sentiment now message phone h).1 in
  0 <= urgency r <= 10
  /\ (- (1) <= score r)%Q /\ (score r <= 1)%Q
  /\ 0 <= negative_score r /\ 0 <= positive_score r.
Proof.
  cbv zeta.
  pose proof (SentimentMore.keyword_score_nonneg _ (Str.lower message)
                SentimentMore.negative_keywords_nonneg) as Hn.
  pose proof (SentimentMore.keyword_score_nonneg _ (Str.lower message)
                SentimentMore.positive_keywords_nonneg) as Hp.
  pose proof (SentimentMore.sentiment_score_range _ _ Hp Hn) as [Hlo Hhi].
  pose proof (SentimentMore.calculate_urgency_nonneg (Str.lower message)) as Hu.
  unfold analyze_sentiment. cbv zeta.
  set (u := Z.min (_calculate_urgency (Str.lower message) + _) 10).
  assert (Hur : 0 <= u <= 10) by (unfold u; lia).
  clearbody u.
  destruct phone as [[|c p]|]; cbn [fst urgency score negative_score positive_score];
    try (repeat split; solve [assumption | lia]).
  destruct (_check_repeat_frustration _ _);
    cbn [fst urgency score negative_score positive_score];
    repeat split; solve [assumption | lia].
Qed.

(** X16 (what the urgency is made of).  For a message analysed without
    history, in which every capital letter has a lower-case form, the urgency
    is the number of exclamation marks, at most three, plus one for a question
    mark, plus two for every urgency pattern found, capped at 10: words in
    capitals add nothing, because the text is lower-cased before they are
    looked for.  (The capitals that [lower] leaves as they are, such as the
    letters of the mathematical alphabets, are the only ones that count.) *)
Theorem capitals_never_count (now : Z) (message : string) (h : History) :
  UnicodeSpec.lasting_capitals message = false ->
  urgency (analyze_sentiment now message None h).1 =
  Z.min
    (Z.min (Z.of_nat (Str.count_char "!" message)) 3
     + Z.min (Z.of_nat (Str.count_char "?" message)) 1
     + 2 * Z.of_nat (length (List.filter
                               (fun p => Re.search p (Str.lower message))
                               _urgency_patterns)))
    10.
Proof.
  intros Hcap. unfold analyze_sentiment. cbv zeta. cbn [fst urgency].
  rewrite (SentimentMore.calculate_urgency_lower message Hcap). reflexivity.
Qed.

(** Three words in capitals and two exclamation marks: the urgency is 2. *)
Lemma capitals_never_count_witness :
  UnicodeSpec.lasting_capitals "PLEASE CALL BACK!!" = false
  /\ urgency (analyze_sentiment 0 "PLEASE CALL BACK!!" None ∅).1 = 2.
Proof.
  split; [vm_compute; reflexivity|].
  rewrite (capitals_never_count 0 "PLEASE CALL BACK!!" ∅); vm_compute; reflexivity.
Defined.

(** Two words in bold capitals of the mathematical alphabet stay in capitals
    and count. *)
Lemma lasting_capitals_count :
  UnicodeSpec.lasting_capitals "𝐏𝐋𝐄𝐀𝐒𝐄 𝐂𝐀𝐋𝐋" = true
  /\ urgency (analyze_sentiment 0 "𝐏𝐋𝐄𝐀𝐒𝐄 𝐂𝐀𝐋𝐋" None ∅).1 = 2.
Proof. vm_compute. split; reflexivity. Qed.

(** X17 (an escalation always names its reason).  The analysis escalates
    exactly when it gives a reason, which is one of four; a message that
    mentions "vip" and a message of urgency 7 or more always escalate. *)
Theorem escalation_has_reason (now : Z) (message : string)
    (phone : option string) (h : History) :
  let r := (analyze_sentiment now message phone h).1 in
  (escalate r = true <-> reason r <> EmptyString)
  /\ (escalate r = true ->
      reason r ∈ ["Critical urgency detected"; "VIP client mention";
                  "High negative sentiment with urgency";
                  "Escalation threshold met"])
  /\ (Str.contains "vip" (Str.lower message) = true -> escalate r = true)
  /\ (7 <= urgency r -> escalate r = true).
Proof.
  cbv zeta. unfold analyze_sentiment. cbv zeta.
  set (u0 := Z.min _ 10).
  set (ub := match phone with
             | Some (String c p) => _
             | _ => _
             end).
  destruct ub as [u h'].
  cbn [fst escalate reason urgency].
  set (vip := Str.contains "vip" (Str.lower message)).
  set (uc := Str.contains "urgent" (Str.lower message)
             && Str.contains "client" (Str.lower message)).
  set (neg := is_negative _ && (5 <=? u)).
  destruct (7 <=? u) eqn:H7; destruct neg; destruct vip; destruct uc;
    destruct (8 <=? u) eqn:H8; cbn [orb andb];
    (split;
     [split; intros Hc;
      first [discriminate Hc | discriminate | reflexivity
            | exfalso; apply Hc; reflexivity]|]);
    (split;
     [intros Hc; first [discriminate Hc | apply list_elem_of_In; cbn; tauto]|]);
    (split; [intros Hc; first [discriminate Hc | reflexivity]|]);
    intros Hc; first [reflexivity | apply Z.leb_gt in H7; lia].
Qed.

(** X18 (the frustration history is a window on one user).  After the
    analysis of a message of a user, the history of that user ends with the
    entry of this message, which records the urgency before any boost, and
    holds before it the entries it held that are younger than 30 minutes, in
    their order; the history of every other user is as it was.  Without a
    user, or with an empty phone number, no history is touched. *)
Theorem frustration_window (now : Z) (message phone : string) (h : History) :
  phone <> EmptyString ->
  let h' := (analyze_sentiment now message (Some phone) h).2 in
  entries phone h' =
    List.filter (fun e => now - minutes 30 <? e_timestamp e) (entries phone h)
    ++ [mkEntry now (score (isolated message)) (urgency (isolated message))]
  /\ Forall (fun e => now - minutes 30 < e_timestamp e) (entries phone h')
  /\ (forall other, other <> phone -> h' !! other = h !! other)
  /\ (analyze_sentiment now message None h).2 = h
  /\ (analyze_sentiment now message (Some EmptyString) h).2 = h.
Proof.
  intros Hne. cbv zeta. destruct phone as [|c p]; [congruence|].
  destruct (SentimentFacts.analyze_sentiment_urgency now message c p h)
    as (E & _ & _). cbv zeta in E. rewrite E.
  assert (Hent : entries (String c p)
                   (_update_frustration_history now (String c p)
                      (score (isolated message)) (urgency (isolated message)) h)
                 = List.filter (fun e => now - minutes 30 <? e_timestamp e)
                     (entries (String c p) h)
                   ++ [mkEntry now (score (isolated message))
                         (urgency (isolated message))]).
  { unfold entries, _update_frustration_history. cbv zeta.
    rewrite lookup_insert_eq. cbn [default from_option id].
    unfold _frustration_window_minutes.
    rewrite List.filter_app. cbn [List.filter e_timestamp].
    replace (now - minutes 30 <? now) with true
      by (symmetry; apply Z.ltb_lt; unfold minutes; lia).
    reflexivity. }
  split; [exact Hent|]. split.
  - rewrite Hent. apply Forall_app. split.
    + apply Forall_forall. intros e He.
      apply list_elem_of_In, filter_In in He as [_ He].
      apply Z.ltb_lt. exact He.
    + constructor; [|constructor]. cbn. unfold minutes. lia.
  - split.
    + intros other Ho. unfold _update_frustration_history.
      apply lookup_insert_ne. congruence.
    + split; reflexivity.
Qed.

(** A second message of a user, ten seconds after the first. *)
Lemma frustration_window_witness :
  let h := (analyze_sentiment 0 "the report is broken"
              (Some MemorySpec.sample_phone) ∅).2 in
  let h' := (analyze_sentiment (seconds 10) "still broken"
               (Some MemorySpec.sample_phone) h).2 in
  entries MemorySpec.sample_phone h' =
    List.filter (fun e => seconds 10 - minutes 30 <? e_timestamp e)
      (entries MemorySpec.sample_phone h)
    ++ [mkEntry (seconds 10) (score (isolated "still broken"))
          (urgency (isolated "still broken"))]
  /\ Forall (fun e => seconds 10 - minutes 30 < e_timestamp e)
       (entries MemorySpec.sample_phone h')
  /\ (forall other, other <> MemorySpec.sample_phone -> h' !! other = h !! other)
  /\ (analyze_sentiment (seconds 10) "still broken" None h).2 = h
  /\ (analyze_sentiment (seconds 10) "still broken" (Some EmptyString) h).2 = h.
Proof.
  apply (frustration_window (seconds 10) "still broken" MemorySpec.sample_phone).
  discriminate.
Defined.

End SentimentExtras.

(** ** Languages and the translation cache *)

Module CacheFacts.
Import Multilingual.TranslationCache CacheSpec.

Lemma lookup_None key d :
  lookup key d = None <-> key ∉ map fst d.
Proof.
  induction d as [|[k v] d IH]; cbn.
  - split; [intros _; apply not_elem_of_nil | reflexivity].
  - destruct (String.eqb_spec k key) as [->|Hne].
    + split; [discriminate|]. intros H. exfalso. apply H. left.
    + rewrite IH. rewrite not_elem_of_cons. split; [auto|]. intros [_ H]. exact H.
Qed.

Lemma lookup_assign key value d : lookup key (assign key value d) = Some value.
Proof.
  unfold assign. destruct (lookup key d) as [v|] eqn:E.
  - induction d as [|[k v'] d IH]; [discriminate|].
    cbn in *. destruct (String.eqb_spec k key) as [->|Hne]; cbn.
    + rewrite String.eqb_refl. reflexivity.
    + destruct (String.eqb_spec k key); [contradiction|]. apply IH, E.
  - induction d as [|[k v'] d IH]; cbn.
    + rewrite String.eqb_refl. reflexivity.
    + cbn in E. destruct (String.eqb k key); [discriminate|]. apply IH, E.
Qed.

Lemma keys_assign key value d :
  map fst (assign key value d) =
  match lookup key d with
  | Some _ => map fst d
  | None => map fst d ++ [key]
  end.
Proof.
  unfold assign. destruct (lookup key d) as [v|].
  - clear. induction d as [|[k v'] d IH]; [reflexivity|].
    cbn. rewrite IH. destruct (String.eqb_spec k key) as [->|]; reflexivity.
  - rewrite map_app. reflexivity.
Qed.

Lemma length_assign key value d :
  length (assign key value d) =
  match lookup key d with
  | Some _ => length d
  | None => S (length d)
  end.
Proof.
  unfold assign. destruct (lookup key d).
  - apply length_map.
  - rewrite length_app. cbn. lia.
Qed.

Lemma keys_remove key d :
  map fst (remove key d) = List.filter (fun k => negb (String.eqb k key)) (map fst d).
Proof.
  unfold remove. induction d as [|[k v] d IH]; [reflexivity|].
  cbn [List.filter map fst]. destruct (String.eqb k key);
    cbn [negb map fst]; rewrite IH; reflexivity.
Qed.

Lemma remove_keeps key d :
  NoDup (map fst d) -> NoDup (map fst (remove key d)) /\ key ∉ map fst (remove key d).
Proof.
  intros H. rewrite keys_remove. split.
  - revert H. generalize (map fst d). intros l. induction 1 as [|k l Hk _ IH]; cbn.
    + constructor.
    + destruct (String.eqb k key); cbn; [exact IH|].
      constructor; [|exact IH]. intros Hin. apply Hk.
      apply list_elem_of_In, filter_In in Hin as [Hin _].
      apply list_elem_of_In. exact Hin.
  - intros Hin. apply list_elem_of_In, filter_In in Hin as [_ Hin].
    rewrite String.eqb_refl in Hin. discriminate.
Qed.

Lemma length_remove key v d :
  NoDup (map fst d) -> lookup key d = Some v ->
  S (length (remove key d)) = length d.
Proof.
  induction d as [|[k v'] d IH]; [discriminate|].
  cbn. intros Hnd Hl. apply NoDup_cons in Hnd as [Hk Hnd].
  destruct (String.eqb_spec k key) as [->|Hne]; cbn.
  - f_equal. clear IH Hl. induction d as [|[k2 v2] d IH]; [reflexivity|].
    cbn in *. apply not_elem_of_cons in Hk as [Hne Hk].
    apply NoDup_cons in Hnd as [_ Hnd].
    destruct (String.eqb_spec k2 key); [congruence|]. cbn. f_equal. apply IH; assumption.
  - f_equal. apply IH; assumption.
Qed.

Lemma get_tidy text source target c : tidy c -> tidy (get text source target c).2.
Proof.
  intros [Hnd Hlen]. unfold get. cbv zeta.
  destruct (lookup _ (_cache c)) as [v|] eqn:E; [|split; assumption].
  cbn [snd]. unfold tidy. cbn [_cache _max_size].
  destruct (remove_keeps (_generate_key text source target) (_cache c) Hnd)
    as [Hnd' Hnot].
  split.
  - rewrite map_app. apply NoDup_app. split; [exact Hnd'|]. split.
    + intros x Hx Hx'. cbn in Hx'. apply list_elem_of_singleton in Hx'. subst x.
      contradiction.
    + cbn. apply NoDup_singleton.
  - rewrite length_app. cbn.
    pose proof (length_remove _ _ _ Hnd E). lia.
Qed.

Lemma set_tidy text source target translation c :
  1 <= _max_size c -> tidy c ->
  exists c', set text source target translation c = Some c'
             /\ tidy c' /\ _max_size c' = _max_size c.
Proof.
  intros Hmax [Hnd Hlen]. unfold set. cbv zeta.
  set (key := _generate_key text source target).
  assert (Hassign : forall d,
             NoDup (map fst d) -> Z.of_nat (length d) < _max_size c ->
             tidy (mk (assign key translation d) (_max_size c))).
  { intros d Hd Hl. unfold tidy. cbn [_cache _max_size].
    rewrite keys_assign, length_assign.
    destruct (lookup key d) eqn:E; [split; [exact Hd | lia]|].
    split; [|lia]. apply NoDup_app. split; [exact Hd|]. split.
    - intros x Hx Hx'. apply list_elem_of_singleton in Hx'. subst x.
      apply lookup_None in E. contradiction.
    - apply NoDup_singleton. }
  case_bool_decide as Hfull.
  - destruct (_cache c) as [|[k v] rest] eqn:Hc; [cbn in Hfull; lia|].
    cbn [mbind option_bind]. eexists. split; [reflexivity|].
    split; [|reflexivity]. apply Hassign.
    + cbn in Hnd. apply NoDup_cons in Hnd as [_ Hnd]. exact Hnd.
    + cbn [length] in Hlen. lia.
  - cbn [mbind option_bind]. eexists. split; [reflexivity|].
    split; [|reflexivity]. apply Hassign; [exact Hnd | lia].
Qed.

End CacheFacts.

Module LanguageFacts.
Import Multilingual.

Lemma Qltb_lt (a c : Z) (b d : positive) :
  Sentiment.Qltb (a # b) (c # d) = (a * Z.pos d <? c * Z.pos b).
Proof.
  unfold Sentiment.Qltb, Qle_bool. cbn [Qnum Qden].
  rewrite Z.ltb_antisym. reflexivity.
Qed.

Lemma arabic_le_total text : arabic_chars text <= total_chars text.
Proof.
  unfold arabic_chars, total_chars. apply inj_le.
  induction text as [|c s IH]; [reflexivity|].
  cbn [Text.count Text.without].
  destruct (Str.between 216 219 c) eqn:Hc.
  - assert (Hns : Ascii.eqb " " c = false /\ Text.is_continuation c = false).
    { revert Hc. clear.
      destruct c as [[|] [|] [|] [|] [|] [|] [|] [|]]; vm_compute; auto;
        discriminate. }
    destruct Hns as [-> Hcont]. cbn [Text.length]. rewrite Hcont. lia.
  - destruct (Ascii.eqb " " c); [lia|]. cbn [Text.length].
    destruct (Text.is_continuation c); lia.
Qed.

(** The two decisions of [detect_language] and [is_arabic], on integers. *)
Lemma arabic_share text :
  0 < total_chars text ->
  Sentiment.Qltb (3 # 10) (Qmake (arabic_chars text) (Z.to_pos (total_chars text)))
  = (3 * total_chars text <? 10 * arabic_chars text).
Proof.
  intros Ht. rewrite Qltb_lt, Z2Pos.id by exact Ht.
  f_equal; lia.
Qed.

Lemma confidence_above_half text :
  0 < total_chars text ->
  let ratio := Qmake (arabic_chars text) (Z.to_pos (total_chars text)) in
  Sentiment.Qltb (1 # 2)
    (if Sentiment.Qltb 1 (ratio * (3 # 2)) then 1%Q else (ratio * (3 # 2))%Q)
  = (total_chars text <? 3 * arabic_chars text).
Proof.
  intros Ht. cbv zeta.
  pose proof (arabic_le_total text) as Hle.
  set (a := arabic_chars text) in *. set (t := total_chars text) in *.
  assert (Hp : Z.pos (Z.to_pos t) = t) by (apply Z2Pos.id; exact Ht).
  set (p := Z.to_pos t) in *. clearbody p.
  unfold Qmult. cbn [Qnum Qden]. change 1%Q with (1 # 1).
  rewrite (Qltb_lt 1 (a * 3) 1 (p * 2)).
  destruct (Z.ltb_spec (1 * Z.pos (p * 2)) (a * 3 * Z.pos 1)) as [H1|H1].
  - rewrite (Qltb_lt 1 1 2 1). rewrite Pos2Z.inj_mul, Hp in H1.
    symmetry. apply Z.ltb_lt. lia.
  - rewrite (Qltb_lt 1 (a * 3) 2 (p * 2)). rewrite Pos2Z.inj_mul, Hp in *.
    destruct (Z.ltb_spec t (3 * a)); [apply Z.ltb_lt | apply Z.ltb_ge]; lia.
Qed.

End LanguageFacts.

Module LanguageMore.
Import Multilingual.

Lemma starts_with_app p s :
  Str.starts_with p s = true -> exists rest, s = p +:+ rest.
Proof.
  revert s. induction p as [|a p IH]; intros s H.
  - exists s. reflexivity.
  - destruct s as [|b s]; [discriminate|]. cbn [Str.starts_with] in H.
    destruct (Ascii.eqb_spec a b) as [->|]; [|discriminate].
    destruct (IH s H) as [rest ->]. exists rest. reflexivity.
Qed.

Lemma contains_villa_la s :
  Str.contains "villa" s = true -> Str.contains "la" s = true.
Proof.
  induction s as [|c s IH]; [discriminate|].
  cbn [Str.contains]. intros H. apply orb_true_iff in H as [H|H].
  - apply starts_with_app in H as [rest E]. cbn [String.append] in E.
    injection E as -> ->. reflexivity.
  - apply orb_true_iff. right. apply IH, H.
Qed.

Lemma contains_first c p s :
  Str.contains (String c p) s = true -> Str.some_char (Ascii.eqb c) s = true.
Proof.
  induction s as [|a s IH]; [discriminate|].
  cbn [Str.contains Str.starts_with Str.some_char]. intros H.
  destruct (Ascii.eqb c a); [reflexivity|]. cbn [orb] in H |- *. apply IH, H.
Qed.

Lemma some_char_impl (p q : ascii -> bool) s :
  (forall c, p c = true -> q c = true) ->
  Str.some_char p s = true -> Str.some_char q s = true.
Proof.
  intros Hpq. induction s as [|a s IH]; [discriminate|].
  cbn [Str.some_char]. intros H. apply orb_true_iff in H as [H|H].
  - rewrite (Hpq a H). reflexivity.
  - rewrite (IH H). apply orb_true_r.
Qed.

(** The "v" of "villa" in the lower-cased text is a letter of the text. *)
Lemma contains_villa_letter s :
  Str.contains "villa" (Str.lower s) = true ->
  Str.some_char Str.is_letter s = true.
Proof.
  intros H. apply contains_first in H.
  apply UnicodeFacts.lower_v in H as [H|H]; revert H; apply some_char_impl;
    intros c Hc; apply Ascii.eqb_eq in Hc as <-; reflexivity.
Qed.

(** A letter is no byte of a white-space character. *)
Lemma letter_not_space c :
  Str.is_letter c = true ->
  Str.is_space c = false /\ Ascii.eqb " " c = false
  /\ Text.is_continuation c = false
  /\ Nat.eqb (Str.code c) 194 = false /\ Nat.eqb (Str.code c) 225 = false
  /\ Nat.eqb (Str.code c) 226 = false /\ Nat.eqb (Str.code c) 227 = false
  /\ Nat.eqb (Str.code c) 133 = false /\ Nat.eqb (Str.code c) 160 = false
  /\ Nat.eqb (Str.code c) 154 = false /\ Nat.eqb (Str.code c) 128 = false
  /\ Nat.eqb (Str.code c) 129 = false /\ Nat.eqb (Str.code c) 159 = false
  /\ (Str.between 128 138 c || Nat.eqb (Str.code c) 168
      || Nat.eqb (Str.code c) 169 || Nat.eqb (Str.code c) 175) = false.
Proof.
  destruct c as [[|] [|] [|] [|] [|] [|] [|] [|]]; vm_compute;
    intros H; try discriminate H; repeat split.
Qed.

(** A text with a letter is not blank. *)
Lemma letter_not_blank n s :
  (String.length s <= n)%nat ->
  Str.some_char Str.is_letter s = true -> Text.blank s = false.
Proof.
  revert s. induction n as [|n IH]; intros s Hn Hl.
  - destruct s; [discriminate | cbn in Hn; lia].
  - destruct s as [|c s1]; [discriminate|].
    cbn [Str.some_char] in Hl. cbn [Text.blank].
    destruct (Str.is_letter c) eqn:Hc.
    + destruct (letter_not_space c Hc)
        as (-> & _ & _ & -> & -> & -> & -> & _). reflexivity.
    + cbn [orb] in Hl. cbn [String.length] in Hn.
      assert (H1 : Text.blank s1 = false) by (apply IH; [lia | exact Hl]).
      destruct (Str.is_space c); [exact H1|].
      assert (Htwo : forall (f : ascii -> bool),
                 (forall d, Str.is_letter d = true -> f d = false) ->
                 match s1 with
                 | String d s2 => f d && Text.blank s2
                 | _ => false
                 end = false).
      { intros f Hf. destruct s1 as [|d s2]; [reflexivity|].
        cbn [Str.some_char] in Hl. cbn [String.length] in Hn.
        destruct (Str.is_letter d) eqn:Hd; [rewrite Hf by exact Hd; reflexivity|].
        cbn [orb] in Hl. rewrite (IH s2) by (lia || exact Hl).
        apply andb_false_r. }
      assert (Hthree : forall (f : ascii -> ascii -> bool),
                 (forall d e, Str.is_letter d = true -> f d e = false) ->
                 (forall d e, Str.is_letter e = true -> f d e = false) ->
                 match s1 with
                 | String d (String e s3) => f d e && Text.blank s3
                 | _ => false
                 end = false).
      { intros f Hfd Hfe.
        destruct s1 as [|d [|e s3]]; [reflexivity | reflexivity|].
        cbn [Str.some_char] in Hl. cbn [String.length] in Hn.
        destruct (Str.is_letter d) eqn:Hd; [rewrite Hfd by exact Hd; reflexivity|].
        destruct (Str.is_letter e) eqn:He; [rewrite Hfe by exact He; reflexivity|].
        cbn [orb] in Hl. rewrite (IH s3) by (lia || exact Hl).
        apply andb_false_r. }
      destruct (Nat.eqb (Str.code c) 194).
      { apply (Htwo (fun d => Nat.eqb (Str.code d) 133 || Nat.eqb (Str.code d) 160)).
        intros d Hd.
        destruct (letter_not_space d Hd) as (_&_&_&_&_&_&_& -> & -> &_).
        reflexivity. }
      destruct (Nat.eqb (Str.code c) 225).
      { apply (Hthree (fun d e => Nat.eqb (Str.code d) 154 && Nat.eqb (Str.code e) 128)).
        - intros d e Hd.
          destruct (letter_not_space d Hd) as (_&_&_&_&_&_&_&_&_& -> &_).
          reflexivity.
        - intros d e He.
          destruct (letter_not_space e He) as (_&_&_&_&_&_&_&_&_&_& -> &_).
          apply andb_false_r. }
      destruct (Nat.eqb (Str.code c) 226).
      { apply (Hthree (fun d e =>
                 (Nat.eqb (Str.code d) 128
                  && (Str.between 128 138 e || Nat.eqb (Str.code e) 168
                      || Nat.eqb (Str.code e) 169 || Nat.eqb (Str.code e) 175))
                 || (Nat.eqb (Str.code d) 129 && Nat.eqb (Str.code e) 159))).
        - intros d e Hd.
          destruct (letter_not_space d Hd) as (_&_&_&_&_&_&_&_&_&_& -> & -> &_).
          reflexivity.
        - intros d e He.
          destruct (letter_not_space e He) as (_&_&_&_&_&_&_&_&_&_&_&_& -> & ->).
          rewrite !andb_false_r. reflexivity. }
      destruct (Nat.eqb (Str.code c) 227); [|reflexivity].
      apply (Hthree (fun d e => Nat.eqb (Str.code d) 128 && Nat.eqb (Str.code e) 128)).
      * intros d e Hd.
        destruct (letter_not_space d Hd) as (_&_&_&_&_&_&_&_&_&_& -> &_).
        reflexivity.
      * intros d e He.
        destruct (letter_not_space e He) as (_&_&_&_&_&_&_&_&_&_& -> &_).
        apply andb_false_r.
Qed.

Lemma letter_counts s :
  Str.some_char Str.is_letter s = true -> 0 < total_chars s.
Proof.
  unfold total_chars. intros H. apply (inj_lt 0).
  induction s as [|c s IH]; [discriminate|].
  cbn [Str.some_char] in H. cbn [Text.without].
  destruct (Str.is_letter c) eqn:Hc.
  - destruct (letter_not_space c Hc) as (_ & -> & Hcont & _).
    cbn [Text.length]. rewrite Hcont. lia.
  - cbn [orb] in H. specialize (IH H).
    destruct (Ascii.eqb " " c); [exact IH|].
    cbn [Text.length]. lia.
Qed.

Lemma count_two (p : string -> bool) (l1 l2 l3 : list string) (x y : string) :
  p x = true -> p y = true ->
  (2 <= length (List.filter p (l1 ++ x :: l2 ++ y :: l3)))%nat.
Proof.
  intros Hx Hy. rewrite List.filter_app, length_app. cbn [List.filter].
  rewrite Hx. cbn [length]. rewrite List.filter_app, length_app.
  cbn [List.filter]. rewrite Hy. cbn [length]. lia.
Qed.

End LanguageMore.

Section LanguageExtras.

Import Multilingual.TranslationCache CacheSpec.

(** X19 (the translation cache stays within its capacity).  With a
    capacity of at least one, no list of look-ups and stores makes the cache
    raise, and after it the cache holds no key twice and no more entries than
    its capacity. *)
Theorem translation_cache_stays_tidy (max_size : Z) (ops : list Op) :
  1 <= max_size ->
  exists c,
    run ops (init max_size) = Some c /\ tidy c /\ _max_size c = max_size.
Proof.
  intros Hmax.
  assert (Hrun : forall c, tidy c -> _max_size c = max_size ->
                   exists c', run ops c = Some c' /\ tidy c'
                              /\ _max_size c' = max_size).
  { unfold run. induction ops as [|op ops IH]; intros c Hc Hm.
    - exists c. auto.
    - cbn [fold_left]. destruct op as [text source target|text source target tr].
      + cbn [step mbind option_bind]. apply IH.
        * apply CacheFacts.get_tidy, Hc.
        * unfold get. cbv zeta. destruct (lookup _ _); exact Hm.
      + destruct (CacheFacts.set_tidy text source target tr c) as (c' & E & Hc' & Hm');
          [lia | exact Hc|].
        cbn [step mbind option_bind]. rewrite E. apply IH; [exact Hc' | congruence]. }
  apply Hrun; [|reflexivity].
  split; [constructor | cbn; lia].
Qed.

(** A cache of two entries, three stores and a look-up. *)
Lemma translation_cache_stays_tidy_witness :
  exists c,
    run [Store "مرحبا" "ar" "en" "hello"; Store "شكرا" "ar" "en" "thanks";
         Lookup "مرحبا" "ar" "en"; Store "دبي" "ar" "en" "Dubai"] (init 2)
    = Some c
    /\ tidy c /\ _max_size c = 2.
Proof.
  apply (translation_cache_stays_tidy 2). lia.
Defined.

(** X20 (what the translation cache gives back).  With a capacity of at
    least one, a translation just stored is what the next look-up returns for
    the same languages and the same text, and for every other text that has
    the same first 100 characters. *)
Theorem translation_cache_round_trip (c : t)
    (text text' source target translation : string) :
  1 <= _max_size c ->
  Text.take 100 text' = Text.take 100 text ->
  exists c',
    set text source target translation c = Some c'
    /\ (get text' source target c').1 = Some translation.
Proof.
  intros Hmax Hsame. unfold set. cbv zeta.
  assert (Hget : forall d,
             (get text' source target
                (mk (assign (_generate_key text source target) translation d)
                   (_max_size c))).1 = Some translation).
  { intros d. unfold get. cbv zeta. cbn [_cache].
    unfold _generate_key. rewrite Hsame.
    fold (_generate_key text source target).
    rewrite CacheFacts.lookup_assign. reflexivity. }
  case_bool_decide as Hfull.
  - destruct (_cache c) as [|kv rest] eqn:Hc; [cbn in Hfull; lia|].
    cbn [mbind option_bind]. eexists. split; [reflexivity | apply Hget].
  - cbn [mbind option_bind]. eexists. split; [reflexivity | apply Hget].
Qed.

(** Two long messages that differ after their hundredth character. *)
Lemma translation_cache_round_trip_witness :
  let head := String.concat "" (repeat "0123456789" 10) in
  exists c',
    set (head +:+ " first message") "en" "ar" "الأولى" (init 500) = Some c'
    /\ (get (head +:+ " second message") "en" "ar" c').1 = Some "الأولى".
Proof.
  apply (translation_cache_round_trip (init 500)).
  - vm_compute. discriminate.
  - vm_compute. reflexivity.
Defined.

(** X21 (when a text counts as Arabic).  [Multilingual.detect_language] says Arabic
    exactly for a text that is not blank and in which more than three in ten
    of the characters other than spaces are Arabic letters, and [is_arabic]
    asks for more than one in three; a text without Arabic letters is never
    Arabic, and a blank text is English with confidence one half. *)
Theorem arabic_needs_its_share (text : string) :
  ((Multilingual.detect_language text).1 = ARABIC
   <-> Text.blank text = false
       /\ 3 * Multilingual.total_chars text < 10 * Multilingual.arabic_chars text)
  /\ (Multilingual.is_arabic text = true
      <-> Text.blank text = false
          /\ Multilingual.total_chars text < 3 * Multilingual.arabic_chars text)
  /\ (Multilingual.arabic_chars text = 0 -> (Multilingual.detect_language text).1 <> ARABIC)
  /\ (Text.blank text = true -> Multilingual.detect_language text = (ENGLISH, 1 # 2)).
Proof.
  pose proof (LanguageFacts.arabic_le_total text) as Hle.
  assert (Hpos : 0 <= Multilingual.arabic_chars text) by (unfold Multilingual.arabic_chars; lia).
  unfold Multilingual.is_arabic, Multilingual.detect_language. cbv zeta.
  destruct (Text.blank text).
  { cbn. repeat split; try discriminate; try tauto;
      intros [H _]; discriminate. }
  destruct (Z.eqb_spec (Multilingual.total_chars text) 0) as [H0|H0].
  { cbn. repeat split; try discriminate; intros [_ H]; lia. }
  assert (Ht : 0 < Multilingual.total_chars text) by lia.
  rewrite (LanguageFacts.arabic_share text Ht).
  destruct (Z.ltb_spec (3 * Multilingual.total_chars text) (10 * Multilingual.arabic_chars text)) as [Hr|Hr].
  - cbn [fst is_arabic andb].
    rewrite (LanguageFacts.confidence_above_half text Ht).
    split; [tauto|]. split.
    + rewrite Z.ltb_lt. tauto.
    + split; [intros Ha; lia | discriminate].
  - assert (Hno : forall l q,
               (if (2 <=? Str.count_in (map fst Multilingual._arabish_patterns) (Str.lower text))%nat
                then (MIXED, 7 # 10)
                else if Str.any_in ["3akar"; "sha2a"; "ghorfa"] (Str.lower text)
                     then (MIXED, 6 # 10) else (ENGLISH, 8 # 10)) = (l, q) ->
               l <> ARABIC).
    { intros l q. destruct (_ <=? _)%nat; [|destruct (Str.any_in _ _)];
        intros E; injection E as <- _; discriminate. }
    destruct (if (2 <=? _)%nat then _ else _) as [l q] eqn:E.
    specialize (Hno l q eq_refl). cbn [fst].
    split; [split; [contradiction | intros [_ H]; lia]|].
    split.
    + destruct l; cbn [is_arabic andb]; try contradiction;
        (split; [discriminate | intros [_ H]; lia]).
    + split; [intros _; exact Hno | discriminate].
Qed.

(** X22 (a villa reads as Arabic in Latin letters).  A text that mentions
    "villa", in whatever case, and is not Arabic by its letters, is classified
    as MIXED with confidence 0.7: "villa" and the "la" inside it are two of
    the patterns that [Multilingual.detect_language] counts. *)
Theorem villa_reads_as_arabish (text : string) :
  Str.contains "villa" (Str.lower text) = true ->
  10 * Multilingual.arabic_chars text <= 3 * Multilingual.total_chars text ->
  Multilingual.detect_language text = (MIXED, 7 # 10).
Proof.
  intros Hv Hshare.
  pose proof (LanguageMore.contains_villa_letter text Hv) as Hl.
  pose proof (LanguageMore.letter_counts text Hl) as Ht.
  unfold Multilingual.detect_language. cbv zeta.
  rewrite (LanguageMore.letter_not_blank (String.length text) text (le_n _) Hl).
  replace (Multilingual.total_chars text =? 0) with false by (symmetry; apply Z.eqb_neq; lia).
  rewrite (LanguageFacts.arabic_share text Ht).
  replace (3 * Multilingual.total_chars text <? 10 * Multilingual.arabic_chars text) with false
    by (symmetry; apply Z.ltb_ge; lia).
  replace (2 <=? Str.count_in (map fst Multilingual._arabish_patterns) (Str.lower text))%nat
    with true; [reflexivity|].
  symmetry. apply Nat.leb_le. unfold Str.count_in.
  apply (LanguageMore.count_two _ ["marhaba"; "shukran"; "afwan"; "na3am"]
           ["3akar"] ["sha2a"; "ghorfa"; "si3r"; "maw2i3"; "dubai"] "la" "villa").
  - apply LanguageMore.contains_villa_la, Hv.
  - exact Hv.
Qed.

(** An English request for a villa. *)
Lemma villa_reads_as_arabish_witness :
  Multilingual.detect_language "I am looking for a Villa with a pool" = (MIXED, 7 # 10).
Proof.
  apply villa_reads_as_arabish.
  - vm_compute. reflexivity.
  - vm_compute. discriminate.
Defined.

End LanguageExtras.

(** * The controller: duplicates *)

Module TrackerFacts.
Import Controller.WebhookTracker TrackerSpec.

Lemma cleanup_keeps (tr : t) (now t0 : Z) (id : string) :
  _tracker tr !! id = Some t0 ->
  now - seconds (_window tr) < t0 ->
  _tracker (_cleanup now tr) !! id = Some t0.
Proof.
  intros Hin Hlt. unfold _cleanup. cbn [_tracker].
  apply map_lookup_filter_Some. split; [exact Hin|]. cbn. exact Hlt.
Qed.

Lemma cleanup_absent (tr : t) (now : Z) (id : string) :
  _tracker tr !! id = None -> _tracker (_cleanup now tr) !! id = None.
Proof.
  intros Hin. unfold _cleanup. cbn [_tracker].
  apply map_lookup_filter_None. left. exact Hin.
Qed.

Lemma is_duplicate_window (now : Z) (id : string) (tr : t) :
  _window (is_duplicate now id tr).2 = _window tr.
Proof.
  unfold is_duplicate.
  repeat case_bool_decide; repeat case_match; reflexivity.
Qed.

(** An entry younger than the window outlives any call. *)
Lemma is_duplicate_keeps (now t0 : Z) (id id' : string) (tr : t) :
  _tracker tr !! id = Some t0 ->
  now - seconds (_window tr) < t0 ->
  _tracker (is_duplicate now id' tr).2 !! id = Some t0.
Proof.
  intros Hin Hlt. unfold is_duplicate.
  set (tr1 := if bool_decide (seconds 60 < now - _last_cleanup tr)
              then _cleanup now tr else tr).
  assert (H1 : _tracker tr1 !! id = Some t0 /\ _window tr1 = _window tr).
  { unfold tr1. case_bool_decide; [|tauto].
    split; [apply cleanup_keeps; assumption | reflexivity]. }
  destruct H1 as [H1 Hw1].
  destruct (_tracker tr1 !! id') eqn:E; cbn [snd]; [exact H1|].
  assert (id' <> id) by congruence.
  cbn [_tracker]. rewrite lookup_insert_ne by assumption.
  case_bool_decide; [|exact H1].
  apply cleanup_keeps; [exact H1 | rewrite Hw1; exact Hlt].
Qed.

Lemma is_duplicate_known (now t0 : Z) (id : string) (tr : t) :
  _tracker tr !! id = Some t0 ->
  now - seconds (_window tr) < t0 ->
  (is_duplicate now id tr).1 = true.
Proof.
  intros Hin Hlt. unfold is_duplicate.
  set (tr1 := if bool_decide (seconds 60 < now - _last_cleanup tr)
              then _cleanup now tr else tr).
  assert (H1 : _tracker tr1 !! id = Some t0).
  { unfold tr1. case_bool_decide; [|assumption].
    apply cleanup_keeps; assumption. }
  rewrite H1. reflexivity.
Qed.

Lemma is_duplicate_accepts (now : Z) (id : string) (tr : t) :
  (is_duplicate now id tr).1 = false ->
  _tracker (is_duplicate now id tr).2 !! id = Some now.
Proof.
  unfold is_duplicate.
  destruct (_tracker _ !! id); cbn [fst snd]; [discriminate|].
  intros _. cbn [_tracker]. apply lookup_insert_eq.
Qed.

Lemma run_window (calls : list (Z * string)) (tr : t) :
  _window (run calls tr) = _window tr.
Proof.
  revert tr. induction calls as [|c calls IH]; intros tr; [reflexivity|].
  unfold run in *. cbn [fold_left]. rewrite IH. apply is_duplicate_window.
Qed.

Lemma run_keeps (calls : list (Z * string)) (tr : t) (t0 : Z) (id : string) :
  _tracker tr !! id = Some t0 ->
  all_before (t0 + seconds (_window tr)) calls ->
  _tracker (run calls tr) !! id = Some t0.
Proof.
  revert tr. induction calls as [|c calls IH]; intros tr Hin Hall; [exact Hin|].
  apply Forall_cons in Hall as [Hc Hall].
  unfold run in *. cbn [fold_left]. apply IH.
  - apply is_duplicate_keeps; [exact Hin | lia].
  - rewrite is_duplicate_window. exact Hall.
Qed.

(** An identifier on file is refused by every call made less than the
    window after its entry, whatever was asked in between. *)
Lemma blocked_within_window (calls : list (Z * string)) (tr : t) (t0 later : Z)
    (id : string) :
  _tracker tr !! id = Some t0 ->
  all_before (t0 + seconds (_window tr)) calls ->
  later < t0 + seconds (_window tr) ->
  (is_duplicate later id (run calls tr)).1 = true.
Proof.
  intros Hin Hall Hlt.
  apply (is_duplicate_known later t0).
  - apply run_keeps; assumption.
  - rewrite run_window. lia.
Qed.

End TrackerFacts.

Section TrackerExtras.
Import Controller.WebhookTracker TrackerSpec.

(** X23 (the window in which a delivery is refused).  An identifier that
    [is_duplicate] has let through at some instant is refused by every call
    made less than the window after that instant, whatever other identifiers
    were asked about in between.  The window is a lower bound: the entry is
    only dropped by a cleaning, so that the identifier is still refused after
    the window as long as the last cleaning is at most 60 seconds old, and let
    through again, and filed anew, once a cleaning is due. *)
Theorem duplicates_blocked_within_window (tr : t) (now : Z) (id : string) :
  (is_duplicate now id tr).1 = false ->
  let tr0 := (is_duplicate now id tr).2 in
  (forall calls later,
      all_before (now + seconds (_window tr)) calls ->
      later < now + seconds (_window tr) ->
      (is_duplicate later id (run calls tr0)).1 = true)
  /\ (forall later,
        later - _last_cleanup tr0 <= seconds 60 ->
        (is_duplicate later id tr0).1 = true)
  /\ (forall later,
        now + seconds (_window tr) <= later ->
        seconds 60 < later - _last_cleanup tr0 ->
        (is_duplicate later id tr0).1 = false
        /\ _tracker (is_duplicate later id tr0).2 !! id = Some later).
Proof.
  intros Hacc tr0.
  pose proof (TrackerFacts.is_duplicate_accepts now id tr Hacc) as Hin.
  pose proof (TrackerFacts.is_duplicate_window now id tr) as Hw.
  fold tr0 in Hin, Hw.
  split; [|split].
  - intros calls later Hall Hlt.
    apply (TrackerFacts.blocked_within_window calls tr0 now later id Hin);
      rewrite Hw; assumption.
  - intros later Hle. unfold is_duplicate.
    rewrite bool_decide_eq_false_2 by lia. rewrite Hin. reflexivity.
  - intros later Hle Hdue.
    assert (Hd : (is_duplicate later id tr0).1 = false).
    { unfold is_duplicate. rewrite bool_decide_eq_true_2 by exact Hdue.
      assert (Hgone : _tracker (_cleanup later tr0) !! id = None).
      { unfold _cleanup. cbn [_tracker]. apply map_lookup_filter_None.
        right. intros v Hv. rewrite Hin in Hv. injection Hv as <-.
        cbn. rewrite Hw. lia. }
      rewrite Hgone. reflexivity. }
    split; [exact Hd|]. apply TrackerFacts.is_duplicate_accepts. exact Hd.
Qed.

(** An identifier of second 10 is still refused at second 309. *)
Lemma duplicates_blocked_within_window_witness :
  let tr := init 300 0 in
  (is_duplicate (seconds 10) "wamid.1" tr).1 = false
  /\ (is_duplicate (seconds 309) "wamid.1"
        (run [(seconds 20, "wamid.2"); (seconds 200, "wamid.3")]
           (is_duplicate (seconds 10) "wamid.1" tr).2)).1 = true.
Proof.
  cbv zeta.
  assert (H : (is_duplicate (seconds 10) "wamid.1" (init 300 0)).1 = false)
    by reflexivity.
  split; [exact H|].
  apply (proj1 (duplicates_blocked_within_window (init 300 0) (seconds 10)
                  "wamid.1" H)).
  - repeat constructor.
  - reflexivity.
Defined.

End TrackerExtras.

(** * The controller: deliveries *)

Module ControllerFacts.
Import Controller IntentService PipelineSpec WebhookSpec.

Section WithCollaborators.
Variable env : Collaborators.
Variable clock_id : Z -> string.

(** A call of [process_message] sends one message to the user, or two. *)
Lemma process_message_sends (now : Z) (phone name message_text : string)
    (w : World) :
  let w' := (process_message env now phone name message_text w).2 in
  sends_one phone w w' \/ sends_two phone w w'.
Proof.
  cbv zeta. rewrite PipelineFacts.process_message_eq. cbv zeta.
  set (w1 := (prelude env now phone name message_text w).2).
  destruct (PipelineFacts.prelude_frame env now phone name message_text w)
    as (Hp & Hsent & _).
  cbv zeta in Hp, Hsent. fold w1 in Hp, Hsent.
  destruct (ResponseService.get_pending_ticket now phone (pending_tickets w1))
    as [pending st].
  cbn [fst snd].
  set (w2 := mkWorld (memory w1) st (frustration w1) (sent w1) (jira_calls w1)).
  assert (Hs2 : sent w2 = sent w) by exact Hsent.
  assert (Hroute : forall lang text,
             sends_one phone w
               (classify_and_route env now phone name message_text text lang w2).2).
  { intros lang text.
    destruct (HandlerFacts.classify_and_route_sends env now phone name
                message_text text lang w2) as [m Hm].
    exists m. rewrite Hm, Hs2. reflexivity. }
  unfold after_pending_check.
  destruct pending as [t|]; [|left; apply Hroute].
  destruct (awaiting_confirmation t); [|left; apply Hroute].
  cbn [andb]. unfold mbind, M_bind. cbv zeta.
  rewrite PipelineFacts.handle_confirmation_action.
  set (r := _handle_confirmation env now phone name _ t _ w2).
  assert (Hr : sends_one phone w r.2).
  { destruct (HandlerFacts.handle_confirmation_sends env now phone name
                (working_text env message_text) t
                (detect_language env message_text) w2) as [m Hm].
    exists m. fold r in Hm. rewrite Hm, Hs2. reflexivity. }
  destruct (is_override _).
  - right. apply (HandlerFacts.sends_one_then_one phone w r.2); [exact Hr|].
    apply HandlerFacts.classify_and_route_sends.
  - left. exact Hr.
Qed.

(** The same, as a list of one or two texts. *)
Lemma process_message_replies (now : Z) (phone name message_text : string)
    (w : World) :
  exists texts,
    sent (process_message env now phone name message_text w).2
    = sent w ++ map (pair phone) texts
    /\ (1 <= length texts <= 2)%nat.
Proof.
  destruct (process_message_sends now phone name message_text w)
    as [[m Hm]|(m1 & m2 & Hm)]; cbv zeta in Hm.
  - exists [m]. split; [exact Hm | cbn; lia].
  - exists [m1; m2]. split; [exact Hm | cbn; lia].
Qed.

Lemma receive_webhook_tracker (now : Z) (data : Payload) (sv : Server) :
  webhook_tracker (receive_webhook env clock_id now data sv).2
  = (WebhookTracker.is_duplicate now (message_id_of clock_id now data)
       (webhook_tracker sv)).2.
Proof.
  unfold receive_webhook. cbv zeta.
  repeat (match goal with |- context [if ?b then _ else _] => destruct b end;
          cbn [snd webhook_tracker]; try reflexivity).
Qed.

Lemma receive_webhook_duplicate (now : Z) (data : Payload) (sv : Server) :
  (WebhookTracker.is_duplicate now (message_id_of clock_id now data)
     (webhook_tracker sv)).1 = true ->
  let r := receive_webhook env clock_id now data sv in
  r.1 = mkReply "duplicate_blocked" None None /\ world r.2 = world sv.
Proof.
  intros Hd. unfold receive_webhook. cbv zeta. rewrite Hd. split; reflexivity.
Qed.

Lemma receive_webhook_let_through (now : Z) (data : Payload) (sv : Server) :
  status (receive_webhook env clock_id now data sv).1 <> "duplicate_blocked" ->
  (WebhookTracker.is_duplicate now (message_id_of clock_id now data)
     (webhook_tracker sv)).1 = false.
Proof.
  intros Hs. apply not_true_is_false. intros Hd.
  apply Hs. apply (receive_webhook_duplicate now data sv) in Hd as [-> _].
  reflexivity.
Qed.

Lemma deliver_all_tracker (ds : list (Z * Payload)) (sv : Server) :
  webhook_tracker (deliver_all env clock_id ds sv)
  = TrackerSpec.run (map (fun d => (d.1, message_id_of clock_id d.1 d.2)) ds)
      (webhook_tracker sv).
Proof.
  revert sv. induction ds as [|d ds IH]; intros sv; [reflexivity|].
  unfold deliver_all, TrackerSpec.run in *. cbn [fold_left map].
  rewrite IH. rewrite receive_webhook_tracker. reflexivity.
Qed.

End WithCollaborators.

End ControllerFacts.

Section ControllerExtras.
Import Controller IntentService TrackerSpec WebhookSpec.

Variable env : Collaborators.
Variable clock_id : Z -> string.

(** X24 (a delivery made twice is handled once).  When a delivery was not
    refused as a duplicate, every delivery that carries the same identifier
    and arrives less than the window later is answered "duplicate_blocked"
    and changes nothing in the services, whatever else was delivered in
    between and whatever the two bodies say otherwise.  This holds also when
    the first delivery was left aside for its status or its missing sender:
    the identifier is filed before the body is looked at. *)
Theorem redelivery_changes_nothing (sv : Server) (now : Z) (data : Payload)
    (ds : list (Z * Payload)) (later : Z) (again : Payload) :
  status (receive_webhook env clock_id now data sv).1 <> "duplicate_blocked" ->
  all_before (now + seconds (WebhookTracker._window (webhook_tracker sv))) ds ->
  later < now + seconds (WebhookTracker._window (webhook_tracker sv)) ->
  message_id_of clock_id later again = message_id_of clock_id now data ->
  let sv1 :=
    deliver_all env clock_id ds (receive_webhook env clock_id now data sv).2 in
  let r := receive_webhook env clock_id later again sv1 in
  r.1 = mkReply "duplicate_blocked" None None /\ world r.2 = world sv1.
Proof.
  intros Hs Hall Hlt Hid sv1 r.
  apply ControllerFacts.receive_webhook_duplicate.
  unfold sv1. rewrite ControllerFacts.deliver_all_tracker.
  rewrite ControllerFacts.receive_webhook_tracker, Hid.
  apply ControllerFacts.receive_webhook_let_through in Hs.
  set (tr := webhook_tracker sv) in *.
  set (id := message_id_of clock_id now data) in *.
  apply (TrackerFacts.blocked_within_window _ _ now).
  - apply TrackerFacts.is_duplicate_accepts. exact Hs.
  - rewrite TrackerFacts.is_duplicate_window.
    unfold all_before in *. rewrite Forall_fmap.
    eapply Forall_impl; [exact Hall|]. intros d Hd. exact Hd.
  - rewrite TrackerFacts.is_duplicate_window. exact Hlt.
Qed.

(** X25 (who is answered).  A delivery makes the bot send at most two
    messages, all of them to the sender named in the body.  It sends none in
    two cases only: the delivery is refused (as a duplicate, for its status,
    or for want of a sender), and then nothing at all changes in the
    services; or it is a text message whose text is empty once the white
    space around it is removed. *)
Theorem silence_has_a_reason (sv : Server) (now : Z) (data : Payload) :
  let r := receive_webhook env clock_id now data sv in
  exists texts,
    sent (world r.2)
    = sent (world sv) ++ map (pair (default "" (whatsapp_from data))) texts
    /\ (length texts <= 2)%nat
    /\ (texts = [] ->
        status r.1 ∈ refusals
        \/ (whatsapp_type data = Some "text"
            /\ Text.strip (default "" (text_body data)) = ""))
    /\ (status r.1 ∈ refusals -> world r.2 = world sv).
Proof.
  cbv zeta. unfold receive_webhook. cbv zeta.
  set (d := WebhookTracker.is_duplicate _ _ _).
  assert (Hquiet : forall st,
             st ∈ refusals ->
             exists texts,
               sent (world sv)
               = sent (world sv) ++ map (pair (default "" (whatsapp_from data))) texts
               /\ (length texts <= 2)%nat
               /\ (texts = [] ->
                   st ∈ refusals
                   \/ (whatsapp_type data = Some "text"
                       /\ Text.strip (default "" (text_body data)) = ""))
               /\ (st ∈ refusals -> world sv = world sv)).
  { intros st Hst. exists []. rewrite app_nil_r.
    split; [reflexivity|]. split; [cbn; lia|]. split; [left; exact Hst|reflexivity]. }
  assert (Hnot : forall st, st = "processed" \/ st = "unsupported_type" ->
                            ~ st ∈ refusals).
  { intros st [-> | ->] Hin; unfold refusals in Hin;
      apply list_elem_of_In in Hin; cbn in Hin;
      intuition discriminate. }
  destruct d.1.
  { cbn [fst snd world status]. apply Hquiet. unfold refusals.
    apply list_elem_of_In; cbn; tauto. }
  destruct (bool_decide (whatsapp_status data = Some "received")); cbn [negb];
    [|cbn [fst snd world status]; apply Hquiet; unfold refusals;
      apply list_elem_of_In; cbn; tauto].
  destruct (truthy (whatsapp_from data)) eqn:Hfrom; cbn [negb];
    [|cbn [fst snd world status]; apply Hquiet; unfold refusals;
      apply list_elem_of_In; cbn; tauto].
  set (sender := default "" (whatsapp_from data)).
  destruct (is_valid_type (whatsapp_type data)) eqn:Hty; cbn [negb fst snd world status].
  2:{ exists [unsupported_notice]. split; [reflexivity|].
      split; [cbn; lia|]. split; [discriminate|].
      intros Hin. exfalso. apply (Hnot "unsupported_type"); [tauto | exact Hin]. }
  destruct (whatsapp_type data) as [ty|] eqn:Ety; [|discriminate Hty].
  cbn [default].
  destruct (decide (ty = "text")) as [Htext|Htext];
    [rewrite bool_decide_eq_true_2 by exact Htext
    |rewrite bool_decide_eq_false_2 by exact Htext].
  - subst ty. unfold _handle_text_message.
    destruct (Text.strip (default "" (text_body data))) as [|c body] eqn:Ebody.
    + cbn [truthy]. exists []. rewrite app_nil_r. split; [reflexivity|].
      split; [cbn; lia|]. split; [right; split; reflexivity|].
      intros Hin. exfalso. apply (Hnot "processed"); [tauto | exact Hin].
    + cbn [truthy]. unfold mbind, M_bind, mret, M_ret. cbn [snd].
      destruct (ControllerFacts.process_message_replies env now sender
                  (default "User" (contact_name data)) (String c body) (world sv))
        as (texts & Hsent & Hlen).
      exists texts. split; [exact Hsent|]. split; [lia|].
      split; [intros ->; cbn in Hlen; lia|].
      intros Hin. exfalso. apply (Hnot "processed"); [tauto | exact Hin].
  - unfold _handle_file_message.
    destruct (truthy (media_link data)); cbn [negb].
    2:{ eexists [_]. split; [reflexivity|]. split; [cbn; lia|].
        split; [discriminate|].
        intros Hin. exfalso. apply (Hnot "processed"); [tauto | exact Hin]. }
    destruct (default "" (media_caption data)) as [|c caption] eqn:Ecap; cbn [truthy].
    + eexists [_]. split; [reflexivity|]. split; [cbn; lia|].
      split; [discriminate|].
      intros Hin. exfalso. apply (Hnot "processed"); [tauto | exact Hin].
    + unfold mbind, M_bind, mret, M_ret. cbn [snd].
      destruct (ControllerFacts.process_message_replies env now sender
                  (default "User" (contact_name data)) (String c caption) (world sv))
        as (texts & Hsent & Hlen).
      exists texts. split; [exact Hsent|]. split; [lia|].
      split; [intros ->; cbn in Hlen; lia|].
      intros Hin. exfalso. apply (Hnot "processed"); [tauto | exact Hin].
Qed.

End ControllerExtras.

(** A status update and the message itself under one identifier: the
    message is refused. *)
Lemma redelivery_changes_nothing_witness :
  let env := PipelineSpec.sample_collaborators true GENERAL_INQUIRY in
  let first := WebhookSpec.text_delivery "wamid.7" "sent" "hello" in
  let again := WebhookSpec.text_delivery "wamid.7" "received" "hello" in
  let sv1 :=
    (Controller.receive_webhook env WebhookSpec.sample_clock_id (seconds 5) first
       WebhookSpec.fresh_server).2 in
  Controller.status
    (Controller.receive_webhook env WebhookSpec.sample_clock_id (seconds 5) first
       WebhookSpec.fresh_server).1 = "ignored_status"
  /\ (Controller.receive_webhook env WebhookSpec.sample_clock_id (seconds 6)
        again sv1).1
     = Controller.mkReply "duplicate_blocked" None None.
Proof.
  cbv zeta. split; [reflexivity|].
  apply (redelivery_changes_nothing
           (PipelineSpec.sample_collaborators true GENERAL_INQUIRY)
           WebhookSpec.sample_clock_id WebhookSpec.fresh_server (seconds 5)
           (WebhookSpec.text_delivery "wamid.7" "sent" "hello") []
           (seconds 6) (WebhookSpec.text_delivery "wamid.7" "received" "hello")).
  - vm_compute. discriminate.
  - constructor.
  - reflexivity.
  - reflexivity.
Defined.

(** * The gateway: the rate limits *)

Module LimitFacts.
Import Gallabox GatewaySpec.

Lemma accurate_old (window now a : Z) :
  accurate window now a = true -> is_old now window a = true -> old now window a.
Proof.
  unfold accurate, old. intros Hacc Hold.
  destruct (Z.ltb_spec (seconds window) (now - a)); [lia|].
  destruct (Z.ltb_spec (now - a) (seconds window)); [|lia].
  rewrite Hold in Hacc. discriminate.
Qed.

Lemma accurate_is_old (window now a : Z) :
  accurate window now a = true -> seconds window < now - a ->
  is_old now window a = true.
Proof.
  unfold accurate. intros Hacc Hlt.
  destruct (Z.ltb_spec (seconds window) (now - a)); [exact Hacc | lia].
Qed.

Lemma drop_old_split (now window : Z) (times : list Z) :
  Forall (fun a => accurate window now a = true) times ->
  exists dropped,
    times = dropped ++ drop_old now window times
    /\ Forall (old now window) dropped.
Proof.
  induction 1 as [|a times Ha _ IH]; [exists []; split; [reflexivity|constructor]|].
  cbn [drop_old]. destruct (is_old now window a) eqn:Hold.
  - destruct IH as (dropped & Heq & Hd).
    exists (a :: dropped). split; [cbn; congruence|].
    constructor; [apply accurate_old; assumption | exact Hd].
  - exists []. split; [reflexivity|constructor].
Qed.

Lemma drop_old_all (now window : Z) (times : list Z) :
  Forall (fun a => is_old now window a = true) times ->
  drop_old now window times = [].
Proof.
  induction 1 as [|a times Ha _ IH]; [reflexivity|].
  cbn [drop_old]. rewrite Ha. exact IH.
Qed.

Lemma filter_recent_old (now window : Z) (l : list Z) :
  Forall (old now window) l -> List.filter (recent now window) l = [].
Proof.
  induction 1 as [|a l Ha _ IH]; [reflexivity|].
  cbn [List.filter]. destruct (recent now window a) eqn:E; [|exact IH].
  unfold recent in E. apply Z.ltb_lt in E. unfold old in Ha. lia.
Qed.

Lemma length_filter_le {A : Type} (p : A -> bool) (l : list A) :
  (length (List.filter p l) <= length l)%nat.
Proof.
  induction l as [|a l IH]; [reflexivity|].
  cbn [List.filter]. destruct (p a); cbn [length]; lia.
Qed.

Lemma length_filter_impl {A : Type} (p q : A -> bool) (l : list A) :
  (forall a, p a = true -> q a = true) ->
  (length (List.filter p l) <= length (List.filter q l))%nat.
Proof.
  intros Hpq. induction l as [|a l IH]; [reflexivity|].
  cbn [List.filter]. destruct (p a) eqn:Hp.
  - rewrite (Hpq a Hp). cbn [length]. lia.
  - destruct (q a); cbn [length]; lia.
Qed.

Lemma within_app (lo hi : Z) (l1 l2 : list Z) :
  within lo hi (l1 ++ l2) = (within lo hi l1 + within lo hi l2)%nat.
Proof. unfold within. rewrite List.filter_app, length_app. reflexivity. Qed.

Lemma tracks_later (known : list Z) (window limit clock now : Z)
    (times acc : list Z) :
  clock <= now -> tracks known window limit clock times acc ->
  tracks known window limit now times acc.
Proof.
  intros Hle [(forgotten & Heq & Hold) Hpast Hlim]. split.
  - exists forgotten. split; [exact Heq|].
    eapply Forall_impl; [exact Hold|]. unfold old. intros a. cbn. lia.
  - eapply Forall_impl; [exact Hpast|]. intros a. cbn. intros [H1 H2].
    split; [lia | exact H2].
  - exact Hlim.
Qed.

Lemma tracks_nil (known : list Z) (window limit clock : Z) :
  0 <= limit -> tracks known window limit clock [] [].
Proof.
  intros Hl. split.
  - exists []. split; [reflexivity|constructor].
  - constructor.
  - intros t. cbn. exact Hl.
Qed.

(** The deque holds instants that are known. *)
Lemma tracks_known (known : list Z) (window limit clock : Z)
    (times acc : list Z) (P : Z -> Prop) :
  (forall a, In a known -> P a) ->
  tracks known window limit clock times acc -> Forall P times.
Proof.
  intros HP [(forgotten & Heq & _) Hpast _].
  rewrite Heq in Hpast. apply Forall_app in Hpast as [_ Hpast].
  eapply Forall_impl; [exact Hpast|]. intros a [_ Ha]. apply HP, Ha.
Qed.

(** One step of the limiter keeps the deque on track. *)
Lemma limiter_tracks (known : list Z) (window limit : Z) (maxlen : nat)
    (now : Z) (times acc : list Z) :
  0 <= window -> limit <= Z.of_nat maxlen ->
  In now known ->
  (forall a, In a known -> accurate window now a = true) ->
  tracks known window limit now times acc ->
  let r := limiter window limit maxlen now times in
  tracks known window limit now r.2 (acc ++ (if r.1 then [now] else [])).
Proof.
  intros Hw Hmax Hnow Hacc Htr. cbv zeta.
  pose proof (tracks_known _ _ _ _ _ _ _ Hacc Htr) as Htimes.
  destruct Htr as [(forgotten & Heq & Hold) Hpast Hlim].
  unfold limiter. cbv zeta.
  destruct (drop_old_split now window times Htimes) as (dropped & Hd & Hdold).
  set (kept := drop_old now window times) in *.
  case_bool_decide as Hfull; cbn [fst snd].
  - rewrite app_nil_r. split; [|exact Hpast|exact Hlim].
    exists (forgotten ++ dropped). split.
    + rewrite Heq, Hd at 1. rewrite app_assoc. reflexivity.
    + apply Forall_app. split; assumption.
  - assert (Hroom : (length kept < maxlen)%nat) by lia.
    assert (Happ : append_bounded maxlen now kept = kept ++ [now]).
    { unfold append_bounded.
      destruct (Nat.leb_spec maxlen (length kept)); [lia|reflexivity]. }
    rewrite Happ. split.
    + exists (forgotten ++ dropped). split.
      * rewrite Heq, Hd at 1. rewrite !app_assoc. reflexivity.
      * apply Forall_app. split; assumption.
    + apply Forall_app. split; [exact Hpast|].
      constructor; [split; [lia | exact Hnow]|constructor].
    + intros t. rewrite within_app.
      destruct (Z_lt_le_dec t now) as [Hlt|Hge].
      * assert (Hout : within (t - seconds window + 1) t [now] = 0%nat).
        { unfold within. cbn [List.filter].
          destruct (Z.leb_spec now t); [lia|].
          rewrite andb_false_r. reflexivity. }
        rewrite Hout, Nat.add_0_r. apply Hlim.
      * assert (Hin : (within (t - seconds window + 1) t acc <= length kept)%nat).
        { unfold within.
          transitivity (length (List.filter (recent now window) acc)).
          - apply length_filter_impl. intros a Ha. unfold recent.
            apply andb_true_iff in Ha as [Ha _].
            apply Z.leb_le in Ha. apply Z.ltb_lt. lia.
          - rewrite Heq, Hd. rewrite !List.filter_app.
            rewrite (filter_recent_old now window forgotten Hold).
            rewrite (filter_recent_old now window dropped Hdold).
            cbn [app]. apply length_filter_le. }
        assert (Hone : (within (t - seconds window + 1) t [now] <= 1)%nat).
        { unfold within. apply (length_filter_le _ [now]). }
        lia.
Qed.

(** After a silence longer than the window the limiter lets through. *)
Lemma limiter_after_silence (known : list Z) (window limit : Z) (maxlen : nat)
    (clock now : Z) (times acc : list Z) :
  1 <= limit -> 0 <= window ->
  tracks known window limit clock times acc ->
  clock + seconds window < now ->
  (forall a, In a known -> accurate window now a = true) ->
  (limiter window limit maxlen now times).1 = true.
Proof.
  intros Hl Hw [(forgotten & Heq & Hold) Hpast Hlim] Hnow Hacc.
  unfold limiter. cbv zeta.
  rewrite drop_old_all.
  - cbn [length]. rewrite bool_decide_eq_false_2 by lia. reflexivity.
  - rewrite Heq in Hpast. apply Forall_app in Hpast as [_ Hpast].
    eapply Forall_impl; [exact Hpast|]. intros a [Ha Hk]. cbn.
    apply (accurate_is_old window); [apply Hacc, Hk | lia].
Qed.

Lemma check_user_limiter (now : Z) (phone : string) (g : t) :
  (_check_user_rate_limit now phone g).1
  = (limiter (_rate_limit_window g) (_rate_limit_max g) 20 now (times_of phone g)).1
  /\ times_of phone (_check_user_rate_limit now phone g).2
     = (limiter (_rate_limit_window g) (_rate_limit_max g) 20 now (times_of phone g)).2
  /\ _rate_limit_window (_check_user_rate_limit now phone g).2 = _rate_limit_window g
  /\ _rate_limit_max (_check_user_rate_limit now phone g).2 = _rate_limit_max g.
Proof.
  unfold _check_user_rate_limit, limiter, times_of. cbv zeta.
  case_bool_decide; cbn [fst snd with_user_times _user_message_times
                         _rate_limit_window _rate_limit_max];
    rewrite lookup_insert_eq; cbn [default]; repeat split; reflexivity.
Qed.

Lemma check_user_other (now : Z) (phone other : string) (g : t) :
  other <> phone ->
  times_of phone (_check_user_rate_limit now other g).2 = times_of phone g.
Proof.
  intros Hne. unfold _check_user_rate_limit, times_of. cbv zeta.
  case_bool_decide; cbn [snd with_user_times _user_message_times];
    rewrite lookup_insert_ne by exact Hne; reflexivity.
Qed.

Lemma check_user_config (now : Z) (phone : string) (g : t) :
  _rate_limit_window (_check_user_rate_limit now phone g).2 = _rate_limit_window g
  /\ _rate_limit_max (_check_user_rate_limit now phone g).2 = _rate_limit_max g.
Proof. destruct (check_user_limiter now phone g) as (_ & _ & H). exact H. Qed.

(** Along a run the deque of a user stays on track. *)
Lemma passed_tracks (known : list Z) (phone : string)
    (calls : list (Z * string)) (g : t) (clock : Z) (acc : list Z) :
  0 <= _rate_limit_window g -> _rate_limit_max g <= 20 ->
  (forall now a, In now known -> In a known ->
                 accurate (_rate_limit_window g) now a = true) ->
  (forall c, In c calls -> In c.1 known) ->
  chronological clock calls ->
  tracks known (_rate_limit_window g) (_rate_limit_max g) clock
    (times_of phone g) acc ->
  tracks known (_rate_limit_window g) (_rate_limit_max g)
    (final_clock clock calls)
    (times_of phone (after calls g)) (acc ++ passed phone calls g).
Proof.
  intros Hw Hmax. revert g clock acc Hw Hmax.
  induction calls as [|[now p] calls IH];
    intros g clock acc Hw Hmax Hacc Hknown Hchron Htr.
  - cbn. rewrite app_nil_r. exact Htr.
  - destruct Hchron as [Hle Hchron]. cbn [passed]. cbv zeta.
    unfold after, final_clock in *. cbn [fold_left fst snd] in *.
    destruct (check_user_config now p g) as [Hcw Hcm].
    rewrite app_assoc. rewrite <- Hcw, <- Hcm.
    apply IH;
      [rewrite Hcw; exact Hw | rewrite Hcm; exact Hmax
       | rewrite Hcw; exact Hacc
       | intros c Hc; apply Hknown; right; exact Hc
       | exact Hchron |].
    rewrite Hcw, Hcm.
    assert (Hnow : In now known) by (apply (Hknown (now, p)); left; reflexivity).
    apply (tracks_later _ _ _ clock now) in Htr; [|exact Hle].
    destruct (decide (p = phone)) as [Heq|Hne].
    + subst p. rewrite bool_decide_eq_true_2 by reflexivity. rewrite andb_true_r.
      destruct (check_user_limiter now phone g) as (H1 & H2 & _).
      rewrite H1, H2.
      apply limiter_tracks;
        [exact Hw | cbn; lia | exact Hnow
         | intros a Ha; apply Hacc; assumption | exact Htr].
    + rewrite bool_decide_eq_false_2 by exact Hne. rewrite andb_false_r.
      rewrite app_nil_r. rewrite check_user_other by exact Hne.
      exact Htr.
Qed.

(** The calls of the other users do not count. *)
Lemma passed_alone (phone : string) (calls : list (Z * string)) (g g' : t) :
  times_of phone g' = times_of phone g ->
  _rate_limit_window g' = _rate_limit_window g ->
  _rate_limit_max g' = _rate_limit_max g ->
  passed phone (List.filter (fun c => bool_decide (c.2 = phone)) calls) g'
  = passed phone calls g.
Proof.
  revert g g'.
  induction calls as [|[now p] calls IH]; intros g g' Ht Hw Hm; [reflexivity|].
  cbn [List.filter passed fst snd]. cbv zeta.
  destruct (check_user_config now p g) as [Hcw Hcm].
  destruct (decide (p = phone)) as [Heq|Hne].
  - subst p. rewrite (bool_decide_eq_true_2 _ eq_refl).
    cbn [passed fst snd]. cbv zeta.
    rewrite (bool_decide_eq_true_2 _ eq_refl).
    destruct (check_user_limiter now phone g) as (H1 & H2 & _).
    destruct (check_user_limiter now phone g') as (H1' & H2' & Hcw' & Hcm').
    rewrite Ht, Hw, Hm in H1', H2'.
    rewrite H1, H1'. f_equal.
    apply IH; congruence.
  - rewrite (bool_decide_eq_false_2 _ Hne). rewrite andb_false_r. cbn [app].
    apply IH; [|congruence|congruence].
    rewrite Ht. symmetry. apply check_user_other. exact Hne.
Qed.

Lemma check_global_limiter (now : Z) (g : t) :
  (_check_global_rate_limit now g).1
  = (limiter 60 (_global_rate_limit g) 100 now (_global_message_times g)).1
  /\ _global_message_times (_check_global_rate_limit now g).2
     = (limiter 60 (_global_rate_limit g) 100 now (_global_message_times g)).2
  /\ _global_rate_limit (_check_global_rate_limit now g).2 = _global_rate_limit g.
Proof.
  unfold _check_global_rate_limit, limiter. cbv zeta.
  case_bool_decide; repeat split; reflexivity.
Qed.

Lemma passed_global_tracks (known : list Z) (calls : list (Z * unit)) (g : t)
    (clock : Z) (acc : list Z) :
  _global_rate_limit g <= 100 ->
  (forall now a, In now known -> In a known -> accurate 60 now a = true) ->
  (forall c, In c calls -> In c.1 known) ->
  chronological clock calls ->
  tracks known 60 (_global_rate_limit g) clock (_global_message_times g) acc ->
  tracks known 60 (_global_rate_limit g) (final_clock clock calls)
    (_global_message_times (after_global calls g)) (acc ++ passed_global calls g).
Proof.
  intros Hmax Hacc. revert g clock acc Hmax.
  induction calls as [|c calls IH]; intros g clock acc Hmax Hknown Hchron Htr.
  - cbn. rewrite app_nil_r. exact Htr.
  - destruct Hchron as [Hle Hchron]. cbn [passed_global]. cbv zeta.
    unfold after_global, final_clock in *. cbn [fold_left].
    destruct (check_global_limiter c.1 g) as (H1 & H2 & Hcm).
    set (g1 := (_check_global_rate_limit c.1 g).2) in *.
    rewrite app_assoc. rewrite <- Hcm.
    apply IH;
      [rewrite Hcm; exact Hmax
       | intros c' Hc'; apply Hknown; right; exact Hc'
       | exact Hchron |].
    rewrite Hcm, H1, H2.
    assert (Hnow : In c.1 known) by (apply Hknown; left; reflexivity).
    apply limiter_tracks;
      [lia | cbn; lia | exact Hnow | intros a Ha; apply Hacc; assumption |].
    apply (tracks_later _ _ _ clock c.1); assumption.
Qed.

Lemma accurate_on_spec (window : Z) (instants : list Z) :
  accurate_on window instants = true ->
  forall now a, In now instants -> In a instants -> accurate window now a = true.
Proof.
  unfold accurate_on. intros H now a Hnow Ha.
  apply (proj1 (forallb_forall _ _)) with (x := now) in H; [|exact Hnow].
  apply (proj1 (forallb_forall _ _) H a Ha).
Qed.

Lemma instants_known {A : Type} (calls : list (Z * A)) (c : Z * A) :
  In c calls -> In c.1 (fst <$> calls).
Proof. intros H. apply (in_map fst), H. Qed.

(** The limit of one user. *)
Lemma user_limit (g : t) (calls : list (Z * string)) (clock : Z)
    (phone : string) :
  _user_message_times g !! phone = None ->
  0 <= _rate_limit_window g ->
  1 <= _rate_limit_max g <= 20 ->
  chronological clock calls ->
  accurate_on (_rate_limit_window g) (fst <$> calls) = true ->
  (forall t,
      Z.of_nat (within (t - seconds (_rate_limit_window g) + 1) t
                  (passed phone calls g))
      <= _rate_limit_max g)
  /\ passed phone (List.filter (fun c => bool_decide (c.2 = phone)) calls) g
     = passed phone calls g
  /\ (forall now,
        final_clock clock calls + seconds (_rate_limit_window g) < now ->
        forallb (accurate (_rate_limit_window g) now) (fst <$> calls) = true ->
        (_check_user_rate_limit now phone (after calls g)).1 = true).
Proof.
  intros Hnew Hw Hmax Hchron Hacc.
  assert (Htr : tracks (fst <$> calls) (_rate_limit_window g) (_rate_limit_max g)
                  (final_clock clock calls)
                  (times_of phone (after calls g))
                  (passed phone calls g)).
  { apply (passed_tracks (fst <$> calls) phone calls g clock []);
      [exact Hw | lia | apply accurate_on_spec, Hacc
       | apply instants_known | exact Hchron |].
    unfold times_of. rewrite Hnew. cbn [default].
    apply tracks_nil. lia. }
  split; [|split].
  - apply (tr_limit _ _ _ _ _ _ Htr).
  - apply passed_alone; reflexivity.
  - intros now Hnow Hacc'.
    destruct (check_user_limiter now phone (after calls g))
      as (H1 & _).
    rewrite H1.
    assert (Hcfg : _rate_limit_window (after calls g) = _rate_limit_window g
                   /\ _rate_limit_max (after calls g) = _rate_limit_max g).
    { clear. revert g. induction calls as [|c calls IH]; intros g; [tauto|].
      unfold after in *. cbn [fold_left].
      destruct (check_user_config c.1 c.2 g) as [Hcw Hcm].
      destruct (IH (_check_user_rate_limit c.1 c.2 g).2) as [IH1 IH2].
      split; congruence. }
    destruct Hcfg as [-> ->].
    apply (limiter_after_silence (fst <$> calls) _ _ _ (final_clock clock calls)
             now _ (passed phone calls g));
      [lia | exact Hw | exact Htr | exact Hnow|].
    apply (proj1 (forallb_forall _ _) Hacc').
Qed.

(** The limit of the gateway. *)
Lemma global_limit (g : t) (calls : list (Z * unit)) (clock : Z) :
  _global_message_times g = [] ->
  1 <= _global_rate_limit g <= 100 ->
  chronological clock calls ->
  accurate_on 60 (fst <$> calls) = true ->
  (forall t,
      Z.of_nat (within (t - seconds 60 + 1) t (passed_global calls g))
      <= _global_rate_limit g)
  /\ (forall now,
        final_clock clock calls + seconds 60 < now ->
        forallb (accurate 60 now) (fst <$> calls) = true ->
        (_check_global_rate_limit now (after_global calls g)).1 = true).
Proof.
  intros Hnew Hmax Hchron Hacc.
  assert (Htr : tracks (fst <$> calls) 60 (_global_rate_limit g)
                  (final_clock clock calls)
                  (_global_message_times (after_global calls g))
                  (passed_global calls g)).
  { apply (passed_global_tracks (fst <$> calls) calls g clock []);
      [lia | apply accurate_on_spec, Hacc | apply instants_known
       | exact Hchron |].
    rewrite Hnew. apply tracks_nil. lia. }
  split.
  - apply (tr_limit _ _ _ _ _ _ Htr).
  - intros now Hnow Hacc'.
    destruct (check_global_limiter now (after_global calls g))
      as (H1 & _).
    rewrite H1.
    assert (Hcfg : _global_rate_limit (after_global calls g) = _global_rate_limit g).
    { clear. revert g. induction calls as [|c calls IH]; intros g; [reflexivity|].
      unfold after_global in *. cbn [fold_left]. rewrite IH.
      apply (check_global_limiter c.1 g). }
    rewrite Hcfg.
    apply (limiter_after_silence (fst <$> calls) _ _ _ (final_clock clock calls)
             now _ (passed_global calls g));
      [lia | lia | exact Htr | exact Hnow|].
    apply (proj1 (forallb_forall _ _) Hacc').
Qed.

End LimitFacts.

Section LimitExtras.
Import Gallabox GatewaySpec.

(** X26 (the rate limits).  Take a limit of a user of at most 20 messages
    and a limit of the gateway of at most 100, a user the gateway has not seen
    yet and an empty record of the gateway, and calls whose clock does not run
    backwards and at whose instants the float seconds of the code tell every
    age but that of the window itself right (as they do for the clocks of
    this century, where a float is off by less than a quarter of a
    microsecond).  Then in no span of time shorter than the window, be it by
    one microsecond, do more messages of the user pass
    [_check_user_rate_limit] than its limit allows (10 in 60 seconds as
    shipped); the calls for other users do not count; and after a silence
    longer than the window the next message of the user passes.  Likewise in
    no span shorter than 60 seconds do more messages pass
    [_check_global_rate_limit] than its limit allows (50 as shipped), and
    after a silence of more than 60 seconds the next one passes. *)
Theorem rate_limits_hold (g : t) (calls : list (Z * string))
    (sends : list (Z * unit)) (clock : Z) (phone : string) :
  _user_message_times g !! phone = None ->
  _global_message_times g = [] ->
  0 <= _rate_limit_window g ->
  1 <= _rate_limit_max g <= 20 ->
  1 <= _global_rate_limit g <= 100 ->
  chronological clock calls ->
  chronological clock sends ->
  accurate_on (_rate_limit_window g) (fst <$> calls) = true ->
  accurate_on 60 (fst <$> sends) = true ->
  ((forall t,
       Z.of_nat (within (t - seconds (_rate_limit_window g) + 1) t
                   (passed phone calls g))
       <= _rate_limit_max g)
   /\ passed phone (List.filter (fun c => bool_decide (c.2 = phone)) calls) g
      = passed phone calls g
   /\ (forall now,
         final_clock clock calls + seconds (_rate_limit_window g) < now ->
         forallb (accurate (_rate_limit_window g) now) (fst <$> calls) = true ->
         (_check_user_rate_limit now phone (after calls g)).1 = true))
  /\ ((forall t,
         Z.of_nat (within (t - seconds 60 + 1) t (passed_global sends g))
         <= _global_rate_limit g)
      /\ (forall now,
            final_clock clock sends + seconds 60 < now ->
            forallb (accurate 60 now) (fst <$> sends) = true ->
            (_check_global_rate_limit now (after_global sends g)).1 = true)).
Proof.
  intros Hnew Hempty Hw Hmax Hglobal Hcalls Hsends Hacc Hacc'. split.
  - apply (LimitFacts.user_limit g calls clock phone); assumption.
  - apply (LimitFacts.global_limit g sends clock); assumption.
Qed.

(** Two users on a day of 2024, and the gateway after a minute of
    silence. *)
Lemma rate_limits_hold_witness :
  let day := seconds 1717200000 in
  let calls := [(day + seconds 1, "+971500000001");
                (day + seconds 2, "+971500000002");
                (day + seconds 3, "+971500000001")] in
  passed "+971500000001" calls init = [day + seconds 1; day + seconds 3]
  /\ Z.of_nat (within (day + seconds 3 - seconds 60 + 1) (day + seconds 3)
                 (passed "+971500000001" calls init)) <= 10
  /\ (_check_global_rate_limit (day + seconds 63)
        (after_global [(day + seconds 1, tt); (day + seconds 2, tt)] init)).1
     = true.
Proof.
  cbv zeta. split; [vm_compute; reflexivity|].
  destruct (rate_limits_hold init
              [(seconds 1717200000 + seconds 1, "+971500000001");
               (seconds 1717200000 + seconds 2, "+971500000002");
               (seconds 1717200000 + seconds 3, "+971500000001")]
              [(seconds 1717200000 + seconds 1, tt);
               (seconds 1717200000 + seconds 2, tt)]
              0 "+971500000001" eq_refl eq_refl
              ltac:(vm_compute; discriminate)
              ltac:(vm_compute; intuition discriminate)
              ltac:(vm_compute; intuition discriminate)
              ltac:(vm_compute; intuition discriminate)
              ltac:(vm_compute; intuition discriminate)
              ltac:(vm_compute; reflexivity)
              ltac:(vm_compute; reflexivity))
    as [(Huser & _) (_ & Hglobal)].
  split; [apply (Huser (seconds 1717200000 + seconds 3))
         | apply (Hglobal (seconds 1717200000 + seconds 63));
           vm_compute; reflexivity].
Defined.

(** At the very age of the window the rounding decides: of two instants 60
    seconds apart, the floats of the first pair below differ by more than 60
    and those of the second do not, so an eleventh message passes in the one
    case and is refused in the other. *)
Lemma window_edge_is_rounded :
  let ten (a : Z) := map (fun _ => (a, "+971500000001")) (seq 0 10) in
  let eleventh (a : Z) :=
    (_check_user_rate_limit (a + seconds 60) "+971500000001"
       (after (ten a) init)).1 in
  eleventh 507069464 = true /\ eleventh 507000000 = false.
Proof. vm_compute. split; reflexivity. Qed.

End LimitExtras.

(** * The gateway: the circuit breaker *)

Module BreakerFacts.
Import Gallabox GatewaySpec.

Lemma apply_event_config (g : t) (e : Event) :
  _max_failures (apply_event g e) = _max_failures g
  /\ _circuit_timeout (apply_event g e) = _circuit_timeout g.
Proof.
  destruct e as [now| |now]; cbn [apply_event].
  - unfold _record_failure. cbv zeta. case_bool_decide; split; reflexivity.
  - unfold _record_success. case_bool_decide; split; reflexivity.
  - unfold _check_circuit_breaker.
    destruct (_circuit_open g); cbn [negb snd]; [|split; reflexivity].
    destruct (_last_failure_time g); [|split; reflexivity].
    cbv zeta. case_bool_decide; split; reflexivity.
Qed.

Lemma run_config (events : list Event) (g : t) :
  _max_failures (run events g) = _max_failures g
  /\ _circuit_timeout (run events g) = _circuit_timeout g.
Proof.
  revert g. induction events as [|e events IH]; intros g; [tauto|].
  unfold run in *. cbn [fold_left].
  destruct (IH (apply_event g e)) as [-> ->]. apply apply_event_config.
Qed.

Lemma failures_snoc (seen : list Event) (e : Event) :
  failures (seen ++ [e]) = (failures seen + (if is_failure e then 1 else 0))%nat.
Proof.
  unfold failures. rewrite List.filter_app, length_app. cbn [List.filter].
  destruct (is_failure e); reflexivity.
Qed.

Lemma apply_event_sane (count0 : Z) (seen : list Event) (g : t) (e : Event) :
  sane count0 seen g -> sane count0 (seen ++ [e]) (apply_event g e).
Proof.
  intros [Hc Hopen].
  assert (Hkeep : _circuit_open g = true ->
             _max_failures g
             <= count0 + Z.of_nat (failures seen + (if is_failure e then 1 else 0))
             /\ exists last, _last_failure_time g = Some last
                             /\ In (Failure last) (seen ++ [e])).
  { intros Ho. destruct (Hopen Ho) as (Hm & last & Hl & Hin).
    split; [lia|]. exists last. split; [exact Hl|].
    apply in_or_app. left. exact Hin. }
  destruct e as [now| |now]; cbn [apply_event].
  - unfold _record_failure. cbv zeta.
    case_bool_decide as Hmax; split;
      cbn [with_breaker _failure_count _circuit_open _last_failure_time
           _max_failures];
      rewrite ?failures_snoc; cbn [is_failure] in *.
    + lia.
    + intros _. split; [lia|]. exists now. split; [reflexivity|].
      apply in_or_app. right. left. reflexivity.
    + lia.
    + exact Hkeep.
  - unfold _record_success.
    case_bool_decide as Hpos; split;
      cbn [with_breaker _failure_count _circuit_open _last_failure_time
           _max_failures];
      rewrite ?failures_snoc; cbn [is_failure] in *.
    + lia.
    + exact Hkeep.
    + lia.
    + exact Hkeep.
  - assert (Hsame : sane count0 (seen ++ [Check now]) g).
    { split; rewrite ?failures_snoc; cbn [is_failure] in *; [lia | exact Hkeep]. }
    unfold _check_circuit_breaker.
    destruct (_circuit_open g) eqn:Eo; cbn [negb snd]; [|exact Hsame].
    destruct (_last_failure_time g) as [last|]; [|exact Hsame].
    cbv zeta. case_bool_decide as Hpast; cbn [snd]; [|exact Hsame].
    split;
      cbn [with_breaker _failure_count _circuit_open _last_failure_time
           _max_failures];
      rewrite ?failures_snoc; cbn [is_failure].
    + lia.
    + discriminate.
Qed.

Lemma run_sane (count0 : Z) (events seen : list Event) (g : t) :
  sane count0 seen g -> sane count0 (seen ++ events) (run events g).
Proof.
  revert seen g. induction events as [|e events IH]; intros seen g Hs.
  - rewrite app_nil_r. exact Hs.
  - unfold run in *. cbn [fold_left].
    replace (seen ++ e :: events) with ((seen ++ [e]) ++ events)
      by (rewrite <- app_assoc; reflexivity).
    apply IH. apply apply_event_sane. exact Hs.
Qed.

(** The seconds of a duration, in the three spans that matter. *)
Lemma timedelta_seconds_early (d timeout : Z) :
  0 <= timeout < 86399 ->
  0 <= d < seconds (timeout + 1) -> timedelta_seconds d <= timeout.
Proof.
  unfold timedelta_seconds, seconds. intros Ht Hd.
  rewrite Z.mod_small by lia.
  apply Z.lt_succ_r. apply Z.div_lt_upper_bound; lia.
Qed.

Lemma timedelta_seconds_due (d timeout : Z) :
  0 <= timeout ->
  seconds (timeout + 1) <= d < seconds 86400 -> timeout < timedelta_seconds d.
Proof.
  unfold timedelta_seconds, seconds. intros Ht Hd.
  rewrite Z.mod_small by lia.
  apply Z.lt_le_trans with (timeout + 1); [lia|].
  apply Z.div_le_lower_bound; lia.
Qed.

Lemma timedelta_seconds_next_day (d timeout : Z) :
  0 <= timeout < 86399 ->
  seconds 86400 <= d < seconds 86400 + seconds (timeout + 1) ->
  timedelta_seconds d <= timeout.
Proof.
  intros Ht Hd.
  replace (timedelta_seconds d) with (timedelta_seconds (d - seconds 86400)).
  - apply timedelta_seconds_early; [exact Ht | lia].
  - unfold timedelta_seconds. f_equal.
    replace d with (d - seconds 86400 + 1 * seconds 86400) at 2 by lia.
    rewrite Z_mod_plus_full. reflexivity.
Qed.

End BreakerFacts.

Section BreakerExtras.
Import Gallabox GatewaySpec.

(** X27 (the circuit breaker).  Start from a closed circuit with a count
    that is not negative and a timeout of less than a day.  After any events
    (failures, successes, checks): (1) the circuit is closed as long as the
    failures recorded do not bring the count to the limit, successes or not;
    (2) a closed circuit lets every check pass and is not changed by it;
    (3) an open circuit remembers the recorded failure that opened it or
    hit it last: a check is refused, and changes nothing, until the timeout
    and a full second more have passed since; from then on, within the day, a
    check passes, closes the circuit and sets the count to 0; but a day after
    the failure a check is refused again for the length of the timeout,
    because only the seconds within the day are looked at. *)
Theorem circuit_breaker_recovers (g : t) (events : list Event) :
  _circuit_open g = false ->
  0 <= _failure_count g ->
  0 <= _circuit_timeout g < 86399 ->
  let g' := run events g in
  (_failure_count g + Z.of_nat (failures events) < _max_failures g ->
   _circuit_open g' = false)
  /\ (_circuit_open g' = false ->
      forall now, _check_circuit_breaker now g' = (true, g'))
  /\ (_circuit_open g' = true ->
      exists last,
        _last_failure_time g' = Some last
        /\ In (Failure last) events
        /\ forall now,
             (last <= now < last + seconds (_circuit_timeout g + 1) ->
              _check_circuit_breaker now g' = (false, g'))
             /\ (last + seconds (_circuit_timeout g + 1) <= now
                 < last + seconds 86400 ->
                 (_check_circuit_breaker now g').1 = true
                 /\ _circuit_open (_check_circuit_breaker now g').2 = false
                 /\ _failure_count (_check_circuit_breaker now g').2 = 0)
             /\ (last + seconds 86400 <= now
                 < last + seconds 86400 + seconds (_circuit_timeout g + 1) ->
                 _check_circuit_breaker now g' = (false, g'))).
Proof.
  intros Hclosed Hcount Htimeout g'.
  assert (Hsane : GatewaySpec.sane (_failure_count g) events g').
  { apply (BreakerFacts.run_sane (_failure_count g) events [] g).
    split; [cbn; lia | rewrite Hclosed; discriminate]. }
  destruct (BreakerFacts.run_config events g) as [Hmax Hto].
  fold g' in Hmax, Hto.
  destruct Hsane as [Hc Hopen].
  split; [|split].
  - intros Hfew. destruct (_circuit_open g') eqn:Eo; [|reflexivity].
    destruct (Hopen eq_refl) as [Hm _]. lia.
  - intros Ho now. unfold _check_circuit_breaker. rewrite Ho. reflexivity.
  - intros Ho. destruct (Hopen Ho) as (_ & last & Hlast & Hin).
    exists last. split; [exact Hlast|]. split; [exact Hin|].
    intros now. unfold _check_circuit_breaker. rewrite Ho, Hlast, Hto.
    cbn [negb]. cbv zeta. split; [|split]; intros Hnow.
    + rewrite bool_decide_eq_false_2; [reflexivity|].
      pose proof (BreakerFacts.timedelta_seconds_early (now - last)
                    (_circuit_timeout g) Htimeout). lia.
    + rewrite bool_decide_eq_true_2; [repeat split|].
      apply BreakerFacts.timedelta_seconds_due; lia.
    + rewrite bool_decide_eq_false_2; [reflexivity|].
      pose proof (BreakerFacts.timedelta_seconds_next_day (now - last)
                    (_circuit_timeout g) Htimeout). lia.
Qed.

(** Six failures and one success bring the count to five at second 6: a
    check is refused at second 66, passes at second 67, and is refused again
    a day later. *)
Lemma circuit_breaker_recovers_witness :
  let events := [Failure (seconds 1); Failure (seconds 2); Success;
                 Failure (seconds 3); Failure (seconds 4); Failure (seconds 5);
                 Failure (seconds 6)] in
  _circuit_open (run events init) = true
  /\ _check_circuit_breaker (seconds 66) (run events init)
     = (false, run events init)
  /\ (_check_circuit_breaker (seconds 67) (run events init)).1 = true
  /\ _check_circuit_breaker (seconds 86406) (run events init)
     = (false, run events init).
Proof.
  cbv zeta.
  assert (Ho : _circuit_open
                 (run [Failure (seconds 1); Failure (seconds 2); Success;
                       Failure (seconds 3); Failure (seconds 4);
                       Failure (seconds 5); Failure (seconds 6)] init) = true)
    by reflexivity.
  split; [exact Ho|].
  destruct (proj2 (proj2 (circuit_breaker_recovers init
                            [Failure (seconds 1); Failure (seconds 2); Success;
                             Failure (seconds 3); Failure (seconds 4);
                             Failure (seconds 5); Failure (seconds 6)]
                            eq_refl ltac:(vm_compute; discriminate)
                            ltac:(vm_compute; intuition discriminate))) Ho)
    as (last & Hlast & _ & Hnow).
  assert (last = seconds 6)
    by (vm_compute in Hlast; injection Hlast as <-; reflexivity).
  subst last.
  split; [|split].
  - apply (proj1 (Hnow (seconds 66))). vm_compute. intuition discriminate.
  - apply (proj1 (proj2 (Hnow (seconds 67)))). vm_compute. intuition discriminate.
  - apply (proj2 (proj2 (Hnow (seconds 86406)))). vm_compute.
    intuition discriminate.
Defined.

End BreakerExtras.

(** * The choices made for a new issue *)

Module JiraFacts.
Import Jira.

Lemma find_offered (available candidates : list string) :
  match List.find (fun p => bool_decide (p ∈ available)) candidates with
  | Some name => name ∈ candidates /\ name ∈ available
  | None => forall name, name ∈ candidates -> name ∉ available
  end.
Proof.
  induction candidates as [|c candidates IH]; cbn [List.find].
  - intros name Hin. apply elem_of_nil in Hin. contradiction.
  - case_bool_decide as Hc.
    + split; [left | exact Hc].
    + destruct (List.find _ candidates) as [name|].
      * destruct IH as [H1 H2]. split; [right; exact H1 | exact H2].
      * intros name Hin. apply elem_of_cons in Hin as [->|Hin];
          [exact Hc | apply IH; exact Hin].
Qed.

Lemma take_length (n : nat) (s : string) : (Text.length (Text.take n s) <= n)%nat.
Proof.
  revert n. induction s as [|c s IH]; intros n; cbn [Text.take Text.length].
  - lia.
  - destruct (Text.is_continuation c) eqn:Ec.
    + cbn [Text.length]. rewrite Ec. cbn. apply IH.
    + destruct n as [|n]; cbn [Text.length]; [lia|].
      rewrite Ec. specialize (IH n). lia.
Qed.

(** The names tried before the own name of a priority. *)
Lemma get_list_value (p : Priority) :
  get_list (Priority_value p) priority_mapping
  = match p with
    | HIGH => ["High"; "P2"]
    | MEDIUM => ["Medium"; "P3"]
    | LOW => ["Low"; "Lowest"; "P4"]
    | HIGHEST | LOWEST => []
    end.
Proof. destruct p; vm_compute; reflexivity. Qed.

End JiraFacts.

Section JiraExtras.
Import Jira JiraSpec.

(** X28 (what a new issue is given).  Whatever the tracker offers: the
    issue type sent is the requested one when it is offered, otherwise one
    that is offered, and "Task" only when the project offers nothing; the
    priority sent is one that the tracker offers, its own name when that is
    offered, and none exactly when none of the names tried is offered.  The
    names tried for HIGHEST and LOWEST are only their own: the row of the
    table that is named "Critical" is never read, so that a tracker that
    calls its priorities P1 to P4 gets HIGHEST without priority.  The summary
    sent has at most 255 characters. *)
Theorem new_issue_choices_are_offered
    (available_types available_priorities : list string)
    (summary description project_key requested_type : string) (p : Priority) :
  let fields :=
    issue_dict available_types available_priorities summary description
      project_key p requested_type in
  (requested_type ∈ available_types -> f_issuetype fields = requested_type)
  /\ (available_types <> [] -> f_issuetype fields ∈ available_types)
  /\ (available_types = [] -> f_issuetype fields = "Task")
  /\ (forall name, f_priority fields = Some name ->
        name ∈ available_priorities /\ name ∈ candidates p)
  /\ (Priority_value p ∈ available_priorities ->
      _get_valid_priority available_priorities p = Some (Priority_value p))
  /\ (_get_valid_priority available_priorities p = None
      <-> forall name, name ∈ candidates p -> name ∉ available_priorities)
  /\ (p = HIGHEST \/ p = LOWEST -> candidates p = [Priority_value p])
  /\ (Text.length (f_summary fields) <= 255)%nat.
Proof.
  cbv zeta. unfold issue_dict. cbv zeta.
  cbn [f_issuetype f_priority f_summary].
  assert (Hpri : forall name,
             _get_valid_priority available_priorities p = Some name ->
             name ∈ available_priorities /\ name ∈ candidates p).
  { intros name. unfold _get_valid_priority, candidates.
    pose proof (JiraFacts.find_offered available_priorities
                  (get_list (Priority_value p) priority_mapping)) as Hf.
    destruct (List.find _ _) as [found|].
    - intros [= <-]. destruct Hf as [H1 H2].
      split; [exact H2 | apply elem_of_app; left; exact H1].
    - case_bool_decide as Hown; [|discriminate].
      intros [= <-]. split; [exact Hown|].
      apply elem_of_app. right. apply list_elem_of_singleton. reflexivity. }
  split; [|split; [|split; [|split; [|split; [|split; [|split]]]]]].
  - intros Hin. unfold _get_valid_issue_type.
    rewrite bool_decide_eq_true_2 by exact Hin. reflexivity.
  - intros Hne. unfold _get_valid_issue_type.
    case_bool_decide as Hreq; [exact Hreq|].
    pose proof (JiraFacts.find_offered available_types
                  ["Task"; "Bug"; "Story"; "Epic"]) as Hf.
    destruct (List.find _ _) as [found|]; [apply Hf|].
    destruct available_types as [|first rest]; [contradiction|]. left.
  - intros ->. reflexivity.
  - intros name.
    destruct (_get_valid_priority available_priorities p) as [[|c v]|] eqn:E;
      cbn [truthy]; try discriminate.
    intros [= <-]. apply Hpri. reflexivity.
  - intros Hown. unfold _get_valid_priority.
    rewrite JiraFacts.get_list_value.
    destruct p; cbn [Priority_value List.find] in *;
      rewrite bool_decide_eq_true_2 by exact Hown; reflexivity.
  - split.
    + intros Hnone name Hin Hav.
      unfold _get_valid_priority in Hnone. unfold candidates in Hin.
      pose proof (JiraFacts.find_offered available_priorities
                    (get_list (Priority_value p) priority_mapping)) as Hf.
      destruct (List.find _ _) as [found|]; [discriminate|].
      apply elem_of_app in Hin as [Hin|Hin]; [exact (Hf name Hin Hav)|].
      apply list_elem_of_singleton in Hin. subst name.
      rewrite bool_decide_eq_true_2 in Hnone by exact Hav. discriminate.
    + intros Hno.
      destruct (_get_valid_priority available_priorities p) as [name|] eqn:E;
        [|reflexivity].
      destruct (Hpri name eq_refl) as [H1 H2]. exfalso. exact (Hno name H2 H1).
  - unfold candidates. rewrite JiraFacts.get_list_value.
    intros [-> | ->]; reflexivity.
  - apply JiraFacts.take_length.
Qed.

End JiraExtras.

(** * The detection of VIP clients *)

Module VipFacts.
Import VipDetection VipSpec.
Import PrimFloat.

Lemma scan_score (label : string) (weight : PrimFloat.float)
    (keywords : list string) (message_lower : string)
    (acc : list string * PrimFloat.float) :
  (scan label weight keywords message_lower acc).2
  = add_times (Str.count_in keywords message_lower) weight acc.2.
Proof.
  revert acc. unfold scan, Str.count_in.
  induction keywords as [|k keywords IH]; intros acc; [reflexivity|].
  cbn [fold_left List.filter]. rewrite IH.
  destruct (Str.contains k message_lower); reflexivity.
Qed.

Lemma count_in_le (keywords : list string) (s : string) :
  (Str.count_in keywords s <= length keywords)%nat.
Proof.
  unfold Str.count_in. induction keywords as [|k keywords IH]; [reflexivity|].
  cbn [List.filter]. destruct (Str.contains k s); cbn [length]; lia.
Qed.

Lemma content_confidence (findall : string -> list string) (message : string) :
  let r := detect_from_content findall message in
  let x :=
    confidence_for
      (Str.count_in _vip_keywords (Str.lower message))
      (Str.count_in _luxury_indicators (Str.lower message))
      (Str.count_in _business_value_indicators (Str.lower message))
      (number_found findall message) in
  is_vip r = PrimFloat.leb 0.5%float x
  /\ vip_tier r = tier_of x
  /\ auto_escalate r
     = PrimFloat.leb 0.5%float x && bool_decide (tier_of x ∈ ["platinum"; "diamond"]).
Proof.
  cbv zeta. unfold detect_from_content, confidence_for, number_found. cbv zeta.
  cbn [is_vip vip_tier auto_escalate].
  set (acc3 := scan "Business value: " _ _ _ _).
  assert (H3 : acc3.2
               = add_times
                   (Str.count_in _business_value_indicators (Str.lower message))
                   0.25%float
                   (add_times
                      (Str.count_in _luxury_indicators (Str.lower message))
                      0.2%float
                      (add_times
                         (Str.count_in _vip_keywords (Str.lower message))
                         0.3%float 0%float))).
  { unfold acc3. rewrite !scan_score. reflexivity. }
  destruct (findall message) as [|first rest]; cbn [snd add_times];
    rewrite H3; repeat split; reflexivity.
Qed.

Lemma table_holds : table = true.
Proof. vm_compute. reflexivity. Qed.

Lemma table_row_holds (vip luxury business number : nat) :
  (vip <= 9)%nat -> (luxury <= 12)%nat -> (business <= 8)%nat ->
  (number <= 1)%nat ->
  table_row vip luxury business number = true.
Proof.
  intros Ha Hb Hc Hd.
  pose proof table_holds as H. unfold table in H.
  apply (proj1 (forallb_forall _ _)) with (x := vip) in H; [|apply in_seq; lia].
  apply (proj1 (forallb_forall _ _)) with (x := luxury) in H;
    [|apply in_seq; lia].
  apply (proj1 (forallb_forall _ _)) with (x := business) in H;
    [|apply in_seq; lia].
  apply (proj1 (forallb_forall _ _)) with (x := number) in H;
    [exact H | apply in_seq; lia].
Qed.

Lemma run_registry (findall : string -> list string)
    (calls : list (string * string)) (st : t) :
  _vip_registry (run findall calls st) = _vip_registry st.
Proof.
  revert st. induction calls as [|c calls IH]; intros st; [reflexivity|].
  unfold run in *. cbn [fold_left]. rewrite IH.
  unfold detect_vip. repeat case_match; reflexivity.
Qed.

Lemma detect_vip_keeps_flag (findall : string -> list string)
    (message phone other : string) (user_name : option string) (st : t)
    (r : Result) :
  _session_vip_flags st !! phone = Some r ->
  _session_vip_flags (detect_vip findall message other user_name st).2 !! phone
  = Some r.
Proof.
  intros Hflag. unfold detect_vip.
  destruct (_vip_registry st !! other); [exact Hflag|].
  destruct (_session_vip_flags st !! other) eqn:Eo; [exact Hflag|].
  cbv zeta. destruct (is_vip _); [|exact Hflag].
  cbn [snd _session_vip_flags].
  rewrite lookup_insert_ne; [exact Hflag|]. congruence.
Qed.

Lemma run_keeps_flag (findall : string -> list string)
    (calls : list (string * string)) (phone : string) (st : t) (r : Result) :
  _session_vip_flags st !! phone = Some r ->
  _session_vip_flags (run findall calls st) !! phone = Some r.
Proof.
  revert st. induction calls as [|c calls IH]; intros st Hflag; [exact Hflag|].
  unfold run in *. cbn [fold_left]. apply IH.
  apply detect_vip_keeps_flag. exact Hflag.
Qed.

End VipFacts.

Section VipExtras.
Import VipDetection VipSpec.

Variable findall_large_numbers : string -> list string.

(** X29 (once a VIP, a VIP for the session).  When [detect_vip] finds a
    user to be a VIP, every later call for that user returns the very same
    result, whatever the later message says and whatever was asked about
    other users in between: the tier does not rise with a richer message and
    does not fall with a plain one.  Only [clear_session_flags] ends this: for
    a user who is not registered, the next message is then judged by its
    content again. *)
Theorem vip_status_sticks (message phone : string) (user_name : option string)
    (st : t) :
  is_vip (detect_vip findall_large_numbers message phone user_name st).1 = true ->
  let r := (detect_vip findall_large_numbers message phone user_name st).1 in
  let st1 := (detect_vip findall_large_numbers message phone user_name st).2 in
  (forall calls message' user_name',
      (detect_vip findall_large_numbers message' phone user_name'
         (run findall_large_numbers calls st1)).1 = r)
  /\ (forall calls cleared message' user_name',
        cleared = Some phone \/ cleared = None ->
        _vip_registry st !! phone = None ->
        (detect_vip findall_large_numbers message' phone user_name'
           (clear_session_flags cleared (run findall_large_numbers calls st1))).1
        = detect_from_content findall_large_numbers message').
Proof.
  intros Hvip r st1. split.
  - intros calls message' user_name'.
    unfold detect_vip at 1.
    rewrite VipFacts.run_registry.
    assert (Hreg : _vip_registry st1 = _vip_registry st).
    { unfold st1, detect_vip. repeat case_match; reflexivity. }
    rewrite Hreg.
    destruct (_vip_registry st !! phone) as [vip_data|] eqn:Er.
    + unfold r, detect_vip. rewrite Er. reflexivity.
    + assert (Hflag : _session_vip_flags st1 !! phone = Some r).
      { unfold st1, r, detect_vip. rewrite Er.
        destruct (_session_vip_flags st !! phone) as [flagged|] eqn:Ef;
          [exact Ef|].
        cbv zeta. unfold detect_vip in Hvip. rewrite Er, Ef in Hvip.
        cbn [fst] in Hvip. rewrite Hvip. cbn [fst snd _session_vip_flags].
        apply lookup_insert_eq. }
      rewrite (VipFacts.run_keeps_flag _ calls phone st1 r Hflag). reflexivity.
  - intros calls cleared message' user_name' Hc Hr.
    unfold detect_vip at 1.
    assert (Hreg : _vip_registry (clear_session_flags cleared
                                    (run findall_large_numbers calls st1))
                   = _vip_registry st).
    { unfold clear_session_flags. destruct (truthy cleared); cbn [_vip_registry];
        rewrite VipFacts.run_registry; unfold st1, detect_vip;
        repeat case_match; reflexivity. }
    rewrite Hreg, Hr.
    assert (Hflag : _session_vip_flags
                      (clear_session_flags cleared
                         (run findall_large_numbers calls st1)) !! phone = None).
    { unfold clear_session_flags.
      destruct Hc as [-> | ->]; cbn [truthy].
      - destruct phone; cbn [_session_vip_flags default].
        + apply lookup_empty.
        + apply lookup_delete_eq.
      - cbn [_session_vip_flags]. apply lookup_empty. }
    rewrite Hflag. cbv zeta. reflexivity.
Qed.

(** X30 (the tiers, in floating point).  For a user who is neither
    registered nor flagged, the result of [detect_vip] is read off the numbers
    of keywords found in the lower-cased message: with the score counted in
    twentieths (6 for a VIP keyword, 4 for a luxury word, 5 for a business
    word, 4 for a large number), the user is a VIP from 10 on, platinum from
    14 on, which also escalates, and diamond from 18 on, except in the four
    combinations where the score is 0.9 exactly and the sum of the floats
    stays below it, three VIP keywords for instance: these are platinum.  The
    result is filed for the session when the user is a VIP, and nothing is
    changed when not. *)
Theorem vip_tiers_in_floating_point (message phone : string)
    (user_name : option string) (st : t) :
  _vip_registry st !! phone = None ->
  _session_vip_flags st !! phone = None ->
  let r := (detect_vip findall_large_numbers message phone user_name st).1 in
  let st' := (detect_vip findall_large_numbers message phone user_name st).2 in
  let vip := Str.count_in _vip_keywords (Str.lower message) in
  let luxury := Str.count_in _luxury_indicators (Str.lower message) in
  let business := Str.count_in _business_value_indicators (Str.lower message) in
  let number := number_found findall_large_numbers message in
  is_vip r = (10 <=? twentieths vip luxury business number)%nat
  /\ vip_tier r = tier_for vip luxury business number
  /\ auto_escalate r = (14 <=? twentieths vip luxury business number)%nat
  /\ (one_short vip luxury business number = true ->
      twentieths vip luxury business number = 18%nat /\ vip_tier r = "platinum")
  /\ st' = (if is_vip r
            then mk (_vip_registry st) (<[phone := r]> (_session_vip_flags st))
            else st).
Proof.
  intros Hreg Hflag. cbv zeta.
  unfold detect_vip. rewrite Hreg, Hflag. cbv zeta. cbn [fst snd].
  destruct (VipFacts.content_confidence findall_large_numbers message)
    as (Hv & Ht & He). cbv zeta in Hv, Ht, He.
  set (vip := Str.count_in _vip_keywords (Str.lower message)) in *.
  set (luxury := Str.count_in _luxury_indicators (Str.lower message)) in *.
  set (business := Str.count_in _business_value_indicators (Str.lower message)) in *.
  set (number := number_found findall_large_numbers message) in *.
  assert (Hrow : VipSpec.table_row vip luxury business number = true).
  { apply VipFacts.table_row_holds.
    - apply (VipFacts.count_in_le _vip_keywords).
    - apply (VipFacts.count_in_le _luxury_indicators).
    - apply (VipFacts.count_in_le _business_value_indicators).
    - unfold number, number_found. destruct (findall_large_numbers message); lia. }
  unfold VipSpec.table_row in Hrow. cbv zeta in Hrow.
  apply andb_true_iff in Hrow as [Hrow H3].
  apply andb_true_iff in Hrow as [H1 H2].
  apply Bool.eqb_prop in H1, H3. apply String.eqb_eq in H2.
  rewrite He, H3, Ht, H2, Hv, H1.
  split; [reflexivity|]. split; [reflexivity|]. split; [reflexivity|].
  split; [|reflexivity].
  intros Hshort. unfold one_short in Hshort. apply bool_decide_eq_true_1 in Hshort.
  apply list_elem_of_In in Hshort. cbn [In] in Hshort.
  destruct Hshort as [E|[E|[E|[E|[]]]]]; injection E as <- <- <- <-;
    split; reflexivity.
Qed.

End VipExtras.

(** A user found to be gold stays gold when a richer message follows. *)
Lemma vip_status_sticks_witness :
  let first :=
    VipDetection.detect_vip VipSpec.no_numbers "our investor wants a penthouse"
      "+971500000001" None VipDetection.init in
  VipDetection.vip_tier first.1 = "gold"
  /\ (VipDetection.detect_vip VipSpec.no_numbers
        "vip investor, exclusive portfolio" "+971500000001" None first.2).1
     = first.1.
Proof.
  cbv zeta. split; [reflexivity|].
  apply (proj1 (vip_status_sticks VipSpec.no_numbers
                  "our investor wants a penthouse" "+971500000001" None
                  VipDetection.init eq_refl) []).
Defined.

(** Three VIP keywords make platinum, not diamond. *)
Lemma vip_tiers_in_floating_point_witness :
  VipDetection.vip_tier
    (VipDetection.detect_vip VipSpec.no_numbers
       "VIP investor with an exclusive request" "+971500000001" None
       VipDetection.init).1 = "platinum".
Proof.
  destruct (vip_tiers_in_floating_point VipSpec.no_numbers
              "VIP investor with an exclusive request" "+971500000001" None
              VipDetection.init eq_refl eq_refl) as (_ & H & _).
  cbv zeta in H. rewrite H. reflexivity.
Defined.
